(** * NexoWatt EMS simulator: a shallow embedding of [main.js]

    The adapter is a virtual energy plant: a deterministic pseudo-random
    generator, a per-tick physical simulation (storage, EV charge points,
    grid balance), a scenario/suite state machine, a command handler and a
    change publisher.  Each part is embedded below as executable Rocq
    functions that follow the JavaScript text, and the properties the
    specification states about it are proved on these functions.

    Conventions of the embedding.
    - JavaScript numbers are IEEE doubles.  A finite double is modelled by
      the rational it denotes ([Q]) and arithmetic on finite values is exact;
      the three non-finite values are explicit constructors of [JS.num].
      The unsigned 32-bit state of the generator is a [Z] with the
      wrap-around written out.
    - Objects mutated in place ([this._state], [ch.meas.power_kw], ...) become
      records threaded through the functions; a [Map] is a [gmap].
    - A JavaScript string is modelled by a [string] whose characters are its
      UTF-16 code units, each below 256 (the Latin-1 range); white space,
      line terminators, digits and letter case are those of ECMAScript on
      that range.
    - An exception is an explicit outcome: a function in which a call can
      throw returns the state it has reached together with [Returned] or
      [Threw], and a [try]/[catch] turns [Threw] into a logged failure.
    - Host functions whose result the text does not fix ([Math.sin], the
      string-to-number conversion, [Date] parsing, the offset of local
      time) are fields of a class the development is parametric in. *)

From Stdlib Require Import ZArith QArith Qminmax Qround Qabs Lqa Lia.
From Stdlib Require Import List Bool String Ascii DecimalString.
From stdpp Require Import gmap strings.

(* ===================================================================== *)
(** * JavaScript values and numbers                                       *)
(* ===================================================================== *)

Module JS.

(** A double: finite (exact rational), [+Infinity], [-Infinity] or [NaN]. *)
Inductive num : Type :=
| Fin (q : Q)
| PInf
| NInf
| NaN.

(** The primitive values that reach the adapter through states. *)
Inductive value : Type :=
| VUndefined
| VNull
| VBool (b : bool)
| VNum (n : num)
| VStr (s : string).

(** Host library: the parts of the JavaScript runtime whose results are not
    written in [main.js]. *)
Class Host : Type := {
  Math_sqrt : Q -> Q;
  Math_log : Q -> Q;
  Math_cos : Q -> Q;
  Math_sin : Q -> Q;
  Math_PI : Q;
  (** [Number(s)] for a string [s]. *)
  StringToNumber : string -> num;
  (** [String(n)] for a number [n]. *)
  NumberToString : num -> string;
  (** [new Date(s).getTime()], [None] for an invalid date. *)
  DateParse : string -> option Z;
  (** [LocalTZA(t, isUTC)] of ECMAScript: the offset of local time from
      UTC in milliseconds, at the UTC time [t] when [isUTC] and at the
      local time [t] otherwise.  Time zone and daylight saving are the
      host's. *)
  LocalTZA : Z -> bool -> Z
}.

Definition Number_isNaN (n : num) : bool :=
  match n with NaN => true | _ => false end.

Definition Number_isFinite (n : num) : bool :=
  match n with Fin _ => true | _ => false end.

(** [Number(value)] *)
Definition Number `{Host} (v : value) : num :=
  match v with
  | VUndefined => NaN
  | VNull => Fin 0
  | VBool true => Fin 1
  | VBool false => Fin 0
  | VNum n => n
  | VStr s => StringToNumber s
  end.

(** [String(value)] *)
Definition ToString `{Host} (v : value) : string :=
  match v with
  | VUndefined => "undefined"
  | VNull => "null"
  | VBool true => "true"
  | VBool false => "false"
  | VNum n => NumberToString n
  | VStr s => s
  end.

(** [!!value] *)
Definition truthy (v : value) : bool :=
  match v with
  | VUndefined | VNull => false
  | VBool b => b
  | VNum (Fin q) => negb (Qeq_bool q 0)
  | VNum NaN => false
  | VNum _ => true
  | VStr s => negb (String.eqb s EmptyString)
  end.

(** Comparison operators on finite numbers, as booleans. *)
Definition Qleb (a b : Q) : bool := Qle_bool a b.
Definition Qltb (a b : Q) : bool := negb (Qle_bool b a).

(** [Math.min] / [Math.max] on finite numbers. *)
Definition Math_min (a b : Q) : Q := Qmin a b.
Definition Math_max (a b : Q) : Q := Qmax a b.

(** [[
function clamp(value, min, max) {
    const v = Number(value);
    if (Number.isNaN(v)) return min;
    return Math.min(max, Math.max(min, v));
}
]]
    The bounds are always finite at the call sites; the converted value may
    be any double. *)
Definition clampNum (v : num) (min max : Q) : Q :=
  match v with
  | NaN => min
  | Fin q => Math_min max (Math_max min q)
  | PInf => max
  | NInf => Math_min max min
  end.

Definition clamp (value min max : Q) : Q := clampNum (Fin value) min max.

Definition clampV `{Host} (v : value) (min max : Q) : Q :=
  clampNum (Number v) min max.

(** The value of a string of ASCII decimal digits, as [Number] converts
    it; [None] if another character occurs. *)
Definition digitValue (c : ascii) : option Z :=
  let n := Z.of_nat (nat_of_ascii c) in
  if (48 <=? n)%Z && (n <=? 57)%Z then Some (n - 48)%Z else None.

Fixpoint decimalValue (acc : Z) (s : string) : option Z :=
  match s with
  | EmptyString => Some acc
  | String c rest =>
      match digitValue c with
      | Some d => decimalValue (10 * acc + d)%Z rest
      | None => None
      end
  end.

End JS.

Import JS.


(* ===================================================================== *)
(** * A host to run examples on                                           *)
(* ===================================================================== *)

Module ExampleHost.

(** A concrete instance used only to evaluate the functions on sample
    inputs.  The transcendental functions are rational stand-ins; strings
    convert as unsigned decimal integers (the empty string as 0), every
    number prints as "0", no date
    string parses, and local time is UTC.  No theorem below is about this
    instance. *)
#[export] Instance host : Host := {|
  Math_sqrt := fun x => x;
  Math_log := fun x => (x - 1)%Q;
  Math_cos := fun _ => 1%Q;
  Math_sin := fun x => x;
  Math_PI := (355 # 113)%Q;
  StringToNumber := fun s =>
    match JS.decimalValue 0 s with
    | Some z => Fin (inject_Z z)
    | None => NaN
    end;
  NumberToString := fun _ => "0"%string;
  DateParse := fun _ => None;
  LocalTZA := fun _ _ => 0%Z
|}.

(** The same host with a [Date] that parses one timestamp, and a local
    time one hour ahead of UTC. *)
Definition isoHost : Host := {|
  Math_sqrt := fun x => x;
  Math_log := fun x => (x - 1)%Q;
  Math_cos := fun _ => 1%Q;
  Math_sin := fun x => x;
  Math_PI := (355 # 113)%Q;
  StringToNumber := fun s =>
    match JS.decimalValue 0 s with
    | Some z => Fin (inject_Z z)
    | None => NaN
    end;
  NumberToString := fun _ => "0"%string;
  DateParse := fun s =>
    if String.eqb s "2030-01-01T06:15:00Z" then Some 1893478500000%Z else None;
  LocalTZA := fun _ _ => 3600000%Z
|}.

End ExampleHost.
(* ===================================================================== *)
(** * DeterministicRandom: class [LcgRandom]                              *)
(* ===================================================================== *)

Module LcgRandom.
Local Open Scope Z_scope.

(** The two fields of an instance. *)
Record t : Type := mk {
  _state : Z;
  _spareNormal : option Q
}.

Definition two32 : Z := 4294967296.

(** [x >>> 0]: truncate towards zero, then reduce modulo 2^32; the
    non-finite values convert to 0. *)
Definition ToUint32 (n : num) : Z :=
  match n with
  | Fin q => (Z.quot (Qnum q) (Zpos (Qden q))) mod two32
  | _ => 0
  end.

(** [constructor(seed) { this._state = (Number(seed) >>> 0) || 1; this._spareNormal = null; }] *)
Definition new (seed : num) : t :=
  let s := ToUint32 seed in
  {| _state := if Z.eqb s 0 then 1 else s; _spareNormal := None |}.

(** [[
next() {
    this._state = (1664525 * this._state + 1013904223) >>> 0;
    return this._state / 0x100000000;
}
]] *)
Definition next (g : t) : Q * t :=
  let s := (1664525 * _state g + 1013904223) mod two32 in
  (Qmake s 4294967296, {| _state := s; _spareNormal := _spareNormal g |}).

(** [let u = 0; while (u === 0) u = this.next();] with the number of
    iterations bounded by [fuel]. *)
Fixpoint drawNonzero (fuel : nat) (g : t) : option (Q * t) :=
  match fuel with
  | O => None
  | S k =>
      let '(u, g') := next g in
      if Qeq_bool u 0 then drawNonzero k g' else Some (u, g')
  end.

Section Normal.
Context `{Host}.

(** [[
normal(mu = 0, sigma = 1) {
    if (this._spareNormal !== null) {
        const z = this._spareNormal;
        this._spareNormal = null;
        return mu + sigma * z;
    }
    let u = 0; let v = 0;
    while (u === 0) u = this.next();
    while (v === 0) v = this.next();
    const mag = Math.sqrt(-2.0 * Math.log(u));
    const z0 = mag * Math.cos(2.0 * Math.PI * v);
    const z1 = mag * Math.sin(2.0 * Math.PI * v);
    this._spareNormal = z1;
    return mu + sigma * z0;
}
]] *)
Definition normalFuel (fuel : nat) (g : t) (mu sigma : Q) : option (Q * t) :=
  match _spareNormal g with
  | Some z =>
      Some ((mu + sigma * z)%Q, {| _state := _state g; _spareNormal := None |})
  | None =>
      match drawNonzero fuel g with
      | None => None
      | Some (u, g1) =>
          match drawNonzero fuel g1 with
          | None => None
          | Some (v, g2) =>
              let mag := Math_sqrt (-2 * Math_log u)%Q in
              let z0 := (mag * Math_cos (2 * Math_PI * v))%Q in
              let z1 := (mag * Math_sin (2 * Math_PI * v))%Q in
              Some ((mu + sigma * z0)%Q,
                    {| _state := _state g2; _spareNormal := Some z1 |})
          end
      end
  end.

(** Two iterations of each loop always suffice (see [drawNonzero_two]), so
    the method is the bounded one at fuel 2. *)
Definition normal (g : t) (mu sigma : Q) : Q * t :=
  match normalFuel 2 g mu sigma with
  | Some r => r
  | None => (mu, g)
  end.

(** A call on a generator object. *)
Inductive call : Type :=
| Next
| Normal (mu sigma : Q).

Definition invoke (c : call) (g : t) : Q * t :=
  match c with
  | Next => next g
  | Normal mu sigma => normal g mu sigma
  end.

(** The output stream of one generator under a sequence of calls. *)
Fixpoint stream (g : t) (cs : list call) : list Q :=
  match cs with
  | [] => []
  | c :: cs' => let '(x, g') := invoke c g in x :: stream g' cs'
  end.

(** Several generator objects live in one heap; a schedule names, for each
    call, the object it is made on.  Every call mutates that object only. *)
Fixpoint runHeap (h : gmap nat t) (sched : list (nat * call)) : list (nat * Q) :=
  match sched with
  | [] => []
  | (l, c) :: rest =>
      match h !! l with
      | None => runHeap h rest
      | Some g =>
          let '(x, g') := invoke c g in
          (l, x) :: runHeap (<[l := g']> h) rest
      end
  end.

Definition callsOn (l : nat) (sched : list (nat * call)) : list call :=
  map snd (List.filter (fun lc => Nat.eqb (fst lc) l) sched).

Definition outputsOf (l : nat) (out : list (nat * Q)) : list Q :=
  map snd (List.filter (fun lx => Nat.eqb (fst lx) l) out).

End Normal.
End LcgRandom.

(* ===================================================================== *)
(** * Dates and [parseDepartureToTimestamp]                               *)
(* ===================================================================== *)

(** A [Date] is its time value, milliseconds since the epoch.  Local time
    is what ECMAScript makes of the host's [LocalTZA]; the times of a run
    lie far inside the range of [Date], so [TimeClip] is the identity on
    them and is not written. *)
Module LocalDate.
Local Open Scope Z_scope.

Definition msPerDay : Z := 86400000.
Definition msPerHour : Z := 3600000.
Definition msPerMinute : Z := 60000.

Section WithHost.
Context `{Host}.

(** [LocalTime(t)] *)
Definition localMs (t : Z) : Z := t + LocalTZA t true.

(** [UTC(t)] of a local time value *)
Definition utcOf (tl : Z) : Z := tl - LocalTZA tl false.

(** [HourFromTime(LocalTime(t))], [MinFromTime(LocalTime(t))] *)
Definition getHours (t : Z) : Z := (localMs t mod msPerDay) / msPerHour.
Definition getMinutes (t : Z) : Z := (localMs t mod msPerHour) / msPerMinute.

(** [MakeDate(Day(LocalTime(t)), MakeTime(hh, mm, 0, 0))]: the local time
    value of [hh:mm:00.000] on the local day of [t]. *)
Definition atClock (t hh mm : Z) : Z :=
  (localMs t / msPerDay) * msPerDay + hh * msPerHour + mm * msPerMinute.

(** [d.setHours(hh, mm, 0, 0)] for integral [hh], [mm]. *)
Definition setHours (t hh mm : Z) : Z := utcOf (atClock t hh mm).

(** [d.setDate(d.getDate() + 1)]: [MakeDay] of the next day of the month
    is the next day number, the time within the day is kept, both in
    local time. *)
Definition addOneDay (t : Z) : Z := utcOf (localMs t + msPerDay).

(** [getHours() + getMinutes() / 60] *)
Definition hourOfDay (t : Z) : Q :=
  (inject_Z (getHours t) + inject_Z (getMinutes t) / 60)%Q.

End WithHost.
End LocalDate.

Module Departure.
Local Open Scope Z_scope.

(** White space and line terminators of ECMAScript among the code units
    below 256: TAB, LF, VT, FF, CR, space and the no-break space U+00A0.
    It is the class [\s] of a regular expression and what [trim] strips. *)
Definition isSpace (c : ascii) : bool :=
  let n := Z.of_nat (nat_of_ascii c) in
  ((9 <=? n) && (n <=? 13)) || (n =? 32) || (n =? 160).

Definition isDigit (c : ascii) : bool :=
  match JS.digitValue c with Some _ => true | None => false end.

Fixpoint trimStart (l : list ascii) : list ascii :=
  match l with
  | c :: rest => if isSpace c then trimStart rest else l
  | [] => []
  end.

(** [s.trim()] *)
Definition trim (s : string) : string :=
  string_of_list_ascii
    (rev (trimStart (rev (trimStart (list_ascii_of_string s))))).

(** [s.includes('T')] *)
Definition includesT (s : string) : bool :=
  existsb (fun c => Ascii.eqb c "T"%char) (list_ascii_of_string s).

(** [s.match(/^(\d{1,2}):(\d{2})$/)]: the two capture groups. *)
Definition matchClock (s : string) : option (string * string) :=
  match list_ascii_of_string s with
  | [h1; colon; m1; m2] =>
      if isDigit h1 && Ascii.eqb colon ":"%char && isDigit m1 && isDigit m2
      then Some (string_of_list_ascii [h1], string_of_list_ascii [m1; m2])
      else None
  | [h1; h2; colon; m1; m2] =>
      if isDigit h1 && isDigit h2 && Ascii.eqb colon ":"%char
         && isDigit m1 && isDigit m2
      then Some (string_of_list_ascii [h1; h2], string_of_list_ascii [m1; m2])
      else None
  | _ => None
  end.

(** [Number(g)] of a capture group (a string of decimal digits). *)
Definition groupNumber (g : string) : num :=
  match JS.decimalValue 0 g with
  | Some z => Fin (inject_Z z)
  | None => NaN
  end.

Section WithHost.
Context `{Host}.

(** [[
function parseDepartureToTimestamp(departureValue, now = new Date()) {
    if (typeof departureValue !== 'string') return null;
    const trimmed = departureValue.trim();
    if (trimmed.includes('T')) {
        const d = new Date(trimmed);
        if (!Number.isNaN(d.getTime())) return d.getTime();
    }
    const m = trimmed.match(/^(\d{1,2}):(\d{2})$/);
    if (!m) return null;
    const hh = clamp(m[1], 0, 23);
    const mm = clamp(m[2], 0, 59);
    const candidate = new Date(now);
    candidate.setHours(hh, mm, 0, 0);
    if (candidate.getTime() <= now.getTime()) {
        candidate.setDate(candidate.getDate() + 1);
    }
    return candidate.getTime();
}
]] *)
Definition parseDepartureToTimestamp (departureValue : value) (now : Z) : option Z :=
  match departureValue with
  | VStr s =>
      let trimmed := trim s in
      match (if includesT trimmed then DateParse trimmed else None) with
      | Some d => Some d
      | None =>
          match matchClock trimmed with
          | None => None
          | Some (g1, g2) =>
              let hh := clampNum (groupNumber g1) 0 23 in
              let mm := clampNum (groupNumber g2) 0 59 in
              let candidate := LocalDate.setHours now (Qfloor hh) (Qfloor mm) in
              if candidate <=? now
              then Some (LocalDate.addOneDay candidate)
              else Some candidate
          end
      end
  | _ => None
  end.

End WithHost.
End Departure.

(* ===================================================================== *)
(** * PlantModel: the data [this._model] holds                            *)
(* ===================================================================== *)

(** Nested objects such as [ch.ctrl.limit_kw] are flattened to one record
    per entity, the path written with underscores ([ctrl_limit_kw]).  All
    numeric fields hold finite doubles: every writer in [main.js] stores the
    result of [clamp], of [_normalizePowerKw] or of arithmetic on such
    values. *)

Module Grid.
Record t : Type := mk {
  available : bool;
  limit_kw : Q;
  base_load_kw : Q;
  power_kw : Q;
  over_limit : bool
}.
End Grid.

Module Tariff.
Inductive Mode : Type := auto | manual.
Record t : Type := mk {
  mode : Mode;
  price_ct_per_kwh : Q;
  (** the 24 hourly values serialised into [price_next_24h_json] *)
  price_next_24h : list Q
}.
End Tariff.

Module PV.
Record t : Type := mk {
  installed_kwp : Q;
  weather_factor : Q;
  power_kw : Q;
  override_enabled : bool;
  override_power_kw : Q
}.
End PV.

Module Storage.
Record t : Type := mk {
  capacity_kwh : Q;
  max_charge_kw : Q;
  max_discharge_kw : Q;
  soc_pct : Q;
  power_kw : Q;
  ctrl_enabled : bool;
  ctrl_power_set_kw : Q
}.
End Storage.

(** heatpump, chp, generator *)
Module Device.
Record t : Type := mk {
  power_kw : Q;
  ctrl_enabled : bool;
  ctrl_power_set_kw : Q
}.
End Device.

Module Charger.
Inductive Kind : Type := ac | dc.

Record t : Type := mk {
  id : string;
  type : Kind;
  max_kw : Q;
  sim_faulted : bool;
  sim_unavailable : bool;
  sim_meter_freeze : bool;
  ctrl_enabled : bool;
  ctrl_limit_kw : Q;
  ctrl_plugged : bool;
  ctrl_priority : Q;
  vehicle_id : string;
  vehicle_soc_pct : Q;
  vehicle_capacity_kwh : Q;
  vehicle_max_charge_kw : Q;
  vehicle_target_soc_pct : Q;
  vehicle_departure_time : string;
  (** [null] is [None] *)
  vehicle_departure_ts : option Z;
  meas_status : string;
  meas_power_kw : Q;
  meas_energy_kwh : Q
}.

(** Assignments to the fields the simulation writes. *)
Definition set_meas (status : string) (power energy : Q) (ch : t) : t :=
  mk (id ch) (type ch) (max_kw ch)
     (sim_faulted ch) (sim_unavailable ch) (sim_meter_freeze ch)
     (ctrl_enabled ch) (ctrl_limit_kw ch) (ctrl_plugged ch) (ctrl_priority ch)
     (vehicle_id ch) (vehicle_soc_pct ch) (vehicle_capacity_kwh ch)
     (vehicle_max_charge_kw ch) (vehicle_target_soc_pct ch)
     (vehicle_departure_time ch) (vehicle_departure_ts ch)
     status power energy.

Definition set_vehicle_soc_pct (soc : Q) (ch : t) : t :=
  mk (id ch) (type ch) (max_kw ch)
     (sim_faulted ch) (sim_unavailable ch) (sim_meter_freeze ch)
     (ctrl_enabled ch) (ctrl_limit_kw ch) (ctrl_plugged ch) (ctrl_priority ch)
     (vehicle_id ch) soc (vehicle_capacity_kwh ch)
     (vehicle_max_charge_kw ch) (vehicle_target_soc_pct ch)
     (vehicle_departure_time ch) (vehicle_departure_ts ch)
     (meas_status ch) (meas_power_kw ch) (meas_energy_kwh ch).

Definition set_sim (f u z : bool) (ch : t) : t :=
  mk (id ch) (type ch) (max_kw ch) f u z
     (ctrl_enabled ch) (ctrl_limit_kw ch) (ctrl_plugged ch) (ctrl_priority ch)
     (vehicle_id ch) (vehicle_soc_pct ch) (vehicle_capacity_kwh ch)
     (vehicle_max_charge_kw ch) (vehicle_target_soc_pct ch)
     (vehicle_departure_time ch) (vehicle_departure_ts ch)
     (meas_status ch) (meas_power_kw ch) (meas_energy_kwh ch).

Definition set_ctrl (en : bool) (limit : Q) (plug : bool) (prio : Q) (ch : t) : t :=
  mk (id ch) (type ch) (max_kw ch)
     (sim_faulted ch) (sim_unavailable ch) (sim_meter_freeze ch)
     en limit plug prio
     (vehicle_id ch) (vehicle_soc_pct ch) (vehicle_capacity_kwh ch)
     (vehicle_max_charge_kw ch) (vehicle_target_soc_pct ch)
     (vehicle_departure_time ch) (vehicle_departure_ts ch)
     (meas_status ch) (meas_power_kw ch) (meas_energy_kwh ch).

Definition set_vehicle (vid : string) (soc cap maxc target : Q)
    (dep : string) (ts : option Z) (ch : t) : t :=
  mk (id ch) (type ch) (max_kw ch)
     (sim_faulted ch) (sim_unavailable ch) (sim_meter_freeze ch)
     (ctrl_enabled ch) (ctrl_limit_kw ch) (ctrl_plugged ch) (ctrl_priority ch)
     vid soc cap maxc target dep ts
     (meas_status ch) (meas_power_kw ch) (meas_energy_kwh ch).
End Charger.

Module Model.
Record t : Type := mk {
  grid : Grid.t;
  tariff : Tariff.t;
  pv : PV.t;
  storage : Storage.t;
  heatpump : Device.t;
  chp : Device.t;
  generator : Device.t;
  (** [evcs.chargers] *)
  evcs_chargers : list Charger.t
}.
End Model.

(* ===================================================================== *)
(** * Command handling: [_normalizePowerKw] and [_applyWrite]             *)
(* ===================================================================== *)

Module Command.

(** The lower-case form of a code unit below 256: the letters A to Z and
    the capital letters U+00C0 to U+00DE (the sign U+00D7 apart) move up
    by 32. *)
Definition lowerChar (c : ascii) : ascii :=
  let n := nat_of_ascii c in
  if ((65 <=? n)%nat && (n <=? 90)%nat)
     || ((192 <=? n)%nat && (n <=? 222)%nat && negb (n =? 215)%nat)
  then ascii_of_nat (n + 32) else c.

(** [s.toLowerCase()] *)
Definition toLowerCase (s : string) : string :=
  string_of_list_ascii (map lowerChar (list_ascii_of_string s)).

(** [.] of a regular expression: any character but a line terminator. *)
Definition notLineTerminator (c : ascii) : bool :=
  negb (Ascii.eqb c "010"%char || Ascii.eqb c "013"%char).

(** [relId.match(/^evcs\.(c\d{2})\.(.+)$/)]: the two capture groups. *)
Definition matchEvcs (relId : string) : option (string * string) :=
  match list_ascii_of_string relId with
  | "e"%char :: "v"%char :: "c"%char :: "s"%char :: "."%char
    :: "c"%char :: d1 :: d2 :: "."%char :: t :: tail =>
      if Departure.isDigit d1 && Departure.isDigit d2
         && forallb notLineTerminator (t :: tail)
      then Some (string_of_list_ascii ["c"%char; d1; d2],
                 string_of_list_ascii (t :: tail))
      else None
  | _ => None
  end.

(** [chargers.find(c => c.id === cid)] followed by an in-place mutation of
    the object found: the first charger with that id is replaced. *)
Fixpoint updateCharger (cid : string) (f : Charger.t -> Charger.t)
    (l : list Charger.t) : option (list Charger.t) :=
  match l with
  | [] => None
  | c :: rest =>
      if String.eqb (Charger.id c) cid then Some (f c :: rest)
      else match updateCharger cid f rest with
           | Some rest' => Some (c :: rest')
           | None => None
           end
  end.

(** [value === true || value === 1 || value === 'true'] *)
Definition isPressed (v : value) : bool :=
  match v with
  | VBool b => b
  | VNum (Fin q) => Qeq_bool q 1
  | VStr s => String.eqb s "true"
  | _ => false
  end.

Section WithHost.
Context `{Host}.

(** [[
_normalizePowerKw(value) {
    let v = Number(value);
    if (!Number.isFinite(v)) v = 0;
    // All simulator *power* datapoints are treated as Watts (W) by the
    // NexoWatt VIS/EMS even if the datapoint name ends with '_kw'.
    return v / 1000;
}
]] *)
Definition _normalizePowerKw (value : value) : Q :=
  let v := match Number value with Fin q => q | _ => 0%Q end in
  (v / 1000)%Q.

(** [String(value || '')] *)
Definition stringOrEmpty (v : value) : string :=
  if truthy v then ToString v else EmptyString.

Definition setGrid (m : Model.t) (g : Grid.t) : Model.t :=
  Model.mk g (Model.tariff m) (Model.pv m) (Model.storage m)
           (Model.heatpump m) (Model.chp m) (Model.generator m)
           (Model.evcs_chargers m).
Definition setTariff (m : Model.t) (x : Tariff.t) : Model.t :=
  Model.mk (Model.grid m) x (Model.pv m) (Model.storage m)
           (Model.heatpump m) (Model.chp m) (Model.generator m)
           (Model.evcs_chargers m).
Definition setPv (m : Model.t) (x : PV.t) : Model.t :=
  Model.mk (Model.grid m) (Model.tariff m) x (Model.storage m)
           (Model.heatpump m) (Model.chp m) (Model.generator m)
           (Model.evcs_chargers m).
Definition setStorage (m : Model.t) (x : Storage.t) : Model.t :=
  Model.mk (Model.grid m) (Model.tariff m) (Model.pv m) x
           (Model.heatpump m) (Model.chp m) (Model.generator m)
           (Model.evcs_chargers m).
Definition setHeatpump (m : Model.t) (x : Device.t) : Model.t :=
  Model.mk (Model.grid m) (Model.tariff m) (Model.pv m) (Model.storage m)
           x (Model.chp m) (Model.generator m) (Model.evcs_chargers m).
Definition setChp (m : Model.t) (x : Device.t) : Model.t :=
  Model.mk (Model.grid m) (Model.tariff m) (Model.pv m) (Model.storage m)
           (Model.heatpump m) x (Model.generator m) (Model.evcs_chargers m).
Definition setGenerator (m : Model.t) (x : Device.t) : Model.t :=
  Model.mk (Model.grid m) (Model.tariff m) (Model.pv m) (Model.storage m)
           (Model.heatpump m) (Model.chp m) x (Model.evcs_chargers m).
Definition setChargers (m : Model.t) (l : list Charger.t) : Model.t :=
  Model.mk (Model.grid m) (Model.tariff m) (Model.pv m) (Model.storage m)
           (Model.heatpump m) (Model.chp m) (Model.generator m) l.

Definition deviceSetEnabled (b : bool) (d : Device.t) : Device.t :=
  Device.mk (Device.power_kw d) b (Device.ctrl_power_set_kw d).
Definition deviceSetPowerSet (p : Q) (d : Device.t) : Device.t :=
  Device.mk (Device.power_kw d) (Device.ctrl_enabled d) p.

(** The branch of [_applyWrite] for one charger, [tail] being the part of
    the id after [evcs.cNN.]; [None] when no branch matches. *)
Definition applyChargerWrite (now : Z) (tail : string) (value : value)
    (charger : Charger.t) : option Charger.t :=
  let c := charger in
  if String.eqb tail "ctrl.enabled" then
    Some (Charger.set_ctrl (truthy value) (Charger.ctrl_limit_kw c)
            (Charger.ctrl_plugged c) (Charger.ctrl_priority c) c)
  else if String.eqb tail "ctrl.limit_kw" then
    Some (Charger.set_ctrl (Charger.ctrl_enabled c)
            (clamp (_normalizePowerKw value) 0 10000)
            (Charger.ctrl_plugged c) (Charger.ctrl_priority c) c)
  else if String.eqb tail "ctrl.plugged" then
    let c1 := Charger.set_ctrl (Charger.ctrl_enabled c) (Charger.ctrl_limit_kw c)
                (truthy value) (Charger.ctrl_priority c) c in
    Some (if truthy value then c1 else Charger.set_meas "Available" 0 0 c1)
  else if String.eqb tail "ctrl.priority" then
    Some (Charger.set_ctrl (Charger.ctrl_enabled c) (Charger.ctrl_limit_kw c)
            (Charger.ctrl_plugged c) (clampV value 1 10) c)
  else if String.eqb tail "vehicle.soc_pct" then
    Some (Charger.set_vehicle_soc_pct (clampV value 0 100) c)
  else if String.eqb tail "vehicle.capacity_kwh" then
    Some (Charger.set_vehicle (Charger.vehicle_id c) (Charger.vehicle_soc_pct c)
            (clampV value 1 1000) (Charger.vehicle_max_charge_kw c)
            (Charger.vehicle_target_soc_pct c) (Charger.vehicle_departure_time c)
            (Charger.vehicle_departure_ts c) c)
  else if String.eqb tail "vehicle.max_charge_kw" then
    Some (Charger.set_vehicle (Charger.vehicle_id c) (Charger.vehicle_soc_pct c)
            (Charger.vehicle_capacity_kwh c) (clampV value 0 2000)
            (Charger.vehicle_target_soc_pct c) (Charger.vehicle_departure_time c)
            (Charger.vehicle_departure_ts c) c)
  else if String.eqb tail "vehicle.target_soc_pct" then
    Some (Charger.set_vehicle (Charger.vehicle_id c) (Charger.vehicle_soc_pct c)
            (Charger.vehicle_capacity_kwh c) (Charger.vehicle_max_charge_kw c)
            (clampV value 0 100) (Charger.vehicle_departure_time c)
            (Charger.vehicle_departure_ts c) c)
  else if String.eqb tail "vehicle.departure_time" then
    let dep := Departure.trim (stringOrEmpty value) in
    Some (Charger.set_vehicle (Charger.vehicle_id c) (Charger.vehicle_soc_pct c)
            (Charger.vehicle_capacity_kwh c) (Charger.vehicle_max_charge_kw c)
            (Charger.vehicle_target_soc_pct c) dep
            (Departure.parseDepartureToTimestamp (VStr dep) now) c)
  else if String.eqb tail "vehicle.id" then
    Some (Charger.set_vehicle (Departure.trim (stringOrEmpty value))
            (Charger.vehicle_soc_pct c)
            (Charger.vehicle_capacity_kwh c) (Charger.vehicle_max_charge_kw c)
            (Charger.vehicle_target_soc_pct c) (Charger.vehicle_departure_time c)
            (Charger.vehicle_departure_ts c) c)
  else if String.eqb tail "ctrl.reset_session" then
    Some (if isPressed value
          then Charger.set_meas
                 (if Charger.ctrl_plugged c then "Preparing" else "Available")
                 (Charger.meas_power_kw c) 0 c
          else c)
  else None.

(** [_applyWrite(relId, value)] on an initialised model: the model after
    the write and the returned flag. *)
Definition _applyWrite (now : Z) (m : Model.t) (relId : string) (value : value)
  : Model.t * bool :=
  let g := Model.grid m in
  let tf := Model.tariff m in
  let pv := Model.pv m in
  let st := Model.storage m in
  if String.eqb relId "grid.limit_kw" then
    (setGrid m (Grid.mk (Grid.available g) (clampV value 1 5000)
                  (Grid.base_load_kw g) (Grid.power_kw g) (Grid.over_limit g)), true)
  else if String.eqb relId "grid.base_load_kw" then
    (setGrid m (Grid.mk (Grid.available g) (Grid.limit_kw g)
                  (clampV value 0 5000) (Grid.power_kw g) (Grid.over_limit g)), true)
  else if String.eqb relId "grid.available" then
    (setGrid m (Grid.mk (truthy value) (Grid.limit_kw g)
                  (Grid.base_load_kw g) (Grid.power_kw g) (Grid.over_limit g)), true)
  else if String.eqb relId "tariff.mode" then
    (setTariff m (Tariff.mk
                    (if String.eqb (toLowerCase (stringOrEmpty value)) "manual"
                     then Tariff.manual else Tariff.auto)
                    (Tariff.price_ct_per_kwh tf) (Tariff.price_next_24h tf)), true)
  else if String.eqb relId "tariff.price_ct_per_kwh" then
    (setTariff m (Tariff.mk (Tariff.mode tf) (clampV value (-500) 500)
                    (Tariff.price_next_24h tf)), true)
  else if String.eqb relId "pv.installed_kwp" then
    (setPv m (PV.mk (clampV value 0 5000) (PV.weather_factor pv) (PV.power_kw pv)
                (PV.override_enabled pv) (PV.override_power_kw pv)), true)
  else if String.eqb relId "pv.weather_factor" then
    (setPv m (PV.mk (PV.installed_kwp pv) (clampV value 0 1) (PV.power_kw pv)
                (PV.override_enabled pv) (PV.override_power_kw pv)), true)
  else if String.eqb relId "pv.override.enabled" then
    (setPv m (PV.mk (PV.installed_kwp pv) (PV.weather_factor pv) (PV.power_kw pv)
                (truthy value) (PV.override_power_kw pv)), true)
  else if String.eqb relId "pv.override.power_kw" then
    (setPv m (PV.mk (PV.installed_kwp pv) (PV.weather_factor pv) (PV.power_kw pv)
                (PV.override_enabled pv) (clampV value 0 100000)), true)
  else if String.eqb relId "storage.capacity_kwh" then
    (setStorage m (Storage.mk (clampV value 1 50000) (Storage.max_charge_kw st)
                     (Storage.max_discharge_kw st) (Storage.soc_pct st)
                     (Storage.power_kw st) (Storage.ctrl_enabled st)
                     (Storage.ctrl_power_set_kw st)), true)
  else if String.eqb relId "storage.max_charge_kw" then
    (setStorage m (Storage.mk (Storage.capacity_kwh st) (clampV value 0 50000)
                     (Storage.max_discharge_kw st) (Storage.soc_pct st)
                     (Storage.power_kw st) (Storage.ctrl_enabled st)
                     (Storage.ctrl_power_set_kw st)), true)
  else if String.eqb relId "storage.max_discharge_kw" then
    (setStorage m (Storage.mk (Storage.capacity_kwh st) (Storage.max_charge_kw st)
                     (clampV value 0 50000) (Storage.soc_pct st)
                     (Storage.power_kw st) (Storage.ctrl_enabled st)
                     (Storage.ctrl_power_set_kw st)), true)
  else if String.eqb relId "storage.soc_pct" then
    (setStorage m (Storage.mk (Storage.capacity_kwh st) (Storage.max_charge_kw st)
                     (Storage.max_discharge_kw st) (clampV value 0 100)
                     (Storage.power_kw st) (Storage.ctrl_enabled st)
                     (Storage.ctrl_power_set_kw st)), true)
  else if String.eqb relId "storage.ctrl.enabled" then
    (setStorage m (Storage.mk (Storage.capacity_kwh st) (Storage.max_charge_kw st)
                     (Storage.max_discharge_kw st) (Storage.soc_pct st)
                     (Storage.power_kw st) (truthy value)
                     (Storage.ctrl_power_set_kw st)), true)
  else if String.eqb relId "storage.ctrl.power_set_kw" then
    (setStorage m (Storage.mk (Storage.capacity_kwh st) (Storage.max_charge_kw st)
                     (Storage.max_discharge_kw st) (Storage.soc_pct st)
                     (Storage.power_kw st) (Storage.ctrl_enabled st)
                     (_normalizePowerKw value)), true)
  else if String.eqb relId "heatpump.ctrl.enabled" then
    (setHeatpump m (deviceSetEnabled (truthy value) (Model.heatpump m)), true)
  else if String.eqb relId "heatpump.ctrl.power_set_kw" then
    (setHeatpump m (deviceSetPowerSet (_normalizePowerKw value) (Model.heatpump m)), true)
  else if String.eqb relId "chp.ctrl.enabled" then
    (setChp m (deviceSetEnabled (truthy value) (Model.chp m)), true)
  else if String.eqb relId "chp.ctrl.power_set_kw" then
    (setChp m (deviceSetPowerSet (_normalizePowerKw value) (Model.chp m)), true)
  else if String.eqb relId "generator.ctrl.enabled" then
    (setGenerator m (deviceSetEnabled (truthy value) (Model.generator m)), true)
  else if String.eqb relId "generator.ctrl.power_set_kw" then
    (setGenerator m (deviceSetPowerSet (_normalizePowerKw value) (Model.generator m)), true)
  else
    match matchEvcs relId with
    | None => (m, false)
    | Some (cid, tail) =>
        match List.find (fun c => String.eqb (Charger.id c) cid) (Model.evcs_chargers m) with
        | None => (m, false)
        | Some charger =>
            match applyChargerWrite now tail value charger with
            | None => (m, false)
            | Some charger' =>
                match updateCharger cid (fun _ => charger') (Model.evcs_chargers m) with
                | Some l => (setChargers m l, true)
                | None => (m, false)
                end
            end
        end
    end.

(** [if (!this._model) return false;] in front of the above. *)
Definition applyWrite (now : Z) (model : option Model.t) (relId : string)
    (value : value) : option Model.t * bool :=
  match model with
  | None => (None, false)
  | Some m => let '(m', r) := _applyWrite now m relId value in (Some m', r)
  end.

End WithHost.
End Command.

(* ===================================================================== *)
(** * TickSimulator: the physics of [_tick]                               *)
(* ===================================================================== *)

Module Tick.
Local Open Scope Q_scope.

(** [[
function dcTaperFactor(socPct) {
    const soc = clamp(socPct, 0, 100);
    if (soc <= 80) return 1;
    const x = (soc - 80) / 20; // 0..1
    return clamp(1 - 0.8 * x, 0.2, 1);
}
]] *)
Definition dcTaperFactor (socPct : Q) : Q :=
  let soc := clamp socPct 0 100 in
  if Qleb soc 80 then 1
  else
    let x := (soc - 80) / 20 in
    clamp (1 - (8 # 10) * x) (2 # 10) 1.

(** [x.toFixed(2)] read back with [Number]: two decimals, ties away from
    zero. *)
Definition toFixed2 (x : Q) : Q :=
  if Qltb x 0
  then - (inject_Z (Qfloor (- x * 100 + (1 # 2))) / 100)
  else inject_Z (Qfloor (x * 100 + (1 # 2))) / 100.

(** [const dtSec = Math.max(0.2, Math.min(60, (nowMs - last) / 1000));
     const dtH = dtSec / 3600;] *)
Definition dtSec (nowMs last : Z) : Q :=
  Math_max (2 # 10) (Math_min 60 (inject_Z (nowMs - last) / 1000)).

Definition dtHours (nowMs last : Z) : Q := dtSec nowMs last / 3600.

(** The charging branches of the loop over [this._model.evcs.chargers]:
    the charger after the iteration and what the iteration adds to
    [evTotalPower].
[[
if (ch.sim.unavailable) { ch.meas.power_kw = 0; ch.meas.status = 'Unavailable'; ...; continue; }
if (ch.sim.faulted)     { ch.meas.power_kw = 0; ch.meas.status = 'Faulted'; ...; continue; }
if (ch.sim.meter_freeze) { evTotalPower += Number(ch.meas.power_kw) || 0; ...; continue; }
const plugged = !!ch.ctrl.plugged;
if (!plugged) { ch.meas.power_kw = 0; ch.meas.status = 'Available'; ...; continue; }
const targetSoc = clamp(ch.vehicle.target_soc_pct, 0, 100);
if (ch.vehicle.soc_pct >= targetSoc - 0.01) {
    ch.meas.power_kw = 0; ch.meas.status = 'Finished';
    ch.vehicle.soc_pct = clamp(ch.vehicle.soc_pct, 0, 100); ...; continue;
}
if (!ch.ctrl.enabled) { ch.meas.power_kw = 0; ch.meas.status = 'Preparing'; ...; continue; }
const limitKw = clamp(ch.ctrl.limit_kw, 0, 10000);
let p = Math.min(limitKw, ch.max_kw, ch.vehicle.max_charge_kw);
if (ch.type === 'dc') { p *= dcTaperFactor(ch.vehicle.soc_pct); }
const capKwh = Math.max(0.1, ch.vehicle.capacity_kwh);
const energyNeedKwh = Math.max(0, (targetSoc - ch.vehicle.soc_pct) / 100 * capKwh);
const maxStepKwh = Math.max(0, p * dtH);
if (maxStepKwh > energyNeedKwh && dtH > 0) { p = energyNeedKwh / dtH; }
p = clamp(p, 0, ch.max_kw);
ch.meas.power_kw = p;
ch.meas.status = (p > 0.01) ? 'Charging' : 'Suspended';
const eff = 0.96;
const deliveredKwh = p * dtH * eff;
ch.meas.energy_kwh = clamp(ch.meas.energy_kwh + deliveredKwh, 0, 1000000);
const deltaSocVeh = (deliveredKwh / capKwh) * 100;
ch.vehicle.soc_pct = clamp(ch.vehicle.soc_pct + deltaSocVeh, 0, 100);
evTotalPower += p;
]]
    Every charger is created with its [sim] object, so the guard
    [if (!ch.sim) ch.sim = {...}] never fires. *)

(** [p] before the energy clamp: ceiling and, for DC, taper. *)
Definition chargeCeiling (ch : Charger.t) : Q :=
  let limitKw := clamp (Charger.ctrl_limit_kw ch) 0 10000 in
  Math_min (Math_min limitKw (Charger.max_kw ch)) (Charger.vehicle_max_charge_kw ch).

Definition taperedPower (ch : Charger.t) : Q :=
  let p := chargeCeiling ch in
  match Charger.type ch with
  | Charger.dc => p * dcTaperFactor (Charger.vehicle_soc_pct ch)
  | Charger.ac => p
  end.

Definition targetSocOf (ch : Charger.t) : Q :=
  clamp (Charger.vehicle_target_soc_pct ch) 0 100.

Definition capKwhOf (ch : Charger.t) : Q :=
  Math_max (1 # 10) (Charger.vehicle_capacity_kwh ch).

Definition energyNeedKwh (ch : Charger.t) : Q :=
  Math_max 0 ((targetSocOf ch - Charger.vehicle_soc_pct ch) / 100 * capKwhOf ch).

(** the final [p] of the charging branch *)
Definition chargePower (dtH : Q) (ch : Charger.t) : Q :=
  let p := taperedPower ch in
  let maxStepKwh := Math_max 0 (p * dtH) in
  let p := if Qltb (energyNeedKwh ch) maxStepKwh && Qltb 0 dtH
           then energyNeedKwh ch / dtH else p in
  clamp p 0 (Charger.max_kw ch).

Definition eff : Q := 96 # 100.

Definition deliveredKwh (dtH : Q) (ch : Charger.t) : Q :=
  chargePower dtH ch * dtH * eff.

(** the branch taken by an iteration *)
Inductive Branch : Type :=
| BUnavailable | BFaulted | BFrozen | BUnplugged | BFinished | BDisabled | BCharging.

Definition branchOf (ch : Charger.t) : Branch :=
  if Charger.sim_unavailable ch then BUnavailable
  else if Charger.sim_faulted ch then BFaulted
  else if Charger.sim_meter_freeze ch then BFrozen
  else if negb (Charger.ctrl_plugged ch) then BUnplugged
  else if Qleb (targetSocOf ch - (1 # 100)) (Charger.vehicle_soc_pct ch) then BFinished
  else if negb (Charger.ctrl_enabled ch) then BDisabled
  else BCharging.

Definition evcsStep (dtH : Q) (ch : Charger.t) : Charger.t * Q :=
  match branchOf ch with
  | BUnavailable =>
      (Charger.set_meas "Unavailable" 0 (Charger.meas_energy_kwh ch) ch, 0)
  | BFaulted =>
      (Charger.set_meas "Faulted" 0 (Charger.meas_energy_kwh ch) ch, 0)
  | BFrozen => (ch, Charger.meas_power_kw ch)
  | BUnplugged =>
      (Charger.set_meas "Available" 0 (Charger.meas_energy_kwh ch) ch, 0)
  | BFinished =>
      (Charger.set_vehicle_soc_pct (clamp (Charger.vehicle_soc_pct ch) 0 100)
         (Charger.set_meas "Finished" 0 (Charger.meas_energy_kwh ch) ch), 0)
  | BDisabled =>
      (Charger.set_meas "Preparing" 0 (Charger.meas_energy_kwh ch) ch, 0)
  | BCharging =>
      let p := chargePower dtH ch in
      let delivered := deliveredKwh dtH ch in
      let energy := clamp (Charger.meas_energy_kwh ch + delivered) 0 1000000 in
      let deltaSocVeh := delivered / capKwhOf ch * 100 in
      let soc := clamp (Charger.vehicle_soc_pct ch + deltaSocVeh) 0 100 in
      (Charger.set_vehicle_soc_pct soc
         (Charger.set_meas (if Qltb (1 # 100) p then "Charging" else "Suspended")
            p energy ch), p)
  end.

(** The loop: chargers after the tick, [evTotalPower], [evTotalEnergy]. *)
Fixpoint evcsLoop (dtH : Q) (l : list Charger.t) (evTotalPower evTotalEnergy : Q)
  : list Charger.t * Q * Q :=
  match l with
  | [] => ([], evTotalPower, evTotalEnergy)
  | ch :: rest =>
      let '(ch', p) := evcsStep dtH ch in
      let '(rest', tp, te) :=
        evcsLoop dtH rest (evTotalPower + p)
                 (evTotalEnergy + Charger.meas_energy_kwh ch') in
      (ch' :: rest', tp, te)
  end.

(** [[
let storagePower = 0;
if (this._model.storage.ctrl.enabled) {
    const req = Number(this._model.storage.ctrl.power_set_kw) || 0; // + discharge / - charge
    const maxDis = this._model.storage.max_discharge_kw;
    const maxCh = this._model.storage.max_charge_kw;
    storagePower = clamp(req, -maxCh, maxDis);
    if (this._model.storage.soc_pct <= 0 && storagePower > 0) storagePower = 0;
    if (this._model.storage.soc_pct >= 100 && storagePower < 0) storagePower = 0;
    const cap = Math.max(1e-6, this._model.storage.capacity_kwh);
    const deltaSoc = (-storagePower * dtH / cap) * 100;
    this._model.storage.soc_pct = clamp(this._model.storage.soc_pct + deltaSoc, 0, 100);
}
this._model.storage.power_kw = storagePower;
]] *)
Definition storagePowerOf (st : Storage.t) : Q :=
  if Storage.ctrl_enabled st then
    let req := Storage.ctrl_power_set_kw st in
    let maxDis := Storage.max_discharge_kw st in
    let maxCh := Storage.max_charge_kw st in
    let sp := clamp req (- maxCh) maxDis in
    let sp := if Qleb (Storage.soc_pct st) 0 && Qltb 0 sp then 0 else sp in
    let sp := if Qleb 100 (Storage.soc_pct st) && Qltb sp 0 then 0 else sp in
    sp
  else 0.

Definition storageDeltaSoc (dtH : Q) (st : Storage.t) : Q :=
  let cap := Math_max (1 # 1000000) (Storage.capacity_kwh st) in
  (- storagePowerOf st * dtH / cap) * 100.

Definition storageStep (dtH : Q) (st : Storage.t) : Storage.t :=
  let sp := storagePowerOf st in
  let soc := if Storage.ctrl_enabled st
             then clamp (Storage.soc_pct st + storageDeltaSoc dtH st) 0 100
             else Storage.soc_pct st in
  Storage.mk (Storage.capacity_kwh st) (Storage.max_charge_kw st)
             (Storage.max_discharge_kw st) soc sp
             (Storage.ctrl_enabled st) (Storage.ctrl_power_set_kw st).

(** [X.power_kw = X.ctrl.enabled ? clamp(X.ctrl.power_set_kw, 0, ceiling) : 0] *)
Definition deviceStep (ceiling : Q) (d : Device.t) : Device.t :=
  Device.mk (if Device.ctrl_enabled d
             then clamp (Device.ctrl_power_set_kw d) 0 ceiling else 0)
            (Device.ctrl_enabled d) (Device.ctrl_power_set_kw d).

(** [[
let gridPower = baseLoad + heatpump.power_kw + evTotalPower
    - pv.power_kw - chp.power_kw - generator.power_kw - storage.power_kw;
if (!this._model.grid.available) { gridPower = 0; }
this._model.grid.power_kw = gridPower;
this._model.grid.over_limit = this._model.grid.available && (gridPower > this._model.grid.limit_kw + 1e-6);
]] *)
Definition balance (baseLoad hp evTotalPower pv chp gen st : Q) : Q :=
  baseLoad + hp + evTotalPower - pv - chp - gen - st.

Definition gridStep (computed : Q) (g : Grid.t) : Grid.t :=
  let gridPower := if negb (Grid.available g) then 0 else computed in
  Grid.mk (Grid.available g) (Grid.limit_kw g) (Grid.base_load_kw g)
          gridPower
          (Grid.available g && Qltb (Grid.limit_kw g + (1 # 1000000)) gridPower).

Section WithHost.
Context `{Host}.

(** [[
function solarProfile01(date) {
    const hour = date.getHours() + date.getMinutes() / 60;
    if (hour <= 6.0 || hour >= 20.0) return 0;
    const x = (hour - 6.0) / (20.0 - 6.0);
    return Math.sin(Math.PI * x);
}
]] *)
Definition solarProfile01 (date : Z) : Q :=
  let hour := LocalDate.hourOfDay date in
  if Qleb hour 6 || Qleb 20 hour then 0
  else
    let x := (hour - 6) / (20 - 6) in
    Math_sin (Math_PI * x).

Definition dailyPrice (base amp hour : Q) : Q :=
  base + amp * Math_sin ((2 * Math_PI * (hour - 7)) / 24).

(** The tariff block: current price and the 24 hourly values of the
    forward curve. *)
Definition tariffStep (nowMs : Z) (tf : Tariff.t) (rng : LcgRandom.t)
  : Tariff.t * LcgRandom.t :=
  let '(base, amp, price, rng') :=
    match Tariff.mode tf with
    | Tariff.auto =>
        let daily := dailyPrice 32 10 (LocalDate.hourOfDay nowMs) in
        let '(noise, rng') := LcgRandom.normal rng 0 (4 # 10) in
        (32, 10, clamp (daily + noise) (-500) 500, rng')
    | Tariff.manual =>
        let base := clamp (Tariff.price_ct_per_kwh tf) (-500) 500 in
        (base, 0, base, rng)
    end in
  let curve :=
    map (fun h : nat =>
           let d := (nowMs + Z.of_nat h * 3600 * 1000)%Z in
           toFixed2 (clamp (dailyPrice base amp (LocalDate.hourOfDay d)) (-500) 500))
        (seq 0 24) in
  (Tariff.mk (Tariff.mode tf) price curve, rng').

(** The PV block. *)
Definition pvStep (nowMs : Z) (pv : PV.t) (rng : LcgRandom.t) : PV.t * LcgRandom.t :=
  if PV.override_enabled pv then
    (PV.mk (PV.installed_kwp pv) (PV.weather_factor pv)
           (clamp (PV.override_power_kw pv) 0 100000)
           (PV.override_enabled pv) (PV.override_power_kw pv), rng)
  else
    let pvProfile := solarProfile01 nowMs in
    let '(n, rng') := LcgRandom.normal rng 0 (2 # 100) in
    let pvNoise := clamp n (- (5 # 100)) (5 # 100) in
    (PV.mk (PV.installed_kwp pv) (PV.weather_factor pv)
           (clamp (PV.installed_kwp pv * PV.weather_factor pv * pvProfile * (1 + pvNoise))
                  0 (Math_max 0 (PV.installed_kwp pv)))
           (PV.override_enabled pv) (PV.override_power_kw pv), rng').

(** The part of [_tick] after the scenario engine: tariff, PV, devices,
    storage, charge points and grid balance, in this order.  Returns the
    model, the generator and the totals handed to [_publishAggregates]. *)
Definition tickPhysics (nowMs : Z) (dtH : Q) (m : Model.t) (rng : LcgRandom.t)
  : Model.t * LcgRandom.t * (Q * Q) :=
  let '(tf, rng1) := tariffStep nowMs (Model.tariff m) rng in
  let '(pv, rng2) := pvStep nowMs (Model.pv m) rng1 in
  let chp := deviceStep 5000 (Model.chp m) in
  let gen := deviceStep 5000 (Model.generator m) in
  let hp := deviceStep 500 (Model.heatpump m) in
  let st := storageStep dtH (Model.storage m) in
  let '(chargers, evTotalPower, evTotalEnergy) :=
    evcsLoop dtH (Model.evcs_chargers m) 0 0 in
  let '(n, rng3) := LcgRandom.normal rng2 0 (3 # 10) in
  let baseNoise := clamp n (-1) 1 in
  let baseLoad := clamp (Grid.base_load_kw (Model.grid m) + baseNoise) 0 5000 in
  let computed :=
    balance baseLoad (Device.power_kw hp) evTotalPower (PV.power_kw pv)
            (Device.power_kw chp) (Device.power_kw gen) (Storage.power_kw st) in
  (Model.mk (gridStep computed (Model.grid m)) tf pv st hp chp gen chargers,
   rng3, (evTotalPower, evTotalEnergy)).

End WithHost.
End Tick.

(* ===================================================================== *)
(** * A small plant to run examples on                                    *)
(* ===================================================================== *)

Module Sample.
Local Open Scope Q_scope.

(** a charge point with nothing plugged in *)
Definition idle (cid vid : string) (kind : Charger.Kind) (max_kw : Q) : Charger.t :=
  Charger.mk cid kind max_kw false false false
             false max_kw false 5
             vid 30 60 max_kw 100 "06:15" None
             "Available" 0 0.

(** an AC point charging a car at 20 % *)
Definition c01 : Charger.t :=
  Charger.mk "c01" Charger.ac 11 false false false
             true 11 true 5
             "VEH-01" 20 60 11 100 "06:15" None
             "Preparing" 0 0.

(** a point whose meter froze at 18.2 kW before its limit was lowered *)
Definition c06 : Charger.t :=
  Charger.mk "c06" Charger.ac 22 false false true
             true 5 true 5
             "VEH-06" 50 60 22 100 "06:15" None
             "Charging" (91 # 5) (1 # 10).

(** a DC point in the taper region, limited by the controller *)
Definition c10 : Charger.t :=
  Charger.mk "c10" Charger.dc 150 false false false
             true 100 true 5
             "VEH-10" 90 80 120 100 "06:15" None
             "Preparing" 0 0.

(** A fleet of ten charge points with the default mix of
    [_defaultChargerSpecs(10)]: five AC 11 kW, three AC 22 kW, DC 50 kW and
    DC 150 kW. *)
Definition chargers : list Charger.t :=
  [ c01;
    idle "c02" "VEH-02" Charger.ac 11; idle "c03" "VEH-03" Charger.ac 11;
    idle "c04" "VEH-04" Charger.ac 11; idle "c05" "VEH-05" Charger.ac 11;
    c06;
    idle "c07" "VEH-07" Charger.ac 22; idle "c08" "VEH-08" Charger.ac 22;
    idle "c09" "VEH-09" Charger.dc 50;
    c10 ].

Definition storage : Storage.t := Storage.mk 200 200 200 0 0 true (-50).

Definition off : Device.t := Device.mk 0 false 0.

Definition model : Model.t :=
  Model.mk (Grid.mk true 40 8 0 false)
           (Tariff.mk Tariff.manual 30 [])
           (PV.mk 0 (85 # 100) 0 true 0)
           storage off off off
           chargers.

(** the same plant during a blackout *)
Definition blackout : Model.t :=
  Model.mk (Grid.mk false 40 8 0 false)
           (Model.tariff model) (Model.pv model) (Model.storage model)
           off off off (Model.evcs_chargers model).

Definition rng : LcgRandom.t := LcgRandom.new (Fin 1337).

(** one second, in hours *)
Definition dtH : Q := 1 # 3600.

End Sample.

(* ===================================================================== *)
(** * ChangePublisher: [_setChanged]                                      *)
(* ===================================================================== *)

Module Publisher.

(** Subtraction, absolute value and [>] on doubles, with the IEEE rules for
    the non-finite values. *)
Definition num_sub (a b : num) : num :=
  match a, b with
  | NaN, _ | _, NaN => NaN
  | Fin x, Fin y => Fin (x - y)
  | Fin _, PInf => NInf
  | Fin _, NInf => PInf
  | PInf, PInf => NaN
  | PInf, _ => PInf
  | NInf, NInf => NaN
  | NInf, _ => NInf
  end.

Definition Math_abs (a : num) : num :=
  match a with
  | Fin x => Fin (Qabs x)
  | PInf | NInf => PInf
  | NaN => NaN
  end.

Definition num_gt (a : num) (b : Q) : bool :=
  match a with
  | Fin x => Qltb b x
  | PInf => true
  | NInf | NaN => false
  end.

(** [a === b] on primitive values. *)
Definition strictEq (a b : value) : bool :=
  match a, b with
  | VUndefined, VUndefined => true
  | VNull, VNull => true
  | VBool x, VBool y => Bool.eqb x y
  | VNum (Fin x), VNum (Fin y) => Qeq_bool x y
  | VNum PInf, VNum PInf => true
  | VNum NInf, VNum NInf => true
  | VStr x, VStr y => String.eqb x y
  | _, _ => false
  end.

Definition epsilon : Q := 1 # 1000000.

(** The value the cache and the store receive: NaN becomes [null]. *)
Definition normalize (val : value) : value :=
  match val with
  | VNum NaN => VNull
  | _ => val
  end.

(** [this._cache.get(key)]: [undefined] for an absent key. *)
Definition cacheGet (cache : gmap string value) (key : string) : value :=
  match cache !! key with
  | Some v => v
  | None => VUndefined
  end.

Definition changed (normalized prev : value) : bool :=
  match normalized, prev with
  | VNum n, VNum p => num_gt (Math_abs (num_sub n p)) epsilon
  | _, _ => negb (strictEq normalized prev)
  end.

(** [[
async _setChanged(relId, val) {
    const key = relId;
    const prev = this._cache.get(key);
    const normalized = (typeof val === 'number' && Number.isNaN(val)) ? null : val;
    let changed = false;
    if (typeof normalized === 'number' && typeof prev === 'number') {
        changed = Math.abs(normalized - prev) > 1e-6;
    } else {
        changed = normalized !== prev;
    }
    if (changed) {
        this._cache.set(key, normalized);
        await this.setStateAsync(relId, { val: normalized, ack: true });
    }
}
]]
    The result is the new cache and the list of states written (empty or
    one element). *)
Definition _setChanged (cache : gmap string value) (relId : string) (val : value)
  : gmap string value * list (string * value) :=
  let prev := cacheGet cache relId in
  let normalized := normalize val in
  if changed normalized prev
  then (<[relId := normalized]> cache, [(relId, normalized)])
  else (cache, []).

(** A publish pass: the candidates are offered one after the other. *)
Fixpoint publishAll (cache : gmap string value) (cands : list (string * value))
  : gmap string value * list (string * value) :=
  match cands with
  | [] => (cache, [])
  | (k, v) :: rest =>
      let '(c1, out1) := _setChanged cache k v in
      let '(c2, out2) := publishAll c1 rest in
      (c2, out1 ++ out2)
  end.



End Publisher.

(* ===================================================================== *)
(** * The write counters of a report                                      *)
(* ===================================================================== *)

(** [this._report.writes] as the object it is: [_reportStart] fills in
    every field, but between runs the object is [{}], and a write counted
    while only the suite is running adds fields to that. *)

Module WriteLog.

Abbreviation Log := (gmap string value).

(** [w.k], [undefined] for an absent field. *)
Definition field (w : Log) (k : string) : value :=
  match w !! k with Some v => v | None => VUndefined end.

(** [(x || 0) + 1] *)
Definition orZeroPlusOne (x : value) : value :=
  if truthy x then
    match x with
    | VNum (Fin q) => VNum (Fin (q + 1)%Q)
    | VNum n => VNum n
    | VBool _ => VNum (Fin 2)
    | VStr s => VStr (String.append s "1")
    | _ => VNum (Fin 1)
    end
  else VNum (Fin 1).

(** [w.k = (w.k || 0) + 1] *)
Definition bump (k : string) (w : Log) : Log := <[k := orZeroPlusOne (field w k)]> w.

(** [/^evcs\.c\d{2}\.<tail>$/.test(relId)] for a [tail] of plain
    characters. *)
Definition isEvcsField (tail relId : string) : bool :=
  match Command.matchEvcs relId with
  | Some (_, t) => String.eqb t tail
  | None => false
  end.

(** The counter that the chain of tests in [_reportOnWrite] picks. *)
Definition category (relId : string) : string :=
  if isEvcsField "ctrl.limit_kw" relId then "evcs_limit"
  else if isEvcsField "ctrl.enabled" relId then "evcs_enable"
  else if isEvcsField "ctrl.plugged" relId then "evcs_plug"
  else if String.eqb relId "storage.ctrl.power_set_kw" then "storage_power"
  else if String.eqb relId "storage.ctrl.enabled" then "storage_enable"
  else if String.eqb relId "heatpump.ctrl.power_set_kw"
          || String.eqb relId "heatpump.ctrl.enabled" then "heatpump"
  else if String.eqb relId "chp.ctrl.power_set_kw"
          || String.eqb relId "chp.ctrl.enabled" then "chp"
  else if String.eqb relId "generator.ctrl.power_set_kw"
          || String.eqb relId "generator.ctrl.enabled" then "generator"
  else if String.eqb relId "grid.limit_kw" then "grid_limit"
  else if String.eqb relId "tariff.mode"
          || String.eqb relId "tariff.price_ct_per_kwh" then "tariff"
  else if String.eqb relId "pv.override.enabled"
          || String.eqb relId "pv.override.power_kw" then "pv_override"
  else "other".

(** [[
_reportOnWrite(relId, value) {
    if (!(this._scenario && this._scenario.running)
        && !(this._suite && this._suite.running)) return;
    if (!this._report || !this._report.writes) return;
    const w = this._report.writes;
    w.total = (w.total || 0) + 1;
    w.last_write_id = relId;
    w.last_write_val = value;
    w.last_write_ms = Date.now();
    if (/^evcs\.c\d{2}\.ctrl\.limit_kw$/.test(relId)) w.evcs_limit = (w.evcs_limit || 0) + 1;
    else if ... else w.other = (w.other || 0) + 1;
    this._report.writes = w;
}
]]
    [this._report.writes] is always an object. *)
Definition _reportOnWrite (scenarioRunning suiteRunning : bool) (nowMs : Z)
    (w : Log) (relId : string) (value : value) : Log :=
  if negb scenarioRunning && negb suiteRunning then w
  else
    let w1 := bump "total" w in
    let w2 := <["last_write_id"%string := VStr relId]> w1 in
    let w3 := <["last_write_val"%string := value]> w2 in
    let w4 := <["last_write_ms"%string := VNum (Fin (inject_Z nowMs))]> w3 in
    bump (category relId) w4.

(** The object [_reportStart] stores. *)
Definition started : Log :=
  list_to_map
    [ ("total", VNum (Fin 0)); ("evcs_limit", VNum (Fin 0));
      ("evcs_enable", VNum (Fin 0)); ("evcs_plug", VNum (Fin 0));
      ("storage_power", VNum (Fin 0)); ("storage_enable", VNum (Fin 0));
      ("heatpump", VNum (Fin 0)); ("chp", VNum (Fin 0));
      ("generator", VNum (Fin 0)); ("grid_limit", VNum (Fin 0));
      ("tariff", VNum (Fin 0)); ("pv_override", VNum (Fin 0));
      ("other", VNum (Fin 0)); ("last_write_id", VStr "");
      ("last_write_val", VNull); ("last_write_ms", VNum (Fin 0)) ]%string.

(** The writes of a run, each with the clock reading at which it arrives. *)
Definition record (scenarioRunning suiteRunning : bool)
    (writes : list (Z * string * value)) (w : Log) : Log :=
  fold_left (fun w p => _reportOnWrite scenarioRunning suiteRunning
                          (fst (fst p)) w (snd (fst p)) (snd p))
            writes w.

End WriteLog.


(* ===================================================================== *)
(** * ScenarioCatalog, ScenarioEngine and SuiteRunner                     *)
(* ===================================================================== *)

Module Scenario.
Local Open Scope Q_scope.

(** ** Configuration *)

(** [this._cfg], the configuration as [onReady] normalises it. *)
Record Cfg : Type := mkCfg {
  gridLimitKw : Q;
  baseLoadKw : Q;
  pvInstalledKwp : Q;
  pvWeatherFactor : Q;
  storageCapacityKwh : Q;
  storageMaxChargeKw : Q;
  storageMaxDischargeKw : Q;
  storageInitialSocPct : Q;
  autoConnectEnabled : bool;
  autoConnectCount : Q;
  defaultDepartureTime : string;
  defaultTargetSocPct : Q;
  scenarioDurationSec : Q;
  scenarioResetPauseSec : Q;
  autoResetToBaseline : bool
}.

(** [x ?? d] *)
Definition orDefault (x d : value) : value :=
  match x with
  | VUndefined | VNull => d
  | _ => x
  end.

(** The two scenario options as [onReady] computes them from the raw
    adapter configuration:
    [scenarioDurationSec: clamp(this.config.scenarioDurationSec ?? 300, 30, 86400)],
    [scenarioResetPauseSec: clamp(this.config.scenarioResetPauseSec ?? 15, 0, 600)]. *)
Definition cfgScenarioDurationSec `{Host} (raw : value) : Q :=
  clampV (orDefault raw (VNum (Fin 300))) 30 86400.

Definition cfgScenarioResetPauseSec `{Host} (raw : value) : Q :=
  clampV (orDefault raw (VNum (Fin 15))) 0 600.

(** ** Catalog *)

Inductive Kind : Type := oneshot | timeline | suite.

(** An entry of [_scenarioDefinitions()]; the display texts [title] and
    [description] are left out. *)
Record Def : Type := mkDef {
  id : string;
  kind : Kind;
  duration_s : option Q
}.

Definition _scenarioDefinitions : list Def :=
  [ mkDef "suite_all_scenarios_5min" suite (Some 0);
    mkDef "suite_stop" suite (Some 0);
    mkDef "suite_smoke_all" timeline (Some 420);
    mkDef "suite_full_all" timeline (Some 1800);
    mkDef "baseline" oneshot None;
    mkDef "lm_6cars_deadline_0615" oneshot None;
    mkDef "lm_20mix_deadline_0615" oneshot None;
    mkDef "lm_50ports_deadline_0615" oneshot None;
    mkDef "lm_priorities_3tiers" oneshot None;
    mkDef "lm_arrival_wave_timeline" timeline (Some 600);
    mkDef "lm_departure_wave_timeline" timeline (Some 600);
    mkDef "pv_surplus_30cars" oneshot None;
    mkDef "pv_cloud_ramp_timeline" timeline (Some 600);
    mkDef "storage_soc0" oneshot None;
    mkDef "storage_soc100" oneshot None;
    mkDef "storage_power_limit_low" oneshot None;
    mkDef "tariff_flat_low_10ct" oneshot None;
    mkDef "tariff_pulse_timeline" timeline (Some 180);
    mkDef "tariff_extremes_timeline" timeline (Some 300);
    mkDef "grid_limit_drop_timeline" timeline (Some 240);
    mkDef "grid_14a_limit_timeline" timeline (Some 600);
    mkDef "base_load_spike_timeline" timeline (Some 300);
    mkDef "grid_blackout_60s_timeline" timeline (Some 150);
    mkDef "dc_rush_10" oneshot None;
    mkDef "dc_taper_single_400" oneshot None;
    mkDef "dc_all_ports_stress" oneshot None;
    mkDef "faults_evcs_faulted_5" oneshot None;
    mkDef "faults_evcs_unavailable_5" oneshot None;
    mkDef "faults_evcs_meter_freeze_3" oneshot None;
    mkDef "faults_clear_all" oneshot None;
    mkDef "fuzz_10min_medium" timeline (Some 600);
    mkDef "fuzz_30min_heavy" timeline (Some 1800);
    mkDef "ext_heatpump_30kw" oneshot None;
    mkDef "ext_chp_80kw" oneshot None;
    mkDef "ext_generator_200kw" oneshot None ].

(** ** Run state *)

(** [this._scenario].  [data] is the scenario's untyped working set, an
    object used as a map from field names to values; [last_applied] holds
    the time whose ISO text the source stores. *)
Record ScenarioState : Type := mkScenario {
  selected : string;
  active : string;
  running : bool;
  started_ms : Z;
  sc_duration_s : Q;
  ends_ms : Q;
  phase : string;
  status : string;
  last_applied : option Z;
  data : gmap string value;
  justFinished : bool;
  justFinishedId : string;
  justFinishedReason : string;
  reset_pending : bool;
  reset_at_ms : Q
}.

(** What [_buildScenarioReport] returns (before serialisation). *)
Record Summary : Type := mkSummary {
  sum_id : string;
  sum_kind : option Kind;
  sum_started_ms : option Z;
  sum_ended_ms : Z;
  sum_elapsed_s : Q;
  sum_configured_duration_s : option Q;
  sum_reason : string;
  sum_writes : WriteLog.Log;
  (** [suiteId], [index], [total] when a suite is running *)
  sum_suite : option (string * Z * nat)
}.

(** [this._report]; the two JSON texts are kept as the objects they
    serialise. *)
Record Report : Type := mkReport {
  rep_scenarioId : string;
  rep_started_ms : Z;
  writes : WriteLog.Log;
  last_json : option Summary;
  (** [total] and the results of the suite summary *)
  suite_json : option (nat * list Summary)
}.

(** [this._suite] *)
Record SuiteState : Type := mkSuite {
  su_running : bool;
  suiteId : string;
  queue : list string;
  index : Z;
  currentId : string;
  stage : string;
  su_started_ms : Z;
  pause_end_ms : Q;
  su_status : string;
  results : list Summary;
  last_error : string
}.

(** The adapter object, as far as the engine uses it. *)
Record Adapter : Type := mkAdapter {
  _model : option Model.t;
  _cfg : option Cfg;
  _rng : LcgRandom.t;
  _scenario : ScenarioState;
  _suite : SuiteState;
  _report : Report
}.

(** The values the constructor gives [_scenario], [_suite], [_report]. *)
Definition initialScenario : ScenarioState :=
  mkScenario "baseline" "baseline" false 0 0 0 "idle" "idle" None ∅
             false "" "" false 0.

Definition initialSuite : SuiteState :=
  mkSuite false "" [] (-1) "" "idle" 0 0 "idle" [] "".

Definition initialReport : Report := mkReport "" 0 ∅ None None.

(** ** Operations on the plant shared by setups and timelines *)

(** [String(n).padStart(2, '0')] for a non-negative integer. *)
Definition pad2 (n : Z) : string :=
  let digits := DecimalString.NilZero.string_of_uint (N.to_uint (Z.to_N n)) in
  if (String.length digits <? 2)%nat then String.append "0" digits else digits.

(** [`c${pad2(n)}`] *)
Definition chargerName (n : Z) : string := String.append "c" (pad2 n).

(** In-place change of [chargers[i]]. *)
Fixpoint updateAt (i : nat) (f : Charger.t -> Charger.t) (l : list Charger.t)
  : list Charger.t :=
  match l, i with
  | [], _ => []
  | c :: rest, O => f c :: rest
  | c :: rest, S k => c :: updateAt k f rest
  end.

Definition mapChargers (f : Charger.t -> Charger.t) (m : Model.t) : Model.t :=
  Command.setChargers m (map f (Model.evcs_chargers m)).

(** [[
_unplugAllChargers() {
    for (const ch of this._model.evcs.chargers) {
        ch.ctrl.plugged = false; ch.ctrl.enabled = false;
        ch.meas.power_kw = 0; ch.meas.energy_kwh = 0; ch.meas.status = 'Available';
    }
}
]] *)
Definition unplug (ch : Charger.t) : Charger.t :=
  Charger.set_meas "Available" 0 0
    (Charger.set_ctrl false (Charger.ctrl_limit_kw ch) false
       (Charger.ctrl_priority ch) ch).

Definition _unplugAllChargers (m : Model.t) : Model.t := mapChargers unplug m.

(** [_clearAllEvcsSimFlags()]: all three flags of every charger to false. *)
Definition _clearAllEvcsSimFlags (m : Model.t) : Model.t :=
  mapChargers (Charger.set_sim false false false) m.

(** [tmp = copy[i]; copy[i] = copy[j]; copy[j] = tmp].  The loop of
    [_randomSample] has [0 <= j <= i < copy.length], so both reads find an
    element. *)
Definition swap {A : Type} (i j : nat) (copy : list A) : list A :=
  match copy !! i, copy !! j with
  | Some x, Some y => <[j := x]> (<[i := y]> copy)
  | _, _ => copy
  end.

(** The rounds of the loop [for (let i = copy.length - 1; i > 0; i--)]
    from [i] down to 1. *)
Fixpoint shuffle {A : Type} (i : nat) (copy : list A) (rng : LcgRandom.t)
  : list A * LcgRandom.t :=
  match i with
  | O => (copy, rng)
  | S i' =>
      let '(u, rng1) := LcgRandom.next rng in
      let j := Z.to_nat (Qfloor (u * (inject_Z (Z.of_nat i) + 1))) in
      shuffle i' (swap i j copy) rng1
  end.

(** [[
_randomSample(arr, n) {
    const copy = Array.isArray(arr) ? arr.slice() : [];
    for (let i = copy.length - 1; i > 0; i--) {
        const j = Math.floor(this._rng.next() * (i + 1));
        const tmp = copy[i];
        copy[i] = copy[j];
        copy[j] = tmp;
    }
    return copy.slice(0, Math.max(0, Math.min(n, copy.length)));
}
]]
    for a whole number [n], as its three callers pass. *)
Definition _randomSample {A : Type} (arr : list A) (n : Z) (rng : LcgRandom.t)
  : list A * LcgRandom.t :=
  let '(copy, rng') := shuffle (length arr - 1) arr rng in
  (firstn (Z.to_nat (Z.max 0 (Z.min n (Z.of_nat (length copy))))) copy, rng').

Section WithHost.
Context `{Host}.

(** [[
_plugCharger(id, { soc_pct, capacity_kwh, target_soc_pct, departure_time, priority } = {}) {
    const ch = this._model.evcs.chargers.find(c => c.id === id);
    if (!ch) return;
    const now = new Date();
    ch.ctrl.plugged = true; ch.ctrl.enabled = true; ch.ctrl.limit_kw = ch.max_kw;
    if (priority !== undefined) ch.ctrl.priority = clamp(priority, 1, 10);
    if (soc_pct !== undefined) ch.vehicle.soc_pct = clamp(soc_pct, 0, 100);
    if (capacity_kwh !== undefined) ch.vehicle.capacity_kwh = clamp(capacity_kwh, 1, 1000);
    ch.vehicle.max_charge_kw = ch.max_kw;
    if (target_soc_pct !== undefined) ch.vehicle.target_soc_pct = clamp(target_soc_pct, 0, 100);
    if (departure_time !== undefined) ch.vehicle.departure_time = String(departure_time);
    ch.vehicle.departure_ts = parseDepartureToTimestamp(ch.vehicle.departure_time, now);
    ch.meas.power_kw = 0; ch.meas.energy_kwh = 0; ch.meas.status = 'Preparing';
    if (ch.sim) { ch.sim.faulted = false; ch.sim.unavailable = false; ch.sim.meter_freeze = false; }
}
]]
    An absent option is [None]. *)
Definition plug (now : Z) (soc_pct capacity_kwh target_soc_pct : option Q)
    (departure_time : option string) (priority : option Q) (ch : Charger.t)
  : Charger.t :=
  let pick (o : option Q) (lo hi old : Q) : Q :=
    match o with Some v => clamp v lo hi | None => old end in
  let dep := match departure_time with
             | Some d => d
             | None => Charger.vehicle_departure_time ch
             end in
  Charger.set_sim false false false
    (Charger.set_meas "Preparing" 0 0
       (Charger.set_vehicle (Charger.vehicle_id ch)
          (pick soc_pct 0 100 (Charger.vehicle_soc_pct ch))
          (pick capacity_kwh 1 1000 (Charger.vehicle_capacity_kwh ch))
          (Charger.max_kw ch)
          (pick target_soc_pct 0 100 (Charger.vehicle_target_soc_pct ch))
          dep
          (Departure.parseDepartureToTimestamp (VStr dep) now)
          (Charger.set_ctrl true (Charger.max_kw ch) true
             (pick priority 1 10 (Charger.ctrl_priority ch)) ch))).

Definition _plugCharger (now : Z) (cid : string)
    (soc_pct capacity_kwh target_soc_pct : option Q)
    (departure_time : option string) (priority : option Q) (m : Model.t)
  : Model.t :=
  match Command.updateCharger cid
          (plug now soc_pct capacity_kwh target_soc_pct departure_time priority)
          (Model.evcs_chargers m) with
  | Some l => Command.setChargers m l
  | None => m
  end.

(** The loop of [_resetToDefaultsModel] over the chargers, [i] counting
    from 0; each iteration draws twice. *)
Fixpoint resetChargers (cfg : Cfg) (now : Z) (i : Z) (l : list Charger.t)
    (rng : LcgRandom.t) : list Charger.t * LcgRandom.t :=
  match l with
  | [] => ([], rng)
  | ch :: rest =>
      let autoPlug := autoConnectEnabled cfg
                      && Qleb (inject_Z (i + 1)) (autoConnectCount cfg) in
      let '(r1, rng1) := LcgRandom.next rng in
      let '(r2, rng2) := LcgRandom.next rng1 in
      let ch' :=
        Charger.set_sim false false false
          (Charger.set_meas (if autoPlug then "Preparing" else "Available") 0 0
             (Charger.set_vehicle (Charger.vehicle_id ch)
                (clamp (10 + 60 * r1) 0 100)
                (clamp (40 + 50 * r2) 1 1000)
                (Charger.max_kw ch)
                (defaultTargetSocPct cfg)
                (defaultDepartureTime cfg)
                (Departure.parseDepartureToTimestamp
                   (VStr (defaultDepartureTime cfg)) now)
                (Charger.set_ctrl autoPlug (Charger.max_kw ch) autoPlug 5 ch))) in
      let '(rest', rng') := resetChargers cfg now (i + 1)%Z rest rng2 in
      (ch' :: rest', rng')
  end.

(** [_resetToDefaultsModel()] with model and configuration present. *)
Definition _resetToDefaultsModel (cfg : Cfg) (now : Z) (m : Model.t)
    (rng : LcgRandom.t) : Model.t * LcgRandom.t :=
  let g := Model.grid m in
  let tf := Model.tariff m in
  let pv := Model.pv m in
  let st := Model.storage m in
  let off (d : Device.t) := Device.mk (Device.power_kw d) false 0 in
  let '(chargers, rng') := resetChargers cfg now 0%Z (Model.evcs_chargers m) rng in
  (Model.mk
     (Grid.mk true (gridLimitKw cfg) (baseLoadKw cfg)
              (Grid.power_kw g) (Grid.over_limit g))
     (Tariff.mk Tariff.auto (Tariff.price_ct_per_kwh tf) (Tariff.price_next_24h tf))
     (PV.mk (pvInstalledKwp cfg) (pvWeatherFactor cfg) (PV.power_kw pv) false 0)
     (Storage.mk (storageCapacityKwh cfg) (storageMaxChargeKw cfg)
                 (storageMaxDischargeKw cfg) (storageInitialSocPct cfg)
                 (Storage.power_kw st) true 0)
     (off (Model.heatpump m)) (off (Model.chp m)) (off (Model.generator m))
     chargers,
   rng').

(** [[
_fuzzRandomEvent(intensity = 'medium') { ... }
]]
    One weighted random event.  [chargers[...]] always exists because the
    fleet has at least one charge point ([chargersCount >= 1]); on an empty
    list the model leaves the chargers as they are. *)
Definition _fuzzRandomEvent (heavy : bool) (m : Model.t) (rng : LcgRandom.t)
  : Model.t * LcgRandom.t :=
  let '(r, rng1) := LcgRandom.next rng in
  let chargers := Model.evcs_chargers m in
  let '(ri, rng2) := LcgRandom.next rng1 in
  let i := Z.to_nat (Qfloor (ri * inject_Z (Z.of_nat (length chargers)))) in
  let onCh (f : Charger.t -> Charger.t) := Command.setChargers m (updateAt i f chargers) in
  let g := Model.grid m in
  if Qltb r (25 # 100) then
    (* plug/unplug storm *)
    let '(rp, rng3) := LcgRandom.next rng2 in
    let doPlug := Qltb rp (6 # 10) in
    if doPlug then
      let '(n, rng4) := LcgRandom.normal rng3 0 1 in
      (onCh (fun ch =>
               Charger.set_meas "Preparing" (Charger.meas_power_kw ch)
                 (Charger.meas_energy_kwh ch)
                 (Charger.set_vehicle_soc_pct
                    (clamp (Charger.vehicle_soc_pct ch + n) 0 100)
                    (Charger.set_ctrl true (Charger.max_kw ch) true
                       (Charger.ctrl_priority ch) ch))),
       rng4)
    else
      (onCh (fun ch =>
               Charger.set_meas "Available" 0 (Charger.meas_energy_kwh ch)
                 (Charger.set_ctrl false (Charger.ctrl_limit_kw ch) false
                    (Charger.ctrl_priority ch) ch)),
       rng3)
  else if Qltb r (40 # 100) then
    (* grid limit swing *)
    let lo := if heavy then 10 else 20 in
    let hi := if heavy then 400 else 200 in
    let '(x, rng3) := LcgRandom.next rng2 in
    (Command.setGrid m
       (Grid.mk (Grid.available g) (clamp (lo + (hi - lo) * x) 1 5000)
                (Grid.base_load_kw g) (Grid.power_kw g) (Grid.over_limit g)),
     rng3)
  else if Qltb r (55 # 100) then
    (* base load fluctuation *)
    let lo := if heavy then 0 else 2 in
    let hi := if heavy then 150 else 80 in
    let '(x, rng3) := LcgRandom.next rng2 in
    (Command.setGrid m
       (Grid.mk (Grid.available g) (Grid.limit_kw g)
                (clamp (lo + (hi - lo) * x) 0 5000)
                (Grid.power_kw g) (Grid.over_limit g)),
     rng3)
  else if Qltb r (70 # 100) then
    (* PV override toggle + power *)
    let pv := Model.pv m in
    let '(x, rng3) := LcgRandom.next rng2 in
    let enable := Qltb x (7 # 10) in
    if enable then
      let '(y, rng4) := LcgRandom.next rng3 in
      (Command.setPv m
         (PV.mk (PV.installed_kwp pv) (PV.weather_factor pv) (PV.power_kw pv)
                true (clamp (50 + 600 * y) 0 100000)),
       rng4)
    else
      (Command.setPv m
         (PV.mk (PV.installed_kwp pv) (PV.weather_factor pv) (PV.power_kw pv)
                false (PV.override_power_kw pv)),
       rng3)
  else if Qltb r (85 # 100) then
    (* tariff shock *)
    let tf := Model.tariff m in
    let '(x, rng3) := LcgRandom.next rng2 in
    let price := if heavy then -50 + 350 * x else -20 + 220 * x in
    (Command.setTariff m
       (Tariff.mk Tariff.manual (clamp price (-500) 500) (Tariff.price_next_24h tf)),
     rng3)
  else
    (* fault injection / recovery *)
    let '(action, rng3) := LcgRandom.next rng2 in
    if Qltb action (15 # 100) then (_clearAllEvcsSimFlags m, rng3)
    else if Qltb action (55 # 100) then
      (onCh (Charger.set_sim true false false), rng3)
    else if Qltb action (80 # 100) then
      (onCh (Charger.set_sim false true false), rng3)
    else
      (onCh (fun ch =>
               let ch1 := Charger.set_sim false false true ch in
               if Qltb (Charger.meas_power_kw ch) (5 # 10)
               then Charger.set_meas "Charging"
                      (clamp (Math_min (Charger.max_kw ch)
                                       (10 + (3 # 10) * Charger.max_kw ch))
                             0 (Charger.max_kw ch))
                      (Charger.meas_energy_kwh ch) ch1
               else ch1),
       rng3).

End WithHost.

(** ** Scenario setups *)

(** The setup routines the stage guards of the timelines call, with their
    arguments. *)
Inductive Routine : Type :=
| SuiteSmokeSetup | SuiteFullSetup
| Lm6CarsDeadline | Lm20MixedDeadline | Lm50PortsDeadline | LmPriorities3tiers
| LmArrivalWaveSetup | LmDepartureWaveSetup
| PvSurplus30Cars | PvCloudRampSetup
| StorageSoc (socPct : Q) | StoragePowerLimitLow
| TariffFlatLow10ct | TariffPulseTimelineSetup | TariffExtremesTimelineSetup
| GridLimitDropTimelineSetup | Grid14aLimitTimelineSetup
| BaseLoadSpikeTimelineSetup | GridBlackoutTimelineSetup
| DcRush10 | DcTaperSingle400 | DcAllPortsStress
| FaultsEvcsFaulted (count : Z) | FaultsEvcsUnavailable (count : Z)
| FaultsEvcsMeterFreeze (count : Z)
| FuzzSetup (intensity : string) (duration_s : Q)
| ExternalHeatpump (powerKw : Q) | ExternalChp (powerKw : Q)
| ExternalGenerator (powerKw : Q).

(** What a setup routine leaves: the plant, the generator and, when the
    routine assigns [this._scenario.data = {...}], the new object.  The
    routines read the configuration and the clock, write the plant model,
    draw from the generator and assign a fresh working set; they touch no
    other field of [this._scenario], [this._suite] or [this._report]. *)
Definition SetupResult : Type := (Model.t * LcgRandom.t * option (gmap string value))%type.

(** The interpretation of the routines is a parameter of the engine. *)
Class Setups : Type := {
  runSetup : Routine -> option Cfg -> Z -> Model.t -> LcgRandom.t -> SetupResult
}.

(** String helpers for the status texts. *)
Definition cat (l : list string) : string := fold_right String.append EmptyString l.

Section Engine.
Context `{Host} `{Setups}.

(** [`${q}`] *)
Definition str (q : Q) : string := NumberToString (Fin q).
Definition strZ (z : Z) : string := NumberToString (Fin (inject_Z z)).

(** [q.toFixed(0)] *)
Definition toFixed0 (q : Q) : string :=
  str (if Qltb q 0 then - inject_Z (Qfloor (- q + (1 # 2)))
       else inject_Z (Qfloor (q + (1 # 2)))).

(** [this._cfg?.scenarioResetPauseSec ?? 0] *)
Definition pauseSec (cfg : option Cfg) : Q :=
  match cfg with Some c => scenarioResetPauseSec c | None => 0 end.

(** [this._report.scenarioId = ''; this._report.started_ms = 0; this._report.writes = {};] *)
Definition resetReport (r : Report) : Report :=
  mkReport "" 0 ∅ (last_json r) (suite_json r).

(** ** Calls that throw *)

(** How a call ends: it returns, or an exception leaves it.  The state
    that comes with [Threw] is the adapter as the statements before the
    throwing one have left it. *)
Inductive Outcome : Type := Returned | Threw.

(** [first; then]: the statements after a call run only when it returns. *)
Definition andThen (r : Adapter * Outcome) (f : Adapter -> Adapter * Outcome)
  : Adapter * Outcome :=
  match r with
  | (a, Returned) => f a
  | (a, Threw) => (a, Threw)
  end.

(** [this._normalizeScenarioId(value)]: the class of [main.js] calls this
    method in five places and defines it nowhere, so the property is
    [undefined] and every call throws a [TypeError]; the arguments of the
    five calls are plain reads. *)
Definition _normalizeScenarioId (value : value) (a : Adapter) : Adapter * Outcome :=
  (a, Threw).

Definition withStatus (s : string) (a : Adapter) : Adapter :=
  let sc := _scenario a in
  mkAdapter (_model a) (_cfg a) (_rng a)
    (mkScenario (selected sc) (active sc) (running sc) (started_ms sc)
       (sc_duration_s sc) (ends_ms sc) (phase sc) s
       (last_applied sc) (data sc) (justFinished sc) (justFinishedId sc)
       (justFinishedReason sc) (reset_pending sc) (reset_at_ms sc))
    (_suite a) (_report a).

(** [[
async _applyScenario(scenarioId, { start } = { start: false }) {
    if (!this._model || !this._cfg) {
        this._scenario.status = 'model not ready';
        await this._publishScenarioStates();
        return;
    }
    const id = this._normalizeScenarioId(scenarioId);
    const nowMs = Date.now();
    this._scenario.selected = id;
    ... (the setup switch, the run fields, the report)
}
]]
    On a ready adapter the first statement after the guard throws, so
    nothing of the rest of the body is ever run.  The publishing calls
    only read the state and write the publisher's cache; they are left out
    here and in the functions below. *)
Definition _applyScenario (scenarioId : value) (start : bool) (a : Adapter)
  : Adapter * Outcome :=
  match _model a, _cfg a with
  | Some _, Some _ => _normalizeScenarioId scenarioId a
  | _, _ => (withStatus "model not ready" a, Returned)
  end.

(** [[
async _initScenarioStates() {
    try {
        const sel = await this.getStateAsync('scenario.selected');
        this._scenario.selected = this._normalizeScenarioId(sel?.val ?? 'baseline');
        ... (run fields, suite and report set to their initial values)
    } catch (err) {
        this.log.warn(`initScenarioStates failed: ${err?.message || err}`);
    }
}
]]
    The adapter it leaves, and whether a failure was logged. *)
Definition _initScenarioStates (sel : option value) (a : Adapter) : Adapter * bool :=
  let arg := match sel with
             | Some VUndefined | Some VNull | None => VStr "baseline"
             | Some v => v
             end in
  match _normalizeScenarioId arg a with
  | (a', Threw) => (a', true)
  | (a', Returned) => (a', false)
  end.

(** [[
async _stopScenario(reason = 'user') {
    this._scenario.running = false; this._scenario.started_ms = 0;
    this._scenario.duration_s = 0;  this._scenario.ends_ms = 0;
    this._scenario.justFinished = false; this._scenario.justFinishedId = '';
    this._scenario.justFinishedReason = '';
    this._scenario.reset_pending = false; this._scenario.reset_at_ms = 0;
    this._scenario.phase = 'stopped';
    this._scenario.status = `stopped (${reason})`;
    this._report.scenarioId = ''; this._report.started_ms = 0; this._report.writes = {};
}
]] *)
Definition _stopScenario (reason : string) (a : Adapter) : Adapter :=
  let sc := _scenario a in
  mkAdapter (_model a) (_cfg a) (_rng a)
    (mkScenario (selected sc) (active sc) false 0 0 0
       "stopped" (cat ["stopped ("; reason; ")"])
       (last_applied sc) (data sc) false "" "" false 0)
    (_suite a) (resetReport (_report a)).

(** ** Timelines *)

(** [data.k], [undefined] for an absent field. *)
Definition dget (d : gmap string value) (k : string) : value :=
  match d !! k with Some v => v | None => VUndefined end.

Definition isUndefined (v : value) : bool :=
  match v with VUndefined => true | _ => false end.

(** [Number(data.k ?? def)] *)
Definition dnum (d : gmap string value) (k : string) (def : Q) : num :=
  Number (orDefault (dget d k) (VNum (Fin def))).

(** [q >= v] and [v <= q] for a number [q] and a stored value [v]. *)
Definition geValue (q : Q) (v : value) : bool :=
  match Number v with
  | Fin b => Qleb b q
  | NInf => true
  | PInf | NaN => false
  end.

Definition leValue (v : value) (q : Q) : bool := geValue q v.

(** the finite number a stored value converts to (0 otherwise) *)
Definition numberOf (v : value) : Q :=
  match Number v with Fin q => q | _ => 0 end.

(** [data.k += 1] on a numeric field *)
Definition increment (d : gmap string value) (k : string) : gmap string value :=
  <[k := VNum (Fin (numberOf (dget d k) + 1))]> d.

(** [if (data.k === undefined) data.k = def;] *)
Definition initField (k : string) (def : Q) (d : gmap string value)
  : gmap string value :=
  if isUndefined (dget d k) then <[k := VNum (Fin def)]> d else d.

(** The state a timeline works on.  [tl_local] is the object the local
    constant [data] refers to; [tl_field] is [Some d] once a setup routine
    has assigned a new object [d] to [this._scenario.data], which the local
    constant does not follow. *)
Record TL : Type := mkTL {
  tl_model : Model.t;
  tl_rng : LcgRandom.t;
  tl_local : gmap string value;
  tl_field : option (gmap string value)
}.

Definition withModel (f : Model.t -> Model.t) (t : TL) : TL :=
  mkTL (f (tl_model t)) (tl_rng t) (tl_local t) (tl_field t).

Definition withLocal (f : gmap string value -> gmap string value) (t : TL) : TL :=
  mkTL (tl_model t) (tl_rng t) (f (tl_local t)) (tl_field t).

Definition setLimit (q : Q) (m : Model.t) : Model.t :=
  let g := Model.grid m in
  Command.setGrid m (Grid.mk (Grid.available g) q (Grid.base_load_kw g)
                             (Grid.power_kw g) (Grid.over_limit g)).

Definition setBaseLoad (q : Q) (m : Model.t) : Model.t :=
  let g := Model.grid m in
  Command.setGrid m (Grid.mk (Grid.available g) (Grid.limit_kw g) q
                             (Grid.power_kw g) (Grid.over_limit g)).

Definition setAvailable (b : bool) (m : Model.t) : Model.t :=
  let g := Model.grid m in
  Command.setGrid m (Grid.mk b (Grid.limit_kw g) (Grid.base_load_kw g)
                             (Grid.power_kw g) (Grid.over_limit g)).

Definition setTariffMode (md : Tariff.Mode) (m : Model.t) : Model.t :=
  let tf := Model.tariff m in
  Command.setTariff m (Tariff.mk md (Tariff.price_ct_per_kwh tf)
                                 (Tariff.price_next_24h tf)).

Definition setPrice (q : Q) (m : Model.t) : Model.t :=
  let tf := Model.tariff m in
  Command.setTariff m (Tariff.mk (Tariff.mode tf) q (Tariff.price_next_24h tf)).

Definition setOverride (en : bool) (m : Model.t) : Model.t :=
  let pv := Model.pv m in
  Command.setPv m (PV.mk (PV.installed_kwp pv) (PV.weather_factor pv)
                         (PV.power_kw pv) en (PV.override_power_kw pv)).

Definition setOverridePower (q : Q) (m : Model.t) : Model.t :=
  let pv := Model.pv m in
  Command.setPv m (PV.mk (PV.installed_kwp pv) (PV.weather_factor pv)
                         (PV.power_kw pv) (PV.override_enabled pv) q).

(** A named setup routine run from a timeline. *)
Definition callSetup (r : Routine) (cfg : option Cfg) (now : Z) (t : TL) : TL :=
  let '(m, rng, d) := runSetup r cfg now (tl_model t) (tl_rng t) in
  mkTL m rng (tl_local t)
       (match d with Some d' => Some d' | None => tl_field t end).

(** [_resetToDefaultsModel(); _unplugAllChargers(); _clearAllEvcsSimFlags();] *)
Definition resetAll (cfg : option Cfg) (now : Z) (t : TL) : TL :=
  let '(m, rng) :=
    match cfg with
    | Some c => _resetToDefaultsModel c now (tl_model t) (tl_rng t)
    | None => (tl_model t, tl_rng t)
    end in
  mkTL (_clearAllEvcsSimFlags (_unplugAllChargers m)) rng (tl_local t) (tl_field t).

(** [[
const enterStage = (stage, fn) => {
    if (data.stage !== stage) { fn(); data.stage = stage; }
};
]] *)
Definition enterStage (stage : string) (fn : TL -> TL) (t : TL) : TL :=
  if Publisher.strictEq (dget (tl_local t) "stage") (VStr stage) then t
  else withLocal (<["stage" := VStr stage]>) (fn t).

(** The plug of the arrival waves:
    [_plugCharger(cid, { soc_pct: clamp(10 + 60 * next(), 0, 100),
       capacity_kwh: clamp(45 + 55 * next(), 1, 1000), target_soc_pct: 100,
       departure_time: '06:15', priority: 5 })] *)
Definition plugArrival (now : Z) (n : Q) (t : TL) : TL :=
  let '(r1, rng1) := LcgRandom.next (tl_rng t) in
  let '(r2, rng2) := LcgRandom.next rng1 in
  mkTL (_plugCharger now (chargerName (Qfloor n))
          (Some (clamp (10 + 60 * r1) 0 100))
          (Some (clamp (45 + 55 * r2) 1 1000))
          (Some 100) (Some "06:15"%string) (Some 5) (tl_model t))
       rng2 (tl_local t) (tl_field t).

Definition chargersLength (t : TL) : Q :=
  inject_Z (Z.of_nat (length (Model.evcs_chargers (tl_model t)))).

Definition count (p : Charger.t -> bool) (t : TL) : Z :=
  Z.of_nat (length (List.filter p (Model.evcs_chargers (tl_model t)))).

(** [for (let i = 0; i < events; i++) this._fuzzRandomEvent(intensity);] *)
Fixpoint fuzzEvents (events : nat) (heavy : bool) (t : TL) : TL :=
  match events with
  | O => t
  | S k =>
      let '(m, rng) := _fuzzRandomEvent heavy (tl_model t) (tl_rng t) in
      fuzzEvents k heavy (mkTL m rng (tl_local t) (tl_field t))
  end.

(** ['done'] or ['running'], the local [phase] of [_runScenarioTimeline] *)
Inductive LocalPhase : Type := PhaseRunning | PhaseDone.

(** A timeline of plain stages: the limit of each stage with what the
    stage does to the plant and its status text; after the last stage the
    timeline mutates nothing and sets [phase = 'done']. *)
Fixpoint staged (stages : list (Q * (Model.t -> Model.t) * string))
    (elapsed : Q) (t : TL) (status : string) : TL * string * LocalPhase :=
  match stages with
  | [] => (t, status, PhaseDone)
  | (limit, f, text) :: rest =>
      if Qltb elapsed limit then (withModel f t, text, PhaseRunning)
      else staged rest elapsed t status
  end.

(** The [switch (id)] of [_runScenarioTimeline]: the state after the case,
    the local [status] and the local [phase]. *)
Definition timelineCase (cfg : option Cfg) (now : Z) (id : string) (elapsed : Q)
    (t : TL) : TL * string * LocalPhase :=
  let status := cat ["running "; id] in
  if String.eqb id "grid_limit_drop_timeline" then
    staged [ (60, setLimit 80, "grid limit = 80 kW (normal)"%string);
             (180, setLimit 25, "grid limit = 25 kW (drop active)"%string);
             (240, setLimit 80, "grid limit restored = 80 kW"%string) ]
           elapsed t status
  else if String.eqb id "grid_14a_limit_timeline" then
    staged [ (60, setLimit 40, "curtailment inactive (limit 40 kW)"%string);
             (300, setLimit 10, "curtailment active (limit 10 kW)"%string);
             (600, setLimit 40, "curtailment ended (limit 40 kW)"%string) ]
           elapsed t status
  else if String.eqb id "base_load_spike_timeline" then
    staged [ (60, setBaseLoad 8, "base load = 8 kW"%string);
             (120, setBaseLoad 25, "base load spike = 25 kW"%string);
             (180, setBaseLoad 60, "base load spike = 60 kW"%string);
             (240, setBaseLoad 15, "base load = 15 kW"%string);
             (300, setBaseLoad 8, "base load back to normal"%string) ]
           elapsed t status
  else if String.eqb id "tariff_pulse_timeline" then
    staged [ (60, setPrice 10, "tariff = 10 ct/kWh (low)"%string);
             (120, setPrice 120, "tariff = 120 ct/kWh (high)"%string);
             (180, setPrice 10, "tariff = 10 ct/kWh (low again)"%string) ]
           elapsed (withModel (setTariffMode Tariff.manual) t) status
  else if String.eqb id "tariff_extremes_timeline" then
    staged [ (80, setPrice (-20), "tariff = -20 ct/kWh (negative)"%string);
             (160, setPrice 200, "tariff = 200 ct/kWh (very high)"%string);
             (240, setPrice 30, "tariff = 30 ct/kWh (normal)"%string) ]
           elapsed (withModel (setTariffMode Tariff.manual) t) status
  else if String.eqb id "pv_cloud_ramp_timeline" then
    let maxPv := clampNum (dnum (tl_local t) "max_pv_kw" 550) 0 100000 in
    let wave := (5 # 10) + (5 # 10) * Math_sin ((2 * Math_PI * elapsed) / 120) in
    let ripple := (85 # 100) + (15 # 100) * Math_sin ((2 * Math_PI * elapsed) / 37) in
    let dip := if Qltb (92 # 100) (Math_sin ((2 * Math_PI * elapsed) / 90))
               then 25 # 100 else 1 in
    let pv := clamp (maxPv * wave * ripple * dip) 0 100000 in
    (withModel (fun m => setOverridePower pv (setOverride true m)) t,
     cat ["PV clouds: "; toFixed0 pv; " kW (override)"],
     if Qleb 600 elapsed then PhaseDone else PhaseRunning)
  else if String.eqb id "lm_arrival_wave_timeline" then
    let total := clampNum (dnum (tl_local t) "total" 20) 1 (chargersLength t) in
    let interval := clampNum (dnum (tl_local t) "interval_s" 10) 1 120 in
    let t1 := withLocal (fun d => initField "next_at_s" 0 (initField "next_index" 1 d)) t in
    let d1 := tl_local t1 in
    let t2 :=
      if geValue elapsed (dget d1 "next_at_s") && leValue (dget d1 "next_index") total
      then withLocal (fun d => <["next_at_s" := VNum (Fin (elapsed + interval))]>
                                 (increment d "next_index"))
                     (plugArrival now (numberOf (dget d1 "next_index")) t1)
      else t1 in
    (t2,
     cat ["arrival wave: plugged ";
          str (Math_min total (numberOf (dget (tl_local t2) "next_index") - 1));
          "/"; str total],
     if Qleb 600 elapsed then PhaseDone else PhaseRunning)
  else if String.eqb id "lm_departure_wave_timeline" then
    let total := clampNum (dnum (tl_local t) "total" 20) 1 (chargersLength t) in
    let interval := clampNum (dnum (tl_local t) "interval_s" 12) 1 120 in
    let t1 := withLocal (fun d => initField "next_at_s" 20 (initField "next_unplug" 1 d)) t in
    let d1 := tl_local t1 in
    let t2 :=
      if geValue elapsed (dget d1 "next_at_s") && leValue (dget d1 "next_unplug") total
      then
        let cid := chargerName (Qfloor (numberOf (dget d1 "next_unplug"))) in
        let leave (ch : Charger.t) :=
          Charger.set_meas "Available" 0 (Charger.meas_energy_kwh ch)
            (Charger.set_ctrl false (Charger.ctrl_limit_kw ch) false
               (Charger.ctrl_priority ch) ch) in
        withLocal (fun d => <["next_at_s" := VNum (Fin (elapsed + interval))]>
                              (increment d "next_unplug"))
          (withModel (fun m =>
                        match Command.updateCharger cid leave (Model.evcs_chargers m) with
                        | Some l => Command.setChargers m l
                        | None => m
                        end) t1)
      else t1 in
    (t2,
     cat ["departure wave: unplugged ";
          str (Math_min total (numberOf (dget (tl_local t2) "next_unplug") - 1));
          "/"; str total],
     if Qleb 600 elapsed then PhaseDone else PhaseRunning)
  else if String.eqb id "grid_blackout_60s_timeline" then
    staged [ (30, setAvailable true, "grid up (pre)"%string);
             (90, setAvailable false, "grid blackout (active)"%string);
             (150, setAvailable true, "grid recovered"%string) ]
           elapsed t status
  else if String.eqb id "fuzz_10min_medium" || String.eqb id "fuzz_30min_heavy" then
    let isHeavyId := String.eqb id "fuzz_30min_heavy" in
    let intensity :=
      if isHeavyId then VStr "heavy"
      else orDefault (dget (tl_local t) "intensity") (VStr "medium") in
    let heavy := Publisher.strictEq intensity (VStr "heavy") in
    let duration :=
      clampNum (dnum (tl_local t) "duration_s" (if isHeavyId then 1800 else 600))
               10 100000 in
    let interval :=
      clampNum (dnum (tl_local t) "interval_s" (if heavy then 1 else 5)) 1 120 in
    let t1 := withLocal (initField "next_event_s" 0) t in
    let t2 :=
      if geValue elapsed (dget (tl_local t1) "next_event_s")
      then withLocal (<["next_event_s" := VNum (Fin (elapsed + interval))]>)
                     (fuzzEvents (if heavy then 2 else 1) heavy t1)
      else t1 in
    let g := Model.grid (tl_model t2) in
    (t2,
     cat ["fuzz("; ToString intensity; "): gridLimit="; toFixed0 (Grid.limit_kw g);
          " kW, baseLoad="; toFixed0 (Grid.base_load_kw g);
          " kW, faults="; strZ (count Charger.sim_faulted t2);
          ", offline="; strZ (count Charger.sim_unavailable t2);
          ", frozen="; strZ (count Charger.sim_meter_freeze t2)],
     if Qleb duration elapsed then PhaseDone else PhaseRunning)
  else if String.eqb id "suite_smoke_all" then
    if Qltb elapsed 10 then
      (enterStage "baseline" (resetAll cfg now) t,
       "suite smoke: baseline"%string, PhaseRunning)
    else if Qltb elapsed 70 then
      (enterStage "lm6" (callSetup Lm6CarsDeadline cfg now) t,
       "suite smoke: LM6 deadline"%string, PhaseRunning)
    else if Qltb elapsed 130 then
      let t1 := enterStage "tariff" (callSetup TariffPulseTimelineSetup cfg now) t in
      let tt := elapsed - 70 in
      let price := if Qltb tt 20 then 10 else if Qltb tt 40 then 120 else 10 in
      (withModel (fun m => setPrice price (setTariffMode Tariff.manual m)) t1,
       cat ["suite smoke: tariff pulse ("; str price; " ct/kWh)"], PhaseRunning)
    else if Qltb elapsed 190 then
      let t1 := enterStage "grid_drop" (callSetup GridLimitDropTimelineSetup cfg now) t in
      let tt := elapsed - 130 in
      let limit := if Qltb tt 20 then 80 else if Qltb tt 40 then 25 else 80 in
      (withModel (setLimit limit) t1,
       cat ["suite smoke: grid limit "; str limit; " kW"], PhaseRunning)
    else if Qltb elapsed 280 then
      (enterStage "pv_surplus" (callSetup PvSurplus30Cars cfg now) t,
       "suite smoke: PV surplus (override)"%string, PhaseRunning)
    else if Qltb elapsed 350 then
      (enterStage "dc_rush" (callSetup DcRush10 cfg now) t,
       "suite smoke: DC rush"%string, PhaseRunning)
    else if Qltb elapsed 410 then
      (enterStage "faults" (callSetup (FaultsEvcsFaulted 5) cfg now) t,
       "suite smoke: fault injection (5 faulted)"%string, PhaseRunning)
    else if Qltb elapsed 420 then
      (enterStage "cleanup" (withModel _clearAllEvcsSimFlags) t,
       "suite smoke: cleanup"%string, PhaseRunning)
    else (t, status, PhaseDone)
  else if String.eqb id "suite_full_all" then
    if Qltb elapsed 30 then
      (enterStage "baseline"
         (fun t0 => withModel (fun m => setOverride false (setBaseLoad 10 (setLimit 80 m)))
                      (resetAll cfg now t0)) t,
       "suite full: baseline"%string, PhaseRunning)
    else if Qltb elapsed 630 then
      let t1 :=
        enterStage "arrival"
          (fun t0 =>
             withLocal (fun d => <["arrival_total" :=
                                     orDefault (dget d "total") (VNum (Fin 30))]> d)
                       (callSetup LmArrivalWaveSetup cfg now t0)) t in
      let total := Math_min 30 (chargersLength t1) in
      let t2 := withLocal (fun d => initField "arrival_next_at" 30
                                      (initField "arrival_next" 1 d)) t1 in
      let d2 := tl_local t2 in
      let t3 :=
        if geValue elapsed (dget d2 "arrival_next_at")
           && leValue (dget d2 "arrival_next") total
        then withLocal (fun d => <["arrival_next_at" := VNum (Fin (elapsed + 10))]>
                                   (increment d "arrival_next"))
                       (plugArrival now (numberOf (dget d2 "arrival_next")) t2)
        else t2 in
      (t3,
       cat ["suite full: arrival wave (";
            str (Math_min total (numberOf (dget (tl_local t3) "arrival_next") - 1));
            "/"; str total; ")"],
       PhaseRunning)
    else if Qltb elapsed 1230 then
      let t1 := enterStage "pv_clouds" (callSetup PvCloudRampSetup cfg now) t in
      let wave := (5 # 10) + (5 # 10) * Math_sin ((2 * Math_PI * (elapsed - 630)) / 180) in
      let dip := if Qltb (92 # 100) (Math_sin ((2 * Math_PI * (elapsed - 630)) / 75))
                 then 3 # 10 else 1 in
      let pv := clamp (550 * wave * dip) 0 100000 in
      (withModel (fun m => setOverridePower pv (setOverride true m)) t1,
       cat ["suite full: PV clouds ("; toFixed0 pv; " kW)"], PhaseRunning)
    else if Qltb elapsed 1470 then
      let t1 := enterStage "tariff_extremes"
                  (withModel (fun m => setPrice (-20) (setTariffMode Tariff.manual m))) t in
      let tt := elapsed - 1230 in
      let price := if Qltb tt 80 then -20 else if Qltb tt 160 then 200 else 30 in
      (withModel (fun m => setPrice price (setTariffMode Tariff.manual m)) t1,
       cat ["suite full: tariff "; str price; " ct/kWh"], PhaseRunning)
    else if Qltb elapsed 1770 then
      let t1 :=
        enterStage "fuzz"
          (withLocal (fun d => <["interval_s" := VNum (Fin 5)]>
                                 (<["next_event_s" := VNum (Fin elapsed)]>
                                    (<["fuzz_intensity" := VStr "medium"]> d)))) t in
      let t2 :=
        if geValue elapsed (dget (tl_local t1) "next_event_s")
        then withLocal (<["next_event_s" := VNum (Fin (elapsed + 5))]>)
                       (fuzzEvents 1 false t1)
        else t1 in
      (t2, "suite full: fuzz (medium)"%string, PhaseRunning)
    else if Qltb elapsed 1800 then
      (enterStage "cleanup" (withModel _clearAllEvcsSimFlags) t,
       "suite full: cleanup"%string, PhaseRunning)
    else (t, status, PhaseDone)
  else (t, status, PhaseRunning).

(** [[
_runScenarioTimeline(nowMs, dtSec, now) {
    if (!this._scenario.running || !this._model) return;
    if (!this._scenario.started_ms) return;
    const elapsed = (nowMs - this._scenario.started_ms) / 1000;
    const id = this._scenario.active;
    const data = this._scenario.data || (this._scenario.data = {});
    let status = `running ${id}`;
    let phase = 'running';
    switch (id) { ... }
    const duration = Number(this._scenario.duration_s) || 0;
    if (phase === 'done' && duration > 0 && elapsed < duration) {
        phase = 'running';
        status = `${status} (stabilisiert)`;
    }
    this._scenario.status = status;
    this._scenario.phase = phase;
    if (duration > 0 && elapsed >= duration) {
        this._scenario.running = false;
        this._scenario.started_ms = 0;
        this._scenario.ends_ms = 0;
        this._scenario.phase = 'done';
        this._scenario.status = `done ${id}`;
        this._scenario.justFinished = true;
        this._scenario.justFinishedId = id;
        this._scenario.justFinishedReason = 'timeout';
    }
}
]]
    ([dtSec] and [now] are not used by the body.) *)
Definition elapsedOf (nowMs : Z) (sc : ScenarioState) : Q :=
  inject_Z (nowMs - started_ms sc) / 1000.

Definition phaseText (p : LocalPhase) : string :=
  match p with PhaseRunning => "running" | PhaseDone => "done" end.

Definition _runScenarioTimeline (nowMs : Z) (a : Adapter) : Adapter :=
  let sc := _scenario a in
  match _model a with
  | None => a
  | Some m =>
      if negb (running sc) then a
      else if (started_ms sc =? 0)%Z then a
      else
        let elapsed := elapsedOf nowMs sc in
        let id := active sc in
        let '(t, status, ph) :=
          timelineCase (_cfg a) nowMs id elapsed
                       (mkTL m (_rng a) (data sc) None) in
        let data' := match tl_field t with Some d => d | None => tl_local t end in
        let duration := sc_duration_s sc in
        let stabilised := match ph with
                          | PhaseDone => Qltb 0 duration && Qltb elapsed duration
                          | PhaseRunning => false
                          end in
        let ph1 := if stabilised then PhaseRunning else ph in
        let status1 := if stabilised then cat [status; " (stabilisiert)"] else status in
        let sc1 :=
          if Qltb 0 duration && Qleb duration elapsed then
            mkScenario (selected sc) (active sc) false 0 (sc_duration_s sc) 0
                       "done" (cat ["done "; id]) (last_applied sc) data'
                       true id "timeout" (reset_pending sc) (reset_at_ms sc)
          else
            mkScenario (selected sc) (active sc) (running sc) (started_ms sc)
                       (sc_duration_s sc) (ends_ms sc)
                       (phaseText ph1) status1 (last_applied sc) data'
                       (justFinished sc) (justFinishedId sc) (justFinishedReason sc)
                       (reset_pending sc) (reset_at_ms sc) in
        mkAdapter (Some (tl_model t)) (_cfg a) (tl_rng t) sc1 (_suite a) (_report a)
  end.

(** ** Reports *)

(** [Number(x.toFixed(1))] *)
Definition toFixed1 (x : Q) : Q :=
  if Qltb x 0
  then - (inject_Z (Qfloor (- x * 10 + (1 # 2))) / 10)
  else inject_Z (Qfloor (x * 10 + (1 # 2))) / 10.

Definition nonEmpty (s : string) : bool := negb (String.eqb s EmptyString).

(** [a || b] on strings *)
Definition orString (a b : string) : string := if nonEmpty a then a else b.

(** [_buildScenarioReport(nowMs, reason)] *)
Definition _buildScenarioReport (nowMs : Z) (reason : string) (a : Adapter) : Summary :=
  let id := orString (rep_scenarioId (_report a)) (active (_scenario a)) in
  let def := List.find (fun d => String.eqb (Scenario.id d) id) _scenarioDefinitions in
  let started := rep_started_ms (_report a) in
  let elapsed := if (started =? 0)%Z then 0 else inject_Z (nowMs - started) / 1000 in
  mkSummary id
    (match def with Some d => Some (kind d) | None => None end)
    (if (started =? 0)%Z then None else Some started)
    nowMs (toFixed1 elapsed)
    (match _cfg a with Some c => Some (scenarioDurationSec c) | None => None end)
    reason (writes (_report a))
    (if su_running (_suite a)
     then Some (suiteId (_suite a), index (_suite a), length (queue (_suite a)))
     else None).

Definition withId (id : string) (s : Summary) : Summary :=
  mkSummary id (sum_kind s) (sum_started_ms s) (sum_ended_ms s) (sum_elapsed_s s)
            (sum_configured_duration_s s) (sum_reason s) (sum_writes s) (sum_suite s).

(** [[
async _handleScenarioFinished(nowMs) {
    if (!this._scenario.justFinished) return;
    const finishedId = this._scenario.justFinishedId || this._scenario.active;
    const reason = this._scenario.justFinishedReason || 'timeout';
    const summary = this._buildScenarioReport(nowMs, reason);
    summary.scenario.id = finishedId;
    this._report.last_json = JSON.stringify(summary, null, 2);
    if (this._suite && this._suite.running && this._suite.stage === 'scenario'
        && this._suite.currentId === finishedId) {
        this._suite.results.push(summary);
        await this._applyScenario('baseline', { start: false });
        this._suite.stage = 'pause';
        this._suite.currentId = '';
        this._suite.pause_end_ms = nowMs + ((this._cfg?.scenarioResetPauseSec ?? 0) * 1000);
        this._suite.status = `pause (${this._suite.index + 1}/${this._suite.queue.length})`;
    } else {
        if (this._cfg && this._cfg.autoResetToBaseline) {
            this._scenario.reset_pending = true;
            this._scenario.reset_at_ms = nowMs + ((this._cfg?.scenarioResetPauseSec ?? 0) * 1000);
            this._scenario.status = `done ${finishedId} (auto reset in ${...}s)`;
        }
    }
    this._scenario.justFinished = false;
    this._scenario.justFinishedId = '';
    this._scenario.justFinishedReason = '';
    this._report.scenarioId = '';
}
]] *)
Definition clearFinished (a : Adapter) : Adapter :=
  let sc := _scenario a in
  let r := _report a in
  mkAdapter (_model a) (_cfg a) (_rng a)
    (mkScenario (selected sc) (active sc) (running sc) (started_ms sc)
       (sc_duration_s sc) (ends_ms sc) (phase sc) (status sc) (last_applied sc)
       (data sc) false "" "" (reset_pending sc) (reset_at_ms sc))
    (_suite a)
    (mkReport "" (rep_started_ms r) (writes r) (last_json r) (suite_json r)).

(** the four assignments to [this._suite] after the reset of the suite
    branch *)
Definition toPause (nowMs : Z) (a : Adapter) : Adapter :=
  let su := _suite a in
  mkAdapter (_model a) (_cfg a) (_rng a) (_scenario a)
    (mkSuite (su_running su) (suiteId su) (queue su) (index su)
       "" "pause" (su_started_ms su)
       (inject_Z nowMs + pauseSec (_cfg a) * 1000)
       (cat ["pause ("; strZ (index su + 1); "/";
             strZ (Z.of_nat (length (queue su))); ")"])
       (results su) (last_error su))
    (_report a).

Definition _handleScenarioFinished (nowMs : Z) (a : Adapter) : Adapter * Outcome :=
  let sc := _scenario a in
  if negb (justFinished sc) then (a, Returned)
  else
    let finishedId := orString (justFinishedId sc) (active sc) in
    let reason := orString (justFinishedReason sc) "timeout" in
    let summary := withId finishedId (_buildScenarioReport nowMs reason a) in
    let r := _report a in
    let a1 := mkAdapter (_model a) (_cfg a) (_rng a) sc (_suite a)
                (mkReport (rep_scenarioId r) (rep_started_ms r) (writes r)
                          (Some summary) (suite_json r)) in
    let su := _suite a1 in
    andThen
      (if su_running su && String.eqb (stage su) "scenario"
          && String.eqb (currentId su) finishedId
       then
         let a' := mkAdapter (_model a1) (_cfg a1) (_rng a1) (_scenario a1)
                     (mkSuite (su_running su) (suiteId su) (queue su) (index su)
                        (currentId su) (stage su) (su_started_ms su) (pause_end_ms su)
                        (su_status su) (results su ++ [summary]) (last_error su))
                     (_report a1) in
         andThen (_applyScenario (VStr "baseline") false a')
                 (fun a'' => (toPause nowMs a'', Returned))
       else
         match _cfg a1 with
         | Some c =>
             if autoResetToBaseline c then
               let sc1 := _scenario a1 in
               (mkAdapter (_model a1) (_cfg a1) (_rng a1)
                  (mkScenario (selected sc1) (active sc1) (running sc1) (started_ms sc1)
                     (sc_duration_s sc1) (ends_ms sc1) (phase sc1)
                     (cat ["done "; finishedId; " (auto reset in ";
                           str (scenarioResetPauseSec c); "s)"])
                     (last_applied sc1) (data sc1) (justFinished sc1)
                     (justFinishedId sc1) (justFinishedReason sc1)
                     true (inject_Z nowMs + scenarioResetPauseSec c * 1000))
                  (_suite a1) (_report a1), Returned)
             else (a1, Returned)
         | None => (a1, Returned)
         end)
      (fun a2 => (clearFinished a2, Returned)).

(** [[
async _processPendingResets(nowMs) {
    if (this._suite && this._suite.running) return;
    if (!this._scenario.reset_pending) return;
    if (nowMs < (this._scenario.reset_at_ms || 0)) return;
    this._scenario.reset_pending = false;
    this._scenario.reset_at_ms = 0;
    await this._applyScenario('baseline', { start: false });
}
]] *)
Definition _processPendingResets (nowMs : Z) (a : Adapter) : Adapter * Outcome :=
  let sc := _scenario a in
  if su_running (_suite a) then (a, Returned)
  else if negb (reset_pending sc) then (a, Returned)
  else if Qltb (inject_Z nowMs) (reset_at_ms sc) then (a, Returned)
  else
    _applyScenario (VStr "baseline") false
      (mkAdapter (_model a) (_cfg a) (_rng a)
         (mkScenario (selected sc) (active sc) (running sc) (started_ms sc)
            (sc_duration_s sc) (ends_ms sc) (phase sc) (status sc) (last_applied sc)
            (data sc) (justFinished sc) (justFinishedId sc) (justFinishedReason sc)
            false 0)
         (_suite a) (_report a)).

(** ** Suite runner *)

(** [String(d.id).startsWith('suite_')] *)
Definition startsWithSuite (s : string) : bool := String.prefix "suite_" s.

(** [[
const queue = defs
    .filter(d => d && d.id && d.id !== 'baseline' && d.kind !== 'suite'
                 && !String(d.id).startsWith('suite_'))
    .map(d => d.id);
]] *)
Definition inQueue (d : Def) : bool :=
  nonEmpty (id d)
  && negb (String.eqb (id d) "baseline")
  && negb (match kind d with suite => true | _ => false end)
  && negb (startsWithSuite (id d)).

Definition suiteQueue (defs : list Def) : list string :=
  map id (List.filter inQueue defs).

(** [[
async _stopSuite(reason = 'user') {
    if (!this._suite || !this._suite.running) return;
    const nowMs = Date.now();
    this._suite.running = false;
    this._suite.stage = 'stopped';
    this._suite.status = `stopped (${reason})`;
    ... suite report ...
    await this._applyScenario('baseline', { start: false });
    await this._publishScenarioStates();
}
]] *)
Definition _stopSuite (reason : string) (a : Adapter) : Adapter * Outcome :=
  let su := _suite a in
  if negb (su_running su) then (a, Returned)
  else
    let r := _report a in
    _applyScenario (VStr "baseline") false
      (mkAdapter (_model a) (_cfg a) (_rng a) (_scenario a)
         (mkSuite false (suiteId su) (queue su) (index su) (currentId su)
            "stopped" (su_started_ms su) (pause_end_ms su)
            (cat ["stopped ("; reason; ")"]) (results su) (last_error su))
         (mkReport (rep_scenarioId r) (rep_started_ms r) (writes r) (last_json r)
            (Some (length (queue su), results su)))).

(** [[
async _startSuiteAll() {
    if (!this._model || !this._cfg) return;
    if (this._suite && this._suite.running) { await this._stopSuite('restart'); }
    this._scenario.running = false; ... (run fields and finish flags cleared)
    const defs = this._scenarioDefinitions();
    const queue = ...;
    const startedMs = Date.now();
    this._suite.running = true;
    this._suite.suiteId = 'suite_all_scenarios_5min';
    this._suite.queue = queue;
    this._suite.index = -1;
    this._suite.currentId = '';
    this._suite.stage = 'pause';
    this._suite.started_ms = startedMs;
    this._suite.pause_end_ms = startedMs + ((this._cfg?.scenarioResetPauseSec ?? 0) * 1000);
    this._suite.status = `started (0/${queue.length})`;
    this._suite.results = [];
    this._suite.last_error = '';
    await this._applyScenario('baseline', { start: false });
    ... suite report ...
}
]] *)
Definition enqueue (nowMs : Z) (a : Adapter) : Adapter :=
  let sc := _scenario a in
  let queue := suiteQueue _scenarioDefinitions in
  mkAdapter (_model a) (_cfg a) (_rng a)
    (mkScenario (selected sc) (active sc) false 0 0 0 (phase sc) (status sc)
       (last_applied sc) (data sc) false "" "" false 0)
    (mkSuite true "suite_all_scenarios_5min" queue (-1) "" "pause" nowMs
       (inject_Z nowMs + pauseSec (_cfg a) * 1000)
       (cat ["started (0/"; strZ (Z.of_nat (length queue)); ")"]) [] "")
    (_report a).

Definition _startSuiteAll (nowMs : Z) (a : Adapter) : Adapter * Outcome :=
  match _model a, _cfg a with
  | Some _, Some _ =>
      andThen (if su_running (_suite a) then _stopSuite "restart" a
               else (a, Returned))
        (fun a1 =>
           andThen (_applyScenario (VStr "baseline") false (enqueue nowMs a1))
             (fun a3 =>
                let r3 := _report a3 in
                (mkAdapter (_model a3) (_cfg a3) (_rng a3) (_scenario a3) (_suite a3)
                   (mkReport (rep_scenarioId r3) (rep_started_ms r3) (writes r3)
                      (last_json r3)
                      (Some (length (suiteQueue _scenarioDefinitions), []))),
                 Returned)))
  | _, _ => (a, Returned)
  end.

(** [[
async _suiteTick(nowMs) {
    if (!this._suite || !this._suite.running) return;
    if (this._suite.stage === 'pause') {
        if (nowMs < (this._suite.pause_end_ms || 0)) return;
        const nextIndex = (this._suite.index ?? -1) + 1;
        const total = this._suite.queue?.length || 0;
        if (nextIndex >= total) {
            this._suite.running = false;
            this._suite.stage = 'done';
            this._suite.status = `done (${total})`;
            ... suite report ...
            await this._applyScenario('baseline', { start: false });
            return;
        }
        this._suite.index = nextIndex;
        const id = this._suite.queue[nextIndex];
        this._suite.currentId = id;
        this._suite.stage = 'scenario';
        this._suite.status = `running ${id} (${nextIndex + 1}/${total})`;
        await this._applyScenario(id, { start: true });
    }
}
]] *)
Definition _suiteTick (nowMs : Z) (a : Adapter) : Adapter * Outcome :=
  let su := _suite a in
  if negb (su_running su) then (a, Returned)
  else if negb (String.eqb (stage su) "pause") then (a, Returned)
  else if Qltb (inject_Z nowMs) (pause_end_ms su) then (a, Returned)
  else
    let nextIndex := (index su + 1)%Z in
    let total := Z.of_nat (length (queue su)) in
    if (total <=? nextIndex)%Z then
      let r := _report a in
      _applyScenario (VStr "baseline") false
        (mkAdapter (_model a) (_cfg a) (_rng a) (_scenario a)
           (mkSuite false (suiteId su) (queue su) (index su) (currentId su)
              "done" (su_started_ms su) (pause_end_ms su)
              (cat ["done ("; strZ total; ")"]) (results su) (last_error su))
           (mkReport (rep_scenarioId r) (rep_started_ms r) (writes r) (last_json r)
              (Some (length (queue su), results su))))
    else
      (* [index] starts at -1 and only grows, so [queue[nextIndex]] exists *)
      match (if (nextIndex <? 0)%Z then None
             else nth_error (queue su) (Z.to_nat nextIndex)) with
      | Some id =>
          _applyScenario (VStr id) true
            (mkAdapter (_model a) (_cfg a) (_rng a) (_scenario a)
               (mkSuite (su_running su) (suiteId su) (queue su) nextIndex id
                  "scenario" (su_started_ms su) (pause_end_ms su)
                  (cat ["running "; id; " ("; strZ (nextIndex + 1); "/"; strZ total; ")"])
                  (results su) (last_error su))
               (_report a))
      | None => (a, Returned)
      end.

(** ** The engine part of a tick *)

(** [[
async _tick() {
    if (!this._model) return;
    ...
    await this._processPendingResets(nowMs);
    await this._suiteTick(nowMs);
    this._runScenarioTimeline(nowMs, dtSec, now);
    await this._handleScenarioFinished(nowMs);
    ... physics ...
}
]]
    The adapter after the four engine steps; a step that throws ends the
    tick. *)
Definition engineTick (nowMs : Z) (a : Adapter) : Adapter * Outcome :=
  match _model a with
  | None => (a, Returned)
  | Some _ =>
      andThen (_processPendingResets nowMs a) (fun a1 =>
      andThen (_suiteTick nowMs a1) (fun a2 =>
      _handleScenarioFinished nowMs (_runScenarioTimeline nowMs a2)))
  end.

(** The whole tick: engine, then the physics on the model the engine left;
    the timer's callback logs what the tick throws. *)
Definition tick (nowMs last : Z) (a : Adapter) : Adapter * Outcome :=
  match engineTick nowMs a with
  | (a1, Threw) => (a1, Threw)
  | (a1, Returned) =>
      match _model a1 with
      | None => (a1, Returned)
      | Some m =>
          let '(m', rng', _) :=
            Tick.tickPhysics nowMs (Tick.dtHours nowMs last) m (_rng a1) in
          (mkAdapter (Some m') (_cfg a1) rng' (_scenario a1) (_suite a1) (_report a1),
           Returned)
      end
  end.


End Engine.

End Scenario.

(** A setup interpretation and a configuration to run examples on. *)
Module ExampleEngine.
Import Scenario.

(** setups that leave the plant, the generator and the working set alone *)
#[export] Instance setups : Setups := {|
  runSetup := fun _ _ _ m rng => (m, rng, None)
|}.

Definition cfg : Cfg :=
  mkCfg 40 8 200 (85 # 100) 200 200 200 55 false 0 "06:15" 100 900 15 true.

End ExampleEngine.
(* ===================================================================== *)
(** * The scenario ids of the adapter's earlier copy                      *)
(* ===================================================================== *)

(** The repository holds an earlier copy of the adapter's source next to
    [main.js].  That copy defines [_normalizeScenarioId], over its own
    catalog, which has neither of the two suite controls of [main.js]. *)

Module EarlierCopy.
Import Scenario.
Local Open Scope Q_scope.

(** [_scenarioDefinitions()] of the earlier copy: the ids, kinds and
    durations, in order. *)
Definition _scenarioDefinitions : list Def :=
  [ mkDef "suite_smoke_all" timeline (Some 420);
    mkDef "suite_full_all" timeline (Some 1800);
    mkDef "baseline" oneshot None;
    mkDef "lm_6cars_deadline_0615" oneshot None;
    mkDef "lm_20mix_deadline_0615" oneshot None;
    mkDef "lm_50ports_deadline_0615" oneshot None;
    mkDef "lm_priorities_3tiers" oneshot None;
    mkDef "lm_arrival_wave_timeline" timeline (Some 600);
    mkDef "lm_departure_wave_timeline" timeline (Some 600);
    mkDef "pv_surplus_30cars" oneshot None;
    mkDef "pv_cloud_ramp_timeline" timeline (Some 600);
    mkDef "storage_soc0" oneshot None;
    mkDef "storage_soc100" oneshot None;
    mkDef "storage_power_limit_low" oneshot None;
    mkDef "tariff_flat_low_10ct" oneshot None;
    mkDef "tariff_pulse_timeline" timeline (Some 180);
    mkDef "tariff_extremes_timeline" timeline (Some 240);
    mkDef "grid_limit_drop_timeline" timeline (Some 240);
    mkDef "grid_14a_limit_timeline" timeline (Some 600);
    mkDef "base_load_spike_timeline" timeline (Some 300);
    mkDef "grid_blackout_60s_timeline" timeline (Some 150);
    mkDef "dc_rush_10" oneshot None;
    mkDef "dc_taper_single_400" oneshot None;
    mkDef "dc_all_ports_stress" oneshot None;
    mkDef "faults_evcs_faulted_5" oneshot None;
    mkDef "faults_evcs_unavailable_5" oneshot None;
    mkDef "faults_evcs_meter_freeze_3" oneshot None;
    mkDef "faults_clear_all" oneshot None;
    mkDef "fuzz_10min_medium" timeline (Some 600);
    mkDef "fuzz_30min_heavy" timeline (Some 1800);
    mkDef "ext_heatpump_30kw" oneshot None;
    mkDef "ext_chp_80kw" oneshot None;
    mkDef "ext_generator_200kw" oneshot None ].

(** [raw.replace(/\s+/g, '_')]: every run of white space becomes one
    underscore. *)
Fixpoint replaceSpaces (inRun : bool) (l : list ascii) : list ascii :=
  match l with
  | [] => []
  | c :: rest =>
      if Departure.isSpace c
      then (if inRun then replaceSpaces true rest
            else "_"%char :: replaceSpaces true rest)
      else c :: replaceSpaces false rest
  end.

Section WithHost.
Context `{Host}.

(** [[
_normalizeScenarioId(value) {
    const raw = String(value || '').trim();
    if (!raw) return 'baseline';
    const id = raw.replace(/\s+/g, '_');
    const known = new Set(this._scenarioDefinitions().map(s => s.id));
    return known.has(id) ? id : 'baseline';
}
]] *)
Definition _normalizeScenarioId (value : value) : string :=
  let raw := Departure.trim (Command.stringOrEmpty value) in
  if String.eqb raw EmptyString then "baseline"
  else
    let id' := string_of_list_ascii (replaceSpaces false (list_ascii_of_string raw)) in
    if existsb (fun d => String.eqb (id d) id') _scenarioDefinitions
    then id' else "baseline".

End WithHost.

End EarlierCopy.

(* ===================================================================== *)
(** * The plant part of [_publish] and [_publishAggregates]               *)
(* ===================================================================== *)

Module Publish.
Local Open Scope Q_scope.

(** [JSON.stringify] of the forward curve is left to the host. *)
Class JsonHost : Type := {
  stringifyCurve : list Q -> string
}.

(** [Math.round(x)]: the nearest integer, ties towards [+Infinity]. *)
Definition Math_round (x : Q) : Q := inject_Z (Qfloor (x + (1 # 2))).

(** [Number(x.toFixed(digits))]: [digits] decimals, ties away from zero. *)
Definition toFixed (digits : nat) (x : Q) : Q :=
  let s := inject_Z (10 ^ Z.of_nat digits) in
  if Qltb x 0
  then - (inject_Z (Qfloor (- x * s + (1 # 2))) / s)
  else inject_Z (Qfloor (x * s + (1 # 2))) / s.

Definition num (q : Q) : value := VNum (Fin q).

(** [Math.round(kw * 1000)]: a power in kilowatts, published in watts. *)
Definition watts (kw : Q) : value := num (Math_round (kw * 1000)).

Definition modeText (md : Tariff.Mode) : string :=
  match md with Tariff.auto => "auto" | Tariff.manual => "manual" end.

(** [[
for (const dev of ['heatpump', 'chp', 'generator']) {
    await this._setChanged(`${dev}.power_kw`, Math.round(this._model[dev].power_kw * 1000));
    await this._setChanged(`${dev}.ctrl.enabled`, this._model[dev].ctrl.enabled);
    await this._setChanged(`${dev}.ctrl.power_set_kw`,
        Math.round((Number(this._model[dev].ctrl.power_set_kw) || 0) * 1000));
}
]] *)
Definition deviceCandidates (dev : string) (d : Device.t) : list (string * value) :=
  [ (String.append dev ".power_kw", watts (Device.power_kw d));
    (String.append dev ".ctrl.enabled", VBool (Device.ctrl_enabled d));
    (String.append dev ".ctrl.power_set_kw", watts (Device.ctrl_power_set_kw d)) ].

(** [[
for (const ch of this._model.evcs.chargers) {
    const base = `evcs.${ch.id}`;
    await this._setChanged(`${base}.ctrl.enabled`, ch.ctrl.enabled);
    await this._setChanged(`${base}.ctrl.limit_kw`, Math.round(ch.ctrl.limit_kw * 1000));
    await this._setChanged(`${base}.ctrl.plugged`, ch.ctrl.plugged);
    await this._setChanged(`${base}.ctrl.priority`, ch.ctrl.priority);
    await this._setChanged(`${base}.vehicle.id`, ch.vehicle.id);
    await this._setChanged(`${base}.vehicle.soc_pct`, Number(ch.vehicle.soc_pct.toFixed(3)));
    await this._setChanged(`${base}.vehicle.capacity_kwh`, Number(ch.vehicle.capacity_kwh.toFixed(3)));
    await this._setChanged(`${base}.vehicle.max_charge_kw`, Number(ch.vehicle.max_charge_kw.toFixed(3)));
    await this._setChanged(`${base}.vehicle.target_soc_pct`, Number(ch.vehicle.target_soc_pct.toFixed(3)));
    await this._setChanged(`${base}.vehicle.departure_time`, ch.vehicle.departure_time);
    await this._setChanged(`${base}.meas.status`, ch.meas.status);
    await this._setChanged(`${base}.meas.power_kw`, Math.round(ch.meas.power_kw * 1000));
    await this._setChanged(`${base}.meas.energy_kwh`, Number(ch.meas.energy_kwh.toFixed(6)));
}
]] *)
Definition chargerCandidates (ch : Charger.t) : list (string * value) :=
  let key (tail : string) :=
    String.append "evcs." (String.append (Charger.id ch) (String.append "." tail)) in
  [ (key "ctrl.enabled", VBool (Charger.ctrl_enabled ch));
    (key "ctrl.limit_kw", watts (Charger.ctrl_limit_kw ch));
    (key "ctrl.plugged", VBool (Charger.ctrl_plugged ch));
    (key "ctrl.priority", num (Charger.ctrl_priority ch));
    (key "vehicle.id", VStr (Charger.vehicle_id ch));
    (key "vehicle.soc_pct", num (toFixed 3 (Charger.vehicle_soc_pct ch)));
    (key "vehicle.capacity_kwh", num (toFixed 3 (Charger.vehicle_capacity_kwh ch)));
    (key "vehicle.max_charge_kw", num (toFixed 3 (Charger.vehicle_max_charge_kw ch)));
    (key "vehicle.target_soc_pct", num (toFixed 3 (Charger.vehicle_target_soc_pct ch)));
    (key "vehicle.departure_time", VStr (Charger.vehicle_departure_time ch));
    (key "meas.status", VStr (Charger.meas_status ch));
    (key "meas.power_kw", watts (Charger.meas_power_kw ch));
    (key "meas.energy_kwh", num (toFixed 6 (Charger.meas_energy_kwh ch))) ].

Section WithJson.
Context `{JsonHost}.

(** The candidates [_publish] offers for the plant, from
    [await this._setChanged('grid.available', ...)] to the end of the
    loop over the charge points, in the order of the text. *)
Definition plantCandidates (m : Model.t) : list (string * value) :=
  let g := Model.grid m in
  let tf := Model.tariff m in
  let pv := Model.pv m in
  let st := Model.storage m in
  [ ("grid.available"%string, VBool (Grid.available g));
    ("grid.limit_kw"%string, num (Grid.limit_kw g));
    ("grid.base_load_kw"%string, num (Grid.base_load_kw g));
    ("grid.power_kw"%string, watts (Grid.power_kw g));
    ("grid.over_limit"%string, VBool (Grid.over_limit g));
    ("tariff.mode"%string, VStr (modeText (Tariff.mode tf)));
    ("tariff.price_ct_per_kwh"%string, num (toFixed 2 (Tariff.price_ct_per_kwh tf)));
    ("tariff.price_next_24h_json"%string, VStr (stringifyCurve (Tariff.price_next_24h tf)));
    ("pv.installed_kwp"%string, num (PV.installed_kwp pv));
    ("pv.weather_factor"%string, num (toFixed 3 (PV.weather_factor pv)));
    ("pv.power_kw"%string, watts (PV.power_kw pv));
    ("pv.override.enabled"%string, VBool (PV.override_enabled pv));
    ("pv.override.power_kw"%string, num (toFixed 3 (PV.override_power_kw pv)));
    ("storage.capacity_kwh"%string, num (Storage.capacity_kwh st));
    ("storage.max_charge_kw"%string, num (Storage.max_charge_kw st));
    ("storage.max_discharge_kw"%string, num (Storage.max_discharge_kw st));
    ("storage.soc_pct"%string, num (toFixed 3 (Storage.soc_pct st)));
    ("storage.power_kw"%string, watts (Storage.power_kw st));
    ("storage.ctrl.enabled"%string, VBool (Storage.ctrl_enabled st));
    ("storage.ctrl.power_set_kw"%string, watts (Storage.ctrl_power_set_kw st)) ]
  ++ deviceCandidates "heatpump" (Model.heatpump m)
  ++ deviceCandidates "chp" (Model.chp m)
  ++ deviceCandidates "generator" (Model.generator m)
  ++ flat_map chargerCandidates (Model.evcs_chargers m).

End WithJson.

(** [[
async _publishAggregates(evTotalPower, evTotalEnergy) {
    await this._setChanged('evcs.count', this._model.evcs.chargers.length);
    await this._setChanged('evcs.total_power_kw', Math.round(evTotalPower * 1000));
    await this._setChanged('evcs.total_energy_kwh', Number(evTotalEnergy.toFixed(6)));
}
]] *)
Definition aggregateCandidates (m : Model.t) (evTotalPower evTotalEnergy : Q)
  : list (string * value) :=
  [ ("evcs.count"%string, num (inject_Z (Z.of_nat (length (Model.evcs_chargers m)))));
    ("evcs.total_power_kw"%string, watts evTotalPower);
    ("evcs.total_energy_kwh"%string, num (toFixed 6 evTotalEnergy)) ].

End Publish.

(** A host whose [JSON.stringify] is of no interest. *)
Module ExampleJson.
#[export] Instance json : Publish.JsonHost := {|
  Publish.stringifyCurve := fun _ => "[]"%string
|}.
End ExampleJson.
(** * Vocabulary of the statements

    The predicates and tables the theorems below are stated with. *)

Module CommandPoints.
Import Command.

(** The datapoints received in Watts, with the model field each is stored
    in (kilowatts). *)
Inductive WattPoint : Type :=
| StoragePowerSet
| HeatpumpPowerSet
| ChpPowerSet
| GeneratorPowerSet.

Definition wattPointId (p : WattPoint) : string :=
  match p with
  | StoragePowerSet => "storage.ctrl.power_set_kw"
  | HeatpumpPowerSet => "heatpump.ctrl.power_set_kw"
  | ChpPowerSet => "chp.ctrl.power_set_kw"
  | GeneratorPowerSet => "generator.ctrl.power_set_kw"
  end.

Definition wattPointField (p : WattPoint) (m : Model.t) : Q :=
  match p with
  | StoragePowerSet => Storage.ctrl_power_set_kw (Model.storage m)
  | HeatpumpPowerSet => Device.ctrl_power_set_kw (Model.heatpump m)
  | ChpPowerSet => Device.ctrl_power_set_kw (Model.chp m)
  | GeneratorPowerSet => Device.ctrl_power_set_kw (Model.generator m)
  end.

(** The other numeric datapoints of the plant, with field and range. *)
Inductive PlainPoint : Type :=
| GridLimit | GridBaseLoad | TariffPrice
| PvInstalled | PvWeather | PvOverridePower
| StorageCapacity | StorageMaxCharge | StorageMaxDischarge | StorageSoc.

Definition plainPointId (p : PlainPoint) : string :=
  match p with
  | GridLimit => "grid.limit_kw"
  | GridBaseLoad => "grid.base_load_kw"
  | TariffPrice => "tariff.price_ct_per_kwh"
  | PvInstalled => "pv.installed_kwp"
  | PvWeather => "pv.weather_factor"
  | PvOverridePower => "pv.override.power_kw"
  | StorageCapacity => "storage.capacity_kwh"
  | StorageMaxCharge => "storage.max_charge_kw"
  | StorageMaxDischarge => "storage.max_discharge_kw"
  | StorageSoc => "storage.soc_pct"
  end.

Definition plainPointField (p : PlainPoint) (m : Model.t) : Q :=
  match p with
  | GridLimit => Grid.limit_kw (Model.grid m)
  | GridBaseLoad => Grid.base_load_kw (Model.grid m)
  | TariffPrice => Tariff.price_ct_per_kwh (Model.tariff m)
  | PvInstalled => PV.installed_kwp (Model.pv m)
  | PvWeather => PV.weather_factor (Model.pv m)
  | PvOverridePower => PV.override_power_kw (Model.pv m)
  | StorageCapacity => Storage.capacity_kwh (Model.storage m)
  | StorageMaxCharge => Storage.max_charge_kw (Model.storage m)
  | StorageMaxDischarge => Storage.max_discharge_kw (Model.storage m)
  | StorageSoc => Storage.soc_pct (Model.storage m)
  end.

Definition plainPointRange (p : PlainPoint) : Q * Q :=
  match p with
  | GridLimit => (1, 5000)
  | GridBaseLoad => (0, 5000)
  | TariffPrice => (-500, 500)
  | PvInstalled => (0, 5000)
  | PvWeather => (0, 1)
  | PvOverridePower => (0, 100000)
  | StorageCapacity => (1, 50000)
  | StorageMaxCharge => (0, 50000)
  | StorageMaxDischarge => (0, 50000)
  | StorageSoc => (0, 100)
  end%Q.

(** The numeric per-charger datapoints other than [ctrl.limit_kw]. *)
Inductive ChargerPoint : Type :=
| Priority | VehicleSoc | VehicleCapacity | VehicleMaxCharge | VehicleTargetSoc.

Definition chargerPointTail (p : ChargerPoint) : string :=
  match p with
  | Priority => "ctrl.priority"
  | VehicleSoc => "vehicle.soc_pct"
  | VehicleCapacity => "vehicle.capacity_kwh"
  | VehicleMaxCharge => "vehicle.max_charge_kw"
  | VehicleTargetSoc => "vehicle.target_soc_pct"
  end.

Definition chargerPointField (p : ChargerPoint) (c : Charger.t) : Q :=
  match p with
  | Priority => Charger.ctrl_priority c
  | VehicleSoc => Charger.vehicle_soc_pct c
  | VehicleCapacity => Charger.vehicle_capacity_kwh c
  | VehicleMaxCharge => Charger.vehicle_max_charge_kw c
  | VehicleTargetSoc => Charger.vehicle_target_soc_pct c
  end.

Definition chargerPointRange (p : ChargerPoint) : Q * Q :=
  match p with
  | Priority => (1, 10)
  | VehicleSoc => (0, 100)
  | VehicleCapacity => (1, 1000)
  | VehicleMaxCharge => (0, 2000)
  | VehicleTargetSoc => (0, 100)
  end%Q.

Definition chargerId (d1 d2 : ascii) : string :=
  String "c" (String d1 (String d2 EmptyString)).

Definition evcsId (d1 d2 : ascii) (tail : string) : string :=
  String.append "evcs." (String.append (chargerId d1 d2) (String.append "." tail)).

Definition findCharger (cid : string) (l : list Charger.t) : option Charger.t :=
  List.find (fun c => String.eqb (Charger.id c) cid) l.

End CommandPoints.

Module TickProps.
Import Tick.
Local Open Scope Q_scope.

(** The three limits of a charge point are never negative: [max_kw] is a
    catalogue value, [ctrl.limit_kw] and [vehicle.max_charge_kw] are written
    through [clamp(_, 0, _)] or copied from [max_kw]. *)
Definition limitsNonneg (ch : Charger.t) : Prop :=
  0 <= Charger.ctrl_limit_kw ch /\ 0 <= Charger.max_kw ch
  /\ 0 <= Charger.vehicle_max_charge_kw ch.

(** [min(ctrl.limit_kw, max_kw, vehicle.max_charge_kw)] *)
Definition powerCeiling (ch : Charger.t) : Q :=
  Qmin (Qmin (Charger.ctrl_limit_kw ch) (Charger.max_kw ch))
       (Charger.vehicle_max_charge_kw ch).

(** The storage request after the clamp to the two power limits. *)
Definition storageRequest (st : Storage.t) : Q :=
  clamp (Storage.ctrl_power_set_kw st) (- Storage.max_charge_kw st)
        (Storage.max_discharge_kw st).

End TickProps.

Module DepartureProps.
Import Departure LocalDate.

(** The shape of a string the clock pattern accepts: one or two digits, a
    colon, two digits; the groups are the digits before and after. *)
Definition ClockShape (s g1 g2 : string) : Prop :=
  exists h m1 m2,
    isDigit m1 = true /\ isDigit m2 = true
    /\ g2 = String m1 (String m2 EmptyString)
    /\ ((exists h1, isDigit h1 = true /\ h = String h1 EmptyString)
        \/ (exists h1 h2, isDigit h1 = true /\ isDigit h2 = true
                          /\ h = String h1 (String h2 EmptyString)))
    /\ g1 = h
    /\ s = String.append h (String ":" g2).

(** A host whose local time is UTC shifted by one offset throughout: no
    daylight saving. *)
Definition fixedOffset `{Host} : Prop :=
  forall (t : Z) (b : bool), LocalTZA t b = LocalTZA 0 true.

(** [ch.vehicle.departure_ts = ts] *)
Definition set_departure_ts (ts : option Z) (ch : Charger.t) : Charger.t :=
  Charger.set_vehicle (Charger.vehicle_id ch) (Charger.vehicle_soc_pct ch)
    (Charger.vehicle_capacity_kwh ch) (Charger.vehicle_max_charge_kw ch)
    (Charger.vehicle_target_soc_pct ch) (Charger.vehicle_departure_time ch)
    ts ch.

End DepartureProps.

Module ScenarioProps.
Import Scenario.
Local Open Scope Q_scope.

(** The adapter after [onReady]: plant model and configuration are set. *)
Definition ready (a : Adapter) : Prop :=
  (exists m, _model a = Some m) /\ (exists c, _cfg a = Some c).

(** Modelled from the spec: the queue as the specification words it, the
    catalog entries excluding the baseline entry and the suite-kind
    entries, in catalog order. *)
Definition specQueue (defs : list Def) : list string :=
  map id (List.filter
            (fun d => negb (String.eqb (id d) "baseline")
                      && negb (match kind d with suite => true | _ => false end))
            defs).

(** The queue with the third exclusion the code makes: the catalog entries
    excluding the baseline entry, the suite-kind entries and the entries
    whose id starts with "suite_", in catalog order. *)
Definition listedQueue (defs : list Def) : list string :=
  map id (List.filter
            (fun d => negb (String.eqb (id d) "baseline")
                      && negb (match kind d with suite => true | _ => false end)
                      && negb (String.prefix "suite_" (id d)))
            defs).

End ScenarioProps.

(** * Vocabulary of the further properties *)

Module LcgProps.
Import LcgRandom.
Local Open Scope Z_scope.

(** One step of the state. *)
Definition step (s : Z) : Z := (1664525 * s + 1013904223) mod two32.

End LcgProps.

Module PlantProps.
Local Open Scope Q_scope.

(** The ranges the code clamps the fields of a charge point to, where it
    writes them. *)
Definition chargerRanged (c : Charger.t) : Prop :=
  (0 < Charger.max_kw c /\ Charger.max_kw c <= 400)
  /\ (0 <= Charger.ctrl_limit_kw c /\ Charger.ctrl_limit_kw c <= 10000)
  /\ (1 <= Charger.ctrl_priority c /\ Charger.ctrl_priority c <= 10)
  /\ (0 <= Charger.vehicle_soc_pct c /\ Charger.vehicle_soc_pct c <= 100)
  /\ (1 <= Charger.vehicle_capacity_kwh c /\ Charger.vehicle_capacity_kwh c <= 1000)
  /\ (0 <= Charger.vehicle_max_charge_kw c /\ Charger.vehicle_max_charge_kw c <= 2000)
  /\ (0 <= Charger.vehicle_target_soc_pct c /\ Charger.vehicle_target_soc_pct c <= 100)
  /\ (0 <= Charger.meas_power_kw c /\ Charger.meas_power_kw c <= Charger.max_kw c)
  /\ (0 <= Charger.meas_energy_kwh c /\ Charger.meas_energy_kwh c <= 1000000).

(** The same for the plant. *)
Definition plantRanged (m : Model.t) : Prop :=
  (1 <= Grid.limit_kw (Model.grid m) /\ Grid.limit_kw (Model.grid m) <= 5000)
  /\ (0 <= Grid.base_load_kw (Model.grid m)
      /\ Grid.base_load_kw (Model.grid m) <= 5000)
  /\ (-500 <= Tariff.price_ct_per_kwh (Model.tariff m)
      /\ Tariff.price_ct_per_kwh (Model.tariff m) <= 500)
  /\ (0 <= PV.installed_kwp (Model.pv m) /\ PV.installed_kwp (Model.pv m) <= 5000)
  /\ (0 <= PV.weather_factor (Model.pv m) /\ PV.weather_factor (Model.pv m) <= 1)
  /\ (0 <= PV.override_power_kw (Model.pv m)
      /\ PV.override_power_kw (Model.pv m) <= 100000)
  /\ (1 <= Storage.capacity_kwh (Model.storage m)
      /\ Storage.capacity_kwh (Model.storage m) <= 50000)
  /\ (0 <= Storage.max_charge_kw (Model.storage m)
      /\ Storage.max_charge_kw (Model.storage m) <= 50000)
  /\ (0 <= Storage.max_discharge_kw (Model.storage m)
      /\ Storage.max_discharge_kw (Model.storage m) <= 50000)
  /\ (0 <= Storage.soc_pct (Model.storage m)
      /\ Storage.soc_pct (Model.storage m) <= 100)
  /\ Forall chargerRanged (Model.evcs_chargers m).

(** What identifies a charge point and never changes after it is built. *)
Definition fleetKey (c : Charger.t) : string * Charger.Kind * Q :=
  (Charger.id c, Charger.type c, Charger.max_kw c).

Definition fleetOf (m : Model.t) : list (string * Charger.Kind * Q) :=
  map fleetKey (Model.evcs_chargers m).

(** The three simulation flags of every charge point. *)
Definition simFlags (c : Charger.t) : bool * bool * bool :=
  (Charger.sim_faulted c, Charger.sim_unavailable c, Charger.sim_meter_freeze c).

(** The fields of a charge point a tick never writes. *)
Definition controlsOf (c : Charger.t)
  : bool * Q * bool * Q * (string * Q * Q * Q * string * option Z) :=
  (Charger.ctrl_enabled c, Charger.ctrl_limit_kw c, Charger.ctrl_plugged c,
   Charger.ctrl_priority c,
   (Charger.vehicle_id c, Charger.vehicle_capacity_kwh c,
    Charger.vehicle_max_charge_kw c, Charger.vehicle_target_soc_pct c,
    Charger.vehicle_departure_time c, Charger.vehicle_departure_ts c)).

(** Sum of a list of numbers. *)
Definition sumQ (l : list Q) : Q := fold_right Qplus 0 l.

(** The status texts the charge-point loop of the tick writes. *)
Definition tickStatuses : list string :=
  [ "Unavailable"; "Faulted"; "Available"; "Finished"; "Preparing";
    "Charging"; "Suspended" ]%string.

End PlantProps.

Module AddressProps.
Import Scenario.

(** [`evcs.c${pad2(n)}.${tail}`], the id of a datapoint of the [n]-th
    charge point. *)
Definition evcsPoint (n : Z) (tail : string) : string :=
  String.append "evcs." (String.append (chargerName n) (String.append "." tail)).

(** [pad2 n] is two digits and reads back as [n]. *)
Definition twoDigits (n : Z) : bool :=
  match list_ascii_of_string (pad2 n) with
  | [d1; d2] =>
      Departure.isDigit d1 && Departure.isDigit d2
      && match JS.decimalValue 0 (pad2 n) with
         | Some k => Z.eqb k n
         | None => false
         end
  | _ => false
  end.

(** [pad2 n] is three characters and reads back as [n]. *)
Definition threeDigits (n : Z) : bool :=
  match list_ascii_of_string (pad2 n) with
  | [d1; d2; d3] =>
      match JS.decimalValue 0 (pad2 n) with
      | Some k => Z.eqb k n
      | None => false
      end
  | _ => false
  end.

End AddressProps.

Module HelperProps.
Local Open Scope Q_scope.

(** What a fuzz event leaves alone on a charge point: the session energy,
    the priority and the vehicle apart from its SoC. *)
Definition keptByFuzz (c : Charger.t)
  : Q * Q * (string * Q * Q * Q * string * option Z) :=
  (Charger.meas_energy_kwh c, Charger.ctrl_priority c,
   (Charger.vehicle_id c, Charger.vehicle_capacity_kwh c,
    Charger.vehicle_max_charge_kw c, Charger.vehicle_target_soc_pct c,
    Charger.vehicle_departure_time c, Charger.vehicle_departure_ts c)).

(** What [_unplugAllChargers] leaves alone on a charge point. *)
Definition keptByUnplug (c : Charger.t)
  : Q * Q * Q * (string * Q * Q * Q * string * option Z) :=
  (Charger.ctrl_limit_kw c, Charger.ctrl_priority c, Charger.vehicle_soc_pct c,
   (Charger.vehicle_id c, Charger.vehicle_capacity_kwh c,
    Charger.vehicle_max_charge_kw c, Charger.vehicle_target_soc_pct c,
    Charger.vehicle_departure_time c, Charger.vehicle_departure_ts c)).

(** The ranges [onReady] clamps the configuration to. *)
Definition cfgRanged (c : Scenario.Cfg) : Prop :=
  (1 <= Scenario.gridLimitKw c /\ Scenario.gridLimitKw c <= 2000)
  /\ (0 <= Scenario.baseLoadKw c /\ Scenario.baseLoadKw c <= 500)
  /\ (0 <= Scenario.pvInstalledKwp c /\ Scenario.pvInstalledKwp c <= 2000)
  /\ (0 <= Scenario.pvWeatherFactor c /\ Scenario.pvWeatherFactor c <= 1)
  /\ (1 <= Scenario.storageCapacityKwh c /\ Scenario.storageCapacityKwh c <= 5000)
  /\ (0 <= Scenario.storageMaxChargeKw c /\ Scenario.storageMaxChargeKw c <= 5000)
  /\ (0 <= Scenario.storageMaxDischargeKw c
      /\ Scenario.storageMaxDischargeKw c <= 5000)
  /\ (0 <= Scenario.storageInitialSocPct c
      /\ Scenario.storageInitialSocPct c <= 100)
  /\ (0 <= Scenario.autoConnectCount c /\ Scenario.autoConnectCount c <= 200)
  /\ (0 <= Scenario.defaultTargetSocPct c
      /\ Scenario.defaultTargetSocPct c <= 100)
  /\ (30 <= Scenario.scenarioDurationSec c
      /\ Scenario.scenarioDurationSec c <= 86400)
  /\ (0 <= Scenario.scenarioResetPauseSec c
      /\ Scenario.scenarioResetPauseSec c <= 600).

(** The charge point at position [i] (from 0) after a reset to defaults,
    [c0] being the charge point before. *)
Definition atDefaults (cfg : Scenario.Cfg) (i : Z) (c0 c : Charger.t) : Prop :=
  let autoPlug := Scenario.autoConnectEnabled cfg
                  && Qleb (inject_Z (i + 1)) (Scenario.autoConnectCount cfg) in
  PlantProps.fleetKey c = PlantProps.fleetKey c0
  /\ Charger.vehicle_id c = Charger.vehicle_id c0
  /\ Charger.ctrl_plugged c = autoPlug
  /\ Charger.ctrl_enabled c = autoPlug
  /\ Charger.ctrl_limit_kw c = Charger.max_kw c0
  /\ Charger.ctrl_priority c = 5
  /\ Charger.vehicle_max_charge_kw c = Charger.max_kw c0
  /\ Charger.vehicle_target_soc_pct c = Scenario.defaultTargetSocPct cfg
  /\ Charger.vehicle_departure_time c = Scenario.defaultDepartureTime cfg
  /\ Charger.meas_power_kw c = 0
  /\ Charger.meas_energy_kwh c = 0
  /\ Charger.meas_status c = (if autoPlug then "Preparing" else "Available")%string
  /\ PlantProps.simFlags c = (false, false, false)
  /\ (10 <= Charger.vehicle_soc_pct c /\ Charger.vehicle_soc_pct c < 70)
  /\ (40 <= Charger.vehicle_capacity_kwh c /\ Charger.vehicle_capacity_kwh c < 90).

End HelperProps.


(* ===================================================================== *)
(** * Startup: configuration, migration and the initial model            *)
(* ===================================================================== *)

Module Startup.
Import Scenario.
Local Open Scope Q_scope.

(** [this.config], the adapter configuration as the host hands it over. *)
Record RawConfig : Type := mkRaw {
  raw_updateIntervalMs : value;
  raw_randomSeed : value;
  raw_gridLimitKw : value;
  raw_baseLoadKw : value;
  raw_pvInstalledKwp : value;
  raw_pvWeatherFactor : value;
  raw_storageCapacityKwh : value;
  raw_storageMaxChargeKw : value;
  raw_storageMaxDischargeKw : value;
  raw_storageInitialSocPct : value;
  raw_chargersCount : value;
  raw_autoConnectEnabled : value;
  raw_autoConnectCount : value;
  raw_defaultDepartureTime : value;
  raw_defaultTargetSocPct : value;
  raw_scenarioDurationSec : value;
  raw_scenarioResetPauseSec : value;
  raw_autoResetToBaseline : value;
  raw_unitsAutoDetect : value
}.

(** The object [cfg] of [onReady]: the fields the engine reads ([base]) and
    the others. *)
Record Config : Type := mkConfig {
  base : Cfg;
  updateIntervalMs : Q;
  randomSeed : Q;
  chargersCount : Q;
  unitsAutoDetect : bool
}.

(** The states of the adapter's namespace by relative id, each with its
    [val]. *)
Abbreviation Store := (gmap string value).

(** The number of rounds of [for (let i = 0; i < x; i++)]. *)
Definition loopCount (x : Q) : nat := Z.to_nat (Qceiling x).

(** The number of rounds of [for (let i = 1; i <= x; i++)]. *)
Definition loopCountFrom1 (x : Q) : nat := Z.to_nat (Qfloor x).

(** [l.slice(0, e)]: [e] is truncated to an integer, a negative one counts
    from the end. *)
Definition slice0 {A : Type} (l : list A) (e : Q) : list A :=
  let k := if Qle_bool 0 e then Qfloor e else Qceiling e in
  if (k <? 0)%Z then firstn (Z.to_nat (Z.of_nat (length l) + k)) l
  else firstn (Z.to_nat k) l.

Definition dcPattern : list Q := [50; 150; 300; 400].

(** [[
_defaultChargerSpecs(count) {
    const specs = [];
    const ac11 = Math.max(1, Math.round(count * 0.5));
    const ac22 = Math.max(0, Math.round(count * 0.3));
    const remaining = Math.max(0, count - ac11 - ac22);
    for (let i = 0; i < ac11; i++) specs.push({ type: 'ac', max_kw: 11 });
    for (let i = 0; i < ac22; i++) specs.push({ type: 'ac', max_kw: 22 });
    const dcPattern = [50, 150, 300, 400];
    for (let i = 0; i < remaining; i++) {
        const maxKw = dcPattern[i % dcPattern.length];
        specs.push({ type: 'dc', max_kw: maxKw });
    }
    return specs.slice(0, count);
}
]] *)
Definition _defaultChargerSpecs (count : Q) : list (Charger.Kind * Q) :=
  let ac11 := Math_max 1 (Publish.Math_round (count * (5 # 10))) in
  let ac22 := Math_max 0 (Publish.Math_round (count * (3 # 10))) in
  let remaining := Math_max 0 (count - ac11 - ac22) in
  let specs :=
    repeat (Charger.ac, 11) (loopCount ac11)
    ++ repeat (Charger.ac, 22) (loopCount ac22)
    ++ map (fun i => (Charger.dc, nth (i mod 4) dcPattern 0))
           (seq 0 (loopCount remaining)) in
  slice0 specs count.

(** [[
const get = async (id, def) => {
    const st = await this.getStateAsync(id);
    if (!st || st.val === null || st.val === undefined) return def;
    return st.val;
};
]] *)
Definition get (store : Store) (id : string) (def : value) : value :=
  match store !! id with
  | None | Some VNull | Some VUndefined => def
  | Some v => v
  end.

Definition numV (q : Q) : value := VNum (Fin q).

(** *** The states and their defaults *)

(** [[
async _ensureState(id, common) {
    ... (the object)
    if (common.def !== undefined) {
        const existing = await this.getStateAsync(id);
        if (!existing || existing.val === null || existing.val === undefined) {
            await this.setStateAsync(id, { val: common.def, ack: true });
        }
    }
}
]]
    as far as the state's value goes. *)
Definition _ensureState (store : Store) (id : string) (def : value) : Store :=
  match def with
  | VUndefined => store
  | _ =>
      match store !! id with
      | None | Some VNull | Some VUndefined => <[id := def]> store
      | Some _ => store
      end
  end.

(** A run of [_ensureState] calls. *)
Definition ensureAll (defs : list (string * value)) (store : Store) : Store :=
  fold_left (fun s d => _ensureState s (fst d) (snd d)) defs store.

(** [spec.type] *)
Definition kindText (k : Charger.Kind) : string :=
  match k with Charger.ac => "ac" | Charger.dc => "dc" end.

(** The states [_createObjects] ensures in front of the charge points, each
    with its [def], in the order of the source. *)
Definition plantStates (c : Config) : list (string * value) :=
  let b := base c in
  [ ("info.migration_done", VBool false);
    ("grid.available", VBool true);
    ("grid.limit_kw", numV (gridLimitKw b));
    ("grid.base_load_kw", numV (baseLoadKw b));
    ("grid.power_kw", numV 0);
    ("grid.over_limit", VBool false);
    ("tariff.mode", VStr "auto");
    ("tariff.price_ct_per_kwh", numV 30);
    ("tariff.price_next_24h_json", VStr "[]");
    ("scenario.selected", VStr "baseline");
    ("scenario.active", VStr "baseline");
    ("scenario.running", VBool false);
    ("scenario.phase", VStr "idle");
    ("scenario.elapsed_s", numV 0);
    ("scenario.duration_s", numV (scenarioDurationSec b));
    ("scenario.remaining_s", numV 0);
    ("scenario.status", VStr "idle");
    ("scenario.catalog_json", VStr "[]");
    ("scenario.suite.running", VBool false);
    ("scenario.suite.stage", VStr "idle");
    ("scenario.suite.current_id", VStr "");
    ("scenario.suite.index", numV 0);
    ("scenario.suite.total", numV 0);
    ("scenario.suite.elapsed_s", numV 0);
    ("scenario.suite.status", VStr "idle");
    ("scenario.suite.progress_pct", numV 0);
    ("report.current_json", VStr "{}");
    ("report.last_json", VStr "{}");
    ("report.suite_json", VStr "{}");
    ("scenario.ctrl.apply", VBool false);
    ("scenario.ctrl.start", VBool false);
    ("scenario.ctrl.stop", VBool false);
    ("scenario.ctrl.reset", VBool false) ]%string
  ++ map (fun s => (String.append "scenario.buttons." (id s), VBool false))
         _scenarioDefinitions
  ++ [ ("pv.installed_kwp", numV (pvInstalledKwp b));
       ("pv.weather_factor", numV (pvWeatherFactor b));
       ("pv.power_kw", numV 0);
       ("pv.override.enabled", VBool false);
       ("pv.override.power_kw", numV 0);
       ("storage.capacity_kwh", numV (storageCapacityKwh b));
       ("storage.max_charge_kw", numV (storageMaxChargeKw b));
       ("storage.max_discharge_kw", numV (storageMaxDischargeKw b));
       ("storage.soc_pct", numV (storageInitialSocPct b));
       ("storage.power_kw", numV 0);
       ("storage.ctrl.enabled", VBool true);
       ("storage.ctrl.power_set_kw", numV 0);
       ("heatpump.power_kw", numV 0);
       ("heatpump.ctrl.enabled", VBool false);
       ("heatpump.ctrl.power_set_kw", numV 0);
       ("chp.power_kw", numV 0);
       ("chp.ctrl.enabled", VBool false);
       ("chp.ctrl.power_set_kw", numV 0);
       ("generator.power_kw", numV 0);
       ("generator.ctrl.enabled", VBool false);
       ("generator.ctrl.power_set_kw", numV 0);
       ("evcs.count", numV (chargersCount c));
       ("evcs.total_power_kw", numV 0);
       ("evcs.total_energy_kwh", numV 0) ]%string.

(** The states of charge point [i] with its [spec], in the order of the
    source. *)
Definition chargerStates (c : Config) (i : Z) (spec : Charger.Kind * Q)
  : list (string * value) :=
  let at_ (tail : string) := AddressProps.evcsPoint i tail in
  let max_kw := snd spec in
  [ (at_ "meta.type", VStr (kindText (fst spec)));
    (at_ "meta.max_kw", numV max_kw);
    (at_ "ctrl.enabled", VBool false);
    (at_ "ctrl.limit_kw", numV (Publish.Math_round (max_kw * 1000)));
    (at_ "ctrl.plugged", VBool false);
    (at_ "ctrl.priority", numV 5);
    (at_ "ctrl.reset_session", VBool false);
    (at_ "vehicle.id", VStr (String.append "VEH-" (pad2 i)));
    (at_ "vehicle.soc_pct", numV 20);
    (at_ "vehicle.capacity_kwh", numV 60);
    (at_ "vehicle.max_charge_kw", numV max_kw);
    (at_ "vehicle.target_soc_pct", numV (defaultTargetSocPct (base c)));
    (at_ "vehicle.departure_time", VStr (defaultDepartureTime (base c)));
    (at_ "meas.status", VStr "Available");
    (at_ "meas.power_kw", numV 0);
    (at_ "meas.energy_kwh", numV 0) ]%string.

(** [n] rounds of the loop over the charge points from [i] on.
    [specs[i - 1]] may be missing, and reading [spec.type] then throws. *)
Fixpoint createChargers (c : Config) (specs : list (Charger.Kind * Q))
    (n : nat) (i : Z) (store : Store) : Store * Outcome :=
  match n with
  | O => (store, Returned)
  | S n' =>
      match nth_error specs (Z.to_nat (i - 1)) with
      | None => (store, Threw)
      | Some spec =>
          createChargers c specs n' (i + 1)%Z (ensureAll (chargerStates c i spec) store)
      end
  end.

(** [_createObjects(cfg)], as far as the values of the states go. *)
Definition _createObjects (c : Config) (store : Store) : Store * Outcome :=
  createChargers c (_defaultChargerSpecs (chargersCount c))
                 (loopCountFrom1 (chargersCount c)) 1
                 (ensureAll (plantStates c) store).

Section WithHost.
Context `{Host}.

(** [clamp(this.config.x ?? d, lo, hi)] *)
Definition clampOr (raw : value) (d lo hi : Q) : Q :=
  clampV (orDefault raw (numV d)) lo hi.

(** [(this.config.x === undefined) ? true : !!this.config.x] *)
Definition trueUnlessSet (raw : value) : bool :=
  match raw with
  | VUndefined => true
  | _ => truthy raw
  end.

(** The object [cfg] that [onReady] builds from [this.config]. *)
Definition normalizeConfig (raw : RawConfig) : Config :=
  mkConfig
    (mkCfg (clampOr (raw_gridLimitKw raw) 40 1 2000)
           (clampOr (raw_baseLoadKw raw) 8 0 500)
           (clampOr (raw_pvInstalledKwp raw) 200 0 2000)
           (clampOr (raw_pvWeatherFactor raw) (85 # 100) 0 1)
           (clampOr (raw_storageCapacityKwh raw) 200 1 5000)
           (clampOr (raw_storageMaxChargeKw raw) 200 0 5000)
           (clampOr (raw_storageMaxDischargeKw raw) 200 0 5000)
           (clampOr (raw_storageInitialSocPct raw) 55 0 100)
           (truthy (raw_autoConnectEnabled raw))
           (clampOr (raw_autoConnectCount raw) 0 0 200)
           (ToString (orDefault (raw_defaultDepartureTime raw) (VStr "06:15")))
           (clampOr (raw_defaultTargetSocPct raw) 100 0 100)
           (cfgScenarioDurationSec (raw_scenarioDurationSec raw))
           (cfgScenarioResetPauseSec (raw_scenarioResetPauseSec raw))
           (trueUnlessSet (raw_autoResetToBaseline raw)))
    (clampOr (raw_updateIntervalMs raw) 1000 200 60000)
    (clampOr (raw_randomSeed raw) 1337 0 999999)
    (clampOr (raw_chargersCount raw) 50 1 200)
    (trueUnlessSet (raw_unitsAutoDetect raw)).

(** [this._rng = new LcgRandom(cfg.randomSeed)] *)
Definition startRng (c : Config) : LcgRandom.t := LcgRandom.new (Fin (randomSeed c)).

(** *** Migration of legacy limits *)

(** One round of the loop of [_migrateLegacyEvcsLimitsToW]:
    [[
const id = `evcs.${cid}.ctrl.limit_kw`;
const st = await this.getStateAsync(id);
if (!st || st.val === null || st.val === undefined) continue;
const v = Number(st.val);
if (!Number.isFinite(v)) continue;
if (Math.abs(v) > 0 && Math.abs(v) <= 500) {
    const migrated = Math.round(v * 1000);
    await this.setStateAsync(id, { val: migrated, ack: true });
}
    ]] *)
Definition migrateOne (store : Store) (i : Z) : Store :=
  let id := AddressProps.evcsPoint i "ctrl.limit_kw" in
  match store !! id with
  | None | Some VNull | Some VUndefined => store
  | Some val =>
      match Number val with
      | Fin v =>
          if Qltb 0 (Qabs v) && Qleb (Qabs v) 500
          then <[id := numV (Publish.Math_round (v * 1000))]> store
          else store
      | _ => store
      end
  end.

(** [n] rounds from charge point [i] on. *)
Fixpoint migrateFrom (n : nat) (i : Z) (store : Store) : Store :=
  match n with
  | O => store
  | S n' => migrateFrom n' (i + 1)%Z (migrateOne store i)
  end.

(** [[
const count = Math.max(1, Math.min(200,
    Math.round(Number(cfg && cfg.chargersCount ? cfg.chargersCount : 1))));
for (let i = 1; i <= count; i++) { ... }
]] *)
Definition migrationCount (c : Config) : Q :=
  let cc := if Qeq_bool (chargersCount c) 0 then 1 else chargersCount c in
  Math_max 1 (Math_min 200 (Publish.Math_round cc)).

Definition _migrateLegacyEvcsLimitsToW (c : Config) (store : Store) : Store :=
  migrateFrom (loopCountFrom1 (migrationCount c)) 1 store.

(** [[
async _runMigrations(cfg) {
    const cur = await this.getStateAsync('info.migration_done');
    const done = !!(cur && (cur.val === true || cur.val === 1 || cur.val === 'true'));
    if (done) return;
    await this._migrateLegacyEvcsLimitsToW(cfg);
    await this.setStateAsync('info.migration_done', { val: true, ack: true });
}
]] *)
Definition migrationDone (store : Store) : bool :=
  match store !! "info.migration_done"%string with
  | Some v => Command.isPressed v
  | None => false
  end.

Definition _runMigrations (c : Config) (store : Store) : Store :=
  if migrationDone store then store
  else <["info.migration_done"%string := VBool true]>
         (_migrateLegacyEvcsLimitsToW c store).

(** *** The initial model *)

(** One round of the loop of [_initModel] over the charge points, for the
    charge point [i] with its [spec] and the two numbers drawn for the
    default SoC and capacity. *)
Definition initCharger (c : Config) (store : Store) (now : Z) (i : Z)
    (spec : Charger.Kind * Q) (r1 r2 : Q) : Charger.t :=
  let cid := chargerName i in
  let at_ (tail : string) := AddressProps.evcsPoint i tail in
  let max_kw := snd spec in
  let pluggedDefault :=
    autoConnectEnabled (base c)
    && Qleb (inject_Z i) (autoConnectCount (base c)) in
  let plugged := truthy (get store (at_ "ctrl.plugged") (VBool pluggedDefault)) in
  let enabled := truthy (get store (at_ "ctrl.enabled") (VBool false)) in
  let limitKw :=
    clamp (Command._normalizePowerKw
             (get store (at_ "ctrl.limit_kw")
                  (numV (Publish.Math_round (max_kw * 1000)))))
          0 10000 in
  let priority := clampV (get store (at_ "ctrl.priority") (numV 5)) 1 10 in
  let vehId :=
    ToString (get store (at_ "vehicle.id") (VStr (String.append "VEH-" (pad2 i)))) in
  let soc :=
    clampV (get store (at_ "vehicle.soc_pct") (numV (clamp (10 + 60 * r1) 0 100)))
           0 100 in
  let cap :=
    clampV (get store (at_ "vehicle.capacity_kwh")
                (numV (clamp (40 + 50 * r2) 1 1000)))
           1 1000 in
  let maxCharge :=
    clampV (get store (at_ "vehicle.max_charge_kw") (numV max_kw)) 0 2000 in
  let targetSoc :=
    clampV (get store (at_ "vehicle.target_soc_pct")
                (numV (defaultTargetSocPct (base c))))
           0 100 in
  let departureTime :=
    ToString (get store (at_ "vehicle.departure_time")
                  (VStr (defaultDepartureTime (base c)))) in
  let departureTs := Departure.parseDepartureToTimestamp (VStr departureTime) now in
  let energyKwh := clampV (get store (at_ "meas.energy_kwh") (numV 0)) 0 100000 in
  let status :=
    ToString (get store (at_ "meas.status")
                  (VStr (if plugged then "Preparing" else "Available"))) in
  Charger.mk cid (fst spec) max_kw false false false
             enabled limitKw plugged priority
             vehId soc cap maxCharge targetSoc departureTime departureTs
             status 0 energyKwh.

(** [n] rounds of the loop from charge point [i] on.  [specs[i - 1]] may be
    missing, and reading [spec.max_kw] then throws: that is [None]. *)
Fixpoint initChargers (c : Config) (store : Store) (now : Z)
    (specs : list (Charger.Kind * Q)) (n : nat) (i : Z) (rng : LcgRandom.t)
  : option (list Charger.t * LcgRandom.t) :=
  match n with
  | O => Some ([], rng)
  | S n' =>
      match nth_error specs (Z.to_nat (i - 1)) with
      | None => None
      | Some spec =>
          let '(r1, rng1) := LcgRandom.next rng in
          let '(r2, rng2) := LcgRandom.next rng1 in
          match initChargers c store now specs n' (i + 1)%Z rng2 with
          | None => None
          | Some (rest, rng') =>
              Some (initCharger c store now i spec r1 r2 :: rest, rng')
          end
      end
  end.

(** [_initModel(cfg)]: the model built from the persisted states, the
    configuration giving the defaults. *)
Definition _initModel (c : Config) (store : Store) (now : Z) (rng : LcgRandom.t)
  : option (Model.t * LcgRandom.t) :=
  let b := base c in
  let gridLimit := clampV (get store "grid.limit_kw" (numV (gridLimitKw b))) 1 5000 in
  let baseLoad := clampV (get store "grid.base_load_kw" (numV (baseLoadKw b))) 0 5000 in
  let gridAvailable := truthy (get store "grid.available" (VBool true)) in
  let pvInstalled :=
    clampV (get store "pv.installed_kwp" (numV (pvInstalledKwp b))) 0 5000 in
  let pvWeather :=
    clampV (get store "pv.weather_factor" (numV (pvWeatherFactor b))) 0 1 in
  let pvOverrideEnabled := truthy (get store "pv.override.enabled" (VBool false)) in
  let pvOverridePower :=
    clampV (get store "pv.override.power_kw" (numV 0)) 0 100000 in
  let storageCapacity :=
    clampV (get store "storage.capacity_kwh" (numV (storageCapacityKwh b))) 1 50000 in
  let storageMaxCh :=
    clampV (get store "storage.max_charge_kw" (numV (storageMaxChargeKw b))) 0 50000 in
  let storageMaxDis :=
    clampV (get store "storage.max_discharge_kw" (numV (storageMaxDischargeKw b)))
           0 50000 in
  let storageSoc :=
    clampV (get store "storage.soc_pct" (numV (storageInitialSocPct b))) 0 100 in
  let storageEnabled := truthy (get store "storage.ctrl.enabled" (VBool true)) in
  let storageSet :=
    Command._normalizePowerKw (get store "storage.ctrl.power_set_kw" (numV 0)) in
  let tariffMode := ToString (get store "tariff.mode" (VStr "auto")) in
  let tariffPrice :=
    clampV (get store "tariff.price_ct_per_kwh" (numV 30)) (-500) 500 in
  let device (name : string) : Device.t :=
    Device.mk 0
      (truthy (get store (String.append name ".ctrl.enabled") (VBool false)))
      (Command._normalizePowerKw
         (get store (String.append name ".ctrl.power_set_kw") (numV 0))) in
  let specs := _defaultChargerSpecs (chargersCount c) in
  match initChargers c store now specs (loopCountFrom1 (chargersCount c)) 1 rng with
  | None => None
  | Some (chargers, rng') =>
      Some (Model.mk
              (Grid.mk gridAvailable gridLimit baseLoad 0 false)
              (Tariff.mk (if String.eqb (Command.toLowerCase tariffMode) "manual"
                          then Tariff.manual else Tariff.auto)
                         tariffPrice [])
              (PV.mk pvInstalled pvWeather 0 pvOverrideEnabled pvOverridePower)
              (Storage.mk storageCapacity storageMaxCh storageMaxDis storageSoc 0
                          storageEnabled storageSet)
              (device "heatpump") (device "chp") (device "generator")
              chargers,
            rng')
  end.

(** The adapter as the constructor leaves it. *)
Definition constructed : Adapter :=
  mkAdapter None None (LcgRandom.new (Fin 1337))
            initialScenario initialSuite initialReport.

(** [[
async onReady() {
    try {
        const cfg = { ... };
        this._cfg = cfg;
        this._rng = new LcgRandom(cfg.randomSeed);
        await this._createObjects(cfg);
        await this._runMigrations(cfg);
        await this._initModel(cfg);
        await this._initScenarioStates();
        ... (subscriptions)
        await this.setStateAsync('info.connection', { val: true, ack: true });
        ... (the timer)
    } catch (err) { this.log.error(`onReady failed: ...`); }
}
]]
    on the adapter as the constructor leaves it, with the states the host
    holds: the adapter and the states at the end, and whether the timer
    was started. *)
Definition onReady (raw : RawConfig) (store : Store) (now : Z)
  : Adapter * Store * bool :=
  let c := normalizeConfig raw in
  let a0 := mkAdapter None (Some (base c)) (startRng c)
                      initialScenario initialSuite initialReport in
  match _createObjects c store with
  | (s1, Threw) => (a0, s1, false)
  | (s1, Returned) =>
      let s2 := _runMigrations c s1 in
      match _initModel c s2 now (startRng c) with
      | None => (a0, s2, false)
      | Some (m, rng) =>
          let a1 := mkAdapter (Some m) (Some (base c)) rng
                              initialScenario initialSuite initialReport in
          (fst (_initScenarioStates (s2 !! "scenario.selected"%string) a1),
           <["info.connection"%string := VBool true]> s2, true)
      end
  end.

End WithHost.

End Startup.

Module ExampleStartup.
Import Startup.

(** a configuration with nothing set *)
Definition unset : RawConfig :=
  mkRaw VUndefined VUndefined VUndefined VUndefined VUndefined VUndefined
        VUndefined VUndefined VUndefined VUndefined VUndefined VUndefined
        VUndefined VUndefined VUndefined VUndefined VUndefined VUndefined
        VUndefined.

(** a store of an old installation: charge point 1 limited to 11 (kW),
    charge point 2 to 16000 (W) *)
Definition legacy : Store :=
  <["evcs.c01.ctrl.limit_kw"%string := VNum (Fin 11)]>
    (<["evcs.c02.ctrl.limit_kw"%string := VNum (Fin 16000)]> ∅).

(** a configuration that sets nothing but two charge points *)
Definition twoPoints : RawConfig :=
  mkRaw VUndefined VUndefined VUndefined VUndefined VUndefined VUndefined
        VUndefined VUndefined VUndefined VUndefined (VNum (Fin 2)) VUndefined
        VUndefined VUndefined VUndefined VUndefined VUndefined VUndefined
        VUndefined.

(** the adapter after [onReady] on a new installation with that
    configuration, at the clock reading 1000000 *)
Definition adapter : Scenario.Adapter :=
  fst (fst (onReady (H := ExampleHost.host) twoPoints ∅ 1000000)).

End ExampleStartup.

Module StartupProps.
Import Startup.
Local Open Scope Q_scope.

(** The six kinds of charge point of the default mix. *)
Definition kinds : list (Charger.Kind * Q) :=
  [ (Charger.ac, 11); (Charger.ac, 22);
    (Charger.dc, 50); (Charger.dc, 150); (Charger.dc, 300); (Charger.dc, 400) ].

(** The [i]-th DC entry of the default mix. *)
Definition dcAt (i : nat) : Charger.Kind * Q :=
  (Charger.dc, nth (i mod 4) dcPattern 0).

(** Two steps of the generator. *)
Definition step2 (s : Z) : Z := LcgProps.step (LcgProps.step s).

(** The id of the limit of charge point [i]. *)
Definition limitId (i : Z) : string := AddressProps.evcsPoint i "ctrl.limit_kw".

(** The values the migration takes for kilowatts. *)
Definition legacy (v : Q) : bool := Qltb 0 (Qabs v) && Qleb (Qabs v) 500.

(** The number between "evcs.c" and ".ctrl.limit_kw" in an id. *)
Definition limitIndex (id : string) : option Z :=
  JS.decimalValue 0 (String.substring 6 (String.length id - 20) id).

Definition limitIndexOk (i : Z) : bool :=
  match limitIndex (limitId i) with
  | Some k => Z.eqb k i
  | None => false
  end.

End StartupProps.


(* ===================================================================== *)
(** * Scenario controls: writes below [scenario.]                        *)
(* ===================================================================== *)

Module Control.
Import Scenario.

Section Engine.
Context `{Host} `{Setups}.

(** [relId.substring('scenario.buttons.'.length)] *)
Definition buttonName (relId : string) : string :=
  String.substring 17 (String.length relId - 17) relId.

(** The states written with [ack], in order. *)
Definition Acks : Type := list (string * JS.value).

(** The statements of a branch, then the last acknowledgement. *)
Definition thenAck (acks : Acks) (last : string * JS.value) (r : Adapter * Outcome)
  : Adapter * Acks * bool :=
  match r with
  | (a', Returned) => (a', acks ++ [last], false)
  | (a', Threw) => (a', acks, true)
  end.

(** A branch that ends in the statement that throws. *)
Definition caught (acks : Acks) (r : Adapter * Outcome) : Adapter * Acks * bool :=
  match r with
  | (a', Returned) => (a', acks, false)
  | (a', Threw) => (a', acks, true)
  end.

(** [[
async _handleScenarioStateWrite(relId, value) {
    if (relId === 'scenario.selected') {
        const normalized = this._normalizeScenarioId(value);
        this._scenario.selected = normalized;
        await this.setStateAsync(relId, { val: normalized, ack: true });
        this._scenario.status = `selected=${normalized}`;
        return;
    }
    if (relId.startsWith('scenario.buttons.')) {
        const isPressed = value === true || value === 1 || value === 'true';
        await this.setStateAsync(relId, { val: value, ack: true });
        if (!isPressed) return;
        const scenarioId = this._normalizeScenarioId(relId.substring('scenario.buttons.'.length));
        const def = this._scenarioDefinitions().find(s => s.id === scenarioId);
        if (def?.kind === 'suite' || scenarioId === 'suite_all_scenarios_5min'
            || scenarioId === 'suite_stop') {
            if (scenarioId === 'suite_stop') { await this._stopSuite('user'); }
            else { await this._startSuiteAll(); }
        } else {
            if (this._suite && this._suite.running) { await this._stopSuite('manual_scenario'); }
            const start = scenarioId !== 'baseline';
            await this._applyScenario(scenarioId, { start });
        }
        await this.setStateAsync(relId, { val: false, ack: true });
        return;
    }
    const isPressed = value === true || value === 1 || value === 'true';
    await this.setStateAsync(relId, { val: value, ack: true });
    if (!isPressed) return;
    if (relId === 'scenario.ctrl.apply') {
        if (this._suite && this._suite.running) { await this._stopSuite('user'); }
        await this._applyScenario(this._scenario.selected, { start: false });
    } else if (relId === 'scenario.ctrl.start') {
        const sel = this._normalizeScenarioId(this._scenario.selected);
        if (sel === 'suite_stop') { await this._stopSuite('user'); }
        else if (sel === 'suite_all_scenarios_5min') { await this._startSuiteAll(); }
        else {
            if (this._suite && this._suite.running) { await this._stopSuite('manual_scenario'); }
            await this._applyScenario(sel, { start: sel !== 'baseline' });
        }
    } else if (relId === 'scenario.ctrl.stop') {
        await this._stopSuite('user');
        await this._stopScenario('user');
    } else if (relId === 'scenario.ctrl.reset') {
        await this._stopSuite('user');
        await this._applyScenario('baseline', { start: false });
    } else { }
    await this.setStateAsync(relId, { val: false, ack: true });
}
]]
    The whole body stands in [try { ... } catch (err) { this.log.warn(...) }].
    The result is the adapter, the states written with [ack], in order, and
    whether an exception was caught.  What follows a call of
    [this._normalizeScenarioId] in a branch is never reached. *)
Definition _handleScenarioStateWrite (relId : string) (value : value) (a : Adapter)
  : Adapter * Acks * bool :=
  if String.eqb relId "scenario.selected" then
    caught [] (_normalizeScenarioId value a)
  else if String.prefix "scenario.buttons." relId then
    if negb (Command.isPressed value) then (a, [(relId, value)], false)
    else caught [(relId, value)] (_normalizeScenarioId (VStr (buttonName relId)) a)
  else
    if negb (Command.isPressed value) then (a, [(relId, value)], false)
    else if String.eqb relId "scenario.ctrl.apply" then
      thenAck [(relId, value)] (relId, VBool false)
        (andThen (if su_running (_suite a) then _stopSuite "user" a
                  else (a, Returned))
                 (fun a1 => _applyScenario (VStr (selected (_scenario a1))) false a1))
    else if String.eqb relId "scenario.ctrl.start" then
      caught [(relId, value)]
             (_normalizeScenarioId (VStr (selected (_scenario a))) a)
    else if String.eqb relId "scenario.ctrl.stop" then
      thenAck [(relId, value)] (relId, VBool false)
        (andThen (_stopSuite "user" a)
                 (fun a1 => (_stopScenario "user" a1, Returned)))
    else if String.eqb relId "scenario.ctrl.reset" then
      thenAck [(relId, value)] (relId, VBool false)
        (andThen (_stopSuite "user" a)
                 (fun a1 => _applyScenario (VStr "baseline") false a1))
    else
      thenAck [(relId, value)] (relId, VBool false) (a, Returned).

(** [[
async onStateChange(id, state) {
    try {
        if (!id || !state) return;
        if (state.ack) return;
        const rel = id.replace(this.namespace + '.', '');
        if (rel.startsWith('scenario.')) {
            await this._handleScenarioStateWrite(rel, state.val);
            return;
        }
        this._reportOnWrite(rel, state.val);
        const applied = this._applyWrite(rel, state.val);
        if (applied) { await this.setStateAsync(rel, { val: state.val, ack: true }); }
        else { await this.setStateAsync(rel, { val: state.val, ack: true }); }
    } catch (err) { this.log.warn(...); }
}
]]
    for a state of the adapter's namespace, [rel] its id below the
    namespace; [state] is [None] for a deleted state, else its [val] and
    [ack]. *)
Definition onStateChange (nowMs : Z) (rel : string) (state : option (JS.value * bool))
    (a : Adapter) : Adapter * Acks * bool :=
  match state with
  | None => (a, [], false)
  | Some (val, ack) =>
      if ack then (a, [], false)
      else if String.prefix "scenario." rel then _handleScenarioStateWrite rel val a
      else
        let r := _report a in
        let w := WriteLog._reportOnWrite (running (_scenario a)) (su_running (_suite a))
                   nowMs (writes r) rel val in
        let '(model', _) := Command.applyWrite nowMs (_model a) rel val in
        (mkAdapter model' (_cfg a) (_rng a) (_scenario a) (_suite a)
           (mkReport (rep_scenarioId r) (rep_started_ms r) w (last_json r)
              (suite_json r)),
         [(rel, val)], false)
  end.

End Engine.

End Control.

Module ControlProps.
Import Scenario Control.

(** The id of the button of a scenario. *)
Definition buttonId (name : string) : string :=
  String.append "scenario.buttons." name.

End ControlProps.

(** ** Vocabulary of the write-counter statements *)

Module WriteLogProps.
Import WriteLog.
Local Open Scope Q_scope.

Definition categories : list string :=
  [ "evcs_limit"; "evcs_enable"; "evcs_plug"; "storage_power"; "storage_enable";
    "heatpump"; "chp"; "generator"; "grid_limit"; "tariff"; "pv_override";
    "other" ]%string.

(** The number a counter holds, 0 when the field is absent. *)
Definition counter (w : Log) (k : string) : Q :=
  match w !! k with
  | Some (VNum (Fin q)) => q
  | _ => 0
  end.

(** Every counter is a finite number or absent. *)
Definition numeric (w : Log) : Prop :=
  forall k : string,
    In k ("total"%string :: categories) ->
    w !! k = None \/ exists q : Q, w !! k = Some (VNum (Fin q)).

(** The total is the sum of the categories. *)
Definition balanced (w : Log) : Prop :=
  PlantProps.sumQ (map (counter w) categories) == counter w "total".

(** The category of the three counted fields of charge point [i] is
    [expected] for each of them in turn. *)
Definition countedAs (expected : list string) (i : Z) : bool :=
  forallb (fun p => String.eqb (category (AddressProps.evcsPoint i (fst p))) (snd p))
          (combine [ "ctrl.limit_kw"; "ctrl.enabled"; "ctrl.plugged" ]%string
                   expected).

End WriteLogProps.


(** ** Vocabulary of the engine statements *)

Module EngineProps.
Import Scenario Control.

(** Nothing runs and nothing is due, as in the state the constructor
    gives the engine. *)
Definition quiet (a : Adapter) : Prop :=
  running (_scenario a) = false /\ su_running (_suite a) = false
  /\ reset_pending (_scenario a) = false /\ justFinished (_scenario a) = false.

(** What an event keeps of an adapter in which nothing runs. *)
Definition kept (a a' : Adapter) : Prop :=
  quiet a'
  /\ selected (_scenario a') = selected (_scenario a)
  /\ active (_scenario a') = active (_scenario a)
  /\ (phase (_scenario a') = phase (_scenario a)
      \/ phase (_scenario a') = "stopped"%string)
  /\ data (_scenario a') = data (_scenario a)
  /\ last_applied (_scenario a') = last_applied (_scenario a)
  /\ _suite a' = _suite a
  /\ _cfg a' = _cfg a
  /\ last_json (_report a') = last_json (_report a)
  /\ suite_json (_report a') = suite_json (_report a).

(** What reaches the adapter after start-up: the timer's tick at the clock
    reading [nowMs], the tick before having been at [last], or the change
    of a state of its namespace. *)
Inductive Event : Type :=
| TimerTick (nowMs last : Z)
| StateChange (nowMs : Z) (rel : string) (state : option (JS.value * bool)).

Section WithEngine.
Context `{Host} `{Setups}.

Definition step (a : Adapter) (e : Event) : Adapter :=
  match e with
  | TimerTick nowMs last => fst (tick nowMs last a)
  | StateChange nowMs rel state => fst (fst (onStateChange nowMs rel state a))
  end.

Definition run (events : list Event) (a : Adapter) : Adapter :=
  fold_left step events a.

End WithEngine.

End EngineProps.
Module PublishProps.

(** No full stop occurs in [s]. *)
Definition noDot (s : string) : bool :=
  forallb (fun c => negb (Ascii.eqb c ".")) (list_ascii_of_string s).

(** [s] taken apart at its first full stop. *)
Fixpoint splitDot (s : string) : option (string * string) :=
  match s with
  | EmptyString => None
  | String c rest =>
      if Ascii.eqb c "." then Some (EmptyString, rest)
      else match splitDot rest with
           | Some (a, b) => Some (String c a, b)
           | None => None
           end
  end.

(** The charge point and the field of an id [evcs.<id>.<field>]. *)
Definition evcsParts (key : string) : option (string * string) :=
  match key with
  | String "e" (String "v" (String "c" (String "s" (String "." rest)))) =>
      splitDot rest
  | _ => None
  end.

(** The fields [_publish] writes for a charge point. *)
Definition tails : list string :=
  [ "ctrl.enabled"; "ctrl.limit_kw"; "ctrl.plugged"; "ctrl.priority";
    "vehicle.id"; "vehicle.soc_pct"; "vehicle.capacity_kwh";
    "vehicle.max_charge_kw"; "vehicle.target_soc_pct"; "vehicle.departure_time";
    "meas.status"; "meas.power_kw"; "meas.energy_kwh" ]%string.

Definition chargerKeys (c : Charger.t) : list string :=
  map (fun t => String.append "evcs."
                  (String.append (Charger.id c) (String.append "." t)))
      tails.

(** The ids [_publish] and [_publishAggregates] write for the plant apart
    from the charge points. *)
Definition fixedKeys : list string :=
  [ "grid.available"; "grid.limit_kw"; "grid.base_load_kw"; "grid.power_kw";
    "grid.over_limit"; "tariff.mode"; "tariff.price_ct_per_kwh";
    "tariff.price_next_24h_json"; "pv.installed_kwp"; "pv.weather_factor";
    "pv.power_kw"; "pv.override.enabled"; "pv.override.power_kw";
    "storage.capacity_kwh"; "storage.max_charge_kw"; "storage.max_discharge_kw";
    "storage.soc_pct"; "storage.power_kw"; "storage.ctrl.enabled";
    "storage.ctrl.power_set_kw";
    "heatpump.power_kw"; "heatpump.ctrl.enabled"; "heatpump.ctrl.power_set_kw";
    "chp.power_kw"; "chp.ctrl.enabled"; "chp.ctrl.power_set_kw";
    "generator.power_kw"; "generator.ctrl.enabled"; "generator.ctrl.power_set_kw"
  ]%string.

Definition aggregateKeys : list string :=
  [ "evcs.count"; "evcs.total_power_kw"; "evcs.total_energy_kwh" ]%string.

(** No string occurs twice in [l]. *)
Fixpoint distinctb (l : list string) : bool :=
  match l with
  | [] => true
  | x :: rest => negb (existsb (String.eqb x) rest) && distinctb rest
  end.

Definition noParts (k : string) : bool :=
  match evcsParts k with None => true | Some _ => false end.

End PublishProps.


(** ** Vocabulary of the installation statement *)

Module InstallProps.
Import Startup.
Local Open Scope Q_scope.

(** The first default listed for an id. *)
Fixpoint assoc (k : string) (l : list (string * value)) : option value :=
  match l with
  | [] => None
  | (k', d) :: rest => if String.eqb k' k then Some d else assoc k rest
  end.

(** A value that counts as persisted: neither [null] nor [undefined]. *)
Definition persisted (v : value) : bool :=
  match v with
  | VNull | VUndefined => false
  | _ => true
  end.

(** The fields of a charge point with their defaults, as [chargerStates]
    lists them. *)
Definition chargerFields (c : Config) (i : Z) (spec : Charger.Kind * Q)
  : list (string * value) :=
  [ ("meta.type", VStr (kindText (fst spec)));
    ("meta.max_kw", numV (snd spec));
    ("ctrl.enabled", VBool false);
    ("ctrl.limit_kw", numV (Publish.Math_round (snd spec * 1000)));
    ("ctrl.plugged", VBool false);
    ("ctrl.priority", numV 5);
    ("ctrl.reset_session", VBool false);
    ("vehicle.id", VStr (String.append "VEH-" (Scenario.pad2 i)));
    ("vehicle.soc_pct", numV 20);
    ("vehicle.capacity_kwh", numV 60);
    ("vehicle.max_charge_kw", numV (snd spec));
    ("vehicle.target_soc_pct", numV (Scenario.defaultTargetSocPct (base c)));
    ("vehicle.departure_time", VStr (Scenario.defaultDepartureTime (base c)));
    ("meas.status", VStr "Available");
    ("meas.power_kw", numV 0);
    ("meas.energy_kwh", numV 0) ]%string.

(** The states of [n] charge points from [i] on. *)
Fixpoint chargerBlocks (c : Config) (specs : list (Charger.Kind * Q))
    (n : nat) (i : Z) : list (string * value) :=
  match n with
  | O => []
  | S n' =>
      match nth_error specs (Z.to_nat (i - 1)) with
      | Some spec => chargerStates c i spec
      | None => []
      end ++ chargerBlocks c specs n' (i + 1)%Z
  end.

(** Everything [_createObjects] ensures. *)
Definition installed (c : Config) : list (string * value) :=
  plantStates c
  ++ chargerBlocks c (_defaultChargerSpecs (chargersCount c))
                   (loopCountFrom1 (chargersCount c)) 1.

(** The charge-point name an id starts with reads back in one piece. *)
Definition nameOk (i : Z) : bool := PublishProps.noDot (Scenario.chargerName i).

End InstallProps.
(* ===================================================================== *)
(** * Properties                                                          *)
(* ===================================================================== *)

(** ** Facts about the numeric helpers *)

Module JSFacts.

Lemma Qleb_true a b : Qleb a b = true <-> (a <= b)%Q.
Proof. unfold Qleb. apply Qle_bool_iff. Qed.

Lemma Qleb_false a b : Qleb a b = false <-> (b < a)%Q.
Proof.
  unfold Qleb. split; intros H.
  - apply Qnot_le_lt. intros Hle. apply Qle_bool_iff in Hle. congruence.
  - destruct (Qle_bool a b) eqn:E; [|reflexivity].
    apply Qle_bool_iff in E. apply Qlt_not_le in H. contradiction.
Qed.

Lemma Qltb_true a b : Qltb a b = true <-> (a < b)%Q.
Proof.
  unfold Qltb. rewrite negb_true_iff. apply (Qleb_false b a).
Qed.

Lemma Qltb_false a b : Qltb a b = false <-> (b <= a)%Q.
Proof.
  unfold Qltb. rewrite negb_false_iff. apply (Qleb_true b a).
Qed.

Lemma clamp_bounds v lo hi : (lo <= hi -> lo <= clamp v lo hi <= hi)%Q.
Proof.
  intros Hlh. unfold clamp, clampNum, Math_min, Math_max.
  split.
  - apply Q.min_glb; [assumption | apply Q.le_max_l].
  - apply Q.le_min_l.
Qed.

Lemma clampNum_bounds n lo hi : (lo <= hi -> lo <= clampNum n lo hi <= hi)%Q.
Proof.
  intros Hlh. destruct n; simpl.
  - apply (clamp_bounds q lo hi Hlh).
  - split; [assumption | apply Qle_refl].
  - unfold Math_min. split; [apply Q.min_glb; [assumption|apply Qle_refl] | apply Q.le_min_l].
  - split; [apply Qle_refl | assumption].
Qed.

Lemma clamp_id v lo hi : (lo <= v -> v <= hi -> clamp v lo hi == v)%Q.
Proof.
  intros H1 H2. unfold clamp, clampNum, Math_min, Math_max.
  rewrite (Q.max_r lo v H1). apply Q.min_r. exact H2.
Qed.

Lemma clamp_le_of_nonneg v hi : (0 <= v -> clamp v 0 hi <= v)%Q.
Proof.
  intros Hv. unfold clamp, clampNum, Math_min, Math_max.
  rewrite (Q.max_r 0 v Hv). apply Q.le_min_r.
Qed.

End JSFacts.

Import JSFacts.

(** ** DeterministicRandom *)

Module LcgRandomSpec.
Import LcgRandom.
Local Open Scope Z_scope.

(** The state stays an unsigned 32-bit integer. *)
Lemma next_state_range (g : t) : 0 <= _state (snd (next g)) < two32.
Proof. simpl. apply Z.mod_pos_bound. reflexivity. Qed.

(** On a 32-bit state the product [1664525 * state + 1013904223] is below
    2^53: the double computes it without rounding, which is what makes the
    integer model of [next] exact. *)
Lemma next_product_exact (s : Z) :
  0 <= s < two32 -> 0 <= 1664525 * s + 1013904223 < 2 ^ 53.
Proof. unfold two32. intros Hs. split; [lia|]. change (2 ^ 53) with 9007199254740992. lia. Qed.

Lemma new_state_range (seed : num) : 0 < _state (new seed) < two32.
Proof.
  unfold new. simpl.
  destruct (Z.eqb_spec (ToUint32 seed) 0) as [E|E].
  - unfold two32; lia.
  - assert (0 <= ToUint32 seed < two32).
    { destruct seed; simpl; try (unfold two32; lia).
      apply Z.mod_pos_bound. reflexivity. }
    lia.
Qed.

Lemma next_value_zero (g : t) :
  Qeq_bool (fst (next g)) 0 = true <-> _state (snd (next g)) = 0.
Proof.
  simpl. unfold Qeq_bool. simpl.
  rewrite Z.mul_1_r. split; intros E.
  - apply Z.eqb_eq in E. exact E.
  - apply Z.eqb_eq. exact E.
Qed.

(** The rejection loop of [normal] leaves after at most two draws: a draw
    of 0 means the state is 0, and the state after 0 is 1013904223. *)
Lemma drawNonzero_two (k : nat) (g : t) :
  exists u g', drawNonzero (S (S k)) g = Some (u, g')
               /\ drawNonzero 2 g = Some (u, g')
               /\ Qeq_bool u 0 = false.
Proof.
  cbn [drawNonzero].
  destruct (next g) as [u g1] eqn:E1.
  destruct (Qeq_bool u 0) eqn:Eu.
  - assert (Hs : _state g1 = 0).
    { pose proof (next_value_zero g) as Hz. rewrite E1 in Hz. simpl in Hz.
      apply Hz. exact Eu. }
    destruct (next g1) as [v g2] eqn:E2.
    assert (Hv : Qeq_bool v 0 = false).
    { unfold next in E2. rewrite Hs in E2. inversion E2; subst. reflexivity. }
    rewrite Hv. exists v, g2. destruct k; simpl; rewrite ?E2, ?Hv; auto.
  - exists u, g1. auto.
Qed.

Section WithHost.
Context `{Host}.

(** [normal] terminates: from fuel 2 on the bounded method returns, and
    always the same result. *)
Lemma normalFuel_total (k : nat) (g : t) (mu sigma : Q) :
  normalFuel (S (S k)) g mu sigma = Some (normal g mu sigma).
Proof.
  unfold normal, normalFuel.
  destruct (_spareNormal g) as [z|]; [reflexivity|].
  destruct (drawNonzero_two k g) as (u & g1 & E1 & E1' & _).
  rewrite E1, E1'.
  destruct (drawNonzero_two k g1) as (v & g2 & E2 & E2' & _).
  rewrite E2, E2'. reflexivity.
Qed.

(** What one generator answers in a heap run is its own stream on the calls
    made on it: calls on other objects do not interfere. *)
Lemma runHeap_project (l : nat) (sched : list (nat * call)) :
  forall h : gmap nat t,
    outputsOf l (runHeap h sched) =
    match h !! l with
    | Some g => stream g (callsOn l sched)
    | None => []
    end.
Proof.
  induction sched as [|[l' c] rest IH]; intros h.
  - simpl. destruct (h !! l); reflexivity.
  - cbn [runHeap]. unfold callsOn. cbn [List.filter fst].
    destruct (Nat.eqb_spec l' l) as [->|Hne].
    + destruct (h !! l) as [g|] eqn:Hl.
      * cbn [map snd stream]. destruct (invoke c g) as [x g'] eqn:Ei.
        unfold outputsOf. cbn [List.filter fst]. rewrite Nat.eqb_refl.
        cbn [map snd]. f_equal.
        fold (outputsOf l (runHeap (<[l:=g']> h) rest)).
        rewrite IH. rewrite lookup_insert_eq. reflexivity.
      * rewrite IH, Hl. reflexivity.
    + destruct (h !! l') as [g|] eqn:Hl'.
      * destruct (invoke c g) as [x g'] eqn:Ei.
        unfold outputsOf. cbn [List.filter fst].
        destruct (Nat.eqb_spec l' l) as [E|_]; [contradiction|].
        fold (outputsOf l (runHeap (<[l':=g']> h) rest)).
        rewrite IH. rewrite lookup_insert_ne by exact Hne. reflexivity.
      * rewrite IH. reflexivity.
Qed.

Lemma next_spec (g : t) :
  _state (snd (next g)) = (1664525 * _state g + 1013904223) mod 2 ^ 32
  /\ _spareNormal (snd (next g)) = _spareNormal g
  /\ (fst (next g) == inject_Z (_state (snd (next g))) / inject_Z (2 ^ 32))%Q
  /\ (0 <= fst (next g) < 1)%Q.
Proof.
  pose proof (next_state_range g) as Hr. simpl in *. unfold two32 in *.
  set (s := (1664525 * _state g + 1013904223) mod 4294967296) in *.
  change (2 ^ 32) with 4294967296.
  repeat split.
  - rewrite (Qmake_Qdiv s 4294967296). reflexivity.
  - unfold Qle. simpl. lia.
  - unfold Qlt. simpl. lia.
Qed.

Lemma normal_spare_spec (g : t) (mu sigma : Q) :
  _spareNormal g = None ->
  exists u v g1 g2,
    drawNonzero 2 g = Some (u, g1) /\ drawNonzero 2 g1 = Some (v, g2)
    /\ Qeq_bool u 0 = false /\ Qeq_bool v 0 = false
    /\ let mag := Math_sqrt (-2 * Math_log u)%Q in
       let z0 := (mag * Math_cos (2 * Math_PI * v))%Q in
       let z1 := (mag * Math_sin (2 * Math_PI * v))%Q in
       normal g mu sigma
       = ((mu + sigma * z0)%Q, {| _state := _state g2; _spareNormal := Some z1 |})
       /\ forall mu' sigma',
           normal (snd (normal g mu sigma)) mu' sigma'
           = ((mu' + sigma' * z1)%Q, {| _state := _state g2; _spareNormal := None |}).
Proof.
  intros Hs.
  destruct (drawNonzero_two 0 g) as (u & g1 & E1 & _ & Hu).
  destruct (drawNonzero_two 0 g1) as (v & g2 & E2 & _ & Hv).
  exists u, v, g1, g2. repeat split; try assumption.
  - unfold normal, normalFuel. rewrite Hs, E1, E2. reflexivity.
  - intros mu' sigma'. unfold normal at 2, normalFuel. rewrite Hs, E1, E2.
    reflexivity.
Qed.

(** C1: two generator objects created from the same seed and driven by the
    same sequence of [next()]/[normal()] calls answer with identical
    streams, however their calls are interleaved with each other and with
    calls on other generators; [next()] steps the state by
    [(1664525*state + 1013904223) mod 2^32] and returns [state/2^32], a
    value of [[0,1)]; a [normal()] that finds no spare computes both
    Box-Muller samples, stores the second one, and the very next
    [normal(mu',sigma')] returns [mu' + sigma' * spare] without drawing. *)
Theorem same_seed_same_stream
    (seed : num) (h : gmap nat t) (a b : nat) (sched : list (nat * call)) :
  h !! a = Some (new seed) ->
  h !! b = Some (new seed) ->
  callsOn a sched = callsOn b sched ->
  outputsOf a (runHeap h sched) = outputsOf b (runHeap h sched)
  /\ outputsOf a (runHeap h sched) = stream (new seed) (callsOn a sched)
  /\ (forall g : t,
        _state (snd (next g)) = (1664525 * _state g + 1013904223) mod 2 ^ 32
        /\ _spareNormal (snd (next g)) = _spareNormal g
        /\ (fst (next g) == inject_Z (_state (snd (next g))) / inject_Z (2 ^ 32))%Q
        /\ (0 <= fst (next g) < 1)%Q)
  /\ (forall (g : t) (mu sigma : Q),
        _spareNormal g = None ->
        exists u v g1 g2,
          drawNonzero 2 g = Some (u, g1) /\ drawNonzero 2 g1 = Some (v, g2)
          /\ Qeq_bool u 0 = false /\ Qeq_bool v 0 = false
          /\ let mag := Math_sqrt (-2 * Math_log u)%Q in
             let z0 := (mag * Math_cos (2 * Math_PI * v))%Q in
             let z1 := (mag * Math_sin (2 * Math_PI * v))%Q in
             normal g mu sigma
             = ((mu + sigma * z0)%Q,
                {| _state := _state g2; _spareNormal := Some z1 |})
             /\ forall mu' sigma',
                 normal (snd (normal g mu sigma)) mu' sigma'
                 = ((mu' + sigma' * z1)%Q,
                    {| _state := _state g2; _spareNormal := None |})).
Proof.
  intros Ha Hb Hcalls.
  rewrite !runHeap_project, Ha, Hb, Hcalls.
  repeat split; try (apply next_spec).
  intros g mu sigma Hs. apply normal_spare_spec. exact Hs.
Qed.

End WithHost.

Lemma same_seed_same_stream_witness :
  let h : gmap nat t := <[1%nat := new (Fin 1337)]> (<[0%nat := new (Fin 1337)]> ∅) in
  let sched := [(0%nat, Next); (1%nat, Next); (1%nat, Normal 0 1);
                (0%nat, Normal 0 1); (0%nat, Normal 5 2); (1%nat, Normal 5 2)] in
  outputsOf 0 (runHeap (H := ExampleHost.host) h sched)
  = outputsOf 1 (runHeap (H := ExampleHost.host) h sched).
Proof.
  intros h sched.
  destruct (same_seed_same_stream (H := ExampleHost.host)
              (Fin 1337) h 0%nat 1%nat sched) as [E _];
    [reflexivity | reflexivity | reflexivity | exact E].
Defined.

End LcgRandomSpec.

(** ** Command handling *)

Module CommandSpec.
Import Command CommandPoints.

Section WithHost.
Context `{Host}.

Lemma normalizePowerKw_finite (q : Q) :
  (_normalizePowerKw (VNum (Fin q)) == q / 1000)%Q.
Proof. unfold _normalizePowerKw. simpl. reflexivity. Qed.

Lemma normalizePowerKw_not_finite (v : value) :
  Number_isFinite (Number v) = false -> (_normalizePowerKw v == 0)%Q.
Proof.
  unfold _normalizePowerKw. destruct (Number v); simpl; try discriminate;
    intros _; reflexivity.
Qed.

Lemma clampV_in_range (q lo hi : Q) :
  (lo <= q)%Q -> (q <= hi)%Q -> (clampV (VNum (Fin q)) lo hi == q)%Q.
Proof. intros H1 H2. unfold clampV. simpl. apply (clamp_id q lo hi H1 H2). Qed.

Lemma updateCharger_find (cid : string) (c' : Charger.t) (l : list Charger.t) :
  Charger.id c' = cid ->
  forall c, findCharger cid l = Some c ->
  exists l', updateCharger cid (fun _ => c') l = Some l'
             /\ findCharger cid l' = Some c'
             /\ length l' = length l.
Proof.
  intros Hid. induction l as [|x rest IH]; intros c Hf; [discriminate|].
  unfold findCharger in *. cbn [List.find updateCharger] in *.
  destruct (String.eqb (Charger.id x) cid) eqn:E.
  - exists (c' :: rest). cbn [List.find]. rewrite Hid, String.eqb_refl.
    repeat split.
  - destruct (IH c Hf) as (l' & Hu & Hf' & Hlen).
    rewrite Hu. exists (x :: l'). cbn [List.find]. rewrite E.
    repeat split; [exact Hf' | simpl; congruence].
Qed.

Lemma matchEvcs_evcsId (d1 d2 : ascii) (tail : string) :
  Departure.isDigit d1 = true -> Departure.isDigit d2 = true ->
  tail <> EmptyString ->
  forallb notLineTerminator (list_ascii_of_string tail) = true ->
  matchEvcs (evcsId d1 d2 tail) = Some (chargerId d1 d2, tail).
Proof.
  intros H1 H2 Hne Hnl. unfold matchEvcs, evcsId, chargerId.
  destruct tail as [|t rest]; [contradiction|].
  cbv [String.append]. cbn [list_ascii_of_string] in *.
  rewrite H1, H2, Hnl. cbn [andb].
  cbn [string_of_list_ascii]. rewrite string_of_list_ascii_of_string.
  reflexivity.
Qed.

(** A write to a charger datapoint reaches [applyChargerWrite] on the
    charger of that id and stores its result in place. *)
Lemma applyWrite_evcs (now : Z) (m : Model.t) (d1 d2 : ascii) (tail : string)
    (value : value) (c c' : Charger.t) :
  Departure.isDigit d1 = true -> Departure.isDigit d2 = true ->
  tail <> EmptyString ->
  forallb notLineTerminator (list_ascii_of_string tail) = true ->
  findCharger (chargerId d1 d2) (Model.evcs_chargers m) = Some c ->
  applyChargerWrite now tail value c = Some c' ->
  Charger.id c' = Charger.id c ->
  exists l',
    _applyWrite now m (evcsId d1 d2 tail) value = (setChargers m l', true)
    /\ findCharger (chargerId d1 d2) l' = Some c'
    /\ length l' = length (Model.evcs_chargers m).
Proof.
  intros H1 H2 Hne Hnl Hf Ha Hid.
  assert (Hcid : Charger.id c' = chargerId d1 d2).
  { rewrite Hid. unfold findCharger in Hf. apply List.find_some in Hf.
    destruct Hf as [_ Hf]. apply String.eqb_eq in Hf. exact Hf. }
  destruct (updateCharger_find _ c' _ Hcid c Hf) as (l' & Hu & Hf' & Hlen).
  exists l'. split; [|split; assumption].
  unfold _applyWrite.
  assert (Hm : matchEvcs (evcsId d1 d2 tail) = Some (chargerId d1 d2, tail))
    by (apply matchEvcs_evcsId; assumption).
  unfold evcsId in *. cbv [String.append] in *.
  cbn [String.eqb Ascii.eqb Bool.eqb] in *.
  rewrite Hm. unfold findCharger in Hf. rewrite Hf, Ha, Hu. reflexivity.
Qed.

(** C10: a command written to [storage.ctrl.power_set_kw], to
    [heatpump|chp|generator.ctrl.power_set_kw] or to
    [evcs.cNN.ctrl.limit_kw] is taken as Watts: the model stores the number
    divided by 1000 (0 for a value that does not convert to a finite
    number), the charger limit after clamping the kilowatt value to
    [0, 10000]; every other numeric datapoint stores [clamp(value, lo, hi)],
    which is the received number itself when that lies in the range. *)
Theorem watt_commands_scaled (now : Z) (m : Model.t) (v : value) :
  (forall p : WattPoint,
      _applyWrite now m (wattPointId p) v
      = (fst (_applyWrite now m (wattPointId p) v), true)
      /\ wattPointField p (fst (_applyWrite now m (wattPointId p) v))
         = _normalizePowerKw v)
  /\ (forall q : Q, (_normalizePowerKw (VNum (Fin q)) == q / 1000)%Q)
  /\ (Number_isFinite (Number v) = false -> (_normalizePowerKw v == 0)%Q)
  /\ (forall (d1 d2 : ascii) (c : Charger.t),
         Departure.isDigit d1 = true -> Departure.isDigit d2 = true ->
         findCharger (chargerId d1 d2) (Model.evcs_chargers m) = Some c ->
         exists l' c',
           _applyWrite now m (evcsId d1 d2 "ctrl.limit_kw") v = (setChargers m l', true)
           /\ findCharger (chargerId d1 d2) l' = Some c'
           /\ Charger.ctrl_limit_kw c' = clamp (_normalizePowerKw v) 0 10000)
  /\ (forall p : PlainPoint,
         _applyWrite now m (plainPointId p) v
         = (fst (_applyWrite now m (plainPointId p) v), true)
         /\ plainPointField p (fst (_applyWrite now m (plainPointId p) v))
            = clampV v (fst (plainPointRange p)) (snd (plainPointRange p)))
  /\ (forall (p : ChargerPoint) (d1 d2 : ascii) (c : Charger.t),
         Departure.isDigit d1 = true -> Departure.isDigit d2 = true ->
         findCharger (chargerId d1 d2) (Model.evcs_chargers m) = Some c ->
         exists l' c',
           _applyWrite now m (evcsId d1 d2 (chargerPointTail p)) v
           = (setChargers m l', true)
           /\ findCharger (chargerId d1 d2) l' = Some c'
           /\ chargerPointField p c'
              = clampV v (fst (chargerPointRange p)) (snd (chargerPointRange p)))
  /\ (forall q lo hi : Q,
         (lo <= q)%Q -> (q <= hi)%Q -> (clampV (VNum (Fin q)) lo hi == q)%Q).
Proof.
  split; [|split; [|split; [|split; [|split; [|split]]]]].
  - intros p. destruct p; split; reflexivity.
  - apply normalizePowerKw_finite.
  - apply normalizePowerKw_not_finite.
  - intros d1 d2 c H1 H2 Hf.
    destruct (applyWrite_evcs now m d1 d2 "ctrl.limit_kw" v c
                (Charger.set_ctrl (Charger.ctrl_enabled c)
                   (clamp (_normalizePowerKw v) 0 10000)
                   (Charger.ctrl_plugged c) (Charger.ctrl_priority c) c)
                H1 H2 ltac:(discriminate) eq_refl Hf eq_refl eq_refl)
      as (l' & E & Hf' & _).
    eexists l', _. split; [exact E|]. split; [exact Hf'|]. reflexivity.
  - intros p. destruct p; split; reflexivity.
  - intros p d1 d2 c H1 H2 Hf.
    destruct p.
    all: match goal with
         | |- context [chargerPointTail ?p] =>
             destruct (applyChargerWrite now (chargerPointTail p) v c) as [c'|] eqn:Ha;
               [|discriminate Ha]
         end.
    all: assert (Hid : Charger.id c' = Charger.id c)
           by (cbn in Ha; inversion Ha; reflexivity).
    all: match goal with
         | |- context [chargerPointTail ?p] =>
             destruct (applyWrite_evcs now m d1 d2 (chargerPointTail p) v c c'
                         H1 H2 ltac:(discriminate) eq_refl Hf Ha Hid)
               as (l' & E & Hf' & _)
         end.
    all: exists l', c'; split; [exact E|]; split; [exact Hf'|].
    all: cbn in Ha; inversion Ha; reflexivity.
  - apply clampV_in_range.
Qed.

End WithHost.

Lemma watt_commands_scaled_witness :
  exists l' c',
    _applyWrite (H := ExampleHost.host) 0 Sample.model
                "evcs.c01.ctrl.limit_kw" (VNum (Fin 7000))
    = (setChargers Sample.model l', true)
    /\ findCharger "c01" l' = Some c'
    /\ Charger.ctrl_limit_kw c'
       = clamp (_normalizePowerKw (H := ExampleHost.host) (VNum (Fin 7000))) 0 10000.
Proof.
  destruct (watt_commands_scaled (H := ExampleHost.host) 0 Sample.model
              (VNum (Fin 7000))) as (_ & _ & _ & Hlimit & _).
  apply (Hlimit "0"%char "1"%char Sample.c01); reflexivity.
Defined.

End CommandSpec.

(** ** TickSimulator *)

Module TickSpec.
Import Tick TickProps.
Local Open Scope Q_scope.

(** Case analysis on every [Math.min] / [Math.max] / [clamp] of a goal. *)
Ltac minmax_step :=
  match goal with
  | |- context [Qmin ?a ?b] =>
      let x := fresh "m" in
      destruct (Q.min_spec a b) as [[? ?]|[? ?]];
      set (x := Qmin a b) in *; clearbody x
  | |- context [Qmax ?a ?b] =>
      let x := fresh "m" in
      destruct (Q.max_spec a b) as [[? ?]|[? ?]];
      set (x := Qmax a b) in *; clearbody x
  | _ : context [Qmin ?a ?b] |- _ =>
      let x := fresh "m" in
      destruct (Q.min_spec a b) as [[? ?]|[? ?]];
      set (x := Qmin a b) in *; clearbody x
  | _ : context [Qmax ?a ?b] |- _ =>
      let x := fresh "m" in
      destruct (Q.max_spec a b) as [[? ?]|[? ?]];
      set (x := Qmax a b) in *; clearbody x
  end.

Ltac split_minmax :=
  unfold clamp, clampNum, Math_min, Math_max in *;
  repeat minmax_step.

Lemma clamp_le_hi (v lo hi : Q) : clamp v lo hi <= hi.
Proof. unfold clamp, clampNum, Math_min. apply Q.le_min_l. Qed.

Lemma clamp_ge_lo (v lo hi : Q) : lo <= hi -> lo <= clamp v lo hi.
Proof. intros Hle. apply (clamp_bounds v lo hi Hle). Qed.

Lemma clamp_le_max0 (v hi : Q) : clamp v 0 hi <= Qmax 0 v.
Proof. unfold clamp, clampNum, Math_min, Math_max. apply Q.le_min_r. Qed.

(** The DC taper factor lies in [0.2, 1], is 1 up to 80 % and falls
    linearly to 0.2 at 100 %. *)
Lemma dcTaperFactor_range (s : Q) : (2 # 10) <= dcTaperFactor s <= 1.
Proof.
  unfold dcTaperFactor. destruct (Qleb (clamp s 0 100) 80).
  - split; [unfold Qle; simpl; lia | apply Qle_refl].
  - apply clamp_bounds. unfold Qle; simpl; lia.
Qed.

Lemma dcTaperFactor_low (s : Q) : s <= 80 -> dcTaperFactor s = 1.
Proof.
  intros Hs. unfold dcTaperFactor.
  assert (Hc : clamp s 0 100 <= 80).
  { split_minmax; lra. }
  apply Qleb_true in Hc. rewrite Hc. reflexivity.
Qed.

(** The clamped time step is between 0.2 s and 60 s. *)
Lemma dtSec_range (nowMs last : Z) : (2 # 10) <= dtSec nowMs last <= 60.
Proof.
  unfold dtSec. split_minmax; lra.
Qed.

Lemma dtHours_pos (nowMs last : Z) : 0 < dtHours nowMs last.
Proof.
  unfold dtHours. pose proof (dtSec_range nowMs last) as [Hlo _].
  apply Qlt_shift_div_l; lra.
Qed.

(** *** Charge points *)

Lemma chargeCeiling_bounds (ch : Charger.t) :
  limitsNonneg ch -> 0 <= chargeCeiling ch <= powerCeiling ch.
Proof.
  unfold limitsNonneg, chargeCeiling, powerCeiling. intros (Hl & Hm & Hv).
  split_minmax; lra.
Qed.

Lemma taperedPower_bounds (ch : Charger.t) :
  limitsNonneg ch -> 0 <= taperedPower ch <= chargeCeiling ch.
Proof.
  intros Hwf. pose proof (chargeCeiling_bounds ch Hwf) as [H0 _].
  unfold taperedPower. destruct (Charger.type ch); [lra|].
  pose proof (dcTaperFactor_range (Charger.vehicle_soc_pct ch)) as [Hlo Hhi].
  split; nra.
Qed.

Lemma energyNeedKwh_nonneg (ch : Charger.t) : 0 <= energyNeedKwh ch.
Proof. unfold energyNeedKwh, Math_max. apply Q.le_max_l. Qed.

(** The energy clamp and the final [clamp(p, 0, max_kw)] only lower a
    non-negative power. *)
Lemma chargePower_le_tapered (dtH : Q) (ch : Charger.t) :
  0 <= taperedPower ch -> chargePower dtH ch <= taperedPower ch.
Proof.
  intros Hp. unfold chargePower.
  pose proof (energyNeedKwh_nonneg ch) as Hneed.
  destruct (Qltb (energyNeedKwh ch) (Math_max 0 (taperedPower ch * dtH))
            && Qltb 0 dtH) eqn:E.
  - apply andb_true_iff in E. destruct E as [E1 E2].
    apply Qltb_true in E1. apply Qltb_true in E2.
    assert (Hq : energyNeedKwh ch / dtH * dtH == energyNeedKwh ch)
      by (field; lra).
    assert (H0 : 0 <= energyNeedKwh ch / dtH)
      by (apply Qle_shift_div_l; lra).
    set (q := energyNeedKwh ch / dtH) in *. clearbody q.
    assert (Hlt : q <= taperedPower ch).
    { revert E1. unfold Math_max.
      destruct (Q.max_spec 0 (taperedPower ch * dtH)) as [[? Hm]|[? Hm]];
        rewrite Hm; intros E1; nra. }
    eapply Qle_trans; [apply clamp_le_of_nonneg; exact H0 | exact Hlt].
  - apply clamp_le_of_nonneg. exact Hp.
Qed.

Lemma chargePower_nonneg (dtH : Q) (ch : Charger.t) :
  0 <= Charger.max_kw ch -> 0 <= chargePower dtH ch.
Proof. intros Hm. unfold chargePower. apply clamp_ge_lo. exact Hm. Qed.

(** What [evcsStep] writes to [meas.power_kw]. *)
Lemma evcsStep_power (dtH : Q) (ch : Charger.t) :
  Charger.meas_power_kw (fst (evcsStep dtH ch)) =
  match branchOf ch with
  | BFrozen => Charger.meas_power_kw ch
  | BCharging => chargePower dtH ch
  | _ => 0
  end.
Proof. unfold evcsStep. destruct (branchOf ch); reflexivity. Qed.

Lemma evcsStep_limits (dtH : Q) (ch : Charger.t) :
  Charger.ctrl_limit_kw (fst (evcsStep dtH ch)) = Charger.ctrl_limit_kw ch
  /\ Charger.max_kw (fst (evcsStep dtH ch)) = Charger.max_kw ch
  /\ Charger.vehicle_max_charge_kw (fst (evcsStep dtH ch))
     = Charger.vehicle_max_charge_kw ch
  /\ Charger.type (fst (evcsStep dtH ch)) = Charger.type ch
  /\ Charger.id (fst (evcsStep dtH ch)) = Charger.id ch.
Proof. unfold evcsStep. destruct (branchOf ch); repeat split. Qed.

Lemma evcsLoop_chargers (dtH : Q) (l : list Charger.t) :
  forall tp te,
    fst (fst (evcsLoop dtH l tp te)) = map (fun ch => fst (evcsStep dtH ch)) l.
Proof.
  induction l as [|ch rest IH]; intros tp te; [reflexivity|].
  cbn [evcsLoop map]. destruct (evcsStep dtH ch) as [ch' p] eqn:E.
  specialize (IH (tp + p) (te + Charger.meas_energy_kwh ch')).
  destruct (evcsLoop dtH rest (tp + p) (te + Charger.meas_energy_kwh ch'))
    as [[rest' tp'] te'].
  simpl in *. rewrite IH. reflexivity.
Qed.

Lemma branch_charging_inv (ch : Charger.t) :
  branchOf ch = BCharging ->
  Charger.sim_unavailable ch = false /\ Charger.sim_faulted ch = false
  /\ Charger.sim_meter_freeze ch = false /\ Charger.ctrl_plugged ch = true
  /\ Charger.ctrl_enabled ch = true
  /\ Charger.vehicle_soc_pct ch < targetSocOf ch - (1 # 100).
Proof.
  unfold branchOf.
  destruct (Charger.sim_unavailable ch); [discriminate|].
  destruct (Charger.sim_faulted ch); [discriminate|].
  destruct (Charger.sim_meter_freeze ch); [discriminate|].
  destruct (Charger.ctrl_plugged ch); [|discriminate]. cbn [negb].
  destruct (Qleb (targetSocOf ch - (1 # 100)) (Charger.vehicle_soc_pct ch)) eqn:E;
    [discriminate|].
  destruct (Charger.ctrl_enabled ch); [|discriminate].
  intros _. apply Qleb_false in E. repeat split; assumption.
Qed.

Lemma capKwhOf_pos (ch : Charger.t) : (1 # 10) <= capKwhOf ch.
Proof. unfold capKwhOf, Math_max. apply Q.le_max_l. Qed.

Lemma targetSocOf_range (ch : Charger.t) : 0 <= targetSocOf ch <= 100.
Proof. unfold targetSocOf. apply clamp_bounds. lra. Qed.

(** The energy clamp: the step never takes more than the energy needed. *)
Lemma chargePower_step_le_need (dtH : Q) (ch : Charger.t) :
  0 < dtH -> chargePower dtH ch * dtH <= energyNeedKwh ch.
Proof.
  intros Hdt. unfold chargePower.
  pose proof (energyNeedKwh_nonneg ch) as Hneed.
  set (p := taperedPower ch) in *. set (need := energyNeedKwh ch) in *.
  clearbody p need.
  destruct (Qltb need (Math_max 0 (p * dtH)) && Qltb 0 dtH) eqn:E.
  - assert (Hq : need / dtH * dtH == need) by (field; lra).
    assert (H0 : 0 <= need / dtH) by (apply Qle_shift_div_l; lra).
    set (q := need / dtH) in *. clearbody q.
    pose proof (clamp_le_of_nonneg q (Charger.max_kw ch) H0) as Hc.
    set (c := clamp q 0 (Charger.max_kw ch)) in *. clearbody c. nra.
  - apply andb_false_iff in E. destruct E as [E|E].
    + apply Qltb_false in E.
      pose proof (clamp_le_max0 p (Charger.max_kw ch)) as Hc.
      set (c := clamp p 0 (Charger.max_kw ch)) in *. clearbody c.
      unfold Math_max in E.
      destruct (Q.max_spec 0 (p * dtH)) as [[? Hm]|[? Hm]];
        destruct (Q.max_spec 0 p) as [[? Hm']|[? Hm']];
        rewrite Hm in E; rewrite Hm' in Hc; nra.
    + apply Qltb_false in E. lra.
Qed.

Lemma energyNeedKwh_charging (ch : Charger.t) :
  branchOf ch = BCharging ->
  energyNeedKwh ch
  == (targetSocOf ch - Charger.vehicle_soc_pct ch) / 100 * capKwhOf ch.
Proof.
  intros Hb. destruct (branch_charging_inv ch Hb) as (_ & _ & _ & _ & _ & Hs).
  pose proof (capKwhOf_pos ch) as Hc.
  unfold energyNeedKwh, Math_max. apply Q.max_r.
  set (T := targetSocOf ch) in *. set (s := Charger.vehicle_soc_pct ch) in *.
  set (c := capKwhOf ch) in *. clearbody T s c.
  assert (0 <= (T - s) / 100) by (apply Qle_shift_div_l; lra).
  set (d := (T - s) / 100) in *. clearbody d. nra.
Qed.

(** The SoC gained in a step is at most 96 % of the gap to the target. *)
Lemma deltaSoc_le_gap (dtH : Q) (ch : Charger.t) :
  0 < dtH -> branchOf ch = BCharging ->
  deliveredKwh dtH ch / capKwhOf ch * 100
  <= (targetSocOf ch - Charger.vehicle_soc_pct ch) * eff.
Proof.
  intros Hdt Hb.
  pose proof (chargePower_step_le_need dtH ch Hdt) as Hstep.
  pose proof (energyNeedKwh_charging ch Hb) as Hneed.
  pose proof (capKwhOf_pos ch) as Hc.
  unfold deliveredKwh.
  set (e := chargePower dtH ch * dtH) in *.
  set (need := energyNeedKwh ch) in *.
  set (T := targetSocOf ch) in *. set (s := Charger.vehicle_soc_pct ch) in *.
  set (c := capKwhOf ch) in *. clearbody e need T s c.
  assert (E : e * eff / c * 100 == (e / c * 100) * eff) by (field; lra).
  rewrite E. clear E.
  assert (Hec : e / c * 100 <= T - s).
  { assert (Hn : need / c * 100 == T - s) by (rewrite Hneed; field; lra).
    rewrite <- Hn.
    assert (He : e / c <= need / c).
    { apply Qle_shift_div_l; [lra|].
      assert (E' : e / c * c == e) by (field; lra). rewrite E'. exact Hstep. }
    lra. }
  unfold eff. nra.
Qed.

(** *** Storage *)

Lemma storagePowerOf_cases (st : Storage.t) :
  Storage.ctrl_enabled st = true ->
  (Storage.soc_pct st <= 0 /\ 0 < storageRequest st /\ storagePowerOf st = 0)
  \/ (100 <= Storage.soc_pct st /\ storageRequest st < 0 /\ storagePowerOf st = 0)
  \/ (~ (Storage.soc_pct st <= 0 /\ 0 < storageRequest st)
      /\ ~ (100 <= Storage.soc_pct st /\ storageRequest st < 0)
      /\ storagePowerOf st = storageRequest st).
Proof.
  intros He. unfold storagePowerOf. rewrite He. fold (storageRequest st).
  set (r := storageRequest st). set (s := Storage.soc_pct st).
  destruct (Qleb s 0 && Qltb 0 r) eqn:E1.
  - left. apply andb_true_iff in E1. destruct E1 as [E1 E1'].
    apply Qleb_true in E1. apply Qltb_true in E1'.
    repeat split; try assumption.
    destruct (Qleb 100 s && Qltb 0 0); reflexivity.
  - right. destruct (Qleb 100 s && Qltb r 0) eqn:E2.
    + left. apply andb_true_iff in E2. destruct E2 as [E2 E2'].
      apply Qleb_true in E2. apply Qltb_true in E2'.
      repeat split; assumption.
    + right. repeat split.
      * intros [Ha Hb]. apply Qleb_true in Ha. apply Qltb_true in Hb.
        rewrite Ha, Hb in E1. discriminate.
      * intros [Ha Hb]. apply Qleb_true in Ha. apply Qltb_true in Hb.
        rewrite Ha, Hb in E2. discriminate.
Qed.

Lemma storageRequest_range (st : Storage.t) :
  0 <= Storage.max_charge_kw st -> 0 <= Storage.max_discharge_kw st ->
  - Storage.max_charge_kw st <= storageRequest st <= Storage.max_discharge_kw st.
Proof.
  intros Hc Hd. unfold storageRequest. apply clamp_bounds. lra.
Qed.

Section WithHost.
Context `{Host}.

Lemma tickPhysics_storage (nowMs : Z) (dtH : Q) (m : Model.t) (rng : LcgRandom.t) :
  Model.storage (fst (fst (tickPhysics nowMs dtH m rng)))
  = storageStep dtH (Model.storage m).
Proof.
  unfold tickPhysics.
  destruct (tariffStep nowMs (Model.tariff m) rng) as [tf rng1].
  destruct (pvStep nowMs (Model.pv m) rng1) as [pv rng2].
  destruct (evcsLoop dtH (Model.evcs_chargers m) 0 0) as [[chargers tp] te].
  destruct (LcgRandom.normal rng2 0 (3 # 10)) as [n rng3].
  reflexivity.
Qed.

Lemma tickPhysics_chargers (nowMs : Z) (dtH : Q) (m : Model.t) (rng : LcgRandom.t) :
  Model.evcs_chargers (fst (fst (tickPhysics nowMs dtH m rng)))
  = map (fun ch => fst (evcsStep dtH ch)) (Model.evcs_chargers m).
Proof.
  unfold tickPhysics.
  destruct (tariffStep nowMs (Model.tariff m) rng) as [tf rng1].
  destruct (pvStep nowMs (Model.pv m) rng1) as [pv rng2].
  pose proof (evcsLoop_chargers dtH (Model.evcs_chargers m) 0 0) as Hl.
  destruct (evcsLoop dtH (Model.evcs_chargers m) 0 0) as [[chargers tp] te].
  destruct (LcgRandom.normal rng2 0 (3 # 10)) as [n rng3].
  simpl in *. exact Hl.
Qed.

(** C2: in every tick, for every charge point, the power the tick writes
    to [meas.power_kw] is at most
    [min(ctrl.limit_kw, max_kw, vehicle.max_charge_kw)] (the only branch
    that writes nothing is the meter freeze, which keeps the record as it
    is); the DC taper factor lies in [0.2, 1], so tapering and the later
    clamps only lower the power. *)
Theorem power_ceiling (nowMs : Z) (dtH : Q) (m : Model.t) (rng : LcgRandom.t) :
  Forall limitsNonneg (Model.evcs_chargers m) ->
  Forall2 (fun ch ch' =>
             ch' = fst (evcsStep dtH ch)
             /\ powerCeiling ch' = powerCeiling ch
             /\ ((branchOf ch = BFrozen /\ ch' = ch)
                 \/ Charger.meas_power_kw ch' <= powerCeiling ch))
          (Model.evcs_chargers m)
          (Model.evcs_chargers (fst (fst (tickPhysics nowMs dtH m rng))))
  /\ (forall s : Q, (2 # 10) <= dcTaperFactor s <= 1)
  /\ (forall ch : Charger.t,
         limitsNonneg ch ->
         taperedPower ch <= chargeCeiling ch
         /\ chargeCeiling ch <= powerCeiling ch
         /\ chargePower dtH ch <= taperedPower ch).
Proof.
  intros Hwf. split; [|split].
  - rewrite tickPhysics_chargers.
    induction Hwf as [|ch rest Hch Hrest IH]; cbn [map]; constructor; [|exact IH].
    split; [reflexivity|]. split.
    { unfold powerCeiling.
      destruct (evcsStep_limits dtH ch) as (-> & -> & -> & _). reflexivity. }
    rewrite evcsStep_power.
    pose proof (chargeCeiling_bounds ch Hch) as [Hc0 Hc].
    pose proof (taperedPower_bounds ch Hch) as [Ht0 Ht].
    pose proof (chargePower_le_tapered dtH ch Ht0) as Hp.
    destruct (branchOf ch) eqn:Eb;
      try (right; lra).
    left. split; [reflexivity|]. unfold evcsStep. rewrite Eb. reflexivity.
  - apply dcTaperFactor_range.
  - intros ch Hch.
    pose proof (chargeCeiling_bounds ch Hch) as [Hc0 Hc].
    pose proof (taperedPower_bounds ch Hch) as [Ht0 Ht].
    pose proof (chargePower_le_tapered dtH ch Ht0) as Hp.
    repeat split; assumption.
Qed.

(** C3: for a charge point in its charging branch, the step takes
    [p * dtH] at most the energy still needed to reach the target,
    delivers [p * dtH * 0.96], adds it to [energy_kwh], adds
    [delivered / capacity * 100] to [soc_pct] (both through their clamps),
    and leaves [soc_pct] at or below the target. *)
Theorem no_energy_overshoot (nowMs : Z) (dtH : Q) (m : Model.t) (rng : LcgRandom.t) :
  0 < dtH ->
  Forall2 (fun ch ch' =>
             branchOf ch = BCharging ->
             let p := Charger.meas_power_kw ch' in
             let delivered := p * dtH * (96 # 100) in
             let capKwh := Qmax (1 # 10) (Charger.vehicle_capacity_kwh ch) in
             let target := clamp (Charger.vehicle_target_soc_pct ch) 0 100 in
             p * dtH <= (target - Charger.vehicle_soc_pct ch) / 100 * capKwh
             /\ Charger.meas_energy_kwh ch'
                = clamp (Charger.meas_energy_kwh ch + delivered) 0 1000000
             /\ Charger.vehicle_soc_pct ch'
                = clamp (Charger.vehicle_soc_pct ch + delivered / capKwh * 100) 0 100
             /\ Charger.vehicle_soc_pct ch' <= target
             /\ (0 <= Charger.vehicle_target_soc_pct ch <= 100 ->
                 Charger.vehicle_soc_pct ch' <= Charger.vehicle_target_soc_pct ch))
          (Model.evcs_chargers m)
          (Model.evcs_chargers (fst (fst (tickPhysics nowMs dtH m rng)))).
Proof.
  intros Hdt. rewrite tickPhysics_chargers.
  induction (Model.evcs_chargers m) as [|ch rest IH]; cbn [map]; constructor;
    [|exact IH].
  intros Hb.
  set (p := Charger.meas_power_kw (fst (evcsStep dtH ch))).
  set (delivered := p * dtH * (96 # 100)).
  set (capKwh := Qmax (1 # 10) (Charger.vehicle_capacity_kwh ch)).
  set (target := clamp (Charger.vehicle_target_soc_pct ch) 0 100).
  assert (Hp : p = chargePower dtH ch)
    by (unfold p; rewrite evcsStep_power, Hb; reflexivity).
  assert (Hd : delivered = deliveredKwh dtH ch)
    by (unfold delivered, deliveredKwh, eff; rewrite Hp; reflexivity).
  pose proof (chargePower_step_le_need dtH ch Hdt) as Hstep.
  pose proof (energyNeedKwh_charging ch Hb) as Hneed.
  pose proof (deltaSoc_le_gap dtH ch Hdt Hb) as Hgap.
  pose proof (targetSocOf_range ch) as HT.
  destruct (branch_charging_inv ch Hb) as (_ & _ & _ & _ & _ & Hs).
  assert (Hsoc : Charger.vehicle_soc_pct (fst (evcsStep dtH ch))
                 = clamp (Charger.vehicle_soc_pct ch + delivered / capKwh * 100) 0 100).
  { rewrite Hd. unfold evcsStep. rewrite Hb. reflexivity. }
  assert (Hle : Charger.vehicle_soc_pct (fst (evcsStep dtH ch)) <= target).
  { rewrite Hsoc, Hd. subst capKwh target.
    change (Qmax (1 # 10) (Charger.vehicle_capacity_kwh ch)) with (capKwhOf ch).
    change (clamp (Charger.vehicle_target_soc_pct ch) 0 100) with (targetSocOf ch).
    set (x := deliveredKwh dtH ch / capKwhOf ch * 100) in *.
    set (T := targetSocOf ch) in *. set (s := Charger.vehicle_soc_pct ch) in *.
    clearbody x T s. unfold eff in Hgap.
    split_minmax; lra. }
  split; [|split; [|split; [|split]]].
  - rewrite Hp. eapply Qle_trans; [exact Hstep|].
    apply Qle_lteq. right. exact Hneed.
  - rewrite Hd. unfold evcsStep. rewrite Hb. reflexivity.
  - exact Hsoc.
  - exact Hle.
  - intros [Ht0 Ht1]. eapply Qle_trans; [exact Hle|].
    unfold target. rewrite (clamp_id _ 0 100 Ht0 Ht1). apply Qle_refl.
Qed.

(** C4 (amended): with storage control enabled, the power of the tick is
    the request clamped to [[-max_charge_kw, max_discharge_kw]], replaced
    by 0 when it asks to discharge at [soc_pct <= 0] or to charge at
    [soc_pct >= 100]; [soc_pct] becomes
    [clamp(soc_pct - power*dtH/capacity*100, 0, 100)].  At [soc_pct = 0] a
    discharge request gives power 0; a charge request gives the power
    [max(power_set_kw, -max_charge_kw)], and SoC rises whenever
    [max_charge_kw > 0].  In every other case the power is the clamped
    request itself: between the SoC bounds, at [soc_pct <= 0] without a
    discharge request and at [soc_pct >= 100] without a charge request. *)
Theorem storage_follows_setpoint
    (nowMs : Z) (dtH : Q) (m : Model.t) (rng : LcgRandom.t) :
  let st := Model.storage m in
  let st' := Model.storage (fst (fst (tickPhysics nowMs dtH m rng))) in
  let req := Storage.ctrl_power_set_kw st in
  let p := Storage.power_kw st' in
  Storage.ctrl_enabled st = true ->
  0 <= Storage.max_charge_kw st -> 0 <= Storage.max_discharge_kw st ->
  0 < dtH ->
  - Storage.max_charge_kw st <= p <= Storage.max_discharge_kw st
  /\ (Storage.soc_pct st <= 0 -> 0 < req -> p == 0)
  /\ (100 <= Storage.soc_pct st -> req < 0 -> p == 0)
  /\ (0 < Storage.soc_pct st < 100 ->
      p = clamp req (- Storage.max_charge_kw st) (Storage.max_discharge_kw st))
  /\ Storage.soc_pct st'
     = clamp (Storage.soc_pct st
              + (- p * dtH / Qmax (1 # 1000000) (Storage.capacity_kwh st)) * 100)
             0 100
  /\ ((1 # 1000000) <= Storage.capacity_kwh st ->
      Qmax (1 # 1000000) (Storage.capacity_kwh st) == Storage.capacity_kwh st)
  /\ (Storage.soc_pct st == 0 -> req < 0 ->
      p == Qmax (- Storage.max_charge_kw st) req
      /\ (0 < Storage.max_charge_kw st ->
          p < 0 /\ Storage.soc_pct st < Storage.soc_pct st'))
  /\ (Storage.soc_pct st <= 0 -> req <= 0 ->
      p = clamp req (- Storage.max_charge_kw st) (Storage.max_discharge_kw st))
  /\ (100 <= Storage.soc_pct st -> 0 <= req ->
      p = clamp req (- Storage.max_charge_kw st) (Storage.max_discharge_kw st)).
Proof.
  intros st st' req p He Hc Hd Hdt.
  assert (Est : st' = storageStep dtH st) by apply tickPhysics_storage.
  assert (Ep : p = storagePowerOf st) by (unfold p; rewrite Est; reflexivity).
  pose proof (storageRequest_range st Hc Hd) as Hr.
  pose proof (storagePowerOf_cases st He) as Hcases.
  assert (Esoc : Storage.soc_pct st'
                 = clamp (Storage.soc_pct st
                          + (- p * dtH / Qmax (1 # 1000000) (Storage.capacity_kwh st)) * 100)
                         0 100).
  { rewrite Ep, Est. unfold storageStep. cbn [Storage.soc_pct]. rewrite He.
    reflexivity. }
  rewrite Ep in *.
  assert (Hreq : storageRequest st = clamp req (- Storage.max_charge_kw st)
                                     (Storage.max_discharge_kw st)) by reflexivity.
  split; [|split; [|split; [|split; [|split; [|split; [|split; [|split]]]]]]].
  - destruct Hcases as [(_ & _ & E)|[(_ & _ & E)|(_ & _ & E)]]; rewrite E; lra.
  - intros Hs Hq.
    destruct Hcases as [(_ & _ & E)|[(_ & _ & E)|(Hn & _ & E)]]; rewrite E;
      try reflexivity.
    rewrite Hreq in *. revert Hn. split_minmax; intros Hn; lra.
  - intros Hs Hq.
    destruct Hcases as [(_ & _ & E)|[(_ & _ & E)|(_ & Hn & E)]]; rewrite E;
      try reflexivity.
    rewrite Hreq in *. revert Hn. split_minmax; intros Hn; lra.
  - intros [Hs0 Hs1].
    destruct Hcases as [(Hs & _ & _)|[(Hs & _ & _)|(_ & _ & E)]];
      [lra | lra | rewrite E; exact Hreq].
  - exact Esoc.
  - intros Hcap. apply Q.max_r. exact Hcap.
  - intros Hs0 Hq.
    assert (E : storagePowerOf st = storageRequest st).
    { destruct Hcases as [(_ & Hr0 & _)|[(Hs & _ & _)|(_ & _ & E)]];
        [|lra|exact E].
      exfalso. rewrite Hreq in Hr0. revert Hr0. split_minmax; intros; lra. }
    assert (Emax : storageRequest st == Qmax (- Storage.max_charge_kw st) req).
    { rewrite Hreq. unfold clamp, clampNum, Math_min, Math_max.
      apply Q.min_r. apply Q.max_lub; lra. }
    split; [rewrite E; exact Emax|].
    intros Hpos.
    assert (Hneg : storagePowerOf st < 0).
    { rewrite E, Emax. apply Q.max_lub_lt; lra. }
    split; [exact Hneg|].
    rewrite Esoc.
    set (cap := Qmax (1 # 1000000) (Storage.capacity_kwh st)).
    assert (Hcap : (1 # 1000000) <= cap) by apply Q.le_max_l.
    assert (Hd0 : 0 < - storagePowerOf st * dtH / cap).
    { apply Qlt_shift_div_l; [lra|]. nra. }
    set (d := - storagePowerOf st * dtH / cap) in *. clearbody d cap.
    set (s := Storage.soc_pct st) in *. clearbody s.
    split_minmax; lra.
  - intros Hs Hq.
    destruct Hcases as [(_ & Hr0 & _)|[(Hs' & _ & _)|(_ & _ & E)]];
      [|lra|rewrite E; exact Hreq].
    exfalso. rewrite Hreq in Hr0. revert Hr0. split_minmax; intros; lra.
  - intros Hs Hq.
    destruct Hcases as [(Hs' & _ & _)|[(_ & Hr0 & _)|(_ & _ & E)]];
      [lra| |rewrite E; exact Hreq].
    exfalso. rewrite Hreq in Hr0. revert Hr0. split_minmax; intros; lra.
Qed.

(** C5: after every tick, a grid that is not available shows power 0 and
    [over_limit = false], whatever PV, storage, EV, devices and base load
    are; an available grid shows the computed balance, and [over_limit]
    holds exactly when that power exceeds [limit_kw + 1e-6]. *)
Theorem blackout_and_over_limit
    (nowMs : Z) (dtH : Q) (m : Model.t) (rng : LcgRandom.t) :
  let g' := Model.grid (fst (fst (tickPhysics nowMs dtH m rng))) in
  Grid.available g' = Grid.available (Model.grid m)
  /\ Grid.limit_kw g' = Grid.limit_kw (Model.grid m)
  /\ (Grid.available g' = false ->
      Grid.power_kw g' = 0 /\ Grid.over_limit g' = false)
  /\ (Grid.available g' = true ->
      (exists baseLoad : Q,
          0 <= baseLoad <= 5000
          /\ Grid.power_kw g'
             = let m' := fst (fst (tickPhysics nowMs dtH m rng)) in
               balance baseLoad (Device.power_kw (Model.heatpump m'))
                       (snd (fst (evcsLoop dtH (Model.evcs_chargers m) 0 0)))
                       (PV.power_kw (Model.pv m'))
                       (Device.power_kw (Model.chp m'))
                       (Device.power_kw (Model.generator m'))
                       (Storage.power_kw (Model.storage m')))
      /\ (Grid.over_limit g' = true
          <-> Grid.limit_kw g' + (1 # 1000000) < Grid.power_kw g')).
Proof.
  unfold tickPhysics.
  destruct (tariffStep nowMs (Model.tariff m) rng) as [tf rng1].
  destruct (pvStep nowMs (Model.pv m) rng1) as [pv rng2].
  destruct (evcsLoop dtH (Model.evcs_chargers m) 0 0) as [[chargers tp] te].
  destruct (LcgRandom.normal rng2 0 (3 # 10)) as [n rng3].
  cbn [fst snd Model.grid Model.heatpump Model.pv Model.chp Model.generator
       Model.storage gridStep Grid.available Grid.limit_kw Grid.power_kw
       Grid.over_limit].
  destruct (Grid.available (Model.grid m)); cbn [negb andb].
  - repeat split; try discriminate.
    + eexists. split; [|reflexivity]. apply clamp_bounds. lra.
    + intros E. apply Qltb_true in E. exact E.
    + intros E. apply Qltb_true. exact E.
  - repeat split; try discriminate.
Qed.

End WithHost.

Lemma power_ceiling_witness :
  Forall2 (fun ch ch' =>
             ch' = fst (evcsStep Sample.dtH ch)
             /\ powerCeiling ch' = powerCeiling ch
             /\ ((branchOf ch = BFrozen /\ ch' = ch)
                 \/ Charger.meas_power_kw ch' <= powerCeiling ch))
          (Model.evcs_chargers Sample.model)
          (Model.evcs_chargers
             (fst (fst (tickPhysics (H := ExampleHost.host) 0 Sample.dtH
                                    Sample.model Sample.rng)))).
Proof.
  apply (power_ceiling (H := ExampleHost.host) 0 Sample.dtH Sample.model Sample.rng).
  repeat constructor; unfold Qle; simpl; lia.
Defined.

Lemma no_energy_overshoot_witness :
  0 < Sample.dtH
  /\ Forall2 (fun ch ch' =>
                branchOf ch = BCharging ->
                Charger.vehicle_soc_pct ch'
                <= clamp (Charger.vehicle_target_soc_pct ch) 0 100)
             (Model.evcs_chargers Sample.model)
             (Model.evcs_chargers
                (fst (fst (tickPhysics (H := ExampleHost.host) 0 Sample.dtH
                                       Sample.model Sample.rng)))).
Proof.
  assert (Hdt : 0 < Sample.dtH) by reflexivity.
  split; [exact Hdt|].
  eapply Forall2_impl;
    [apply (no_energy_overshoot (H := ExampleHost.host) 0 Sample.dtH
              Sample.model Sample.rng Hdt)|].
  cbv beta. intros ch ch' Hall Hb. apply (Hall Hb).
Defined.

Lemma storage_follows_setpoint_witness :
  let st' := Model.storage
               (fst (fst (tickPhysics (H := ExampleHost.host) 0 Sample.dtH
                                      Sample.model Sample.rng))) in
  - Storage.max_charge_kw Sample.storage <= Storage.power_kw st'
    <= Storage.max_discharge_kw Sample.storage
  /\ Storage.soc_pct Sample.storage < Storage.soc_pct st'.
Proof.
  destruct (storage_follows_setpoint (H := ExampleHost.host) 0 Sample.dtH
              Sample.model Sample.rng)
    as (Hrange & _ & _ & _ & _ & _ & Hzero & _);
    [reflexivity | unfold Qle; simpl; lia | unfold Qle; simpl; lia | reflexivity |].
  split; [exact Hrange|].
  destruct Hzero as [_ Hrise]; [reflexivity | reflexivity |].
  apply Hrise. reflexivity.
Defined.

Lemma blackout_and_over_limit_witness :
  let g' := Model.grid
              (fst (fst (tickPhysics (H := ExampleHost.host) 0 Sample.dtH
                                     Sample.blackout Sample.rng))) in
  Grid.power_kw g' = 0 /\ Grid.over_limit g' = false.
Proof.
  destruct (blackout_and_over_limit (H := ExampleHost.host) 0 Sample.dtH
              Sample.blackout Sample.rng) as (_ & _ & Hdown & _).
  apply Hdown. reflexivity.
Defined.

(** C4 as stated promises a rising SoC for every charge request at
    [soc_pct = 0]; with [max_charge_kw = 0] the request is clamped to 0 and
    SoC stays where it is. *)
Lemma charge_request_clamped_to_zero :
  let st := Storage.mk 200 0 200 0 0 true (-50) in
  Storage.ctrl_enabled st = true
  /\ Storage.soc_pct st == 0
  /\ Storage.ctrl_power_set_kw st < 0
  /\ Storage.power_kw (storageStep (1 # 3600) st) == 0
  /\ ~ (Storage.soc_pct st < Storage.soc_pct (storageStep (1 # 3600) st)).
Proof.
  cbv zeta. repeat split; try reflexivity.
  vm_compute. intros E. discriminate E.
Qed.

End TickSpec.

(** ** Departure time *)

Module DepartureSpec.
Import Departure LocalDate DepartureProps.
Local Open Scope Z_scope.

Lemma isDigit_value (c : ascii) :
  isDigit c = true -> exists d, JS.digitValue c = Some d /\ 0 <= d <= 9.
Proof.
  unfold isDigit, JS.digitValue.
  destruct ((48 <=? Z.of_nat (nat_of_ascii c)) && (Z.of_nat (nat_of_ascii c) <=? 57)) eqn:E;
    [|discriminate].
  intros _. apply andb_true_iff in E. destruct E as [E1 E2].
  apply Z.leb_le in E1. apply Z.leb_le in E2.
  eexists. split; [reflexivity | lia].
Qed.

Lemma isDigit_not_T (c : ascii) : isDigit c = true -> Ascii.eqb c "T" = false.
Proof.
  intros Hd. destruct (Ascii.eqb_spec c "T"%char) as [->|]; [|reflexivity].
  discriminate Hd.
Qed.

Lemma string_of_list_inj (s : string) (l : list ascii) :
  list_ascii_of_string s = l -> s = string_of_list_ascii l.
Proof. intros <-. symmetry. apply string_of_list_ascii_of_string. Qed.

Lemma matchClock_shape (s g1 g2 : string) :
  matchClock s = Some (g1, g2) <-> ClockShape s g1 g2.
Proof.
  split.
  - unfold matchClock. intros Hm.
    destruct (list_ascii_of_string s) as [|a [|b [|c [|d [|e [|f l]]]]]] eqn:El;
      try discriminate.
    + destruct (isDigit a) eqn:Ea; [|discriminate].
      destruct (Ascii.eqb_spec b ":"%char) as [->|]; [|discriminate].
      destruct (isDigit c) eqn:Ec; [|discriminate].
      destruct (isDigit d) eqn:Ed; [|discriminate].
      cbn in Hm. inversion Hm; subst. clear Hm.
      apply string_of_list_inj in El. cbn in El.
      exists (String a EmptyString), c, d. repeat split; try assumption.
      left. exists a. split; [assumption|reflexivity].
    + destruct (isDigit a) eqn:Ea; [|discriminate].
      destruct (isDigit b) eqn:Eb; [|discriminate].
      destruct (Ascii.eqb_spec c ":"%char) as [->|]; [|discriminate].
      destruct (isDigit d) eqn:Ed; [|discriminate].
      destruct (isDigit e) eqn:Ee; [|discriminate].
      cbn in Hm. inversion Hm; subst. clear Hm.
      apply string_of_list_inj in El. cbn in El.
      exists (String a (String b EmptyString)), d, e. repeat split; try assumption.
      right. exists a, b. repeat split; assumption.
  - intros (h & m1 & m2 & Hm1 & Hm2 & -> & Hh & -> & ->).
    unfold matchClock.
    destruct Hh as [(h1 & Hh1 & ->)|(h1 & h2 & Hh1 & Hh2 & ->)];
      cbv [String.append]; cbn [list_ascii_of_string].
    + rewrite Hh1, Hm1, Hm2. reflexivity.
    + rewrite Hh1, Hh2, Hm1, Hm2. reflexivity.
Qed.

(** A clock string has no ['T']: the timestamp branch never takes it. *)
Lemma matchClock_no_T (s g1 g2 : string) :
  matchClock s = Some (g1, g2) -> includesT s = false.
Proof.
  intros Hm. apply matchClock_shape in Hm.
  destruct Hm as (h & m1 & m2 & Hm1 & Hm2 & -> & Hh & -> & ->).
  unfold includesT.
  destruct Hh as [(h1 & Hh1 & ->)|(h1 & h2 & Hh1 & Hh2 & ->)];
    cbv [String.append]; cbn [list_ascii_of_string existsb];
    rewrite ?(isDigit_not_T _ Hh1), ?(isDigit_not_T _ Hh2),
            ?(isDigit_not_T _ Hm1), ?(isDigit_not_T _ Hm2); reflexivity.
Qed.

(** The numbers of the two groups. *)
Lemma clock_groups_value (s g1 g2 : string) :
  matchClock s = Some (g1, g2) ->
  exists n1 n2,
    JS.decimalValue 0 g1 = Some n1 /\ JS.decimalValue 0 g2 = Some n2
    /\ 0 <= n1 <= 99 /\ 0 <= n2 <= 99.
Proof.
  intros Hm. apply matchClock_shape in Hm.
  destruct Hm as (h & m1 & m2 & Hm1 & Hm2 & -> & Hh & -> & _).
  destruct (isDigit_value _ Hm1) as (d1 & E1 & R1).
  destruct (isDigit_value _ Hm2) as (d2 & E2 & R2).
  destruct Hh as [(h1 & Hh1 & ->)|(h1 & h2 & Hh1 & Hh2 & ->)].
  - destruct (isDigit_value _ Hh1) as (e1 & F1 & S1).
    exists e1, (10 * d1 + d2). cbn. rewrite F1, E1, E2. cbn.
    repeat split; try lia; try (f_equal; lia).
  - destruct (isDigit_value _ Hh1) as (e1 & F1 & S1).
    destruct (isDigit_value _ Hh2) as (e2 & F2 & S2).
    exists (10 * e1 + e2), (10 * d1 + d2). cbn. rewrite F1, F2, E1, E2. cbn.
    repeat split; try lia; try (f_equal; lia).
Qed.

Lemma Qcompare_inject_Z (a b : Z) : (inject_Z a ?= inject_Z b)%Q = (a ?= b).
Proof. unfold Qcompare. simpl. rewrite !Z.mul_1_r. reflexivity. Qed.

(** [clamp] of an integer between integer bounds is the integer clamp. *)
Lemma Qfloor_clamp_Z (n lo hi : Z) :
  Qfloor (clampNum (Fin (inject_Z n)) (inject_Z lo) (inject_Z hi))
  = Z.min hi (Z.max lo n).
Proof.
  unfold clampNum, Math_min, Math_max, Qmin, Qmax, GenericMinMax.gmin,
    GenericMinMax.gmax.
  rewrite Qcompare_inject_Z.
  destruct (Z.compare_spec lo n) as [E1|E1|E1]; rewrite Qcompare_inject_Z;
    match goal with
    | |- context [?a ?= ?b] => destruct (Z.compare_spec a b)
    end; rewrite Qfloor_Z; lia.
Qed.

Section WithHost.
Context `{Host}.

(** The local time value [setHours] builds: the local day of [now],
    showing [hh:mm]. *)
Lemma atClock_fields (now hh mm : Z) :
  0 <= hh <= 23 -> 0 <= mm <= 59 ->
  let w := atClock now hh mm in
  w / msPerDay = localMs now / msPerDay
  /\ (w mod msPerDay) / msPerHour = hh
  /\ (w mod msPerHour) / msPerMinute = mm
  /\ localMs now - msPerDay < w < localMs now + msPerDay.
Proof.
  intros Hh Hm w. unfold w, atClock.
  set (L := localMs now). clearbody L.
  unfold msPerDay, msPerHour, msPerMinute.
  pose proof (Z.div_mod L 86400000 ltac:(lia)) as Hdm.
  pose proof (Z.mod_pos_bound L 86400000 ltac:(lia)) as Hb.
  set (k := L / 86400000) in *. clearbody k.
  split; [|split; [|split]].
  - replace (k * 86400000 + hh * 3600000 + mm * 60000)
      with ((hh * 3600000 + mm * 60000) + k * 86400000) by lia.
    rewrite Z.div_add by lia. rewrite Z.div_small by lia. lia.
  - replace (k * 86400000 + hh * 3600000 + mm * 60000)
      with ((hh * 3600000 + mm * 60000) + k * 86400000) by lia.
    rewrite Z.mod_add by lia. rewrite Z.mod_small by lia.
    replace (hh * 3600000 + mm * 60000) with (mm * 60000 + hh * 3600000) by lia.
    rewrite Z.div_add by lia. rewrite Z.div_small by lia. lia.
  - replace (k * 86400000 + hh * 3600000 + mm * 60000)
      with (mm * 60000 + (k * 24 + hh) * 3600000) by lia.
    rewrite Z.mod_add by lia. rewrite Z.mod_small by lia.
    rewrite Z.div_mul by lia. reflexivity.
  - lia.
Qed.

(** The next day in local time: the day number goes up by one and the
    clock is kept. *)
Lemma next_day_fields (w : Z) :
  (w + msPerDay) / msPerDay = w / msPerDay + 1
  /\ (w + msPerDay) mod msPerDay = w mod msPerDay
  /\ (w + msPerDay) mod msPerHour = w mod msPerHour.
Proof.
  unfold msPerDay, msPerHour.
  replace (w + 86400000) with (w + 1 * 86400000) by lia.
  split; [|split].
  - rewrite Z.div_add by lia. reflexivity.
  - rewrite Z.mod_add by lia. reflexivity.
  - replace (w + 1 * 86400000) with (w + 24 * 3600000) by lia.
    rewrite Z.mod_add by lia. reflexivity.
Qed.

(** Without daylight saving, local time and UTC convert back and forth. *)
Lemma fixed_round_trip (x : Z) : fixedOffset -> localMs (utcOf x) = x.
Proof.
  intros Hf. unfold localMs, utcOf.
  rewrite (Hf (x - LocalTZA x false) true), (Hf x false). lia.
Qed.

Lemma fixed_utcOf (x : Z) : fixedOffset -> utcOf x = x - LocalTZA 0 true.
Proof. intros Hf. unfold utcOf. rewrite (Hf x false). reflexivity. Qed.

Lemma fixed_localMs (x : Z) : fixedOffset -> localMs x = x + LocalTZA 0 true.
Proof. intros Hf. unfold localMs. rewrite (Hf x true). reflexivity. Qed.

(** The charging step never reads the deadline. *)
Lemma evcsStep_ignores_deadline (dtH : Q) (ch : Charger.t) (ts : option Z) :
  Tick.evcsStep dtH (set_departure_ts ts ch)
  = (set_departure_ts ts (fst (Tick.evcsStep dtH ch)), snd (Tick.evcsStep dtH ch)).
Proof.
  destruct ch as [cid ty mx f u z en lim pl pr vid soc cap mc tg dep dts st pw en'].
  unfold Tick.evcsStep, Tick.branchOf, Tick.deliveredKwh, Tick.chargePower,
    Tick.energyNeedKwh, Tick.taperedPower, Tick.chargeCeiling, Tick.capKwhOf,
    Tick.targetSocOf, set_departure_ts, Charger.set_meas,
    Charger.set_vehicle_soc_pct.
  cbn [Charger.set_vehicle Charger.sim_unavailable Charger.sim_faulted
       Charger.sim_meter_freeze Charger.ctrl_plugged Charger.ctrl_enabled
       Charger.vehicle_target_soc_pct Charger.vehicle_soc_pct Charger.id
       Charger.type Charger.max_kw Charger.ctrl_limit_kw Charger.ctrl_priority
       Charger.vehicle_id Charger.vehicle_capacity_kwh Charger.vehicle_max_charge_kw
       Charger.vehicle_departure_time Charger.vehicle_departure_ts
       Charger.meas_status Charger.meas_power_kw Charger.meas_energy_kwh].
  destruct u; [reflexivity|]. destruct f; [reflexivity|].
  destruct z; [reflexivity|]. destruct pl; cbn [negb]; [|reflexivity].
  destruct (Qleb (clamp tg 0 100 - (1 # 100)) soc); [reflexivity|].
  destruct en; reflexivity.
Qed.

(** C9: a value that is not a string gives no deadline; a string that
    (trimmed) contains ['T'] and that [Date] parses gives that time; a
    string that (trimmed) is one or two digits, a colon and two digits
    gives the time at which the local clock shows that time, hours and
    minutes clamped to 23 and 59, on the local day of [now], or, if that
    is not after [now], the same clock time on the next local day; every
    other string gives no deadline.  On a host without daylight saving the
    deadline lies after [now], at most 24 hours ahead, and shows that
    clock time.  The charging step does not depend on the deadline: with
    the fault flags clear, plugged and enabled, the SoC-vs-target
    comparison alone decides between "Finished" and charging. *)
Theorem departure_deadline (now : Z) :
  (forall v : value, (forall s, v <> VStr s) -> parseDepartureToTimestamp v now = None)
  /\ (forall (s : string) (d : Z),
         includesT (trim s) = true -> DateParse (trim s) = Some d ->
         parseDepartureToTimestamp (VStr s) now = Some d)
  /\ (forall s g1 g2 : string,
         matchClock (trim s) = Some (g1, g2) ->
         exists n1 n2 t : Z,
           JS.decimalValue 0 g1 = Some n1 /\ JS.decimalValue 0 g2 = Some n2
           /\ parseDepartureToTimestamp (VStr s) now = Some t
           /\ let hh := Z.min 23 n1 in
              let mm := Z.min 59 n2 in
              let wall := atClock now hh mm in
              let today := utcOf wall in
              let next := localMs today + msPerDay in
              (wall / msPerDay = localMs now / msPerDay
               /\ (wall mod msPerDay) / msPerHour = hh
               /\ (wall mod msPerHour) / msPerMinute = mm)
              /\ (now < today -> t = today)
              /\ (today <= now ->
                  t = utcOf next
                  /\ next / msPerDay = localMs today / msPerDay + 1
                  /\ next mod msPerDay = localMs today mod msPerDay)
              /\ (fixedOffset ->
                  now < t <= now + msPerDay
                  /\ getHours t = hh /\ getMinutes t = mm
                  /\ (today <= now ->
                      localMs t / msPerDay = localMs now / msPerDay + 1)))
  /\ (forall s : string,
         includesT (trim s) = false \/ DateParse (trim s) = None ->
         matchClock (trim s) = None ->
         parseDepartureToTimestamp (VStr s) now = None)
  /\ (forall (dtH : Q) (ch : Charger.t) (ts : option Z),
         Tick.evcsStep dtH (set_departure_ts ts ch)
         = (set_departure_ts ts (fst (Tick.evcsStep dtH ch)),
            snd (Tick.evcsStep dtH ch)))
  /\ (forall ch : Charger.t,
         Charger.sim_unavailable ch = false -> Charger.sim_faulted ch = false ->
         Charger.sim_meter_freeze ch = false ->
         Charger.ctrl_plugged ch = true -> Charger.ctrl_enabled ch = true ->
         Tick.branchOf ch
         = if Qleb (clamp (Charger.vehicle_target_soc_pct ch) 0 100 - (1 # 100))
                   (Charger.vehicle_soc_pct ch)
           then Tick.BFinished else Tick.BCharging).
Proof.
  split; [|split; [|split; [|split; [|split]]]].
  - intros v Hv. destruct v; try reflexivity. exfalso. apply (Hv s). reflexivity.
  - intros s d HT Hd. unfold parseDepartureToTimestamp. rewrite HT, Hd. reflexivity.
  - intros s g1 g2 Hm.
    destruct (clock_groups_value _ _ _ Hm) as (n1 & n2 & E1 & E2 & R1 & R2).
    pose proof (matchClock_no_T _ _ _ Hm) as HT.
    assert (Hhh : Qfloor (clampNum (groupNumber g1) 0 23) = Z.min 23 n1).
    { unfold groupNumber. rewrite E1.
      etransitivity; [exact (Qfloor_clamp_Z n1 0 23) | lia]. }
    assert (Hmm : Qfloor (clampNum (groupNumber g2) 0 59) = Z.min 59 n2).
    { unfold groupNumber. rewrite E2.
      etransitivity; [exact (Qfloor_clamp_Z n2 0 59) | lia]. }
    assert (Rh : 0 <= Z.min 23 n1 <= 23) by lia.
    assert (Rm : 0 <= Z.min 59 n2 <= 59) by lia.
    pose proof (atClock_fields now _ _ Rh Rm) as (Wd & Wh & Wm & Wr).
    cbv zeta in Wd, Wh, Wm, Wr.
    set (hh := Z.min 23 n1) in *. set (mm := Z.min 59 n2) in *.
    set (wall := atClock now hh mm) in *.
    assert (Hp : parseDepartureToTimestamp (VStr s) now
                 = if utcOf wall <=? now
                   then Some (utcOf (localMs (utcOf wall) + msPerDay))
                   else Some (utcOf wall)).
    { unfold parseDepartureToTimestamp. rewrite HT, Hm, Hhh, Hmm. reflexivity. }
    pose proof (next_day_fields (localMs (utcOf wall))) as (Nd & Nm & Nh).
    exists n1, n2.
    destruct (Z.leb_spec (utcOf wall) now) as [Hle|Hgt].
    + exists (utcOf (localMs (utcOf wall) + msPerDay)).
      split; [exact E1|]. split; [exact E2|]. split; [exact Hp|].
      cbv zeta. fold hh mm. fold wall. split; [repeat split; assumption|].
      split; [intros Hlt; lia|].
      split; [intros _; repeat split; assumption|].
      intros Hf.
      rewrite (fixed_round_trip wall Hf) in *.
      rewrite (fixed_utcOf wall Hf) in *.
      rewrite (fixed_localMs now Hf) in *.
      rewrite (fixed_utcOf (wall + msPerDay) Hf).
      unfold getHours, getMinutes.
      rewrite (fixed_localMs _ Hf).
      replace (wall + msPerDay - LocalTZA 0 true + LocalTZA 0 true)
        with (wall + msPerDay) by lia.
      rewrite Nm, Nh, Nd.
      repeat split; try assumption; unfold msPerDay in *; lia.
    + exists (utcOf wall).
      split; [exact E1|]. split; [exact E2|]. split; [exact Hp|].
      cbv zeta. fold hh mm. fold wall. split; [repeat split; assumption|].
      split; [intros _; reflexivity|].
      split; [intros Hle; lia|].
      intros Hf.
      rewrite (fixed_utcOf wall Hf) in *.
      rewrite (fixed_localMs now Hf) in *.
      unfold getHours, getMinutes.
      rewrite (fixed_localMs _ Hf).
      replace (wall - LocalTZA 0 true + LocalTZA 0 true) with wall by lia.
      repeat split; try assumption; try (unfold msPerDay in *; lia).
  - intros s Hno Hm. unfold parseDepartureToTimestamp. rewrite Hm.
    destruct Hno as [HT|Hd]; [rewrite HT; reflexivity|].
    rewrite Hd. destruct (includesT (trim s)); reflexivity.
  - apply evcsStep_ignores_deadline.
  - intros ch Hu Hf Hz Hpl Hen. unfold Tick.branchOf, Tick.targetSocOf.
    rewrite Hu, Hf, Hz, Hpl, Hen. cbn [negb].
    destruct (Qleb _ _); reflexivity.
Qed.

End WithHost.

Lemma departure_deadline_witness :
  (exists t : Z,
      parseDepartureToTimestamp (H := ExampleHost.isoHost) (VStr " 06:15 ") 36000000
      = Some t
      /\ getHours (H := ExampleHost.isoHost) t = 6
      /\ getMinutes (H := ExampleHost.isoHost) t = 15
      /\ 36000000 < t <= 36000000 + msPerDay)
  /\ parseDepartureToTimestamp (H := ExampleHost.isoHost)
       (VStr " 2030-01-01T06:15:00Z ") 36000000
     = Some 1893478500000.
Proof.
  destruct (departure_deadline (H := ExampleHost.isoHost) 36000000)
    as (_ & Hiso & Hclock & _).
  split.
  - destruct (Hclock " 06:15 "%string "06"%string "15"%string)
      as (n1 & n2 & t & E1 & E2 & Hp & _ & _ & _ & Hfix);
      [reflexivity|].
    inversion E1; inversion E2; subst n1 n2.
    destruct Hfix as (Hr & Hh & Hm & _); [intros u b; reflexivity|].
    exists t. repeat split; try assumption; apply Hr.
  - apply Hiso; reflexivity.
Defined.

End DepartureSpec.

(** ** ChangePublisher *)

Module PublisherSpec.
Import Publisher.


Lemma changed_close (v1 v2 : Q) :
  (Qabs (v2 - v1) <= epsilon)%Q ->
  changed (VNum (Fin v2)) (VNum (Fin v1)) = false.
Proof.
  intros Hc. simpl. apply Qltb_false. exact Hc.
Qed.


Lemma setChanged_cases (cache : gmap string value) (k : string) (val : value) :
  (changed (normalize val) (cacheGet cache k) = true
   /\ _setChanged cache k val = (<[k := normalize val]> cache, [(k, normalize val)]))
  \/ (changed (normalize val) (cacheGet cache k) = false
      /\ _setChanged cache k val = (cache, [])).
Proof.
  unfold _setChanged.
  destruct (changed (normalize val) (cacheGet cache k)); [left|right]; split; reflexivity.
Qed.

Lemma cacheGet_insert (cache : gmap string value) (k : string) (v : value) :
  cacheGet (<[k := v]> cache) k = v.
Proof. unfold cacheGet. rewrite lookup_insert_eq. reflexivity. Qed.



End PublisherSpec.

(** ** Scenario engine *)

Module ScenarioSpec.
Import Scenario ScenarioProps Control.
Local Open Scope Q_scope.

Lemma apply_ready (v : value) (start : bool) (a : Adapter) :
  ready a -> _applyScenario v start a = (a, Threw).
Proof.
  intros [[m Hm] [c Hc]]. unfold _applyScenario. rewrite Hm, Hc. reflexivity.
Qed.

Lemma apply_not_ready (v : value) (start : bool) (a : Adapter) :
  _model a = None \/ _cfg a = None ->
  _applyScenario v start a = (withStatus "model not ready" a, Returned).
Proof.
  intros [E|E]; unfold _applyScenario; rewrite E; [reflexivity|].
  destruct (_model a); reflexivity.
Qed.

Lemma ready_started : ready ExampleStartup.adapter.
Proof. split; eexists; vm_compute; reflexivity. Qed.

Lemma queue_nonempty_ids (defs : list Def) :
  Forall (fun d => nonEmpty (id d) = true) defs ->
  suiteQueue defs = listedQueue defs.
Proof.
  intros Hf. unfold suiteQueue, listedQueue. f_equal.
  induction Hf as [|d l Hd _ IH]; [reflexivity|].
  cbn [List.filter]. unfold inQueue at 1, startsWithSuite. rewrite Hd, IH.
  reflexivity.
Qed.

Lemma catalog_ids : Forall (fun d => nonEmpty (id d) = true) _scenarioDefinitions.
Proof. unfold _scenarioDefinitions. repeat constructor. Qed.

Section WithEngine.
Context `{Host} `{Setups}.

Lemma startSuiteAll_ready (nowMs : Z) (a : Adapter) :
  ready a -> su_running (_suite a) = false ->
  _startSuiteAll nowMs a = (enqueue nowMs a, Threw).
Proof.
  intros Hr Hs. pose proof Hr as [[m Hm] [c Hc]].
  unfold _startSuiteAll. rewrite Hm, Hc, Hs. cbn [andThen].
  rewrite apply_ready; [reflexivity|].
  split; [exists m|exists c]; assumption.
Qed.

(** C8: started on an adapter whose model and configuration are set and
    whose suite is not running, the all-scenarios suite stores as its queue
    exactly the catalog entries excluding the baseline entry, the suite-kind
    entries and the entries whose id starts with "suite_", in catalog
    order: the 30 ids listed. *)
Theorem suite_queue (nowMs : Z) (a : Adapter) :
  ready a -> su_running (_suite a) = false ->
  let a' := fst (_startSuiteAll nowMs a) in
  su_running (_suite a') = true
  /\ suiteId (_suite a') = "suite_all_scenarios_5min"%string
  /\ queue (_suite a') = listedQueue _scenarioDefinitions
  /\ queue (_suite a')
     = [ "lm_6cars_deadline_0615"; "lm_20mix_deadline_0615";
         "lm_50ports_deadline_0615"; "lm_priorities_3tiers";
         "lm_arrival_wave_timeline"; "lm_departure_wave_timeline";
         "pv_surplus_30cars"; "pv_cloud_ramp_timeline";
         "storage_soc0"; "storage_soc100"; "storage_power_limit_low";
         "tariff_flat_low_10ct"; "tariff_pulse_timeline";
         "tariff_extremes_timeline"; "grid_limit_drop_timeline";
         "grid_14a_limit_timeline"; "base_load_spike_timeline";
         "grid_blackout_60s_timeline"; "dc_rush_10"; "dc_taper_single_400";
         "dc_all_ports_stress"; "faults_evcs_faulted_5";
         "faults_evcs_unavailable_5"; "faults_evcs_meter_freeze_3";
         "faults_clear_all"; "fuzz_10min_medium"; "fuzz_30min_heavy";
         "ext_heatpump_30kw"; "ext_chp_80kw"; "ext_generator_200kw" ]%string
  /\ (forall s : string,
         In s (queue (_suite a'))
         <-> exists d : Def,
               In d _scenarioDefinitions /\ id d = s
               /\ s <> "baseline"%string /\ kind d <> suite
               /\ String.prefix "suite_" s = false).
Proof.
  intros Hr Hs. cbv zeta. rewrite (startSuiteAll_ready nowMs a Hr Hs).
  cbn [fst enqueue _suite su_running suiteId queue].
  split; [reflexivity|]. split; [reflexivity|].
  split; [apply queue_nonempty_ids, catalog_ids|].
  split; [vm_compute; reflexivity|].
  intros s. rewrite (queue_nonempty_ids _ catalog_ids). unfold listedQueue.
  rewrite in_map_iff. split.
  - intros (d & Ed & Hd). apply filter_In in Hd. destruct Hd as [Hd Hf].
    apply andb_prop in Hf. destruct Hf as [Hf Hp].
    apply andb_prop in Hf. destruct Hf as [Hb Hk].
    exists d. split; [exact Hd|]. split; [exact Ed|]. subst s.
    split; [apply String.eqb_neq, negb_true_iff; exact Hb|].
    split; [intros E; rewrite E in Hk; discriminate Hk|].
    apply negb_true_iff; exact Hp.
  - intros (d & Hd & Ed & Hb & Hk & Hp). exists d. split; [exact Ed|].
    apply filter_In. split; [exact Hd|]. subst s.
    apply String.eqb_neq in Hb. rewrite Hb, Hp.
    destruct (kind d); try reflexivity. contradiction.
Qed.

End WithEngine.

(** C6: on an adapter whose model and configuration are set, applying a
    scenario ends in the TypeError of the call of
    [this._normalizeScenarioId] and changes nothing, whatever the id and
    with or without [start]; the press of a scenario button and of
    [scenario.ctrl.start] end in it on every adapter, with the press
    acknowledged and the button not written back.  On the adapter that
    [onReady] leaves on a new installation with two charge points, the
    press of the button of [lm_6cars_deadline_0615] and the ticks after it
    leave the phase at "idle", not at "applied" or "running". *)
Theorem scenario_never_applied :
  (forall (m : Model.t) (c : Cfg) (rng : LcgRandom.t) (sc : ScenarioState)
          (su : SuiteState) (rep : Report) (v : value) (start : bool),
      let a := mkAdapter (Some m) (Some c) rng sc su rep in
      _applyScenario v start a = (a, Threw))
  /\ (forall (a : Adapter) (name : string),
         let relId := String.append "scenario.buttons." name in
         _handleScenarioStateWrite relId (VBool true) a
         = (a, [(relId, VBool true)], true))
  /\ (forall a : Adapter,
         _handleScenarioStateWrite "scenario.ctrl.start" (VBool true) a
         = (a, [("scenario.ctrl.start"%string, VBool true)], true))
  /\ (let a := ExampleStartup.adapter in
      let press := onStateChange (H := ExampleHost.host) 1000500
                     "scenario.buttons.lm_6cars_deadline_0615"
                     (Some (VBool true, false)) a in
      let later := tick (H := ExampleHost.host) (H0 := ExampleEngine.setups)
                        1001000 1000000 (fst (fst press)) in
      ready a
      /\ press = (a, [("scenario.buttons.lm_6cars_deadline_0615"%string, VBool true)],
                  true)
      /\ snd later = Returned
      /\ phase (_scenario (fst later)) = "idle"%string
      /\ running (_scenario (fst later)) = false
      /\ active (_scenario (fst later)) = "baseline"%string
      /\ sc_duration_s (_scenario (fst later)) == 0
      /\ justFinished (_scenario (fst later)) = false).
Proof.
  split; [|split; [|split]].
  - intros. reflexivity.
  - intros a name. cbv zeta. unfold _handleScenarioStateWrite.
    replace (String.eqb (String.append "scenario.buttons." name) "scenario.selected")
      with false by (symmetry; apply String.eqb_neq; cbn [String.append]; discriminate).
    replace (String.prefix "scenario.buttons." (String.append "scenario.buttons." name))
      with true by (destruct name; reflexivity).
    reflexivity.
  - intros a. reflexivity.
  - cbv zeta. split; [exact ready_started|].
    split; [vm_compute; reflexivity|].
    repeat split; vm_compute; reflexivity.
Qed.

Lemma suite_queue_witness :
  queue (_suite (fst (_startSuiteAll (H := ExampleHost.host) 1000500
                        ExampleStartup.adapter)))
  = listedQueue _scenarioDefinitions.
Proof.
  destruct (suite_queue (H := ExampleHost.host) 1000500 ExampleStartup.adapter)
    as (_ & _ & Hq & _).
  - split; eexists; vm_compute; reflexivity.
  - vm_compute; reflexivity.
  - exact Hq.
Defined.

(** C8 as stated leaves out only the baseline entry and the suite-kind
    entries.  The catalog entry "suite_smoke_all" is neither, its kind is
    timeline, and yet it is not in the queue. *)
Lemma suite_named_timeline_left_out :
  let d := mkDef "suite_smoke_all" timeline (Some 420) in
  let a' := fst (_startSuiteAll (H := ExampleHost.host) 1000500
                   ExampleStartup.adapter) in
  In d _scenarioDefinitions
  /\ id d <> "baseline"%string /\ kind d <> suite
  /\ In (id d) (specQueue _scenarioDefinitions)
  /\ ~ In (id d) (queue (_suite a'))
  /\ queue (_suite a') <> specQueue _scenarioDefinitions.
Proof.
  cbv zeta. split; [cbn; tauto|]. split; [discriminate|]. split; [discriminate|].
  split; [vm_compute; intuition reflexivity|].
  assert (Eq : queue (_suite (fst (_startSuiteAll (H := ExampleHost.host) 1000500
                                     ExampleStartup.adapter)))
               = suiteQueue _scenarioDefinitions) by (vm_compute; reflexivity).
  rewrite Eq. split.
  - vm_compute. intros Hin.
    repeat (destruct Hin as [Hin|Hin]; [discriminate Hin|]). exact Hin.
  - vm_compute. discriminate.
Qed.

End ScenarioSpec.
(* ===================================================================== *)
(** * Further properties of the code                                      *)
(* ===================================================================== *)

(** ** [clamp] *)

Module ClampSpec.
Local Open Scope Q_scope.

Section WithHost.
Context `{Host}.

(** X1: [clamp(value, min, max)] with [min <= max] returns a number of
    [[min, max]] for every value whatsoever; a value that converts to NaN
    gives [min], [+Infinity] gives [max], [-Infinity] gives [min], a number
    of the range is returned as it is, and clamping twice changes nothing. *)
Theorem clamp_into_range (v : value) (lo hi : Q) :
  lo <= hi ->
  lo <= clampV v lo hi <= hi
  /\ (Number_isNaN (Number v) = true -> clampV v lo hi = lo)
  /\ (Number v = PInf -> clampV v lo hi = hi)
  /\ (Number v = NInf -> clampV v lo hi == lo)
  /\ (forall q, Number v = Fin q -> lo <= q <= hi -> clampV v lo hi == q)
  /\ clamp (clampV v lo hi) lo hi == clampV v lo hi.
Proof.
  intros Hlh. unfold clampV.
  split; [apply clampNum_bounds; exact Hlh|].
  split; [destruct (Number v); try discriminate; reflexivity|].
  split; [intros ->; reflexivity|].
  split; [intros ->; cbn; unfold Math_min; apply Q.min_r; exact Hlh|].
  split.
  - intros q -> [H1 H2]. apply (clamp_id q lo hi H1 H2).
  - pose proof (clampNum_bounds (Number v) lo hi Hlh) as [H1 H2].
    apply clamp_id; assumption.
Qed.

End WithHost.

Lemma clamp_into_range_witness :
  1 <= clampV (H := ExampleHost.host) (VStr "12000") 1 5000 <= 5000
  /\ clampV (H := ExampleHost.host) (VNum NaN) 1 5000 = 1.
Proof.
  destruct (clamp_into_range (H := ExampleHost.host) (VStr "12000") 1 5000
              ltac:(unfold Qle; simpl; lia)) as (Hr & _).
  destruct (clamp_into_range (H := ExampleHost.host) (VNum NaN) 1 5000
              ltac:(unfold Qle; simpl; lia)) as (_ & Hn & _).
  split; [exact Hr | apply Hn; reflexivity].
Defined.

End ClampSpec.
(** ** [LcgRandom]: seeds and the rejection loops *)

Module LcgRandomEdge.
Import LcgRandom LcgProps LcgRandomSpec.
Local Open Scope Z_scope.

Lemma ToUint32_shift (s k : Z) :
  ToUint32 (Fin (inject_Z (s + k * two32))) = ToUint32 (Fin (inject_Z s)).
Proof.
  unfold ToUint32. cbn [inject_Z Qnum Qden]. rewrite !Z.quot_1_r.
  apply Z.mod_add. discriminate.
Qed.

(** X2: the constructor never leaves the state 0: a seed that converts to
    0 under [>>> 0] (0, NaN, an infinity, a fraction below 1) gives the
    state 1, every other seed its value modulo 2^32 (truncated towards
    zero); whole seeds that differ by a multiple of 2^32 give the same
    generator, and no spare is stored. *)
Theorem seed_normalised :
  (forall seed : num,
      0 < _state (new seed) < two32 /\ _spareNormal (new seed) = None)
  /\ (forall seed : num, Number_isFinite seed = false -> _state (new seed) = 1)
  /\ (forall q : Q, (-1 < q)%Q -> (q < 1)%Q -> _state (new (Fin q)) = 1)
  /\ (forall s : Z, 1 <= s < two32 -> _state (new (Fin (inject_Z s))) = s)
  /\ (forall s k : Z,
         new (Fin (inject_Z (s + k * two32))) = new (Fin (inject_Z s))).
Proof.
  split; [intros seed; split; [apply new_state_range | reflexivity]|].
  split; [intros seed Hf; destruct seed; try discriminate; reflexivity|].
  split.
  - intros [n d] Hlo Hhi. unfold new, ToUint32. cbn [Qnum Qden].
    unfold Qlt in Hlo, Hhi. cbn in Hlo, Hhi.
    assert (E : Z.quot n (Z.pos d) = 0).
    { apply Z.quot_small_iff; lia. }
    rewrite E. reflexivity.
  - split.
    + intros s Hs. unfold new, ToUint32. cbn [inject_Z Qnum Qden].
      rewrite Z.quot_1_r, Z.mod_small by lia.
      destruct (Z.eqb_spec s 0); [lia | reflexivity].
    + intros s k. unfold new. rewrite ToUint32_shift. reflexivity.
Qed.

Lemma seed_normalised_witness :
  _state (new (Fin (1 # 2))) = 1
  /\ _state (new (Fin (inject_Z 1337))) = 1337
  /\ _state (new PInf) = 1.
Proof.
  destruct seed_normalised as (_ & Hinf & Hfrac & Hid & _).
  split; [apply Hfrac; reflexivity|].
  split; [apply Hid; unfold two32; lia|].
  apply Hinf. reflexivity.
Defined.

Lemma next_state_step (g : t) : _state (snd (next g)) = step (_state g).
Proof. reflexivity. Qed.

Lemma drawNonzero_steps (g : t) (u : Q) (g' : t) :
  drawNonzero 2 g = Some (u, g') ->
  _spareNormal g' = _spareNormal g
  /\ (_state g' = step (_state g) \/ _state g' = step (step (_state g))).
Proof.
  cbn [drawNonzero]. destruct (next g) as [u1 g1] eqn:E1.
  assert (H1 : _state g1 = step (_state g) /\ _spareNormal g1 = _spareNormal g).
  { unfold next in E1. inversion E1; subst. split; reflexivity. }
  destruct (Qeq_bool u1 0).
  - destruct (next g1) as [u2 g2] eqn:E2.
    assert (H2 : _state g2 = step (_state g1) /\ _spareNormal g2 = _spareNormal g1).
    { unfold next in E2. inversion E2; subst. split; reflexivity. }
    destruct (Qeq_bool u2 0); [discriminate|].
    intros E. inversion E; subst.
    destruct H1 as [S1 P1], H2 as [S2 P2].
    split; [congruence | right; congruence].
  - intros E. inversion E; subst. destruct H1 as [S1 P1].
    split; [exact P1 | left; exact S1].
Qed.

Section WithHost.
Context `{Host}.

(** X3: the two [while (u === 0) u = this.next()] loops of [normal()]
    always end: a draw is 0 only when the state is 0, and the state after
    0 is 1013904223, so each loop draws once or twice (any larger bound on
    the iterations gives the same result).  A call that finds a spare
    leaves the state alone and clears the spare; a call that finds none
    advances the state by two to four steps and stores a spare. *)
Theorem normal_loops_end (g : t) (mu sigma : Q) :
  step 0 = 1013904223
  /\ (forall k : nat,
         normalFuel (S (S k)) g mu sigma = Some (normal g mu sigma))
  /\ (forall z : Q,
         _spareNormal g = Some z ->
         normal g mu sigma
         = ((mu + sigma * z)%Q, {| _state := _state g; _spareNormal := None |}))
  /\ (_spareNormal g = None ->
      let s := _state g in
      let s' := _state (snd (normal g mu sigma)) in
      (s' = step (step s) \/ s' = step (step (step s))
       \/ s' = step (step (step (step s))))
      /\ _spareNormal (snd (normal g mu sigma)) <> None).
Proof.
  split; [reflexivity|]. split; [|split].
  - intros k. unfold normal, normalFuel.
    destruct (_spareNormal g) as [z|]; [reflexivity|].
    destruct (drawNonzero_two k g) as (u & g1 & Ek & E2 & _).
    rewrite Ek, E2.
    destruct (drawNonzero_two k g1) as (v & g2 & Ek' & E2' & _).
    rewrite Ek', E2'. reflexivity.
  - intros z Hz. unfold normal, normalFuel. rewrite Hz. reflexivity.
  - intros Hs. cbv zeta. unfold normal, normalFuel. rewrite Hs.
    destruct (drawNonzero_two 0 g) as (u & g1 & E1 & _ & _).
    rewrite E1.
    destruct (drawNonzero_two 0 g1) as (v & g2 & E2 & _ & _).
    rewrite E2. cbn [snd _state _spareNormal].
    destruct (drawNonzero_steps g u g1 E1) as (_ & S1).
    destruct (drawNonzero_steps g1 v g2 E2) as (_ & S2).
    split; [|discriminate].
    destruct S1 as [S1|S1], S2 as [S2|S2]; rewrite S2, S1; auto.
Qed.

End WithHost.

Lemma normal_loops_end_witness :
  let g := {| _state := 0; _spareNormal := None |} in
  _state (snd (normal (H := ExampleHost.host) g 0 1)) = step (step 0)
  \/ _state (snd (normal (H := ExampleHost.host) g 0 1)) = step (step (step 0))
  \/ _state (snd (normal (H := ExampleHost.host) g 0 1))
     = step (step (step (step 0))).
Proof.
  destruct (normal_loops_end (H := ExampleHost.host)
              {| _state := 0; _spareNormal := None |} 0 1)
    as (_ & _ & _ & Hn).
  destruct (Hn eq_refl) as [Hs _]. exact Hs.
Defined.

End LcgRandomEdge.
(** ** [_applyWrite]: what a command can and cannot do *)

Module CommandEdge.
Import Command CommandPoints PlantProps.
Local Open Scope Q_scope.

(** [updateCharger] replaces the charger [find] returns. *)
Lemma updateCharger_split (cid : string) (c' : Charger.t) (l : list Charger.t) :
  forall c,
    findCharger cid l = Some c ->
    exists l1 l2,
      l = l1 ++ c :: l2
      /\ updateCharger cid (fun _ => c') l = Some (l1 ++ c' :: l2)
      /\ Charger.id c = cid
      /\ findCharger cid l1 = None.
Proof.
  induction l as [|x rest IH]; intros c Hf; [discriminate|].
  unfold findCharger in *. cbn [List.find updateCharger] in *.
  destruct (String.eqb (Charger.id x) cid) eqn:E.
  - inversion Hf; subst. exists [], rest. apply String.eqb_eq in E.
    repeat split. exact E.
  - destruct (IH c Hf) as (l1 & l2 & -> & Hu & Hid & Hn).
    rewrite Hu. exists (x :: l1), l2. cbn [List.find app]. rewrite E.
    repeat split; assumption.
Qed.

Lemma findCharger_app (cid : string) (l1 l2 : list Charger.t) (c : Charger.t) :
  findCharger cid l1 = None -> Charger.id c = cid ->
  findCharger cid (l1 ++ c :: l2) = Some c.
Proof.
  unfold findCharger. induction l1 as [|x rest IH]; intros Hn Hid; cbn [app List.find] in *.
  - rewrite Hid, String.eqb_refl. reflexivity.
  - destruct (String.eqb (Charger.id x) cid); [discriminate|]. apply IH; assumption.
Qed.

Section WithHost.
Context `{Host}.

Lemma chargerWrite_key (now : Z) (tail : string) (v : value) (c c' : Charger.t) :
  applyChargerWrite now tail v c = Some c' ->
  fleetKey c' = fleetKey c /\ simFlags c' = simFlags c.
Proof.
  unfold applyChargerWrite.
  repeat (destruct (String.eqb tail _);
          [intros E; inversion E; subst;
           try destruct (truthy v); try destruct (isPressed v);
           split; reflexivity|]).
  discriminate.
Qed.

Lemma chargerWrite_ranged (now : Z) (tail : string) (v : value) (c c' : Charger.t) :
  chargerRanged c -> applyChargerWrite now tail v c = Some c' -> chargerRanged c'.
Proof.
  intros Hc. unfold applyChargerWrite.
  pose proof Hc as ((M1 & M2) & (L1 & L2) & (P1 & P2) & (S1 & S2) & (C1 & C2)
                    & (V1 & V2) & (T1 & T2) & (W1 & W2) & (E1 & E2)).
  repeat (destruct (String.eqb tail _);
          [intros E; inversion E; subst;
           try destruct (truthy v); try destruct (isPressed v);
           unfold chargerRanged;
           cbn [Charger.set_ctrl Charger.set_meas Charger.set_vehicle
                Charger.set_vehicle_soc_pct Charger.max_kw Charger.ctrl_limit_kw
                Charger.ctrl_priority Charger.vehicle_soc_pct
                Charger.vehicle_capacity_kwh Charger.vehicle_max_charge_kw
                Charger.vehicle_target_soc_pct Charger.meas_power_kw
                Charger.meas_energy_kwh];
           repeat split;
           try assumption;
           try (apply clampNum_bounds; lra);
           try (apply clamp_bounds; lra);
           lra|]).
  discriminate.
Qed.

Lemma applyWrite_cases (now : Z) (m : Model.t) (relId : string) (v : value) :
  let r := _applyWrite now m relId v in
  (snd r = false /\ fst r = m)
  \/ (snd r = true /\ Model.evcs_chargers (fst r) = Model.evcs_chargers m)
  \/ (snd r = true
      /\ exists cid tail c c' l1 l2,
          matchEvcs relId = Some (cid, tail)
          /\ Model.evcs_chargers m = l1 ++ c :: l2
          /\ findCharger cid l1 = None /\ Charger.id c = cid
          /\ applyChargerWrite now tail v c = Some c'
          /\ fst r = setChargers m (l1 ++ c' :: l2)).
Proof.
  cbv zeta. unfold _applyWrite.
  repeat (destruct (String.eqb relId _); [right; left; split; reflexivity|]).
  destruct (matchEvcs relId) as [[cid tail]|] eqn:Em; [|left; split; reflexivity].
  destruct (List.find _ (Model.evcs_chargers m)) as [c|] eqn:Ef;
    [|left; split; reflexivity].
  destruct (applyChargerWrite now tail v c) as [c'|] eqn:Ea;
    [|left; split; reflexivity].
  destruct (updateCharger_split cid c' _ c Ef) as (l1 & l2 & El & Hu & Hid & Hn).
  rewrite Hu. right. right. split; [reflexivity|].
  exists cid, tail, c, c', l1, l2. repeat split; assumption.
Qed.

(** X4: a write that [_applyWrite] rejects (returns [false]: unknown id,
    no charge point of that id, unknown field; also no model yet) leaves
    the model exactly as it was; a write it accepts never adds, removes,
    reorders or renames a charge point and never changes a type, a
    [max_kw] or a simulation flag. *)
Theorem write_keeps_fleet (now : Z) (m : Model.t) (relId : string) (v : value) :
  (snd (_applyWrite now m relId v) = false -> fst (_applyWrite now m relId v) = m)
  /\ applyWrite now None relId v = (None, false)
  /\ fleetOf (fst (_applyWrite now m relId v)) = fleetOf m
  /\ map simFlags (Model.evcs_chargers (fst (_applyWrite now m relId v)))
     = map simFlags (Model.evcs_chargers m).
Proof.
  pose proof (applyWrite_cases now m relId v) as Hc. cbv zeta in Hc.
  split; [|split; [reflexivity|]].
  - intros Hf.
    destruct Hc as [(_ & E)|[(Ht & _)|(Ht & _)]]; [exact E|congruence|congruence].
  - unfold fleetOf.
    destruct Hc as [(_ & ->)|[(_ & ->)|(_ & Hex)]]; [split; reflexivity..|].
    destruct Hex as (cid & tail & c & c' & l1 & l2 & _ & El & _ & _ & Ha & ->).
    destruct (chargerWrite_key now tail v c c' Ha) as [Hk Hs].
    cbn [setChargers Model.evcs_chargers]. rewrite El, !map_app. cbn [map].
    rewrite Hk, Hs. split; reflexivity.
Qed.

(** X5: every accepted write leaves the plant inside the ranges of its
    datapoints: a model whose numeric fields lie in their ranges still has
    them there after any write with any value. *)
Theorem write_keeps_ranges (now : Z) (m : Model.t) (relId : string) (v : value) :
  plantRanged m -> plantRanged (fst (_applyWrite now m relId v)).
Proof.
  intros Hm.
  pose proof Hm as ((G1 & G2) & (B1 & B2) & (T1 & T2) & (I1 & I2) & (W1 & W2)
                    & (O1 & O2) & (C1 & C2) & (X1 & X2) & (D1 & D2) & (S1 & S2)
                    & Hf).
  unfold _applyWrite.
  repeat (destruct (String.eqb relId _);
          [unfold plantRanged;
           cbn [fst setGrid setTariff setPv setStorage setHeatpump setChp
                setGenerator Model.grid Model.tariff Model.pv Model.storage
                Model.evcs_chargers Grid.limit_kw Grid.base_load_kw
                Tariff.price_ct_per_kwh PV.installed_kwp PV.weather_factor
                PV.override_power_kw Storage.capacity_kwh Storage.max_charge_kw
                Storage.max_discharge_kw Storage.soc_pct];
           repeat split; try assumption; apply clampNum_bounds; lra|]).
  destruct (matchEvcs relId) as [[cid tail]|]; [|exact Hm].
  destruct (List.find _ _) as [c|] eqn:Ef; [|exact Hm].
  destruct (applyChargerWrite now tail v c) as [c'|] eqn:Ea; [|exact Hm].
  destruct (updateCharger_split cid c' _ c Ef) as (l1 & l2 & El & Hu & _ & _).
  rewrite Hu. unfold plantRanged.
  cbn [fst setChargers Model.grid Model.tariff Model.pv Model.storage
       Model.evcs_chargers].
  repeat (split; [split; assumption|]).
  rewrite El in Hf. apply Forall_app in Hf. destruct Hf as [Hf1 Hf2].
  apply Forall_app. split; [exact Hf1|].
  inversion Hf2 as [|? ? Hcr Hrest]; subst.
  constructor; [|exact Hrest].
  exact (chargerWrite_ranged now tail v c c' Hcr Ea).
Qed.

End WithHost.

Lemma write_keeps_fleet_witness :
  fst (_applyWrite (H := ExampleHost.host) 0 Sample.model
         "evcs.c77.ctrl.limit_kw" (VNum (Fin 7000))) = Sample.model.
Proof.
  destruct (write_keeps_fleet (H := ExampleHost.host) 0 Sample.model
              "evcs.c77.ctrl.limit_kw" (VNum (Fin 7000))) as (Hrej & _).
  apply Hrej. reflexivity.
Defined.

Lemma write_keeps_ranges_witness :
  plantRanged (fst (_applyWrite (H := ExampleHost.host) 0 Sample.model
                      "grid.limit_kw" (VNum (Fin 99999)))).
Proof.
  apply write_keeps_ranges.
  unfold plantRanged, Sample.model. cbn.
  repeat split; try (unfold Qle, Qlt; simpl; lia).
  unfold Sample.chargers.
  repeat constructor; unfold Qle, Qlt; simpl; lia.
Defined.

(** *** Repeated commands and sessions *)

Section Repeat.
Context `{Host}.

Lemma chargerWrite_idem (now : Z) (tail : string) (v : value) (c c' : Charger.t) :
  applyChargerWrite now tail v c = Some c' ->
  applyChargerWrite now tail v c' = Some c'.
Proof.
  unfold applyChargerWrite.
  repeat (destruct (String.eqb tail _);
          [intros E; inversion E; subst; clear E;
           destruct c; cbn;
           try destruct (truthy v); try destruct (isPressed v);
           reflexivity|]).
  discriminate.
Qed.

Lemma updateCharger_same (cid : string) (c' : Charger.t) (l1 l2 : list Charger.t) :
  findCharger cid l1 = None -> Charger.id c' = cid ->
  updateCharger cid (fun _ => c') (l1 ++ c' :: l2) = Some (l1 ++ c' :: l2).
Proof.
  unfold findCharger. induction l1 as [|x rest IH]; intros Hn Hid;
    cbn [app updateCharger List.find] in *.
  - rewrite Hid, String.eqb_refl. reflexivity.
  - destruct (String.eqb (Charger.id x) cid); [discriminate|].
    rewrite (IH Hn Hid). reflexivity.
Qed.

(** X7: sending the same command twice is the same as sending it once:
    [_applyWrite] applied again with the same id and value (at the same
    clock reading) returns the same flag and leaves the model it left the
    first time. *)
Theorem write_twice (now : Z) (m : Model.t) (relId : string) (v : value) :
  _applyWrite now (fst (_applyWrite now m relId v)) relId v
  = _applyWrite now m relId v.
Proof.
  unfold _applyWrite.
  repeat (destruct (String.eqb relId _); [reflexivity|]).
  destruct (matchEvcs relId) as [[cid tail]|]; [|reflexivity].
  destruct (List.find _ (Model.evcs_chargers m)) as [c|] eqn:Ef.
  2:{ cbn [fst]. rewrite Ef. reflexivity. }
  destruct (applyChargerWrite now tail v c) as [c'|] eqn:Ea.
  2:{ cbn [fst]. rewrite Ef, Ea. reflexivity. }
  destruct (updateCharger_split cid c' _ c Ef) as (l1 & l2 & El & Hu & Hid & Hn).
  rewrite Hu. cbn [fst setChargers Model.evcs_chargers].
  assert (Hid' : Charger.id c' = cid).
  { destruct (chargerWrite_key now tail v c c' Ea) as [Hk _].
    unfold fleetKey in Hk. inversion Hk. congruence. }
  pose proof (findCharger_app cid l1 l2 c' Hn Hid') as Hf'.
  unfold findCharger in Hf'. rewrite Hf'.
  rewrite (chargerWrite_idem now tail v c c' Ea).
  rewrite (updateCharger_same cid c' l1 l2 Hn Hid'). reflexivity.
Qed.

(** X8: a write to [evcs.cNN.ctrl.plugged] stores the truth value of what
    was written; a falsy value also ends the session (power 0, energy 0,
    status "Available") while [ctrl.enabled] stays as it is, a truthy value
    leaves the measurements alone.  A write to [evcs.cNN.ctrl.reset_session]
    is accepted whatever the value, and acts only for [true], [1] or
    ['true']: it sets the energy to 0 and the status to "Preparing" or
    "Available" (by [ctrl.plugged]) and keeps the reported power. *)
Theorem session_commands (now : Z) (m : Model.t) (d1 d2 : ascii) (c : Charger.t)
    (v : value) :
  Departure.isDigit d1 = true -> Departure.isDigit d2 = true ->
  findCharger (chargerId d1 d2) (Model.evcs_chargers m) = Some c ->
  (exists l' c',
      _applyWrite now m (evcsId d1 d2 "ctrl.plugged") v = (setChargers m l', true)
      /\ findCharger (chargerId d1 d2) l' = Some c'
      /\ Charger.ctrl_plugged c' = truthy v
      /\ Charger.ctrl_enabled c' = Charger.ctrl_enabled c
      /\ (truthy v = false ->
          Charger.meas_power_kw c' = 0 /\ Charger.meas_energy_kwh c' = 0
          /\ Charger.meas_status c' = "Available"%string)
      /\ (truthy v = true ->
          Charger.meas_power_kw c' = Charger.meas_power_kw c
          /\ Charger.meas_energy_kwh c' = Charger.meas_energy_kwh c
          /\ Charger.meas_status c' = Charger.meas_status c))
  /\ (exists l' c',
         _applyWrite now m (evcsId d1 d2 "ctrl.reset_session") v
         = (setChargers m l', true)
         /\ findCharger (chargerId d1 d2) l' = Some c'
         /\ (isPressed v = true ->
             Charger.meas_energy_kwh c' = 0
             /\ Charger.meas_power_kw c' = Charger.meas_power_kw c
             /\ Charger.meas_status c'
                = (if Charger.ctrl_plugged c then "Preparing" else "Available")%string)
         /\ (isPressed v = false -> c' = c)).
Proof.
  intros H1 H2 Hf. split.
  - destruct (CommandSpec.applyWrite_evcs now m d1 d2 "ctrl.plugged" v c
                _ H1 H2 ltac:(discriminate) eq_refl Hf eq_refl)
      as (l' & Hw & Hf' & _).
    { destruct (truthy v); reflexivity. }
    eexists l', _. split; [exact Hw|]. split; [exact Hf'|].
    destruct (truthy v); repeat split; intros; try discriminate; reflexivity.
  - destruct (CommandSpec.applyWrite_evcs now m d1 d2 "ctrl.reset_session" v c
                _ H1 H2 ltac:(discriminate) eq_refl Hf eq_refl)
      as (l' & Hw & Hf' & _).
    { destruct (isPressed v); reflexivity. }
    eexists l', _. split; [exact Hw|]. split; [exact Hf'|].
    destruct (isPressed v); repeat split; intros; try discriminate; reflexivity.
Qed.

End Repeat.

(** *** Addressing of the charge points *)

Import Scenario AddressProps.

Lemma range_nat (lo : Z) (len : nat) (n : Z) :
  (lo <= n < lo + Z.of_nat len)%Z ->
  In n (map (fun k => (lo + Z.of_nat k)%Z) (seq 0 len)).
Proof.
  intros Hn. apply in_map_iff. exists (Z.to_nat (n - lo)). split; [lia|].
  apply in_seq. lia.
Qed.

Lemma pad2_small (n : Z) : (0 <= n <= 99)%Z -> twoDigits n = true.
Proof.
  intros Hn.
  assert (Hall : forallb twoDigits (map (fun k => (0 + Z.of_nat k)%Z) (seq 0 100)) = true)
    by (vm_compute; reflexivity).
  rewrite forallb_forall in Hall. apply Hall. apply range_nat. lia.
Qed.

Lemma pad2_large (n : Z) : (100 <= n <= 200)%Z -> threeDigits n = true.
Proof.
  intros Hn.
  assert (Hall : forallb threeDigits
                   (map (fun k => (100 + Z.of_nat k)%Z) (seq 0 101)) = true)
    by (vm_compute; reflexivity).
  rewrite forallb_forall in Hall. apply Hall. apply range_nat. lia.
Qed.

Lemma pad2_reads_back (n : Z) :
  (0 <= n <= 200)%Z -> JS.decimalValue 0 (pad2 n) = Some n.
Proof.
  intros Hn. destruct (Z_le_gt_dec n 99) as [Hs|Hl].
  - pose proof (pad2_small n ltac:(lia)) as Ht. unfold twoDigits in Ht.
    destruct (list_ascii_of_string (pad2 n)) as [|d1 [|d2 [|? ?]]]; try discriminate.
    destruct (JS.decimalValue 0 (pad2 n)) as [k|]; [|rewrite andb_false_r in Ht; discriminate].
    apply andb_prop in Ht. destruct Ht as [_ Ht]. apply Z.eqb_eq in Ht. congruence.
  - pose proof (pad2_large n ltac:(lia)) as Ht. unfold threeDigits in Ht.
    destruct (list_ascii_of_string (pad2 n)) as [|d1 [|d2 [|d3 [|? ?]]]];
      try discriminate.
    destruct (JS.decimalValue 0 (pad2 n)) as [k|]; [|discriminate].
    apply Z.eqb_eq in Ht. congruence.
Qed.

Lemma list_ascii_inj (s : string) (l : list ascii) :
  list_ascii_of_string s = l -> s = string_of_list_ascii l.
Proof. intros <-. symmetry. apply string_of_list_ascii_of_string. Qed.

Section Addressing.
Context `{Host}.

(** X6: the names [c01], [c02], ... that [pad2] gives the charge points
    are pairwise distinct (each reads back as its number), and a datapoint
    id [evcs.cNN.<field>] of the charge points 1 to 99 is taken apart by
    [_applyWrite] into exactly that name and field; the names from [c100]
    on have three digits, which the pattern of [_applyWrite] does not
    accept: a write to any datapoint of the charge points 100 to 200 is
    rejected and changes nothing. *)
Theorem charger_addressing :
  (forall n : Z, (0 <= n <= 200)%Z -> JS.decimalValue 0 (pad2 n) = Some n)
  /\ (forall n n' : Z,
         (0 <= n <= 200)%Z -> (0 <= n' <= 200)%Z ->
         chargerName n = chargerName n' -> n = n')
  /\ (forall (n : Z) (tail : string),
         (1 <= n <= 99)%Z -> tail <> EmptyString ->
         forallb notLineTerminator (list_ascii_of_string tail) = true ->
         matchEvcs (evcsPoint n tail) = Some (chargerName n, tail))
  /\ (forall (n : Z) (tail : string) (now : Z) (m : Model.t) (v : value),
         (100 <= n <= 200)%Z ->
         _applyWrite now m (evcsPoint n tail) v = (m, false)).
Proof.
  split; [exact pad2_reads_back|]. split; [|split].
  - intros n n' Hn Hn' E. unfold chargerName in E.
    assert (E' : pad2 n = pad2 n').
    { cbv [String.append] in E. inversion E. reflexivity. }
    pose proof (pad2_reads_back n Hn) as R. rewrite E' in R.
    rewrite (pad2_reads_back n' Hn') in R. congruence.
  - intros n tail Hn Hne Hnl.
    pose proof (pad2_small n ltac:(lia)) as Ht. unfold twoDigits in Ht.
    destruct (list_ascii_of_string (pad2 n)) as [|d1 [|d2 [|? ?]]] eqn:El;
      try discriminate.
    apply andb_prop in Ht. destruct Ht as [Ht _].
    apply andb_prop in Ht. destruct Ht as [H1 H2].
    apply list_ascii_inj in El. cbn [string_of_list_ascii] in El.
    unfold evcsPoint, chargerName. rewrite El.
    exact (CommandSpec.matchEvcs_evcsId d1 d2 tail H1 H2 Hne Hnl).
  - intros n tail now m v Hn.
    assert (Hk : exists k : nat, n = (100 + Z.of_nat k)%Z /\ (k <= 100)%nat).
    { exists (Z.to_nat (n - 100)). split; lia. }
    destruct Hk as (k & -> & Hk).
    do 101 (destruct k as [|k]; [vm_compute; reflexivity|]).
    lia.
Qed.

End Addressing.

Lemma charger_addressing_witness :
  matchEvcs (evcsPoint 7 "ctrl.limit_kw") = Some (chargerName 7, "ctrl.limit_kw"%string)
  /\ _applyWrite (H := ExampleHost.host) 0 Sample.model
        (evcsPoint 123 "ctrl.limit_kw") (VNum (Fin 7000)) = (Sample.model, false).
Proof.
  destruct (charger_addressing (H := ExampleHost.host)) as (_ & _ & Hm & Hr).
  split.
  - apply Hm; [lia | discriminate | reflexivity].
  - apply Hr. lia.
Defined.

Lemma session_commands_witness :
  exists l' c',
    _applyWrite (H := ExampleHost.host) 0 Sample.model
       "evcs.c06.ctrl.plugged" (VBool false) = (setChargers Sample.model l', true)
    /\ findCharger "c06" l' = Some c'
    /\ Charger.meas_power_kw c' = 0%Q.
Proof.
  destruct (session_commands (H := ExampleHost.host) 0 Sample.model
              "0"%char "6"%char Sample.c06 (VBool false) eq_refl eq_refl eq_refl)
    as ((l' & c' & Hw & Hf & _ & _ & Hoff & _) & _).
  exists l', c'. split; [exact Hw|]. split; [exact Hf|].
  apply Hoff. reflexivity.
Defined.

End CommandEdge.
(** ** The physics of the tick *)

Module TickEdge.
Import Tick TickProps PlantProps TickSpec.
Local Open Scope Q_scope.

Lemma evcsStep_ranged (dtH : Q) (ch : Charger.t) :
  chargerRanged ch -> chargerRanged (fst (evcsStep dtH ch)).
Proof.
  intros Hc.
  pose proof Hc as ((M1 & M2) & (L1 & L2) & (P1 & P2) & (S1 & S2) & (C1 & C2)
                    & (V1 & V2) & (T1 & T2) & (W1 & W2) & (E1 & E2)).
  pose proof (chargePower_nonneg dtH ch ltac:(lra)) as Hp0.
  assert (Hp1 : chargePower dtH ch <= Charger.max_kw ch)
    by (unfold chargePower; apply clamp_le_hi).
  unfold evcsStep.
  destruct (branchOf ch); try exact Hc;
    unfold chargerRanged;
    cbn [fst Charger.set_meas Charger.set_vehicle_soc_pct Charger.max_kw
         Charger.ctrl_limit_kw Charger.ctrl_priority Charger.vehicle_soc_pct
         Charger.vehicle_capacity_kwh Charger.vehicle_max_charge_kw
         Charger.vehicle_target_soc_pct Charger.meas_power_kw
         Charger.meas_energy_kwh];
    repeat split; try assumption; try lra;
    try (apply clamp_bounds; lra).
Qed.

Lemma evcsStep_untouched (dtH : Q) (ch : Charger.t) :
  fleetKey (fst (evcsStep dtH ch)) = fleetKey ch
  /\ simFlags (fst (evcsStep dtH ch)) = simFlags ch
  /\ controlsOf (fst (evcsStep dtH ch)) = controlsOf ch.
Proof.
  unfold evcsStep. destruct (branchOf ch); repeat split; reflexivity.
Qed.

Section WithHost.
Context `{Host}.

(** X9: the physics of a tick keeps the plant inside the ranges of its
    datapoints, including [0 <= meas.power_kw <= max_kw] for every charge
    point (frozen meters too), and it never writes a control: the fleet
    (ids, types, [max_kw]), the simulation flags, the [ctrl.*] fields, the
    vehicle data other than the SoC, the grid limit, base load and
    availability and the storage and PV settings are what they were. *)
Theorem tick_keeps_ranges (nowMs : Z) (dtH : Q) (m : Model.t) (rng : LcgRandom.t) :
  plantRanged m ->
  let m' := fst (fst (tickPhysics nowMs dtH m rng)) in
  plantRanged m'
  /\ fleetOf m' = fleetOf m
  /\ map simFlags (Model.evcs_chargers m') = map simFlags (Model.evcs_chargers m)
  /\ map controlsOf (Model.evcs_chargers m') = map controlsOf (Model.evcs_chargers m)
  /\ Grid.limit_kw (Model.grid m') = Grid.limit_kw (Model.grid m)
  /\ Grid.base_load_kw (Model.grid m') = Grid.base_load_kw (Model.grid m)
  /\ Grid.available (Model.grid m') = Grid.available (Model.grid m)
  /\ Tariff.mode (Model.tariff m') = Tariff.mode (Model.tariff m)
  /\ (PV.installed_kwp (Model.pv m'), PV.weather_factor (Model.pv m'),
      PV.override_enabled (Model.pv m'), PV.override_power_kw (Model.pv m'))
     = (PV.installed_kwp (Model.pv m), PV.weather_factor (Model.pv m),
        PV.override_enabled (Model.pv m), PV.override_power_kw (Model.pv m))
  /\ (Storage.capacity_kwh (Model.storage m'), Storage.max_charge_kw (Model.storage m'),
      Storage.max_discharge_kw (Model.storage m'),
      Storage.ctrl_enabled (Model.storage m'),
      Storage.ctrl_power_set_kw (Model.storage m'))
     = (Storage.capacity_kwh (Model.storage m), Storage.max_charge_kw (Model.storage m),
        Storage.max_discharge_kw (Model.storage m),
        Storage.ctrl_enabled (Model.storage m),
        Storage.ctrl_power_set_kw (Model.storage m)).
Proof.
  intros Hm m'.
  pose proof (tickPhysics_chargers nowMs dtH m rng) as Hch.
  pose proof (tickPhysics_storage nowMs dtH m rng) as Hst.
  fold m' in Hch, Hst.
  assert (Hrest :
            Grid.limit_kw (Model.grid m') = Grid.limit_kw (Model.grid m)
            /\ Grid.base_load_kw (Model.grid m') = Grid.base_load_kw (Model.grid m)
            /\ Grid.available (Model.grid m') = Grid.available (Model.grid m)
            /\ Tariff.mode (Model.tariff m') = Tariff.mode (Model.tariff m)
            /\ (-500 <= Tariff.price_ct_per_kwh (Model.tariff m')
                /\ Tariff.price_ct_per_kwh (Model.tariff m') <= 500)
            /\ (PV.installed_kwp (Model.pv m'), PV.weather_factor (Model.pv m'),
                PV.override_enabled (Model.pv m'), PV.override_power_kw (Model.pv m'))
               = (PV.installed_kwp (Model.pv m), PV.weather_factor (Model.pv m),
                  PV.override_enabled (Model.pv m), PV.override_power_kw (Model.pv m))).
  { subst m'. unfold tickPhysics, tariffStep, pvStep.
    destruct (Tariff.mode (Model.tariff m)) eqn:Emode;
      destruct (PV.override_enabled (Model.pv m)) eqn:Eov;
      repeat match goal with
             | |- context [LcgRandom.normal ?g ?a ?b] =>
                 destruct (LcgRandom.normal g a b)
             end;
      destruct (evcsLoop dtH (Model.evcs_chargers m) 0 0) as [[? ?] ?];
      cbn; rewrite ?Eov;
      repeat split; try reflexivity; try (apply clamp_bounds; lra);
        try apply clamp_le_hi. }
  destruct Hrest as (Rl & Rb & Ra & Rm & (Rp1 & Rp2) & Rpv).
  pose proof Hm as ((G1 & G2) & (B1 & B2) & (T1 & T2) & (I1 & I2) & (W1 & W2)
                    & (O1 & O2) & (C1 & C2) & (X1 & X2) & (D1 & D2) & (S1 & S2)
                    & Hf).
  inversion Rpv as [[Ri Rw Ro Rop]].
  assert (Hstore :
            (Storage.capacity_kwh (Model.storage m'), Storage.max_charge_kw (Model.storage m'),
             Storage.max_discharge_kw (Model.storage m'),
             Storage.ctrl_enabled (Model.storage m'),
             Storage.ctrl_power_set_kw (Model.storage m'))
            = (Storage.capacity_kwh (Model.storage m), Storage.max_charge_kw (Model.storage m),
               Storage.max_discharge_kw (Model.storage m),
               Storage.ctrl_enabled (Model.storage m),
               Storage.ctrl_power_set_kw (Model.storage m))
            /\ 0 <= Storage.soc_pct (Model.storage m')
            /\ Storage.soc_pct (Model.storage m') <= 100).
  { rewrite Hst. unfold storageStep. cbn.
    destruct (Storage.ctrl_enabled (Model.storage m));
      repeat split; try assumption; apply clamp_bounds; lra. }
  destruct Hstore as (Rs & Rs1 & Rs2). inversion Rs as [[Rc Rx Rd Re Rps]].
  split; [|split; [|split; [|split]]].
  - unfold plantRanged.
    rewrite Rl, Rb, Ri, Rw, Rop, Rc, Rx, Rd, Hch.
    repeat split; try assumption.
    apply List.Forall_map. eapply List.Forall_impl; [|exact Hf].
    intros c Hc. apply evcsStep_ranged. exact Hc.
  - unfold fleetOf. rewrite Hch, map_map. apply map_ext.
    intros c. apply evcsStep_untouched.
  - rewrite Hch, map_map. apply map_ext. intros c. apply evcsStep_untouched.
  - rewrite Hch, map_map. apply map_ext. intros c. apply evcsStep_untouched.
  - repeat split; assumption.
Qed.

End WithHost.

Lemma tick_keeps_ranges_witness :
  plantRanged (fst (fst (tickPhysics (H := ExampleHost.host) 0 Sample.dtH
                           Sample.model Sample.rng))).
Proof.
  apply (tick_keeps_ranges (H := ExampleHost.host) 0 Sample.dtH Sample.model Sample.rng).
  unfold plantRanged, Sample.model. cbn.
  repeat split; try (unfold Qle, Qlt; simpl; lia).
  unfold Sample.chargers.
  repeat constructor; unfold Qle, Qlt; simpl; lia.
Defined.

(** *** Charge points: sessions only grow *)

Lemma evcsStep_grows (dtH : Q) (ch : Charger.t) :
  chargerRanged ch -> 0 <= dtH ->
  Charger.vehicle_soc_pct ch <= Charger.vehicle_soc_pct (fst (evcsStep dtH ch))
  /\ Charger.meas_energy_kwh ch <= Charger.meas_energy_kwh (fst (evcsStep dtH ch)).
Proof.
  intros Hc Hdt.
  pose proof Hc as ((M1 & M2) & (L1 & L2) & (P1 & P2) & (S1 & S2) & (C1 & C2)
                    & (V1 & V2) & (T1 & T2) & (W1 & W2) & (E1 & E2)).
  pose proof (chargePower_nonneg dtH ch ltac:(lra)) as Hp0.
  pose proof (capKwhOf_pos ch) as Hcap.
  unfold evcsStep.
  destruct (branchOf ch);
    cbn [fst Charger.set_meas Charger.set_vehicle_soc_pct Charger.vehicle_soc_pct
         Charger.meas_energy_kwh];
    try (split; apply Qle_refl).
  - split; [|apply Qle_refl].
    rewrite (clamp_id _ 0 100 S1 S2). apply Qle_refl.
  - assert (Hd : 0 <= deliveredKwh dtH ch).
    { unfold deliveredKwh, eff. apply Qmult_le_0_compat; [|discriminate].
      apply Qmult_le_0_compat; assumption. }
    assert (Hq : 0 <= deliveredKwh dtH ch / capKwhOf ch * 100).
    { apply Qmult_le_0_compat; [|discriminate].
      apply Qle_shift_div_l; lra. }
    unfold clamp, clampNum, Math_min, Math_max. split.
    + apply Q.min_glb; [lra|]. eapply Qle_trans; [|apply Q.le_max_r]. lra.
    + apply Q.min_glb; [lra|]. eapply Qle_trans; [|apply Q.le_max_r]. lra.
Qed.

Lemma evcsStep_status (dtH : Q) (ch : Charger.t) :
  branchOf ch <> BFrozen ->
  let ch' := fst (evcsStep dtH ch) in
  In (Charger.meas_status ch') tickStatuses
  /\ (Charger.meas_status ch' = "Charging"%string
      <-> (1 # 100) < Charger.meas_power_kw ch')
  /\ (Charger.meas_status ch' <> "Charging"%string ->
      Charger.meas_status ch' <> "Suspended"%string ->
      Charger.meas_power_kw ch' = 0).
Proof.
  intros Hb. cbv zeta. unfold evcsStep, tickStatuses.
  destruct (branchOf ch); try contradiction;
    cbn [fst Charger.set_meas Charger.set_vehicle_soc_pct Charger.meas_status
         Charger.meas_power_kw];
    try (split; [cbn; tauto|];
         split; [split; [discriminate | intros Hlt; exfalso; revert Hlt;
                                        apply Qle_not_lt; discriminate]
                | reflexivity]).
  destruct (Qltb (1 # 100) (chargePower dtH ch)) eqn:E.
  - apply Qltb_true in E.
    split; [cbn; tauto|]. split; [tauto|]. intros Hn. contradiction.
  - apply Qltb_false in E.
    split; [cbn; tauto|].
    split; [split; [discriminate | intros Hlt; exfalso; lra]|].
    intros _ Hn. contradiction.
Qed.

Lemma evcsLoop_totals (dtH : Q) (l : list Charger.t) :
  forall tp te,
    snd (fst (evcsLoop dtH l tp te))
    == tp + sumQ (map (fun ch => Charger.meas_power_kw (fst (evcsStep dtH ch))) l)
    /\ snd (evcsLoop dtH l tp te)
       == te + sumQ (map (fun ch => Charger.meas_energy_kwh (fst (evcsStep dtH ch))) l).
Proof.
  induction l as [|ch rest IH]; intros tp te.
  - cbn. split; ring.
  - cbn [evcsLoop map sumQ fold_right].
    pose proof (evcsStep_power dtH ch) as Hp.
    assert (Hs : snd (evcsStep dtH ch) = Charger.meas_power_kw (fst (evcsStep dtH ch))).
    { rewrite Hp. unfold evcsStep. destruct (branchOf ch); reflexivity. }
    destruct (evcsStep dtH ch) as [ch' p]. cbn [fst snd] in *. subst p.
    specialize (IH (tp + Charger.meas_power_kw ch')
                   (te + Charger.meas_energy_kwh ch')).
    destruct (evcsLoop dtH rest _ _) as [[rest' tp'] te']. cbn [fst snd] in *.
    destruct IH as [IH1 IH2]. fold sumQ. split.
    + rewrite IH1. unfold sumQ. ring.
    + rewrite IH2. unfold sumQ. ring.
Qed.

Section Loop.
Context `{Host}.

(** X10: in a tick no vehicle loses charge and no session loses energy:
    for a plant inside its ranges and a step that is not negative, every
    charge point's [vehicle.soc_pct] and [meas.energy_kwh] after the tick
    are at least what they were.  Every status the loop writes is one of
    its seven texts; it is "Charging" exactly when the power written
    exceeds 0.01 kW, and under any status other than "Charging" and
    "Suspended" the power written is 0 (a frozen meter is not written). *)
Theorem sessions_only_grow (nowMs : Z) (dtH : Q) (m : Model.t) (rng : LcgRandom.t) :
  plantRanged m -> 0 <= dtH ->
  Forall2 (fun ch ch' =>
             Charger.vehicle_soc_pct ch <= Charger.vehicle_soc_pct ch'
             /\ Charger.meas_energy_kwh ch <= Charger.meas_energy_kwh ch'
             /\ (Charger.sim_unavailable ch || Charger.sim_faulted ch
                 || negb (Charger.sim_meter_freeze ch) = true ->
                 In (Charger.meas_status ch') tickStatuses
                 /\ (Charger.meas_status ch' = "Charging"%string
                     <-> (1 # 100) < Charger.meas_power_kw ch')
                 /\ (Charger.meas_status ch' <> "Charging"%string ->
                     Charger.meas_status ch' <> "Suspended"%string ->
                     Charger.meas_power_kw ch' = 0)))
          (Model.evcs_chargers m)
          (Model.evcs_chargers (fst (fst (tickPhysics nowMs dtH m rng)))).
Proof.
  intros Hm Hdt. rewrite tickPhysics_chargers.
  destruct Hm as (_ & _ & _ & _ & _ & _ & _ & _ & _ & _ & Hf).
  induction Hf as [|ch rest Hc Hrest IH]; cbn [map]; constructor; [|exact IH].
  destruct (evcsStep_grows dtH ch Hc Hdt) as [Hs He].
  split; [exact Hs|]. split; [exact He|].
  intros Hfl. apply evcsStep_status.
  unfold branchOf. intros Hb.
  destruct (Charger.sim_unavailable ch); [discriminate|].
  destruct (Charger.sim_faulted ch); [discriminate|].
  destruct (Charger.sim_meter_freeze ch); [discriminate|].
  clear Hfl.
  destruct (negb (Charger.ctrl_plugged ch)); [discriminate|].
  destruct (Qleb _ _); [discriminate|].
  destruct (negb (Charger.ctrl_enabled ch)); discriminate.
Qed.

(** X11: the two aggregates the tick hands to [_publishAggregates] are
    the sums over the fleet as the tick leaves it: the total power is the
    sum of every [meas.power_kw] (a frozen meter counts with its frozen
    reading, a faulted or offline point with 0) and the total energy the
    sum of every [meas.energy_kwh]. *)
Theorem aggregates_are_sums (nowMs : Z) (dtH : Q) (m : Model.t) (rng : LcgRandom.t) :
  let r := tickPhysics nowMs dtH m rng in
  let chargers' := Model.evcs_chargers (fst (fst r)) in
  fst (snd r) == sumQ (map Charger.meas_power_kw chargers')
  /\ snd (snd r) == sumQ (map Charger.meas_energy_kwh chargers').
Proof.
  cbv zeta. rewrite tickPhysics_chargers, !map_map.
  pose proof (evcsLoop_totals dtH (Model.evcs_chargers m) 0 0) as [Hp He].
  unfold tickPhysics.
  destruct (tariffStep nowMs (Model.tariff m) rng) as [tf rng1].
  destruct (pvStep nowMs (Model.pv m) rng1) as [pv rng2].
  destruct (evcsLoop dtH (Model.evcs_chargers m) 0 0) as [[l' tp] te].
  destruct (LcgRandom.normal rng2 0 (3 # 10)) as [n rng3].
  cbn [fst snd] in *. split.
  - rewrite Hp. ring.
  - rewrite He. ring.
Qed.

End Loop.

(** *** Devices, PV, tariff and the step width *)

Section Blocks.
Context `{Host}.

Lemma tickPhysics_blocks (nowMs : Z) (dtH : Q) (m : Model.t) (rng : LcgRandom.t) :
  let m' := fst (fst (tickPhysics nowMs dtH m rng)) in
  Model.heatpump m' = deviceStep 500 (Model.heatpump m)
  /\ Model.chp m' = deviceStep 5000 (Model.chp m)
  /\ Model.generator m' = deviceStep 5000 (Model.generator m)
  /\ Model.tariff m' = fst (tariffStep nowMs (Model.tariff m) rng)
  /\ Model.pv m'
     = fst (pvStep nowMs (Model.pv m) (snd (tariffStep nowMs (Model.tariff m) rng))).
Proof.
  cbv zeta. unfold tickPhysics.
  destruct (tariffStep nowMs (Model.tariff m) rng) as [tf rng1].
  cbn [fst snd].
  destruct (pvStep nowMs (Model.pv m) rng1) as [pv rng2].
  destruct (evcsLoop dtH (Model.evcs_chargers m) 0 0) as [[l' tp] te].
  destruct (LcgRandom.normal rng2 0 (3 # 10)) as [n rng3].
  repeat split; reflexivity.
Qed.

(** X12: after every tick the heat pump draws between 0 and 500 kW, the
    CHP and the generator deliver between 0 and 5000 kW, whatever set
    point was commanded, and a device that is not enabled shows 0; a
    storage whose control is not enabled shows power 0 and keeps its
    SoC. *)
Theorem devices_bounded (nowMs : Z) (dtH : Q) (m : Model.t) (rng : LcgRandom.t) :
  let m' := fst (fst (tickPhysics nowMs dtH m rng)) in
  (0 <= Device.power_kw (Model.heatpump m') <= 500
   /\ 0 <= Device.power_kw (Model.chp m') <= 5000
   /\ 0 <= Device.power_kw (Model.generator m') <= 5000)
  /\ (Device.ctrl_enabled (Model.heatpump m) = false ->
      Device.power_kw (Model.heatpump m') = 0)
  /\ (Device.ctrl_enabled (Model.chp m) = false ->
      Device.power_kw (Model.chp m') = 0)
  /\ (Device.ctrl_enabled (Model.generator m) = false ->
      Device.power_kw (Model.generator m') = 0)
  /\ (Storage.ctrl_enabled (Model.storage m) = false ->
      Storage.power_kw (Model.storage m') = 0
      /\ Storage.soc_pct (Model.storage m') = Storage.soc_pct (Model.storage m)).
Proof.
  cbv zeta.
  destruct (tickPhysics_blocks nowMs dtH m rng) as (Hh & Hc & Hg & _ & _).
  cbv zeta in Hh, Hc, Hg. rewrite Hh, Hc, Hg, tickPhysics_storage.
  unfold deviceStep, storageStep, storagePowerOf. cbn [Device.power_kw].
  split; [|split; [|split; [|split]]].
  - repeat split;
      match goal with
      | |- context [Device.ctrl_enabled ?d] => destruct (Device.ctrl_enabled d)
      end;
      try (apply clamp_bounds; lra); lra.
  - intros ->. reflexivity.
  - intros ->. reflexivity.
  - intros ->. reflexivity.
  - intros ->. split; reflexivity.
Qed.

(** X13: with the override enabled the PV power of a tick is the override
    power clamped to [0, 100000], whatever the hour; without it the PV
    power lies between 0 and [max(0, installed_kwp)] whatever the noise
    drawn and whatever [Math.sin] returns, and it is 0 whenever the local
    hour of day is at most 6 or at least 20. *)
Theorem pv_bounded (nowMs : Z) (dtH : Q) (m : Model.t) (rng : LcgRandom.t) :
  let pv := Model.pv m in
  let pv' := Model.pv (fst (fst (tickPhysics nowMs dtH m rng))) in
  (PV.override_enabled pv = true ->
   PV.power_kw pv' = clamp (PV.override_power_kw pv) 0 100000)
  /\ (PV.override_enabled pv = false ->
      0 <= PV.power_kw pv' <= Qmax 0 (PV.installed_kwp pv)
      /\ (LocalDate.hourOfDay nowMs <= 6 \/ 20 <= LocalDate.hourOfDay nowMs ->
          PV.power_kw pv' == 0)).
Proof.
  cbv zeta.
  destruct (tickPhysics_blocks nowMs dtH m rng) as (_ & _ & _ & _ & Hpv).
  cbv zeta in Hpv. rewrite Hpv. unfold pvStep.
  split; intros Ho; rewrite Ho; [reflexivity|].
  destruct (LcgRandom.normal _ 0 (2 # 100)) as [n rng'].
  cbn [fst PV.power_kw]. split.
  - apply clamp_bounds. unfold Math_max. apply Q.le_max_l.
  - intros Hnight.
    assert (Hz : solarProfile01 nowMs = 0).
    { unfold solarProfile01.
      destruct Hnight as [Hn|Hn].
      - apply Qleb_true in Hn. rewrite Hn. reflexivity.
      - apply Qleb_true in Hn. rewrite Hn, orb_true_r. reflexivity. }
    rewrite Hz.
    match goal with
    | |- clamp ?v 0 ?hi == 0 =>
        assert (Hv : v == 0) by ring;
        rewrite (clamp_id v 0 hi);
        [exact Hv | rewrite Hv; apply Qle_refl
         | rewrite Hv; unfold Math_max; apply Q.le_max_l]
    end.
Qed.

(** X14: in manual mode the tariff block keeps the price (clamped to
    [-500, 500], so unchanged when it is in range), draws nothing from the
    generator and publishes a flat forward curve; in auto mode the price
    written lies in [-500, 500]; in both modes the forward curve has
    exactly 24 entries. *)
Theorem tariff_block (nowMs : Z) (tf : Tariff.t) (rng : LcgRandom.t) :
  let r := tariffStep nowMs tf rng in
  length (Tariff.price_next_24h (fst r)) = 24%nat
  /\ Tariff.mode (fst r) = Tariff.mode tf
  /\ -500 <= Tariff.price_ct_per_kwh (fst r) <= 500
  /\ (Tariff.mode tf = Tariff.manual ->
      snd r = rng
      /\ Tariff.price_ct_per_kwh (fst r) = clamp (Tariff.price_ct_per_kwh tf) (-500) 500
      /\ (-500 <= Tariff.price_ct_per_kwh tf <= 500 ->
          Tariff.price_ct_per_kwh (fst r) == Tariff.price_ct_per_kwh tf)
      /\ Forall (fun v => v == toFixed2 (Tariff.price_ct_per_kwh (fst r)))
                (Tariff.price_next_24h (fst r))).
Proof.
  cbv zeta. unfold tariffStep.
  destruct (Tariff.mode tf) eqn:Em.
  - destruct (LcgRandom.normal rng 0 (4 # 10)) as [noise rng'].
    cbn [fst snd Tariff.price_next_24h Tariff.mode Tariff.price_ct_per_kwh].
    split; [rewrite length_map, length_seq; reflexivity|].
    split; [reflexivity|]. split; [apply clamp_bounds; lra|]. discriminate.
  - cbn [fst snd Tariff.price_next_24h Tariff.mode Tariff.price_ct_per_kwh].
    split; [rewrite length_map, length_seq; reflexivity|].
    split; [reflexivity|]. split; [apply clamp_bounds; lra|]. intros _.
    split; [reflexivity|]. split; [reflexivity|].
    split; [intros [H1 H2]; apply clamp_id; assumption|].
    apply List.Forall_map. apply List.Forall_forall. intros h _.
    set (b := clamp (Tariff.price_ct_per_kwh tf) (-500) 500).
    assert (Hd : dailyPrice b 0 (LocalDate.hourOfDay (nowMs + Z.of_nat h * 3600 * 1000))
                 == b) by (unfold dailyPrice; ring).
    assert (Hb : -500 <= b <= 500) by (apply clamp_bounds; lra).
    assert (Hc : clamp (dailyPrice b 0
                          (LocalDate.hourOfDay (nowMs + Z.of_nat h * 3600 * 1000)))
                       (-500) 500 == b).
    { rewrite (clamp_id _ (-500) 500);
        [exact Hd | rewrite Hd; apply Hb | rewrite Hd; apply Hb]. }
    unfold toFixed2.
    assert (Hlt : forall x y, x == y -> Qltb x 0 = Qltb y 0).
    { intros x y E. unfold Qltb, Qleb. f_equal.
      destruct (Qle_bool 0 x) eqn:E1, (Qle_bool 0 y) eqn:E2; try reflexivity.
      - apply Qle_bool_iff in E1. rewrite E in E1. apply Qle_bool_iff in E1. congruence.
      - apply Qle_bool_iff in E2. rewrite <- E in E2. apply Qle_bool_iff in E2. congruence. }
    rewrite (Hlt _ _ Hc).
    destruct (Qltb b 0); rewrite Hc; reflexivity.
Qed.

End Blocks.

(** X15: the step width of a tick is the time since the previous tick,
    kept between 0.2 s and 60 s: a clock that stands still or runs
    backwards gives 0.2 s, a pause of more than a minute gives 60 s, and
    the width in hours is positive. *)
Theorem step_width (nowMs last : Z) :
  (2 # 10) <= dtSec nowMs last <= 60
  /\ 0 < dtHours nowMs last
  /\ ((nowMs - last <= 200)%Z -> dtSec nowMs last == 2 # 10)
  /\ ((60000 <= nowMs - last)%Z -> dtSec nowMs last == 60)
  /\ ((200 <= nowMs - last <= 60000)%Z ->
      dtSec nowMs last == inject_Z (nowMs - last) / 1000).
Proof.
  split; [apply dtSec_range|]. split; [apply dtHours_pos|].
  unfold dtSec, Math_max, Math_min.
  set (d := (nowMs - last)%Z).
  assert (Hq : inject_Z d / 1000 == d # 1000).
  { unfold Qdiv, Qmult, Qinv, inject_Z, Qeq. simpl. lia. }
  split; [|split]; intros Hd.
  - assert (Hle : inject_Z d / 1000 <= 2 # 10)
      by (rewrite Hq; unfold Qle; simpl; lia).
    rewrite (Q.min_r 60 _) by lra. apply Q.max_l. exact Hle.
  - assert (Hge : 60 <= inject_Z d / 1000)
      by (rewrite Hq; unfold Qle; simpl; lia).
    rewrite (Q.min_l 60 _) by exact Hge. apply Q.max_r. lra.
  - assert (H1 : (2 # 10) <= inject_Z d / 1000)
      by (rewrite Hq; unfold Qle; simpl; lia).
    assert (H2 : inject_Z d / 1000 <= 60)
      by (rewrite Hq; unfold Qle; simpl; lia).
    rewrite (Q.min_r 60 _) by exact H2. apply Q.max_r. exact H1.
Qed.

Lemma devices_bounded_witness :
  Storage.power_kw
    (Model.storage
       (fst (fst (tickPhysics (H := ExampleHost.host) 0 Sample.dtH
                    (Command.setStorage Sample.model
                       (Storage.mk 200 200 200 55 10 false (-50)))
                    Sample.rng)))) = 0.
Proof.
  destruct (devices_bounded (H := ExampleHost.host) 0 Sample.dtH
              (Command.setStorage Sample.model
                 (Storage.mk 200 200 200 55 10 false (-50))) Sample.rng)
    as (_ & _ & _ & _ & Hs).
  apply Hs. reflexivity.
Defined.

Lemma pv_bounded_witness :
  PV.power_kw
    (Model.pv (fst (fst (tickPhysics (H := ExampleHost.host) 0 Sample.dtH
                           Sample.model Sample.rng))))
  = clamp (PV.override_power_kw (Model.pv Sample.model)) 0 100000.
Proof.
  destruct (pv_bounded (H := ExampleHost.host) 0 Sample.dtH Sample.model Sample.rng)
    as (Ho & _).
  apply Ho. reflexivity.
Defined.

Lemma tariff_block_witness :
  snd (tariffStep (H := ExampleHost.host) 0 (Model.tariff Sample.model) Sample.rng)
  = Sample.rng.
Proof.
  destruct (tariff_block (H := ExampleHost.host) 0 (Model.tariff Sample.model)
              Sample.rng) as (_ & _ & _ & Hm).
  destruct (Hm eq_refl) as (Hr & _). exact Hr.
Defined.

Lemma step_width_witness : dtSec 5000 4000 == 1.
Proof.
  destruct (step_width 5000 4000) as (_ & _ & _ & _ & Hmid).
  rewrite Hmid by lia. reflexivity.
Defined.

Lemma sessions_only_grow_witness :
  Forall2 (fun ch ch' =>
             Charger.vehicle_soc_pct ch <= Charger.vehicle_soc_pct ch'
             /\ Charger.meas_energy_kwh ch <= Charger.meas_energy_kwh ch')
          (Model.evcs_chargers Sample.model)
          (Model.evcs_chargers
             (fst (fst (tickPhysics (H := ExampleHost.host) 0 Sample.dtH
                          Sample.model Sample.rng)))).
Proof.
  eapply Forall2_impl;
    [apply (sessions_only_grow (H := ExampleHost.host) 0 Sample.dtH
              Sample.model Sample.rng)|].
  - unfold plantRanged, Sample.model. cbn.
    repeat split; try (unfold Qle, Qlt; simpl; lia).
    unfold Sample.chargers.
    repeat constructor; unfold Qle, Qlt; simpl; lia.
  - unfold Sample.dtH, Qle; simpl; lia.
  - intros ch ch' (Hs & He & _). split; assumption.
Defined.

End TickEdge.
(** ** The change publisher over a whole pass *)

Module PublisherEdge.
Import Publisher PublisherSpec.

Lemma changed_refl (v : value) : changed (normalize v) (normalize v) = false.
Proof.
  destruct v as [| |b|[q| | |]|s]; try reflexivity.
  - destruct b; reflexivity.
  - apply (changed_close q q).
    assert (Hz : (q - q == 0)%Q) by ring.
    rewrite Hz. vm_compute. discriminate.
  - cbn. rewrite String.eqb_refl. reflexivity.
Qed.

Lemma setChanged_other (cache : gmap string value) (k k' : string) (v : value) :
  k <> k' -> cacheGet (fst (_setChanged cache k v)) k' = cacheGet cache k'.
Proof.
  intros Hne. unfold _setChanged.
  destruct (changed _ _); cbn [fst]; [|reflexivity].
  unfold cacheGet. rewrite lookup_insert_ne by exact Hne. reflexivity.
Qed.

Lemma publishAll_other (cands : list (string * value)) :
  forall (cache : gmap string value) (k' : string),
    ~ In k' (map fst cands) ->
    cacheGet (fst (publishAll cache cands)) k' = cacheGet cache k'.
Proof.
  induction cands as [|[k v] rest IH]; intros cache k' Hn; [reflexivity|].
  cbn [publishAll].
  pose proof (setChanged_other cache k k' v) as Hs.
  destruct (_setChanged cache k v) as [c1 out1]. cbn [fst] in Hs.
  specialize (IH c1 k').
  destruct (publishAll c1 rest) as [c2 out2]. cbn [fst] in *.
  rewrite IH; [apply Hs|]; cbn in Hn; intuition.
Qed.

(** After a candidate has been offered, offering it again changes
    nothing. *)
Lemma setChanged_settled (cache : gmap string value) (k : string) (v : value) :
  changed (normalize v) (cacheGet (fst (_setChanged cache k v)) k) = false.
Proof.
  unfold _setChanged.
  destruct (changed (normalize v) (cacheGet cache k)) eqn:E; cbn [fst].
  - rewrite cacheGet_insert. apply changed_refl.
  - exact E.
Qed.

(** X16: a publish pass whose candidates have pairwise different ids
    settles: offering the same candidates again right after writes no
    state and leaves the cache as it is.  Ids that are not among the
    candidates keep their cache entry, and every state written carries the
    id and the normalized value of a candidate. *)
Theorem republish_is_silent (cands : list (string * value)) :
  NoDup (map fst cands) ->
  forall cache : gmap string value,
    let r := publishAll cache cands in
    publishAll (fst r) cands = (fst r, [])
    /\ (forall k', ~ In k' (map fst cands) -> cacheGet (fst r) k' = cacheGet cache k')
    /\ (forall k v, In (k, v) (snd r) ->
                    exists v0, In (k, v0) cands /\ v = normalize v0).
Proof.
  intros Hnd cache. cbv zeta.
  split; [|split].
  - revert cache. induction cands as [|[k v] rest IH]; intros cache; [reflexivity|].
    inversion Hnd as [|? ? Hk Hrest]; subst.
    rewrite list_elem_of_In in Hk.
    cbn [publishAll].
    pose proof (setChanged_settled cache k v) as Hs.
    destruct (_setChanged cache k v) as [c1 out1]. cbn [fst] in Hs.
    pose proof (publishAll_other rest c1 k Hk) as Ho.
    specialize (IH Hrest c1).
    destruct (publishAll c1 rest) as [c2 out2]. cbn [fst] in *.
    unfold _setChanged at 1. rewrite Ho, Hs. rewrite IH. reflexivity.
  - intros k' Hn. apply publishAll_other. exact Hn.
  - clear Hnd. revert cache.
    induction cands as [|[k v] rest IH]; intros cache k0 v0 Hin; [contradiction|].
    cbn [publishAll] in Hin.
    destruct (setChanged_cases cache k v) as [(_ & E)|(_ & E)]; rewrite E in Hin;
      specialize (IH (fst (_setChanged cache k v)));
      rewrite E in IH; cbn [fst] in IH;
      destruct (publishAll _ rest) as [c2 out2]; cbn [snd app] in Hin.
    + destruct Hin as [Hin|Hin].
      * inversion Hin; subst. exists v. split; [left; reflexivity|reflexivity].
      * destruct (IH k0 v0 Hin) as (w & Hw & Ew). exists w. split; [right|]; assumption.
    + destruct (IH k0 v0 Hin) as (w & Hw & Ew). exists w. split; [right|]; assumption.
Qed.

Lemma republish_is_silent_witness :
  let cands := [("grid.power_kw"%string, VNum (Fin 5));
                ("grid.over_limit"%string, VBool false);
                ("pv.power_kw"%string, VNum NaN)] in
  publishAll (fst (publishAll ∅ cands)) cands = (fst (publishAll ∅ cands), []).
Proof.
  intros cands.
  assert (Hnd : NoDup (map fst cands)).
  { apply NoDup_ListNoDup. cbn. repeat constructor; cbn; intuition discriminate. }
  destruct (republish_is_silent cands Hnd ∅) as (Hs & _). exact Hs.
Defined.

End PublisherEdge.

(** ** Units: watts on the wire, kilowatts in the model *)

Module PublishEdge.
Import Command CommandPoints Publish.
Local Open Scope Q_scope.

Lemma Math_round_integer (x : Q) (w : Z) : x == inject_Z w -> Math_round x = inject_Z w.
Proof.
  intros E. unfold Math_round. f_equal.
  assert (E' : x + (1 # 2) == (2 * w + 1) # 2).
  { rewrite E. unfold Qeq, Qplus, inject_Z. simpl. lia. }
  rewrite (Qfloor_comp _ _ E'). unfold Qfloor.
  symmetry. apply (Z.div_unique (2 * w + 1) 2 w 1); lia.
Qed.

Lemma Math_round_near (x : Q) : x - (1 # 2) <= Math_round x /\ Math_round x <= x + (1 # 2).
Proof.
  unfold Math_round.
  pose proof (Qfloor_le (x + (1 # 2))) as H1.
  pose proof (Qlt_floor (x + (1 # 2))) as H2.
  assert (E : inject_Z (Qfloor (x + (1 # 2)) + 1)
              == inject_Z (Qfloor (x + (1 # 2))) + 1)
    by (rewrite inject_Z_plus; reflexivity).
  rewrite E in H2. split; lra.
Qed.

Section WithHosts.
Context `{Host} `{JsonHost}.

Lemma watts_of_command (w : Z) :
  watts (_normalizePowerKw (VNum (Fin (inject_Z w)))) = num (inject_Z w).
Proof.
  unfold watts, num, _normalizePowerKw. cbn [JS.Number]. do 2 f_equal.
  apply Math_round_integer. field.
Qed.

Lemma watts_of_limit (w : Z) :
  (0 <= w <= 10000000)%Z ->
  watts (clamp (_normalizePowerKw (VNum (Fin (inject_Z w)))) 0 10000)
  = num (inject_Z w).
Proof.
  intros Hw. unfold watts, num, _normalizePowerKw. cbn [JS.Number]. do 2 f_equal.
  apply Math_round_integer.
  assert (Hq : inject_Z w / 1000 == w # 1000).
  { unfold Qdiv, Qmult, Qinv, inject_Z, Qeq. simpl. lia. }
  rewrite (clamp_id (inject_Z w / 1000) 0 10000).
  - field.
  - rewrite Hq. unfold Qle. simpl. lia.
  - rewrite Hq. unfold Qle. simpl. lia.
Qed.

(** X17: the power set points travel in watts: a whole number of watts
    written to [storage.ctrl.power_set_kw], to
    [heatpump|chp|generator.ctrl.power_set_kw] or (between 0 and 10 MW) to
    [evcs.cNN.ctrl.limit_kw] is stored in kilowatts and offered by the next
    [_publish] under the same id as the very number that was written.
    Every power [_publish] offers is [Math.round(kW * 1000)], at most half
    a watt from the modelled value. *)
Theorem watts_come_back (now : Z) (m : Model.t) (w : Z) :
  (forall p : WattPoint,
      In (wattPointId p, num (inject_Z w))
         (plantCandidates
            (fst (_applyWrite now m (wattPointId p) (VNum (Fin (inject_Z w)))))))
  /\ (forall (d1 d2 : ascii) (c : Charger.t),
         Departure.isDigit d1 = true -> Departure.isDigit d2 = true ->
         findCharger (chargerId d1 d2) (Model.evcs_chargers m) = Some c ->
         (0 <= w <= 10000000)%Z ->
         In (evcsId d1 d2 "ctrl.limit_kw", num (inject_Z w))
            (plantCandidates
               (fst (_applyWrite now m (evcsId d1 d2 "ctrl.limit_kw")
                       (VNum (Fin (inject_Z w)))))))
  /\ (forall kw : Q,
         exists r : Q, watts kw = num r
                       /\ kw * 1000 - (1 # 2) <= r /\ r <= kw * 1000 + (1 # 2)).
Proof.
  split; [|split].
  - intros p. unfold plantCandidates.
    destruct p;
      cbn [wattPointId _applyWrite fst String.eqb Ascii.eqb Bool.eqb
           setStorage setHeatpump setChp setGenerator deviceSetPowerSet
           Model.grid Model.tariff Model.pv Model.storage Model.heatpump
           Model.chp Model.generator Model.evcs_chargers
           Storage.ctrl_power_set_kw Device.ctrl_power_set_kw];
      unfold deviceCandidates, deviceSetPowerSet;
      cbn [Device.ctrl_power_set_kw].
    + apply in_or_app. left. rewrite watts_of_command.
      do 19 right. left. reflexivity.
    + apply in_or_app. right. apply in_or_app. left.
      rewrite watts_of_command. do 2 right. left. reflexivity.
    + apply in_or_app. right. apply in_or_app. right. apply in_or_app. left.
      rewrite watts_of_command. do 2 right. left. reflexivity.
    + apply in_or_app. right. apply in_or_app. right. apply in_or_app. right.
      apply in_or_app. left.
      rewrite watts_of_command. do 2 right. left. reflexivity.
  - intros d1 d2 c H1 H2 Hf Hw.
    destruct (CommandSpec.applyWrite_evcs now m d1 d2 "ctrl.limit_kw"
                (VNum (Fin (inject_Z w))) c _ H1 H2 ltac:(discriminate)
                eq_refl Hf eq_refl eq_refl)
      as (l' & Hwr & Hf' & _).
    rewrite Hwr. cbn [fst]. unfold plantCandidates.
    cbn [setChargers Model.evcs_chargers].
    do 4 (apply in_or_app; right).
    apply in_flat_map.
    unfold findCharger in Hf'. apply List.find_some in Hf'. destruct Hf' as [Hin Hid].
    eexists. split; [exact Hin|].
    unfold chargerCandidates.
    right. left.
    cbn [Charger.set_ctrl Charger.id Charger.ctrl_limit_kw].
    rewrite (watts_of_limit w Hw).
    unfold findCharger in Hf. apply List.find_some in Hf. destruct Hf as [_ Hc].
    apply String.eqb_eq in Hc. rewrite Hc. reflexivity.
  - intros kw. exists (Math_round (kw * 1000)). split; [reflexivity|].
    apply Math_round_near.
Qed.

End WithHosts.

Lemma watts_come_back_witness :
  In ("evcs.c01.ctrl.limit_kw"%string, num 7000)
     (plantCandidates (H := ExampleJson.json)
        (fst (_applyWrite (H := ExampleHost.host) 0 Sample.model
                "evcs.c01.ctrl.limit_kw" (VNum (Fin 7000))))).
Proof.
  destruct (watts_come_back (H := ExampleHost.host) (H0 := ExampleJson.json)
              0 Sample.model 7000) as (_ & Hl & _).
  apply (Hl "0"%char "1"%char Sample.c01); try reflexivity. lia.
Defined.

End PublishEdge.
(** ** Scenario ids of the earlier copy, the idle engine, and sampling *)

Module ScenarioEdge.
Import Scenario ScenarioProps ScenarioSpec Control EngineProps.
Local Open Scope Q_scope.

Section WithHost.
Context `{Host}.

(** Every id of the earlier copy's catalog is its own normal form. *)
Lemma normalize_catalog :
  List.Forall (fun d => EarlierCopy._normalizeScenarioId (VStr (id d)) = id d)
              EarlierCopy._scenarioDefinitions.
Proof. repeat constructor. Qed.

Lemma catalog_normal (d : Def) :
  In d EarlierCopy._scenarioDefinitions ->
  EarlierCopy._normalizeScenarioId (VStr (id d)) = id d.
Proof.
  intros Hin. pose proof normalize_catalog as Hall.
  rewrite List.Forall_forall in Hall. apply Hall. exact Hin.
Qed.

Lemma normalize_in_catalog (v : value) :
  existsb (fun d => String.eqb (id d) (EarlierCopy._normalizeScenarioId v))
          EarlierCopy._scenarioDefinitions
  = true.
Proof.
  unfold EarlierCopy._normalizeScenarioId.
  destruct (String.eqb _ EmptyString); [reflexivity|].
  set (id' := string_of_list_ascii _).
  destruct (existsb (fun d => String.eqb (id d) id') EarlierCopy._scenarioDefinitions)
    eqn:E; [exact E | reflexivity].
Qed.

(** X18: [_normalizeScenarioId] of the earlier copy always answers with an
    id of that copy's catalog: an id of the catalog is returned as it is,
    so normalizing twice is normalizing once; anything falsy or blank, and
    every text that is not a catalog id after trimming and replacing white
    space by underscores, gives "baseline"; so do the two suite controls of
    [main.js], which that catalog does not have.  The ids of the catalog
    are pairwise different. *)
Theorem scenario_id_normalised :
  (forall v : value,
      In (EarlierCopy._normalizeScenarioId v)
         (map id EarlierCopy._scenarioDefinitions))
  /\ (forall v : value,
         EarlierCopy._normalizeScenarioId (VStr (EarlierCopy._normalizeScenarioId v))
         = EarlierCopy._normalizeScenarioId v)
  /\ (forall v : value,
         truthy v = false -> EarlierCopy._normalizeScenarioId v = "baseline"%string)
  /\ (forall s : string,
         Departure.trim s = EmptyString ->
         EarlierCopy._normalizeScenarioId (VStr s) = "baseline"%string)
  /\ (forall v : value,
         ~ In (string_of_list_ascii
                 (EarlierCopy.replaceSpaces false
                    (list_ascii_of_string (Departure.trim (Command.stringOrEmpty v)))))
              (map id EarlierCopy._scenarioDefinitions) ->
         EarlierCopy._normalizeScenarioId v = "baseline"%string)
  /\ EarlierCopy._normalizeScenarioId (VStr "suite_stop") = "baseline"%string
  /\ EarlierCopy._normalizeScenarioId (VStr "suite_all_scenarios_5min")
     = "baseline"%string
  /\ List.NoDup (map id EarlierCopy._scenarioDefinitions).
Proof.
  assert (Hin : forall v, In (EarlierCopy._normalizeScenarioId v)
                             (map id EarlierCopy._scenarioDefinitions)).
  { intros v. pose proof (normalize_in_catalog v) as E.
    apply existsb_exists in E. destruct E as (d & Hd & Ed).
    apply String.eqb_eq in Ed. rewrite <- Ed. apply in_map. exact Hd. }
  split; [exact Hin|]. split; [|split; [|split; [|split; [|split; [|split]]]]].
  - intros v. specialize (Hin v). apply in_map_iff in Hin.
    destruct Hin as (d & <- & Hd). apply catalog_normal. exact Hd.
  - intros v Hv. unfold EarlierCopy._normalizeScenarioId, Command.stringOrEmpty.
    rewrite Hv. reflexivity.
  - intros s Hs. unfold EarlierCopy._normalizeScenarioId, Command.stringOrEmpty.
    destruct (truthy (VStr s)); cbn [ToString]; [rewrite Hs|]; reflexivity.
  - intros v Hn. unfold EarlierCopy._normalizeScenarioId.
    destruct (String.eqb _ EmptyString); [reflexivity|].
    destruct (existsb _ EarlierCopy._scenarioDefinitions) eqn:E; [|reflexivity].
    exfalso. apply Hn. apply existsb_exists in E. destruct E as (d & Hd & Ed).
    apply String.eqb_eq in Ed. rewrite <- Ed. apply in_map. exact Hd.
  - reflexivity.
  - reflexivity.
  - apply NoDup_ListNoDup. apply NoDup_ListNoDup.
    cbn. repeat constructor; cbn; intuition discriminate.
Qed.

End WithHost.

Lemma scenario_id_normalised_witness :
  EarlierCopy._normalizeScenarioId (H := ExampleHost.host) (VStr "  no such scenario ")
  = "baseline"%string
  /\ EarlierCopy._normalizeScenarioId (H := ExampleHost.host) (VNum (Fin 0))
     = "baseline"%string.
Proof.
  destruct (scenario_id_normalised (H := ExampleHost.host))
    as (_ & _ & Hf & _ & Hu & _).
  split.
  - apply Hu. vm_compute. intuition discriminate.
  - apply Hf. reflexivity.
Defined.

Lemma kept_refl (a : Adapter) : quiet a -> kept a a.
Proof. intros Hq. unfold kept. repeat split; try apply Hq; auto. Qed.

Lemma kept_trans (a b c : Adapter) : kept a b -> kept b c -> kept a c.
Proof.
  intros (_ & Hs1 & Ha1 & Hp1 & Hd1 & Hl1 & Hu1 & Hc1 & Hj1 & Hk1)
         (Hq & Hs2 & Ha2 & Hp2 & Hd2 & Hl2 & Hu2 & Hc2 & Hj2 & Hk2).
  unfold kept. split; [exact Hq|].
  repeat split; try congruence.
  destruct Hp2 as [Hp2|Hp2]; [rewrite Hp2; exact Hp1 | right; exact Hp2].
Qed.

Lemma kept_status (s : string) (a : Adapter) : quiet a -> kept a (withStatus s a).
Proof.
  intros Hq. unfold kept, quiet, withStatus in *. cbn. repeat split; try apply Hq; auto.
Qed.

Lemma kept_stopped (reason : string) (a : Adapter) :
  quiet a -> kept a (_stopScenario reason a).
Proof.
  intros Hq. unfold kept, quiet, _stopScenario in *. cbn.
  repeat split; try apply Hq; auto.
Qed.

Lemma apply_kept (v : value) (start : bool) (a : Adapter) :
  quiet a ->
  kept a (fst (_applyScenario v start a))
  /\ _model (fst (_applyScenario v start a)) = _model a
  /\ _rng (fst (_applyScenario v start a)) = _rng a.
Proof.
  intros Hq. unfold _applyScenario, _normalizeScenarioId.
  destruct (_model a) eqn:Em; destruct (_cfg a) eqn:Ec; cbn [fst];
    (split; [first [apply kept_refl; exact Hq | apply kept_status; exact Hq]
            | split; cbn; first [assumption | reflexivity]]).
Qed.

Lemma stopSuite_idle (reason : string) (a : Adapter) :
  su_running (_suite a) = false -> _stopSuite reason a = (a, Returned).
Proof. intros E. unfold _stopSuite. rewrite E. reflexivity. Qed.

(** A write below [scenario.] in a quiet state. *)
Lemma handler_kept (relId : string) (v : value) (a : Adapter) :
  quiet a ->
  let a' := fst (fst (_handleScenarioStateWrite relId v a)) in
  kept a a' /\ _model a' = _model a /\ _rng a' = _rng a.
Proof.
  intros Hq. cbv zeta. pose proof Hq as (_ & Hs & _ & _).
  assert (Hsame : kept a a /\ _model a = _model a /\ _rng a = _rng a)
    by (split; [apply kept_refl; exact Hq | split; reflexivity]).
  unfold _handleScenarioStateWrite, _normalizeScenarioId.
  destruct (String.eqb relId "scenario.selected"); [exact Hsame|].
  destruct (String.prefix "scenario.buttons." relId).
  { destruct (negb (Command.isPressed v)); exact Hsame. }
  destruct (negb (Command.isPressed v)); [exact Hsame|].
  destruct (String.eqb relId "scenario.ctrl.apply").
  { rewrite Hs. cbn [andThen].
    pose proof (apply_kept (VStr (selected (_scenario a))) false a Hq) as Hk.
    destruct (_applyScenario (VStr (selected (_scenario a))) false a) as [a1 [|]];
      exact Hk. }
  destruct (String.eqb relId "scenario.ctrl.start"); [exact Hsame|].
  destruct (String.eqb relId "scenario.ctrl.stop").
  { rewrite (stopSuite_idle "user" a Hs). cbn [andThen thenAck fst].
    split; [apply kept_stopped; exact Hq | split; reflexivity]. }
  destruct (String.eqb relId "scenario.ctrl.reset").
  { rewrite (stopSuite_idle "user" a Hs). cbn [andThen].
    pose proof (apply_kept (VStr "baseline") false a Hq) as Hk.
    destruct (_applyScenario (VStr "baseline") false a) as [a1 [|]]; exact Hk. }
  exact Hsame.
Qed.

Section WithEngine.
Context `{Host} `{Setups}.

(** The engine part of a tick in a quiet state does nothing. *)
Lemma engineTick_quiet (nowMs : Z) (a : Adapter) :
  quiet a -> engineTick nowMs a = (a, Returned).
Proof.
  intros (Hr & Hs & Hp & Hj). unfold engineTick.
  destruct (_model a) as [m|] eqn:Hm; [|reflexivity].
  unfold _processPendingResets. cbv zeta. rewrite Hs, Hp. cbn [negb andThen].
  unfold _suiteTick. cbv zeta. rewrite Hs. cbn [negb andThen].
  unfold _runScenarioTimeline. cbv zeta. rewrite Hm, Hr. cbn [negb].
  unfold _handleScenarioFinished. cbv zeta. rewrite Hj. reflexivity.
Qed.

Lemma tick_kept (nowMs last : Z) (a : Adapter) :
  quiet a -> snd (tick nowMs last a) = Returned /\ kept a (fst (tick nowMs last a)).
Proof.
  intros Hq. unfold tick. rewrite (engineTick_quiet nowMs a Hq).
  destruct (_model a) as [m|]; [|split; [reflexivity|apply kept_refl; exact Hq]].
  destruct (Tick.tickPhysics nowMs (Tick.dtHours nowMs last) m (_rng a))
    as [[m' rng'] out].
  split; [reflexivity|]. cbn [fst].
  unfold kept, quiet in *. cbn. repeat split; try apply Hq; auto.
Qed.

Lemma stateChange_kept (nowMs : Z) (rel : string) (state : option (JS.value * bool))
    (a : Adapter) :
  quiet a -> kept a (fst (fst (onStateChange nowMs rel state a))).
Proof.
  intros Hq. unfold onStateChange.
  destruct state as [[val ack]|]; [|apply kept_refl; exact Hq].
  destruct ack; [apply kept_refl; exact Hq|].
  destruct (String.prefix "scenario." rel).
  { apply (handler_kept rel val a Hq). }
  destruct (Command.applyWrite nowMs (_model a) rel val) as [model' applied].
  cbn [fst]. pose proof Hq as (Hr & Hs & _ & _).
  unfold kept, quiet in *. cbn. repeat split; try apply Hq; auto.
Qed.

Lemma step_kept (a : Adapter) (e : Event) : quiet a -> kept a (step a e).
Proof.
  intros Hq. destruct e as [nowMs last|nowMs rel state]; cbn [step].
  - apply (tick_kept nowMs last a Hq).
  - apply stateChange_kept. exact Hq.
Qed.

Lemma run_kept (events : list Event) (a : Adapter) : quiet a -> kept a (run events a).
Proof.
  revert a. induction events as [|e rest IH]; intros a Hq.
  - apply kept_refl. exact Hq.
  - cbn [run fold_left]. pose proof (step_kept a e Hq) as Hk.
    apply (kept_trans a (step a e)); [exact Hk|].
    apply IH. apply Hk.
Qed.

(** X19: an adapter in which nothing runs and nothing is due stays so.
    After any sequence of timer ticks and state changes no scenario and no
    suite is running, no reset is pending and no finish signal is set;
    [selected], [active], the working set, the suite and the stored
    reports are what they were, and the phase is the old one or "stopped".
    In that state the engine part of a tick changes nothing and never
    throws, so every tick reaches the physics, and a write below
    [scenario.] leaves the plant and the generator untouched.  The
    constructor leaves the adapter in such a state. *)
Theorem engine_stays_idle (events : list Event) (a : Adapter) :
  quiet a ->
  let a' := run events a in
  quiet a'
  /\ selected (_scenario a') = selected (_scenario a)
  /\ active (_scenario a') = active (_scenario a)
  /\ (phase (_scenario a') = phase (_scenario a)
      \/ phase (_scenario a') = "stopped"%string)
  /\ data (_scenario a') = data (_scenario a)
  /\ _suite a' = _suite a
  /\ last_json (_report a') = last_json (_report a)
  /\ suite_json (_report a') = suite_json (_report a)
  /\ (forall nowMs : Z, engineTick nowMs a' = (a', Returned))
  /\ (forall nowMs last : Z, snd (tick nowMs last a') = Returned)
  /\ (forall (relId : string) (v : value),
         let r := fst (fst (_handleScenarioStateWrite relId v a')) in
         _model r = _model a' /\ _rng r = _rng a')
  /\ quiet Startup.constructed.
Proof.
  intros Hq. cbv zeta.
  pose proof (run_kept events a Hq)
    as (Hq' & Hs & Ha & Hp & Hd & _ & Hu & _ & Hj & Hk).
  split; [exact Hq'|]. split; [exact Hs|]. split; [exact Ha|].
  split; [exact Hp|]. split; [exact Hd|]. split; [exact Hu|].
  split; [exact Hj|]. split; [exact Hk|].
  split; [intros nowMs; apply engineTick_quiet; exact Hq'|].
  split; [intros nowMs last; apply (tick_kept nowMs last _ Hq')|].
  split; [intros relId v; apply (handler_kept relId v _ Hq')|].
  repeat split.
Qed.

End WithEngine.

Lemma engine_stays_idle_witness :
  let a' := run (H := ExampleHost.host) (H0 := ExampleEngine.setups)
              [ StateChange 1000500 "scenario.buttons.fuzz_10min_medium"
                            (Some (VBool true, false));
                TimerTick 1001000 1000000;
                StateChange 1001500 "scenario.ctrl.start" (Some (VBool true, false));
                StateChange 1001700 "grid.limit_kw" (Some (VNum (Fin 25), false));
                TimerTick 1002000 1001000 ]
              ExampleStartup.adapter in
  running (_scenario a') = false /\ active (_scenario a') = "baseline"%string.
Proof.
  cbv zeta.
  destruct (engine_stays_idle (H := ExampleHost.host) (H0 := ExampleEngine.setups)
              [ StateChange 1000500 "scenario.buttons.fuzz_10min_medium"
                            (Some (VBool true, false));
                TimerTick 1001000 1000000;
                StateChange 1001500 "scenario.ctrl.start" (Some (VBool true, false));
                StateChange 1001700 "grid.limit_kw" (Some (VNum (Fin 25), false));
                TimerTick 1002000 1001000 ]
              ExampleStartup.adapter)
    as ((Hr & _) & _ & Ha & _).
  - repeat split; vm_compute; reflexivity.
  - split; [exact Hr|]. rewrite Ha. vm_compute. reflexivity.
Defined.

(** *** Sampling *)

Lemma insert_head_perm {A : Type} (x y : A) (l : list A) (j : nat) :
  l !! j = Some y -> Permutation (y :: <[j := x]> l) (x :: l).
Proof.
  revert j. induction l as [|a l IH]; intros [|j] E; try discriminate E.
  - cbn in E. injection E as ->. cbn. apply perm_swap.
  - cbn in E. cbn [insert list_insert].
    change (list_insert j x l) with (<[j := x]> l).
    apply (perm_trans (perm_swap a y (<[j := x]> l))).
    apply (perm_trans (perm_skip a (IH j E))).
    apply perm_swap.
Qed.

Lemma swap_perm {A : Type} (i j : nat) (l : list A) : Permutation (swap i j l) l.
Proof.
  unfold swap.
  destruct (l !! i) as [x|] eqn:Ei; [|reflexivity].
  destruct (l !! j) as [y|] eqn:Ej; [|reflexivity].
  revert i j Ei Ej. induction l as [|a l IH]; intros [|i] [|j] Ei Ej;
    try discriminate Ei; try discriminate Ej; cbn in Ei, Ej.
  - injection Ei as ->. injection Ej as ->. reflexivity.
  - injection Ei as ->. cbn [insert list_insert].
    change (list_insert j x l) with (<[j := x]> l).
    apply insert_head_perm. exact Ej.
  - injection Ej as ->. cbn [insert list_insert].
    change (list_insert i y l) with (<[i := y]> l).
    apply (insert_head_perm y x l i Ei).
  - cbn [insert list_insert].
    change (list_insert j x (list_insert i y l)) with (<[j := x]> (<[i := y]> l)).
    apply perm_skip. apply (IH i j Ei Ej).
Qed.

Lemma shuffle_spec {A : Type} (i : nat) (copy : list A) (rng : LcgRandom.t) :
  Permutation (fst (shuffle i copy rng)) copy
  /\ LcgRandom._state (snd (shuffle i copy rng))
     = Nat.iter i LcgProps.step (LcgRandom._state rng)
  /\ LcgRandom._spareNormal (snd (shuffle i copy rng)) = LcgRandom._spareNormal rng.
Proof.
  revert copy rng. induction i as [|i IH]; intros copy rng.
  - cbn. repeat split. reflexivity.
  - cbn [shuffle]. destruct (LcgRandom.next rng) as [u rng1] eqn:En.
    specialize (IH (swap (S i)
                      (Z.to_nat (Qfloor (u * (inject_Z (Z.of_nat (S i)) + 1)))) copy)
                   rng1).
    destruct IH as (Hp & Hs & Hn).
    assert (E1 : rng1 = snd (LcgRandom.next rng)) by (rewrite En; reflexivity).
    split; [|split].
    + apply (perm_trans Hp). apply swap_perm.
    + rewrite Hs, E1. rewrite LcgRandomEdge.next_state_step.
      rewrite <- Nat.iter_succ_r. reflexivity.
    + rewrite Hn, E1. reflexivity.
Qed.

(** The index drawn in a round of the loop lies in [0, i]. *)
Lemma shuffle_index (i : nat) (rng : LcgRandom.t) :
  (Z.to_nat (Qfloor (fst (LcgRandom.next rng) * (inject_Z (Z.of_nat i) + 1))) <= i)%nat.
Proof.
  pose proof (LcgRandomSpec.next_state_range rng) as Hr.
  unfold LcgRandom.next in *. cbn [fst snd LcgRandom._state] in *.
  set (s := ((1664525 * LcgRandom._state rng + 1013904223) mod LcgRandom.two32)%Z) in *.
  assert (Hlt : Qmake s 4294967296 * (inject_Z (Z.of_nat i) + 1)
                < inject_Z (Z.of_nat i + 1)).
  { rewrite inject_Z_plus. change (inject_Z 1) with 1.
    assert (Hu : Qmake s 4294967296 < 1).
    { unfold Qlt. cbn. unfold LcgRandom.two32 in Hr. lia. }
    assert (Hi : 0 < inject_Z (Z.of_nat i) + 1).
    { unfold Qlt, Qplus, inject_Z. cbn. lia. }
    apply Qlt_le_trans with (1 * (inject_Z (Z.of_nat i) + 1)).
    - apply Qmult_lt_r; assumption.
    - rewrite Qmult_1_l. apply Qle_refl. }
  assert (Hf : (Qfloor (Qmake s 4294967296 * (inject_Z (Z.of_nat i) + 1))
                < Z.of_nat i + 1)%Z).
  { rewrite Zlt_Qlt. eapply Qle_lt_trans; [apply Qfloor_le | exact Hlt]. }
  lia.
Qed.

(** X20: [_randomSample(arr, n)] returns [min(n, arr.length)] elements of
    [arr] (none for a negative [n]): the sample is the front of a
    rearrangement of [arr], so what it holds comes from [arr], it holds an
    element no more often than [arr] does, and no element twice when [arr]
    has none twice.  The generator is advanced by one draw per element of
    [arr] but the first, and every index drawn lies within the part of the
    array still to be placed. *)
Theorem random_sample_selects {A : Type} (arr : list A) (n : Z) (rng : LcgRandom.t) :
  let r := _randomSample arr n rng in
  length (fst r) = Z.to_nat (Z.max 0 (Z.min n (Z.of_nat (length arr))))
  /\ (exists rest : list A, Permutation (fst r ++ rest) arr)
  /\ (forall x : A, In x (fst r) -> In x arr)
  /\ (List.NoDup arr -> List.NoDup (fst r))
  /\ LcgRandom._state (snd r)
     = Nat.iter (length arr - 1) LcgProps.step (LcgRandom._state rng)
  /\ LcgRandom._spareNormal (snd r) = LcgRandom._spareNormal rng
  /\ (forall (i : nat) (g : LcgRandom.t),
         (Z.to_nat (Qfloor (fst (LcgRandom.next g) * (inject_Z (Z.of_nat i) + 1)))
          <= i)%nat).
Proof.
  cbv zeta. unfold _randomSample.
  pose proof (shuffle_spec (length arr - 1) arr rng) as (Hp & Hs & Hn).
  destruct (shuffle (length arr - 1) arr rng) as [copy rng'].
  cbn [fst snd] in *.
  assert (Hlen : length copy = length arr) by (apply Permutation_length; exact Hp).
  set (k := Z.to_nat (Z.max 0 (Z.min n (Z.of_nat (length copy))))).
  assert (Hk : (k <= length copy)%nat) by (unfold k; lia).
  split; [|split; [|split; [|split; [|split; [|split]]]]].
  - rewrite length_firstn. unfold k. rewrite Hlen. lia.
  - exists (skipn k copy). rewrite firstn_skipn. exact Hp.
  - intros x Hx. apply (Permutation_in x Hp).
    rewrite <- (firstn_skipn k copy). apply in_or_app. left. exact Hx.
  - intros Hnd. assert (Hc : List.NoDup copy).
    { apply (Permutation_NoDup (Permutation_sym Hp)). exact Hnd. }
    rewrite <- (firstn_skipn k copy) in Hc.
    apply NoDup_app_remove_r in Hc. exact Hc.
  - exact Hs.
  - exact Hn.
  - intros i g. apply shuffle_index.
Qed.

End ScenarioEdge.
(** ** Scenario helpers: fuzz events, reset to defaults, plugging *)

Module HelperEdge.
Import Command CommandPoints Scenario PlantProps HelperProps.
Local Open Scope Q_scope.

Lemma updateAt_Forall (P : Charger.t -> Prop) (f : Charger.t -> Charger.t) :
  (forall c, P c -> P (f c)) ->
  forall (l : list Charger.t) (i : nat), Forall P l -> Forall P (updateAt i f l).
Proof.
  intros Hf l. induction l as [|c rest IH]; intros i Hl.
  - destruct i; constructor.
  - inversion Hl; subst. destruct i; cbn [updateAt]; constructor; auto.
Qed.

Lemma updateAt_map {B : Type} (g : Charger.t -> B) (f : Charger.t -> Charger.t) :
  (forall c, g (f c) = g c) ->
  forall (l : list Charger.t) (i : nat), map g (updateAt i f l) = map g l.
Proof.
  intros Hf l. induction l as [|c rest IH]; intros i.
  - destruct i; reflexivity.
  - destruct i; cbn [updateAt map]; [rewrite Hf|rewrite IH]; reflexivity.
Qed.

Lemma map_map_same {B : Type} (g : Charger.t -> B) (f : Charger.t -> Charger.t) :
  (forall c, g (f c) = g c) ->
  forall l : list Charger.t, map g (map f l) = map g l.
Proof.
  intros Hf l. rewrite map_map. apply map_ext. exact Hf.
Qed.

Ltac charger_fields :=
  cbn [Charger.set_ctrl Charger.set_meas Charger.set_vehicle Charger.set_sim
       Charger.set_vehicle_soc_pct Charger.id Charger.type Charger.max_kw
       Charger.sim_faulted Charger.sim_unavailable Charger.sim_meter_freeze
       Charger.ctrl_enabled Charger.ctrl_plugged
       Charger.ctrl_limit_kw Charger.ctrl_priority Charger.vehicle_id
       Charger.vehicle_soc_pct Charger.vehicle_capacity_kwh
       Charger.vehicle_max_charge_kw Charger.vehicle_target_soc_pct
       Charger.vehicle_departure_time Charger.vehicle_departure_ts
       Charger.meas_status Charger.meas_power_kw Charger.meas_energy_kwh].

Ltac model_fields :=
  unfold mapChargers, setChargers, setGrid, setPv, setTariff;
  cbn [Model.grid Model.tariff Model.pv Model.storage Model.heatpump Model.chp
       Model.generator Model.evcs_chargers
       Grid.available Grid.limit_kw Grid.base_load_kw Grid.power_kw Grid.over_limit
       Tariff.mode Tariff.price_ct_per_kwh Tariff.price_next_24h
       PV.installed_kwp PV.weather_factor PV.power_kw PV.override_enabled
       PV.override_power_kw].

Ltac ranged_charger Hc :=
  let M1 := fresh "M1" in let M2 := fresh "M2" in
  destruct Hc as ((M1 & M2) & (? & ?) & (? & ?) & (? & ?) & (? & ?)
                  & (? & ?) & (? & ?) & (? & ?) & (? & ?));
  unfold chargerRanged; charger_fields;
  repeat match goal with |- _ /\ _ => split end;
  try assumption;
  try (apply clamp_bounds; lra);
  try lra.

Section WithHost.
Context `{Host}.

(** X21: a fuzz event keeps the plant inside the ranges of its datapoints
    and never changes the fleet, a session energy, a priority, vehicle data
    other than the SoC, the storage, the flex devices or the availability
    of the grid. *)
Theorem fuzz_event_bounded (heavy : bool) (m : Model.t) (rng : LcgRandom.t) :
  plantRanged m -> Model.evcs_chargers m <> [] ->
  let m' := fst (_fuzzRandomEvent heavy m rng) in
  plantRanged m'
  /\ fleetOf m' = fleetOf m
  /\ map keptByFuzz (Model.evcs_chargers m') = map keptByFuzz (Model.evcs_chargers m)
  /\ Model.storage m' = Model.storage m
  /\ Model.heatpump m' = Model.heatpump m
  /\ Model.chp m' = Model.chp m
  /\ Model.generator m' = Model.generator m
  /\ Grid.available (Model.grid m') = Grid.available (Model.grid m).
Proof.
  intros Hr _. cbv zeta.
  destruct Hr as (Rl & Rb & Rp & Ri & Rw & Ro & Rc & Rmc & Rmd & Rs & Rch).
  assert (Hone : forall (f : Charger.t -> Charger.t) (i : nat),
             (forall c, chargerRanged c -> chargerRanged (f c)) ->
             (forall c, fleetKey (f c) = fleetKey c) ->
             (forall c, keptByFuzz (f c) = keptByFuzz c) ->
             let m' := setChargers m (updateAt i f (Model.evcs_chargers m)) in
             plantRanged m'
             /\ fleetOf m' = fleetOf m
             /\ map keptByFuzz (Model.evcs_chargers m')
                = map keptByFuzz (Model.evcs_chargers m)
             /\ Model.storage m' = Model.storage m
             /\ Model.heatpump m' = Model.heatpump m
             /\ Model.chp m' = Model.chp m
             /\ Model.generator m' = Model.generator m
             /\ Grid.available (Model.grid m') = Grid.available (Model.grid m)).
  { intros f i F1 F2 F3. cbv zeta. unfold plantRanged, fleetOf. model_fields.
    split; [|split; [|split]].
    - repeat match goal with |- _ /\ _ => split end; try tauto.
      apply updateAt_Forall; assumption.
    - apply updateAt_map. exact F2.
    - apply updateAt_map. exact F3.
    - repeat split. }
  unfold _fuzzRandomEvent.
  destruct (LcgRandom.next rng) as [r rng1].
  destruct (LcgRandom.next rng1) as [ri rng2].
  destruct (Qltb r (25 # 100)).
  { destruct (LcgRandom.next rng2) as [rp rng3].
    destruct (Qltb rp (6 # 10)).
    - destruct (LcgRandom.normal rng3 0 1) as [n rng4]. cbn [fst].
      apply Hone; [intros c Hc; ranged_charger Hc| |]; reflexivity.
    - cbn [fst].
      apply Hone; [intros c Hc; ranged_charger Hc| |]; reflexivity. }
  destruct (Qltb r (40 # 100)).
  { destruct (LcgRandom.next rng2) as [x rng3]. cbn [fst].
    unfold plantRanged, fleetOf. model_fields.
    repeat match goal with |- _ /\ _ => split end;
      try tauto; try reflexivity; apply clamp_bounds; lra. }
  destruct (Qltb r (55 # 100)).
  { destruct (LcgRandom.next rng2) as [x rng3]. cbn [fst].
    unfold plantRanged, fleetOf. model_fields.
    repeat match goal with |- _ /\ _ => split end;
      try tauto; try reflexivity; apply clamp_bounds; lra. }
  destruct (Qltb r (70 # 100)).
  { destruct (LcgRandom.next rng2) as [x rng3].
    destruct (Qltb x (7 # 10)).
    - destruct (LcgRandom.next rng3) as [y rng4]. cbn [fst].
      unfold plantRanged, fleetOf. model_fields.
      repeat match goal with |- _ /\ _ => split end;
        try tauto; try reflexivity; apply clamp_bounds; lra.
    - cbn [fst]. unfold plantRanged, fleetOf. model_fields.
      repeat match goal with |- _ /\ _ => split end;
        try tauto; reflexivity. }
  destruct (Qltb r (85 # 100)).
  { destruct (LcgRandom.next rng2) as [x rng3]. cbn [fst].
    unfold plantRanged, fleetOf. model_fields.
    repeat match goal with |- _ /\ _ => split end;
      try tauto; try reflexivity; apply clamp_bounds; lra. }
  destruct (LcgRandom.next rng2) as [action rng3].
  destruct (Qltb action (15 # 100)).
  { cbn [fst]. unfold _clearAllEvcsSimFlags, plantRanged, fleetOf. model_fields.
    repeat match goal with |- _ /\ _ => split end; try tauto; try reflexivity.
    - apply List.Forall_map. eapply List.Forall_impl; [|exact Rch].
      intros c Hc. ranged_charger Hc.
    - apply map_map_same. reflexivity.
    - apply map_map_same. reflexivity. }
  destruct (Qltb action (55 # 100)).
  { cbn [fst]. apply Hone; [intros c Hc; ranged_charger Hc| |]; reflexivity. }
  destruct (Qltb action (80 # 100)).
  { cbn [fst]. apply Hone; [intros c Hc; ranged_charger Hc| |]; reflexivity. }
  cbn [fst]. apply Hone.
  - intros c Hc. destruct (Qltb (Charger.meas_power_kw c) (5 # 10));
      ranged_charger Hc.
  - intros c. destruct (Qltb (Charger.meas_power_kw c) (5 # 10)); reflexivity.
  - intros c. destruct (Qltb (Charger.meas_power_kw c) (5 # 10)); reflexivity.
Qed.

(** *** Reset to defaults *)

Lemma resetChargers_spec (cfg : Cfg) (now : Z) :
  forall (l : list Charger.t) (i : Z) (rng : LcgRandom.t),
    let r := resetChargers cfg now i l rng in
    map fleetKey (fst r) = map fleetKey l
    /\ (forall (k : nat) (c : Charger.t),
           nth_error (fst r) k = Some c ->
           exists c0, nth_error l k = Some c0
                      /\ atDefaults cfg (i + Z.of_nat k) c0 c)
    /\ LcgRandom._state (snd r)
       = Nat.iter (length l) (fun s => LcgProps.step (LcgProps.step s))
                  (LcgRandom._state rng).
Proof.
  induction l as [|ch rest IH]; intros i rng; cbv zeta.
  - cbn [resetChargers fst snd map length Nat.iter]. repeat split.
    intros [|k] c Hk; discriminate.
  - cbn [resetChargers].
    pose proof (LcgRandomSpec.next_spec rng) as (S1 & _ & _ & R1a & R1b).
    destruct (LcgRandom.next rng) as [r1 rng1]. cbn [fst snd] in S1, R1a, R1b.
    pose proof (LcgRandomSpec.next_spec rng1) as (S2 & _ & _ & R2a & R2b).
    destruct (LcgRandom.next rng1) as [r2 rng2]. cbn [fst snd] in S2, R2a, R2b.
    specialize (IH (i + 1)%Z rng2). cbv zeta in IH.
    destruct (resetChargers cfg now (i + 1) rest rng2) as [rest' rng'].
    cbn [fst snd] in *. destruct IH as (IHk & IHn & IHs).
    split; [|split].
    + cbn [map]. rewrite IHk. reflexivity.
    + intros [|k] c Hk.
      * cbn [nth_error] in *. inversion Hk; subst c. clear Hk.
        exists ch. split; [reflexivity|].
        replace (i + Z.of_nat 0)%Z with i by lia.
        unfold atDefaults, fleetKey, simFlags. charger_fields.
        repeat match goal with |- _ /\ _ => split end; try reflexivity.
        -- rewrite (clamp_id (10 + 60 * r1) 0 100); lra.
        -- rewrite (clamp_id (10 + 60 * r1) 0 100); lra.
        -- rewrite (clamp_id (40 + 50 * r2) 1 1000); lra.
        -- rewrite (clamp_id (40 + 50 * r2) 1 1000); lra.
      * cbn [nth_error] in *. destruct (IHn k c Hk) as (c0 & Hc0 & Hd).
        exists c0. split; [exact Hc0|].
        replace (i + Z.of_nat (S k))%Z with (i + 1 + Z.of_nat k)%Z by lia.
        exact Hd.
    + rewrite IHs, S2, S1. cbn [length]. rewrite Nat.iter_succ_r.
      reflexivity.
Qed.

(** X22: a reset to defaults leaves every charge point at power 0 and
    energy 0 with cleared simulation flags, limit and vehicle maximum equal
    to [max_kw], priority 5, a SoC in [10, 70) and a capacity in [40, 90);
    exactly the charge points whose position (from 1) is at most
    [autoConnectCount] are plugged and enabled, and only with
    [autoConnectEnabled].  The fleet is kept, the plant is in range for a
    configuration in range, the flex devices are off, the storage control
    is on with set point 0, the grid is available, the PV override is off,
    the tariff is in auto mode with the price kept, and the generator is
    advanced by two draws per charge point. *)
Theorem reset_to_defaults (cfg : Cfg) (now : Z) (m : Model.t) (rng : LcgRandom.t) :
  cfgRanged cfg -> plantRanged m ->
  let r := _resetToDefaultsModel cfg now m rng in
  let m' := fst r in
  plantRanged m'
  /\ fleetOf m' = fleetOf m
  /\ (forall (k : nat) (c : Charger.t),
         nth_error (Model.evcs_chargers m') k = Some c ->
         exists c0, nth_error (Model.evcs_chargers m) k = Some c0
                    /\ atDefaults cfg (Z.of_nat k) c0 c)
  /\ (Device.ctrl_enabled (Model.heatpump m') = false
      /\ Device.ctrl_enabled (Model.chp m') = false
      /\ Device.ctrl_enabled (Model.generator m') = false)
  /\ (Storage.ctrl_enabled (Model.storage m') = true
      /\ Storage.ctrl_power_set_kw (Model.storage m') = 0)
  /\ Grid.available (Model.grid m') = true
  /\ PV.override_enabled (Model.pv m') = false
  /\ (Tariff.mode (Model.tariff m') = Tariff.auto
      /\ Tariff.price_ct_per_kwh (Model.tariff m')
         = Tariff.price_ct_per_kwh (Model.tariff m))
  /\ LcgRandom._state (snd r)
     = Nat.iter (length (Model.evcs_chargers m))
                (fun s => LcgProps.step (LcgProps.step s)) (LcgRandom._state rng).
Proof.
  intros Hc Hr. cbv zeta.
  destruct Hc as (Cl & Cb & Ci & Cw & Cc & Cmc & Cmd & Cs & Ca & Ct & Cd & Cp).
  destruct Hr as (Rl & Rb & Rp & Ri & Rw & Ro & Rc & Rmc & Rmd & Rs & Rch).
  unfold _resetToDefaultsModel.
  pose proof (resetChargers_spec cfg now (Model.evcs_chargers m) 0%Z rng)
    as (Hk & Hn & Hs).
  cbv zeta in Hk, Hn, Hs.
  destruct (resetChargers cfg now 0 (Model.evcs_chargers m) rng) as [chargers rng'].
  cbn [fst snd] in *.
  unfold plantRanged, fleetOf.
  cbn [Model.grid Model.tariff Model.pv Model.storage Model.heatpump Model.chp
       Model.generator Model.evcs_chargers
       Grid.available Grid.limit_kw Grid.base_load_kw
       Tariff.mode Tariff.price_ct_per_kwh
       PV.installed_kwp PV.weather_factor PV.override_enabled PV.override_power_kw
       Storage.capacity_kwh Storage.max_charge_kw Storage.max_discharge_kw
       Storage.soc_pct Storage.ctrl_enabled Storage.ctrl_power_set_kw
       Device.ctrl_enabled].
  repeat match goal with |- _ /\ _ => split end;
    try reflexivity; try assumption; try lra.
  - (* every charge point in range *)
    apply List.Forall_forall. intros c Hin.
    apply In_nth_error in Hin. destruct Hin as [k Hin].
    destruct (Hn k c Hin) as (c0 & Hc0 & Hd).
    apply nth_error_In in Hc0. rewrite List.Forall_forall in Rch.
    specialize (Rch c0 Hc0).
    destruct Rch as ((M1 & M2) & _).
    destruct Hd as (Hkey & _ & _ & _ & Hlim & Hprio & Hmax & Htgt & _ & Hpow
                    & Hen & _ & _ & (S1 & S2) & (K1 & K2)).
    unfold fleetKey in Hkey. inversion Hkey as [[Hid Hty Hmk]].
    unfold chargerRanged. rewrite Hlim, Hprio, Hmax, Htgt, Hpow, Hen, Hmk.
    repeat match goal with |- _ /\ _ => split end; try lra.
Qed.

(** *** Plugging and unplugging *)

Lemma updateCharger_gen (cid : string) (f : Charger.t -> Charger.t) :
  forall l : list Charger.t,
    match findCharger cid l with
    | None => updateCharger cid f l = None
    | Some c =>
        exists l1 l2,
          l = l1 ++ c :: l2 /\ updateCharger cid f l = Some (l1 ++ f c :: l2)
          /\ Charger.id c = cid /\ findCharger cid l1 = None
    end.
Proof.
  unfold findCharger.
  induction l as [|x rest IH]; cbn [List.find updateCharger]; [reflexivity|].
  destruct (String.eqb (Charger.id x) cid) eqn:E.
  - exists [], rest. apply String.eqb_eq in E. repeat split. exact E.
  - destruct (List.find _ rest) as [c|].
    + destruct IH as (l1 & l2 & -> & Hu & Hid & Hn). rewrite Hu.
      exists (x :: l1), l2. cbn [app List.find]. rewrite E. repeat split; assumption.
    + rewrite IH. reflexivity.
Qed.

(** X23: [_plugCharger] on an id that no charge point has changes nothing.
    On the first charge point of that id it clamps the options it is
    given, leaves the charge point plugged, enabled, limited to [max_kw],
    in status "Preparing" with power 0, energy 0 and cleared simulation
    flags, and touches no other charge point; the plant stays in range and
    the fleet is kept.  [_unplugAllChargers] leaves every charge point
    unplugged, disabled, at power 0 and energy 0 in status "Available" but
    keeps limits, priorities, vehicles and simulation flags; doing it twice
    is doing it once. *)
Theorem plug_and_unplug (now : Z) (cid : string)
    (soc cap target : option Q) (dep : option string) (prio : option Q)
    (m : Model.t) :
  let m' := _plugCharger now cid soc cap target dep prio m in
  (findCharger cid (Model.evcs_chargers m) = None -> m' = m)
  /\ (forall c, findCharger cid (Model.evcs_chargers m) = Some c ->
      exists l1 l2 c',
        Model.evcs_chargers m = l1 ++ c :: l2
        /\ Model.evcs_chargers m' = l1 ++ c' :: l2
        /\ findCharger cid (Model.evcs_chargers m') = Some c'
        /\ Charger.ctrl_plugged c' = true /\ Charger.ctrl_enabled c' = true
        /\ Charger.ctrl_limit_kw c' = Charger.max_kw c
        /\ Charger.vehicle_max_charge_kw c' = Charger.max_kw c
        /\ Charger.meas_status c' = "Preparing"%string
        /\ Charger.meas_power_kw c' = 0 /\ Charger.meas_energy_kwh c' = 0
        /\ simFlags c' = (false, false, false)
        /\ (forall v, soc = Some v -> Charger.vehicle_soc_pct c' = clamp v 0 100)
        /\ (soc = None -> Charger.vehicle_soc_pct c' = Charger.vehicle_soc_pct c)
        /\ (forall v, prio = Some v -> Charger.ctrl_priority c' = clamp v 1 10)
        /\ (prio = None -> Charger.ctrl_priority c' = Charger.ctrl_priority c))
  /\ (plantRanged m -> plantRanged m')
  /\ fleetOf m' = fleetOf m
  /\ (let u := _unplugAllChargers m in
      Forall (fun c => Charger.ctrl_plugged c = false
                       /\ Charger.ctrl_enabled c = false
                       /\ Charger.meas_power_kw c = 0
                       /\ Charger.meas_energy_kwh c = 0
                       /\ Charger.meas_status c = "Available"%string)
             (Model.evcs_chargers u)
      /\ fleetOf u = fleetOf m
      /\ map simFlags (Model.evcs_chargers u) = map simFlags (Model.evcs_chargers m)
      /\ map keptByUnplug (Model.evcs_chargers u)
         = map keptByUnplug (Model.evcs_chargers m)
      /\ (plantRanged m -> plantRanged u)
      /\ _unplugAllChargers u = u).
Proof.
  cbv zeta. unfold _plugCharger.
  pose proof (updateCharger_gen cid (plug now soc cap target dep prio)
                (Model.evcs_chargers m)) as Hu.
  assert (Hplug : forall c, chargerRanged c ->
                            chargerRanged (plug now soc cap target dep prio c)).
  { intros c Hc. unfold plug.
    destruct soc, cap, target, prio; ranged_charger Hc. }
  split; [|split; [|split; [|split]]].
  - intros Hn. rewrite Hn in Hu. rewrite Hu. reflexivity.
  - intros c Hf. rewrite Hf in Hu.
    destruct Hu as (l1 & l2 & El & Hu & Hid & Hn). rewrite Hu.
    exists l1, l2, (plug now soc cap target dep prio c).
    unfold setChargers. cbn [Model.evcs_chargers].
    split; [exact El|]. split; [reflexivity|].
    split; [apply CommandEdge.findCharger_app; [exact Hn|exact Hid]|].
    unfold plug, simFlags. charger_fields.
    repeat match goal with |- _ /\ _ => split end; try reflexivity.
    + intros v ->. reflexivity.
    + intros ->. reflexivity.
    + intros v ->. reflexivity.
    + intros ->. reflexivity.
  - intros Hr.
    destruct (findCharger cid (Model.evcs_chargers m)) as [c|]; [|rewrite Hu; exact Hr].
    destruct Hu as (l1 & l2 & El & Hu & Hid & Hn). rewrite Hu.
    destruct Hr as (Rl & Rb & Rp & Ri & Rw & Ro & Rc & Rmc & Rmd & Rs & Rch).
    unfold plantRanged. model_fields.
    repeat match goal with |- _ /\ _ => split end; try tauto.
    rewrite El in Rch. apply List.Forall_app in Rch. destruct Rch as [R1 R2].
    inversion R2; subst. apply List.Forall_app. split; [exact R1|].
    constructor; [apply Hplug; assumption|assumption].
  - destruct (findCharger cid (Model.evcs_chargers m)) as [c|]; [|rewrite Hu; reflexivity].
    destruct Hu as (l1 & l2 & El & Hu & Hid & Hn). rewrite Hu.
    unfold fleetOf. model_fields. rewrite El, !map_app. reflexivity.
  - unfold _unplugAllChargers, fleetOf. model_fields.
    split; [|split; [|split; [|split; [|split]]]].
    + apply List.Forall_map. apply List.Forall_forall. intros c _.
      unfold unplug. charger_fields. repeat split.
    + apply map_map_same. reflexivity.
    + apply map_map_same. reflexivity.
    + apply map_map_same. reflexivity.
    + intros Hr.
      destruct Hr as (Rl & Rb & Rp & Ri & Rw & Ro & Rc & Rmc & Rmd & Rs & Rch).
      unfold plantRanged. model_fields.
      repeat match goal with |- _ /\ _ => split end; try tauto.
      apply List.Forall_map. eapply List.Forall_impl; [|exact Rch].
      intros c Hc. unfold unplug. ranged_charger Hc.
    + f_equal. rewrite map_map. apply map_ext. intros c. reflexivity.
Qed.

End WithHost.

Lemma fuzz_event_bounded_witness :
  plantRanged (fst (_fuzzRandomEvent (H := ExampleHost.host) true
                      Sample.model Sample.rng)).
Proof.
  apply (fuzz_event_bounded (H := ExampleHost.host) true Sample.model Sample.rng).
  - unfold plantRanged, Sample.model. cbn.
    repeat split; try (unfold Qle, Qlt; simpl; lia).
    unfold Sample.chargers.
    repeat constructor; unfold Qle, Qlt; simpl; lia.
  - discriminate.
Defined.

Lemma reset_to_defaults_witness :
  plantRanged (fst (_resetToDefaultsModel (H := ExampleHost.host)
                      ExampleEngine.cfg 0 Sample.model Sample.rng)).
Proof.
  apply (reset_to_defaults (H := ExampleHost.host) ExampleEngine.cfg 0
           Sample.model Sample.rng).
  - unfold cfgRanged, ExampleEngine.cfg. cbn.
    repeat split; unfold Qle, Qlt; simpl; lia.
  - unfold plantRanged, Sample.model. cbn.
    repeat split; try (unfold Qle, Qlt; simpl; lia).
    unfold Sample.chargers.
    repeat constructor; unfold Qle, Qlt; simpl; lia.
Defined.

Lemma plug_and_unplug_witness :
  _plugCharger (H := ExampleHost.host) 0 "c99" (Some 50) None None None None
               Sample.model = Sample.model.
Proof.
  apply (plug_and_unplug (H := ExampleHost.host) 0 "c99" (Some 50) None None None None
           Sample.model).
  reflexivity.
Defined.

End HelperEdge.
(** ** Startup: default fleet, initial model, migration *)

Module StartupEdge.
Import Command Scenario Startup PlantProps HelperProps StartupProps.
Local Open Scope Q_scope.

Lemma firstn_repeat {A : Type} (x : A) (a k : nat) :
  firstn k (repeat x a) = repeat x (Nat.min k a).
Proof.
  revert k. induction a as [|a IH]; intros [|k]; cbn; try reflexivity.
  rewrite IH. reflexivity.
Qed.

Lemma firstn_seq_min (s d k : nat) : firstn k (seq s d) = seq s (Nat.min k d).
Proof.
  revert s k. induction d as [|d IH]; intros s [|k]; cbn; try reflexivity.
  rewrite IH. reflexivity.
Qed.

Lemma firstn_groups {A : Type} (x y : A) (f : nat -> A) (a b d k : nat) :
  firstn k (repeat x a ++ repeat y b ++ map f (seq 0 d))
  = repeat x (Nat.min k a) ++ repeat y (Nat.min (k - a) b)
    ++ map f (seq 0 (Nat.min (k - a - b) d)).
Proof.
  rewrite firstn_app, repeat_length, firstn_app, repeat_length.
  rewrite !firstn_repeat, firstn_map, firstn_seq_min. reflexivity.
Qed.

Lemma dcAt_kind (i : nat) : In (dcAt i) kinds.
Proof.
  unfold dcAt, kinds, dcPattern.
  pose proof (Nat.mod_upper_bound i 4 ltac:(discriminate)) as Hlt.
  destruct (i mod 4)%nat as [|[|[|[|?]]]]; cbn [nth]; [| | | |lia];
    cbn; tauto.
Qed.

Lemma specs_groups (count : Q) :
  0 <= count ->
  exists a b d : nat,
    _defaultChargerSpecs count
    = repeat (Charger.ac, 11) a ++ repeat (Charger.ac, 22) b ++ map dcAt (seq 0 d)
    /\ (a + b + d = loopCountFrom1 count)%nat
    /\ (1 <= count -> (1 <= a)%nat).
Proof.
  intros Hc. unfold _defaultChargerSpecs, slice0, loopCountFrom1.
  assert (Hk : (0 <= Qfloor count)%Z).
  { change 0%Z with (Qfloor 0). apply Qfloor_resp_le. exact Hc. }
  assert (E : Qle_bool 0 count = true) by (apply Qle_bool_iff; exact Hc).
  rewrite E.
  assert (E2 : (Qfloor count <? 0)%Z = false) by (apply Z.ltb_ge; exact Hk).
  rewrite E2.
  set (ac11 := Math_max 1 (Publish.Math_round (count * (5 # 10)))).
  set (ac22 := Math_max 0 (Publish.Math_round (count * (3 # 10)))).
  set (remaining := Math_max 0 (count - ac11 - ac22)).
  change (fun i : nat => (Charger.dc, nth (i mod 4) dcPattern 0)) with dcAt.
  rewrite firstn_groups.
  set (k := Z.to_nat (Qfloor count)).
  assert (H11 : 1 <= ac11) by apply Q.le_max_l.
  assert (H22 : 0 <= ac22) by apply Q.le_max_l.
  assert (Hrem : count - ac11 - ac22 <= remaining) by apply Q.le_max_r.
  pose proof (Qle_ceiling ac11) as C11.
  pose proof (Qle_ceiling ac22) as C22.
  pose proof (Qle_ceiling remaining) as Crem.
  pose proof (Qfloor_le count) as Fk.
  assert (Z11 : (1 <= Qceiling ac11)%Z).
  { rewrite Zle_Qle. change (inject_Z 1) with 1. lra. }
  assert (Z22 : (0 <= Qceiling ac22)%Z).
  { rewrite Zle_Qle. change (inject_Z 0) with 0. lra. }
  assert (Zrem : (0 <= Qceiling remaining)%Z).
  { rewrite Zle_Qle. change (inject_Z 0) with 0.
    assert (0 <= remaining) by apply Q.le_max_l. lra. }
  assert (Zsum : (Qfloor count
                  <= Qceiling ac11 + Qceiling ac22 + Qceiling remaining)%Z).
  { rewrite Zle_Qle, !inject_Z_plus. lra. }
  unfold loopCount.
  set (a := Z.to_nat (Qceiling ac11)) in *.
  set (b := Z.to_nat (Qceiling ac22)) in *.
  set (d := Z.to_nat (Qceiling remaining)) in *.
  assert (Ha : (1 <= a)%nat) by (unfold a; lia).
  assert (Hsum : (k <= a + b + d)%nat) by (unfold k, a, b, d; lia).
  eexists _, _, _. split; [reflexivity|]. split; [lia|].
  intros H1.
  assert (Hk1 : (1 <= k)%nat).
  { unfold k. assert (1 <= Qfloor count)%Z; [|lia].
    change 1%Z with (Qfloor 1). apply Qfloor_resp_le. exact H1. }
  lia.
Qed.

Lemma groups_kinds (a b d : nat) :
  Forall (fun s => In s kinds)
         (repeat (Charger.ac, 11) a ++ repeat (Charger.ac, 22) b ++ map dcAt (seq 0 d)).
Proof.
  apply List.Forall_app. split; [|apply List.Forall_app; split].
  - apply List.Forall_forall. intros s Hs. apply repeat_spec in Hs. subst s.
    cbn. tauto.
  - apply List.Forall_forall. intros s Hs. apply repeat_spec in Hs. subst s.
    cbn. tauto.
  - apply List.Forall_map. apply List.Forall_forall. intros i _. apply dcAt_kind.
Qed.

Lemma specs_shape (count : Q) :
  0 <= count ->
  length (_defaultChargerSpecs count) = loopCountFrom1 count
  /\ Forall (fun s => In s kinds) (_defaultChargerSpecs count).
Proof.
  intros Hc. destruct (specs_groups count Hc) as (a & b & d & -> & Hsum & _).
  split; [|apply groups_kinds].
  rewrite !length_app, !repeat_length, length_map, length_seq. lia.
Qed.

(** X24: for every count that is not negative, whole or not,
    [_defaultChargerSpecs(count)] has exactly floor(count) entries, so the
    loop of [_initModel] finds a specification for each of its charge
    points.  The entries are AC 11 kW first, then AC 22 kW, then DC in the
    repeating pattern 50/150/300/400 kW; no other kind occurs, and from
    count 1 on the first entry is AC 11 kW. *)
Theorem default_specs_cover (count : Q) :
  0 <= count ->
  let specs := _defaultChargerSpecs count in
  length specs = loopCountFrom1 count
  /\ (exists a b d : nat,
        specs = repeat (Charger.ac, 11) a ++ repeat (Charger.ac, 22) b
                ++ map dcAt (seq 0 d))
  /\ Forall (fun s => In s kinds) specs
  /\ (1 <= count -> nth_error specs 0 = Some (Charger.ac, 11)).
Proof.
  intros Hc. cbv zeta.
  destruct (specs_groups count Hc) as (a & b & d & E & Hsum & Hfirst).
  split; [|split; [|split]].
  - rewrite E, !length_app, !repeat_length, length_map, length_seq. lia.
  - exists a, b, d. exact E.
  - rewrite E. apply groups_kinds.
  - intros H1. specialize (Hfirst H1). rewrite E.
    destruct a as [|a']; [lia|]. reflexivity.
Qed.

Lemma default_specs_cover_witness :
  length (_defaultChargerSpecs (25 # 10)) = loopCountFrom1 (25 # 10).
Proof.
  apply (default_specs_cover (25 # 10)).
  unfold Qle. simpl. lia.
Defined.

Section WithHost.
Context `{Host}.

Lemma config_ranged (raw : RawConfig) :
  cfgRanged (base (normalizeConfig raw))
  /\ 1 <= chargersCount (normalizeConfig raw) <= 200.
Proof.
  unfold cfgRanged, normalizeConfig, clampOr, cfgScenarioDurationSec,
    cfgScenarioResetPauseSec, clampV.
  cbn [base chargersCount gridLimitKw baseLoadKw pvInstalledKwp pvWeatherFactor
       storageCapacityKwh storageMaxChargeKw storageMaxDischargeKw
       storageInitialSocPct autoConnectCount defaultTargetSocPct
       scenarioDurationSec scenarioResetPauseSec].
  repeat match goal with |- _ /\ _ => split end;
    apply clampNum_bounds; lra.
Qed.

Lemma initCharger_ranged (c : Config) (store : Store) (now i : Z)
    (spec : Charger.Kind * Q) (r1 r2 : Q) :
  In spec kinds -> chargerRanged (initCharger c store now i spec r1 r2).
Proof.
  intros Hin. unfold initCharger, chargerRanged, clampV.
  cbn [Charger.max_kw Charger.ctrl_limit_kw Charger.ctrl_priority
       Charger.vehicle_soc_pct Charger.vehicle_capacity_kwh
       Charger.vehicle_max_charge_kw Charger.vehicle_target_soc_pct
       Charger.meas_power_kw Charger.meas_energy_kwh].
  assert (Hm : 0 < snd spec /\ snd spec <= 400).
  { unfold kinds in Hin. cbn [In] in Hin.
    destruct Hin as [<-|[<-|[<-|[<-|[<-|[<-|[]]]]]]]; cbn [snd]; lra. }
  destruct Hm as [M1 M2].
  repeat match goal with |- _ /\ _ => split end;
    try (apply clampNum_bounds; lra); try (apply clamp_bounds; lra); try lra.
  assert (Hb : 0 <= clampNum (Number (get store (AddressProps.evcsPoint i "meas.energy_kwh")
                                       (numV 0))) 0 100000 <= 100000)
    by (apply clampNum_bounds; lra).
  lra.
Qed.

Lemma skipn_nth {A : Type} (l : list A) :
  forall (k : nat) (x : A), nth_error l k = Some x -> skipn k l = x :: skipn (S k) l.
Proof.
  induction l as [|y rest IH]; intros [|k] x Hk; try discriminate.
  - inversion Hk. reflexivity.
  - cbn [nth_error] in Hk. cbn [skipn]. rewrite (IH k x Hk). reflexivity.
Qed.

Lemma initChargers_spec (c : Config) (store : Store) (now : Z)
    (specs : list (Charger.Kind * Q)) :
  Forall (fun s => In s kinds) specs ->
  forall (n : nat) (i : Z) (rng : LcgRandom.t),
    (1 <= i)%Z -> (Z.to_nat (i - 1) + n <= length specs)%nat ->
    exists l rng',
      initChargers c store now specs n i rng = Some (l, rng')
      /\ map Charger.id l = map (fun k => chargerName (i + Z.of_nat k)) (seq 0 n)
      /\ map (fun ch => (Charger.type ch, Charger.max_kw ch)) l
         = firstn n (skipn (Z.to_nat (i - 1)) specs)
      /\ Forall chargerRanged l
      /\ (forall (k : nat) (ch : Charger.t),
             nth_error l k = Some ch ->
             exists spec r1 r2,
               In spec kinds /\ 0 <= r1 < 1 /\ 0 <= r2 < 1
               /\ ch = initCharger c store now (i + Z.of_nat k) spec r1 r2)
      /\ LcgRandom._state rng' = Nat.iter n step2 (LcgRandom._state rng).
Proof.
  intros Hkinds. induction n as [|n IH]; intros i rng Hi Hlen.
  - exists [], rng. cbn. repeat split; try constructor.
    intros [|k] ch Hk; discriminate.
  - cbn [initChargers].
    destruct (nth_error specs (Z.to_nat (i - 1))) as [spec|] eqn:Hs.
    2:{ apply nth_error_None in Hs. lia. }
    assert (Hspec : In spec kinds).
    { rewrite List.Forall_forall in Hkinds. apply Hkinds.
      eapply nth_error_In. exact Hs. }
    pose proof (LcgRandomSpec.next_spec rng) as (S1 & _ & _ & R1).
    destruct (LcgRandom.next rng) as [r1 rng1]. cbn [fst snd] in S1, R1.
    pose proof (LcgRandomSpec.next_spec rng1) as (S2 & _ & _ & R2).
    destruct (LcgRandom.next rng1) as [r2 rng2]. cbn [fst snd] in S2, R2.
    destruct (IH (i + 1)%Z rng2 ltac:(lia) ltac:(lia))
      as (rest & rng' & -> & Hid & Hkd & Hrg & Hnth & Hst).
    eexists _, _. split; [reflexivity|].
    split; [|split; [|split; [|split]]].
    + cbn [map seq]. f_equal.
      * unfold initCharger. cbn [Charger.id]. f_equal. lia.
      * rewrite Hid, <- seq_shift, map_map. apply map_ext. intros k.
        f_equal. lia.
    + rewrite (skipn_nth specs _ spec Hs). cbn [map firstn]. f_equal.
      * unfold initCharger. cbn [Charger.type Charger.max_kw].
        destruct spec; reflexivity.
      * rewrite Hkd.
        replace (Z.to_nat (i + 1 - 1)) with (S (Z.to_nat (i - 1))) by lia.
        reflexivity.
    + constructor; [apply initCharger_ranged; exact Hspec|exact Hrg].
    + intros [|k] ch Hk; cbn [nth_error] in Hk.
      * inversion Hk; subst ch. exists spec, r1, r2.
        replace (i + Z.of_nat 0)%Z with i by lia. repeat split; tauto.
      * destruct (Hnth k ch Hk) as (sp & q1 & q2 & Hsp & Hq1 & Hq2 & ->).
        exists sp, q1, q2.
        replace (i + Z.of_nat (S k))%Z with (i + 1 + Z.of_nat k)%Z by lia.
        repeat split; tauto.
    + rewrite Hst, S2, S1. rewrite Nat.iter_succ_r. reflexivity.
Qed.

Lemma chargerName_inj (n n' : Z) :
  (0 <= n <= 200)%Z -> (0 <= n' <= 200)%Z -> chargerName n = chargerName n' -> n = n'.
Proof.
  intros Hn Hn' E. unfold chargerName in E. cbn [String.append] in E.
  inversion E as [E']. change (pad2 n = pad2 n') in E'.
  pose proof (CommandEdge.pad2_reads_back n Hn) as R.
  pose proof (CommandEdge.pad2_reads_back n' Hn') as R'.
  rewrite E' in R. congruence.
Qed.

Lemma names_nodup (n : nat) :
  (n <= 200)%nat ->
  List.NoDup (map (fun k => chargerName (Z.of_nat k)) (seq 1 n)).
Proof.
  intros Hn. apply NoDup_ListNoDup, NoDup_fmap_2_strong; [|apply NoDup_ListNoDup, seq_NoDup].
  intros x y Hx Hy E. apply list_elem_of_In, in_seq in Hx.
  apply list_elem_of_In, in_seq in Hy.
  apply chargerName_inj in E; lia.
Qed.

Lemma initModel_total (c : Config) (store : Store) (now : Z) (rng : LcgRandom.t) :
  0 <= chargersCount c ->
  let n := loopCountFrom1 (chargersCount c) in
  exists m rng',
    _initModel c store now rng = Some (m, rng')
    /\ plantRanged m
    /\ map Charger.id (Model.evcs_chargers m)
       = map (fun k => chargerName (Z.of_nat k)) (seq 1 n)
    /\ map (fun ch => (Charger.type ch, Charger.max_kw ch)) (Model.evcs_chargers m)
       = _defaultChargerSpecs (chargersCount c)
    /\ (forall (k : nat) (ch : Charger.t),
           nth_error (Model.evcs_chargers m) k = Some ch ->
           exists spec r1 r2,
             In spec kinds /\ 0 <= r1 < 1 /\ 0 <= r2 < 1
             /\ ch = initCharger c store now (1 + Z.of_nat k) spec r1 r2)
    /\ LcgRandom._state rng' = Nat.iter n step2 (LcgRandom._state rng)
    /\ m = Model.mk (Model.grid m) (Model.tariff m) (Model.pv m) (Model.storage m)
                    (Model.heatpump m) (Model.chp m) (Model.generator m)
                    (Model.evcs_chargers m).
Proof.
  intros Hc. cbv zeta.
  pose proof (specs_shape (chargersCount c) Hc) as (Hlen & Hkinds).
  destruct (initChargers_spec c store now _ Hkinds
              (loopCountFrom1 (chargersCount c)) 1 rng ltac:(lia)
              ltac:(rewrite Hlen; cbn; lia))
    as (l & rng' & Hinit & Hid & Hkd & Hrg & Hnth & Hst).
  unfold _initModel. rewrite Hinit.
  eexists _, _. split; [reflexivity|].
  split; [|split; [|split; [|split; [|split]]]].
  - unfold plantRanged, clampV.
    cbn [Model.grid Model.tariff Model.pv Model.storage Model.evcs_chargers
         Grid.limit_kw Grid.base_load_kw Tariff.price_ct_per_kwh
         PV.installed_kwp PV.weather_factor PV.override_power_kw
         Storage.capacity_kwh Storage.max_charge_kw Storage.max_discharge_kw
         Storage.soc_pct].
    repeat match goal with |- _ /\ _ => split end;
      try (apply clampNum_bounds; lra).
    exact Hrg.
  - cbn [Model.evcs_chargers]. rewrite Hid, <- seq_shift, map_map.
    apply map_ext. intros k. f_equal. lia.
  - cbn [Model.evcs_chargers]. rewrite Hkd. cbn [skipn Z.to_nat Z.sub Z.add Z.opp Z.pos_sub].
    rewrite <- Hlen. apply firstn_all.
  - cbn [Model.evcs_chargers]. exact Hnth.
  - exact Hst.
  - reflexivity.
Qed.

(** X25: whatever the adapter configuration holds and whatever values the
    states have kept, the configuration [onReady] builds is inside its
    ranges, with between 1 and 200 charge points, and [_initModel] builds a
    model (no specification is missing) that is inside the ranges of its
    datapoints.  Its charge points are named by [pad2] from 1 on with
    pairwise different ids and have the kinds of [_defaultChargerSpecs];
    each starts at power 0 with no simulation flag set and a session energy
    of at most 100000 kWh, and two numbers are drawn per charge point. *)
Theorem startup_in_range (raw : RawConfig) (store : Store) (now : Z)
    (rng : LcgRandom.t) :
  let c := normalizeConfig raw in
  let n := loopCountFrom1 (chargersCount c) in
  cfgRanged (base c)
  /\ (1 <= n <= 200)%nat
  /\ exists m rng',
       _initModel c store now rng = Some (m, rng')
       /\ plantRanged m
       /\ map Charger.id (Model.evcs_chargers m)
          = map (fun k => chargerName (Z.of_nat k)) (seq 1 n)
       /\ List.NoDup (map Charger.id (Model.evcs_chargers m))
       /\ map (fun ch => (Charger.type ch, Charger.max_kw ch)) (Model.evcs_chargers m)
          = _defaultChargerSpecs (chargersCount c)
       /\ Forall (fun ch => simFlags ch = (false, false, false)
                            /\ Charger.meas_power_kw ch = 0
                            /\ Charger.meas_energy_kwh ch <= 100000)
                 (Model.evcs_chargers m)
       /\ LcgRandom._state rng' = Nat.iter n step2 (LcgRandom._state rng).
Proof.
  cbv zeta. destruct (config_ranged raw) as (Hcfg & Hc1 & Hc2).
  set (c := normalizeConfig raw) in *.
  assert (Hn : (1 <= loopCountFrom1 (chargersCount c) <= 200)%nat).
  { unfold loopCountFrom1.
    assert (1 <= Qfloor (chargersCount c))%Z
      by (change 1%Z with (Qfloor 1); apply Qfloor_resp_le; exact Hc1).
    assert (Qfloor (chargersCount c) <= 200)%Z
      by (change 200%Z with (Qfloor 200); apply Qfloor_resp_le; exact Hc2).
    lia. }
  split; [exact Hcfg|]. split; [exact Hn|].
  destruct (initModel_total c store now rng ltac:(lra))
    as (m & rng' & Hinit & Hrg & Hid & Hkd & Hnth & Hst & _).
  exists m, rng'. split; [exact Hinit|]. split; [exact Hrg|].
  split; [exact Hid|]. split; [rewrite Hid; apply names_nodup; lia|].
  split; [exact Hkd|]. split; [|exact Hst].
  apply List.Forall_forall. intros ch Hin. apply In_nth_error in Hin.
  destruct Hin as [k Hk].
  destruct (Hnth k ch Hk) as (spec & r1 & r2 & _ & _ & _ & ->).
  unfold initCharger, simFlags, clampV.
  cbn [Charger.sim_faulted Charger.sim_unavailable Charger.sim_meter_freeze
       Charger.meas_power_kw Charger.meas_energy_kwh].
  repeat split. apply clampNum_bounds. lra.
Qed.

Lemma clampV_num (x lo hi : Q) : clampV (numV x) lo hi = clamp x lo hi.
Proof. reflexivity. Qed.

(** *** Migration *)

Lemma limitId_reads_back (i : Z) : (1 <= i <= 200)%Z -> limitIndex (limitId i) = Some i.
Proof.
  intros Hi.
  assert (Hall : forallb limitIndexOk
                   (map (fun k => (1 + Z.of_nat k)%Z) (seq 0 200)) = true)
    by (vm_compute; reflexivity).
  rewrite forallb_forall in Hall.
  specialize (Hall i (CommandEdge.range_nat 1 200 i ltac:(lia))).
  unfold limitIndexOk in Hall.
  destruct (limitIndex (limitId i)) as [k|]; [|discriminate].
  apply Z.eqb_eq in Hall. congruence.
Qed.

Lemma limitId_inj (i j : Z) :
  (1 <= i <= 200)%Z -> (1 <= j <= 200)%Z -> limitId i = limitId j -> i = j.
Proof.
  intros Hi Hj E. pose proof (limitId_reads_back i Hi) as Ri.
  pose proof (limitId_reads_back j Hj) as Rj. rewrite E in Ri. congruence.
Qed.

Lemma limitId_not_marker (i : Z) : limitId i <> "info.migration_done"%string.
Proof. unfold limitId, AddressProps.evcsPoint. cbn [String.append]. discriminate. Qed.

Lemma migrateOne_other (store : Store) (i : Z) (id : string) :
  id <> limitId i -> migrateOne store i !! id = store !! id.
Proof.
  intros Hne. unfold migrateOne. fold (limitId i).
  destruct (store !! limitId i) as [[| |b|n|str]|]; try reflexivity;
    (destruct (Number _) as [v| | |]; try reflexivity;
     destruct (Qltb 0 (Qabs v) && Qleb (Qabs v) 500); try reflexivity;
     apply lookup_insert_ne; congruence).
Qed.

Lemma migrateOne_self (store : Store) (i : Z) (val : value) (v : Q) :
  store !! limitId i = Some val -> Number val = Fin v ->
  migrateOne store i !! limitId i
  = Some (if legacy v then numV (Publish.Math_round (v * 1000)) else val).
Proof.
  intros Hs Hn. unfold migrateOne. fold (limitId i). rewrite Hs.
  destruct val as [| |b|n|str].
  - discriminate.
  - cbn in Hn. inversion Hn; subst v. cbn. exact Hs.
  - rewrite Hn. fold (legacy v). destruct (legacy v); [|exact Hs].
    apply lookup_insert_eq.
  - rewrite Hn. fold (legacy v). destruct (legacy v); [|exact Hs].
    apply lookup_insert_eq.
  - rewrite Hn. fold (legacy v). destruct (legacy v); [|exact Hs].
    apply lookup_insert_eq.
Qed.

Lemma migrateFrom_other (id : string) :
  forall (n : nat) (i : Z) (store : Store),
    (forall k, (i <= k < i + Z.of_nat n)%Z -> id <> limitId k) ->
    migrateFrom n i store !! id = store !! id.
Proof.
  induction n as [|n IH]; intros i store Hne; [reflexivity|].
  cbn [migrateFrom]. rewrite IH by (intros k Hk; apply Hne; lia).
  apply migrateOne_other. apply Hne. lia.
Qed.

Lemma migrateFrom_at (val : value) (v : Q) :
  forall (n : nat) (i j : Z) (store : Store),
    (1 <= i)%Z -> (i + Z.of_nat n <= 201)%Z -> (i <= j < i + Z.of_nat n)%Z ->
    store !! limitId j = Some val -> Number val = Fin v ->
    migrateFrom n i store !! limitId j
    = Some (if legacy v then numV (Publish.Math_round (v * 1000)) else val).
Proof.
  induction n as [|n IH]; intros i j store Hi Hn Hj Hs Hv; [lia|].
  cbn [migrateFrom]. destruct (Z.eq_dec j i) as [->|Hne].
  - rewrite migrateFrom_other.
    + apply migrateOne_self; assumption.
    + intros k Hk E. apply limitId_inj in E; lia.
  - apply IH; try lia; [|exact Hv].
    rewrite migrateOne_other; [exact Hs|].
    intros E. apply limitId_inj in E; lia.
Qed.

Lemma migrationCount_range (c : Config) : 1 <= migrationCount c <= 200.
Proof.
  unfold migrationCount, Math_max, Math_min.
  set (r := Publish.Math_round _).
  destruct (Q.max_spec 1 (Qmin 200 r)) as [[H1 ->]|[H1 ->]];
    destruct (Q.min_spec 200 r) as [[H2 E]|[H2 E]]; rewrite ?E in *; lra.
Qed.

(** X27: the migration of legacy limits runs once.  After [_runMigrations]
    the marker [info.migration_done] is set and a second run changes
    nothing; with the marker set from the start nothing is touched.
    Otherwise the limit of each charge point from 1 to the (rounded) count
    whose value converts to a number [v] with 0 < |v| <= 500 becomes
    [Math.round(v * 1000)], any other limit keeps its value, and no other
    state but the marker is written.  A migrated whole number of kilowatts
    is read back by [_normalizePowerKw] as that number. *)
Theorem migration_runs_once (c : Config) (store : Store) :
  let s1 := _runMigrations c store in
  let count := Qfloor (migrationCount c) in
  migrationDone s1 = true
  /\ _runMigrations c s1 = s1
  /\ (1 <= count <= 200)%Z
  /\ (migrationDone store = true -> s1 = store)
  /\ (migrationDone store = false ->
      (forall (i : Z) (val : value) (v : Q),
          (1 <= i <= count)%Z ->
          store !! limitId i = Some val -> Number val = Fin v ->
          s1 !! limitId i
          = Some (if legacy v then numV (Publish.Math_round (v * 1000)) else val))
      /\ (forall id : string,
             id <> "info.migration_done"%string ->
             (forall i, (1 <= i <= count)%Z -> id <> limitId i) ->
             s1 !! id = store !! id))
  /\ (forall kw : Z,
         _normalizePowerKw (numV (Publish.Math_round (inject_Z kw * 1000)))
         == inject_Z kw).
Proof.
  cbv zeta.
  pose proof (migrationCount_range c) as [Hc1 Hc2].
  assert (Hcount : (1 <= Qfloor (migrationCount c) <= 200)%Z).
  { split.
    - change 1%Z with (Qfloor 1). apply Qfloor_resp_le. exact Hc1.
    - change 200%Z with (Qfloor 200). apply Qfloor_resp_le. exact Hc2. }
  assert (Hdone : migrationDone (_runMigrations c store) = true).
  { unfold _runMigrations. destruct (migrationDone store) eqn:Ed; [exact Ed|].
    unfold migrationDone. rewrite lookup_insert_eq. reflexivity. }
  split; [exact Hdone|].
  split; [unfold _runMigrations at 1; rewrite Hdone; reflexivity|].
  split; [exact Hcount|].
  split; [intros Ed; unfold _runMigrations; rewrite Ed; reflexivity|].
  split.
  - intros Ed. unfold _runMigrations. rewrite Ed.
    unfold _migrateLegacyEvcsLimitsToW, loopCountFrom1.
    split.
    + intros i val v Hi Hs Hv.
      rewrite lookup_insert_ne by (apply not_eq_sym, limitId_not_marker).
      apply migrateFrom_at; try assumption; lia.
    + intros id Hm Hne. rewrite lookup_insert_ne by congruence.
      apply migrateFrom_other. intros k Hk. apply Hne. lia.
  - intros kw. unfold _normalizePowerKw, numV. cbn [Number].
    rewrite (PublishEdge.Math_round_integer (inject_Z kw * 1000) (kw * 1000)).
    + rewrite inject_Z_mult. field.
    + rewrite inject_Z_mult. reflexivity.
Qed.

End WithHost.

Lemma migration_runs_once_witness :
  _runMigrations (H := ExampleHost.host)
    (normalizeConfig (H := ExampleHost.host) ExampleStartup.unset)
    ExampleStartup.legacy !! limitId 1
  = Some (numV (Publish.Math_round (11 * 1000))).
Proof.
  destruct (migration_runs_once (H := ExampleHost.host)
              (normalizeConfig (H := ExampleHost.host) ExampleStartup.unset)
              ExampleStartup.legacy)
    as (_ & _ & _ & _ & Hm & _).
  destruct (Hm ltac:(reflexivity)) as [Hat _].
  apply (Hat 1%Z (VNum (Fin 11)) 11); [vm_compute; split; discriminate| |];
    reflexivity.
Defined.

End StartupEdge.
(** ** Scenario controls *)

Module ControlEdge.
Import Command Scenario ScenarioProps ScenarioSpec Control ControlProps.
Local Open Scope Q_scope.

Lemma buttonId_prefix (name : string) :
  String.prefix "scenario.buttons." (buttonId name) = true.
Proof. unfold buttonId. destruct name; reflexivity. Qed.

Lemma buttonId_not_selected (name : string) :
  String.eqb (buttonId name) "scenario.selected" = false.
Proof. apply String.eqb_neq. unfold buttonId. cbn [String.append]. discriminate. Qed.

(** X28: writes below [scenario.] in [main.js].  A write to
    [scenario.selected] ends in the TypeError of the missing
    [_normalizeScenarioId], which the handler catches: nothing is stored and
    nothing acknowledged.  On any other id a value that is not [true], [1]
    or ["true"] is acknowledged and changes nothing.  The press of a
    scenario button or of [scenario.ctrl.start] is acknowledged and then
    ends in the same error: nothing changes and the button is not written
    back to [false].  With no suite running, the press of
    [scenario.ctrl.stop] leaves the scenario stopped and is written back;
    the press of [scenario.ctrl.apply] or [scenario.ctrl.reset] ends in the
    error when model and configuration are set, and otherwise only sets the
    status "model not ready" and is written back.  Were a suite running,
    stop and reset would mark it stopped and then end in the error before
    the scenario is stopped.  A press of any other id below [scenario.] is
    acknowledged and written back. *)
Theorem scenario_controls (a : Adapter) :
  (forall v : value,
      _handleScenarioStateWrite "scenario.selected" v a = (a, [], true))
  /\ (forall (relId : string) (v : value),
         relId <> "scenario.selected"%string -> isPressed v = false ->
         _handleScenarioStateWrite relId v a = (a, [(relId, v)], false))
  /\ (forall (name : string) (v : value),
         isPressed v = true ->
         _handleScenarioStateWrite (buttonId name) v a
         = (a, [(buttonId name, v)], true))
  /\ (forall v : value,
         isPressed v = true ->
         _handleScenarioStateWrite "scenario.ctrl.start" v a
         = (a, [("scenario.ctrl.start"%string, v)], true))
  /\ (forall v : value,
         isPressed v = true -> su_running (_suite a) = false ->
         _handleScenarioStateWrite "scenario.ctrl.stop" v a
         = (_stopScenario "user" a,
            [("scenario.ctrl.stop"%string, v); ("scenario.ctrl.stop"%string, VBool false)],
            false)
         /\ running (_scenario (_stopScenario "user" a)) = false
         /\ phase (_scenario (_stopScenario "user" a)) = "stopped"%string
         /\ reset_pending (_scenario (_stopScenario "user" a)) = false
         /\ _model (_stopScenario "user" a) = _model a)
  /\ (forall (relId : string) (v : value),
         relId = "scenario.ctrl.apply"%string \/ relId = "scenario.ctrl.reset"%string ->
         isPressed v = true -> su_running (_suite a) = false ->
         (ready a ->
          _handleScenarioStateWrite relId v a = (a, [(relId, v)], true))
         /\ (_model a = None \/ _cfg a = None ->
             _handleScenarioStateWrite relId v a
             = (withStatus "model not ready" a,
                [(relId, v); (relId, VBool false)], false)))
  /\ (forall (relId : string) (v : value),
         relId = "scenario.ctrl.stop"%string \/ relId = "scenario.ctrl.reset"%string ->
         isPressed v = true -> su_running (_suite a) = true -> ready a ->
         let r := _handleScenarioStateWrite relId v a in
         snd r = true /\ snd (fst r) = [(relId, v)]
         /\ su_running (_suite (fst (fst r))) = false
         /\ stage (_suite (fst (fst r))) = "stopped"%string
         /\ _scenario (fst (fst r)) = _scenario a
         /\ _model (fst (fst r)) = _model a)
  /\ (forall (relId : string) (v : value),
         isPressed v = true ->
         String.prefix "scenario.buttons." relId = false ->
         ~ In relId [ "scenario.selected"; "scenario.ctrl.apply"; "scenario.ctrl.start";
                      "scenario.ctrl.stop"; "scenario.ctrl.reset" ]%string ->
         _handleScenarioStateWrite relId v a
         = (a, [(relId, v); (relId, VBool false)], false)).
Proof.
  split; [|split; [|split; [|split; [|split; [|split; [|split]]]]]].
  - intros v. reflexivity.
  - intros relId v Hne Hp. unfold _handleScenarioStateWrite.
    apply String.eqb_neq in Hne. rewrite Hne, Hp. cbn [negb].
    destruct (String.prefix "scenario.buttons." relId); reflexivity.
  - intros name v Hp. unfold _handleScenarioStateWrite.
    rewrite buttonId_not_selected, buttonId_prefix, Hp. reflexivity.
  - intros v Hp. unfold _handleScenarioStateWrite. rewrite Hp. reflexivity.
  - intros v Hp Hs. unfold _handleScenarioStateWrite. rewrite Hp.
    change (String.eqb "scenario.ctrl.stop" "scenario.selected") with false.
    change (String.prefix "scenario.buttons." "scenario.ctrl.stop") with false.
    change (String.eqb "scenario.ctrl.stop" "scenario.ctrl.apply") with false.
    change (String.eqb "scenario.ctrl.stop" "scenario.ctrl.start") with false.
    change (String.eqb "scenario.ctrl.stop" "scenario.ctrl.stop") with true.
    cbn [negb]. unfold _stopSuite. rewrite Hs. cbn [negb andThen thenAck app].
    repeat split.
  - intros relId v Hid Hp Hs.
    assert (Hap : forall x : value,
               ready a -> _applyScenario x false a = (a, Threw))
      by (intros x Hr; apply apply_ready; exact Hr).
    assert (Hnr : forall x : value,
               _model a = None \/ _cfg a = None ->
               _applyScenario x false a = (withStatus "model not ready" a, Returned))
      by (intros x Hn; apply apply_not_ready; exact Hn).
    destruct Hid as [-> | ->]; unfold _handleScenarioStateWrite; rewrite Hp.
    + change (String.eqb "scenario.ctrl.apply" "scenario.selected") with false.
      change (String.prefix "scenario.buttons." "scenario.ctrl.apply") with false.
      change (String.eqb "scenario.ctrl.apply" "scenario.ctrl.apply") with true.
      cbn [negb]. rewrite Hs. cbn [andThen].
      split; intros Hc; [rewrite (Hap _ Hc) | rewrite (Hnr _ Hc)]; reflexivity.
    + change (String.eqb "scenario.ctrl.reset" "scenario.selected") with false.
      change (String.prefix "scenario.buttons." "scenario.ctrl.reset") with false.
      change (String.eqb "scenario.ctrl.reset" "scenario.ctrl.apply") with false.
      change (String.eqb "scenario.ctrl.reset" "scenario.ctrl.start") with false.
      change (String.eqb "scenario.ctrl.reset" "scenario.ctrl.stop") with false.
      change (String.eqb "scenario.ctrl.reset" "scenario.ctrl.reset") with true.
      cbn [negb]. unfold _stopSuite. rewrite Hs. cbn [negb andThen].
      split; intros Hc; [rewrite (Hap _ Hc) | rewrite (Hnr _ Hc)]; reflexivity.
  - intros relId v Hid Hp Hs Hr. cbv zeta.
    assert (Hst : exists a1 : Adapter,
               _stopSuite "user" a = (a1, Threw)
               /\ su_running (_suite a1) = false
               /\ stage (_suite a1) = "stopped"%string
               /\ _scenario a1 = _scenario a /\ _model a1 = _model a).
    { unfold _stopSuite. rewrite Hs. cbn [negb].
      eexists. split; [apply apply_ready|repeat split].
      destruct Hr as [[m Hm] [c Hc]]. split; [exists m|exists c]; assumption. }
    destruct Hst as (a1 & E1 & H1 & H2 & H3 & H4).
    destruct Hid as [-> | ->]; unfold _handleScenarioStateWrite; rewrite Hp.
    + change (String.eqb "scenario.ctrl.stop" "scenario.selected") with false.
      change (String.prefix "scenario.buttons." "scenario.ctrl.stop") with false.
      change (String.eqb "scenario.ctrl.stop" "scenario.ctrl.apply") with false.
      change (String.eqb "scenario.ctrl.stop" "scenario.ctrl.start") with false.
      change (String.eqb "scenario.ctrl.stop" "scenario.ctrl.stop") with true.
      cbn [negb]. rewrite E1. cbn. repeat split; assumption.
    + change (String.eqb "scenario.ctrl.reset" "scenario.selected") with false.
      change (String.prefix "scenario.buttons." "scenario.ctrl.reset") with false.
      change (String.eqb "scenario.ctrl.reset" "scenario.ctrl.apply") with false.
      change (String.eqb "scenario.ctrl.reset" "scenario.ctrl.start") with false.
      change (String.eqb "scenario.ctrl.reset" "scenario.ctrl.stop") with false.
      change (String.eqb "scenario.ctrl.reset" "scenario.ctrl.reset") with true.
      cbn [negb]. rewrite E1. cbn. repeat split; assumption.
  - intros relId v Hp Hb Hn. unfold _handleScenarioStateWrite. rewrite Hp, Hb.
    cbn [negb].
    assert (E : forall s : string,
               In s [ "scenario.selected"; "scenario.ctrl.apply"; "scenario.ctrl.start";
                      "scenario.ctrl.stop"; "scenario.ctrl.reset" ]%string ->
               String.eqb relId s = false).
    { intros s Hs. apply String.eqb_neq. intros ->. contradiction. }
    rewrite !E by (cbn; tauto). reflexivity.
Qed.

Lemma scenario_controls_witness :
  _handleScenarioStateWrite "scenario.ctrl.reset" (VNum (Fin 0)) ExampleStartup.adapter
  = (ExampleStartup.adapter, [("scenario.ctrl.reset"%string, VNum (Fin 0))], false)
  /\ _handleScenarioStateWrite "scenario.ctrl.reset" (VBool true) ExampleStartup.adapter
     = (ExampleStartup.adapter, [("scenario.ctrl.reset"%string, VBool true)], true).
Proof.
  destruct (scenario_controls ExampleStartup.adapter)
    as (_ & Hu & _ & _ & _ & Hp & _).
  split.
  - apply Hu; [discriminate | reflexivity].
  - apply (Hp "scenario.ctrl.reset"%string (VBool true)).
    + right. reflexivity.
    + reflexivity.
    + vm_compute. reflexivity.
    + split; eexists; vm_compute; reflexivity.
Defined.

End ControlEdge.
(** ** The write counters of a report *)

Module WriteLogEdge.
Import WriteLog WriteLogProps PlantProps.
Local Open Scope Q_scope.

Lemma bump_other (k k' : string) (w : Log) : k <> k' -> bump k w !! k' = w !! k'.
Proof. intros Hne. unfold bump. apply lookup_insert_ne. exact Hne. Qed.

Lemma bump_same (k : string) (w : Log) :
  (w !! k = None \/ exists q, w !! k = Some (VNum (Fin q))) ->
  (exists q, bump k w !! k = Some (VNum (Fin q)))
  /\ counter (bump k w) k == counter w k + 1.
Proof.
  intros Hk. unfold bump, counter, field. rewrite lookup_insert_eq.
  destruct Hk as [E|[q E]]; rewrite E.
  - cbn. split; [eexists; reflexivity|reflexivity].
  - unfold orZeroPlusOne, truthy.
    destruct (Qeq_bool q 0) eqn:Eq; cbn [negb].
    + split; [eexists; reflexivity|]. apply Qeq_bool_eq in Eq. rewrite Eq. reflexivity.
    + split; [eexists; reflexivity|reflexivity].
Qed.

Lemma category_known (relId : string) : In (category relId) categories.
Proof.
  unfold category, categories.
  repeat match goal with
         | |- In (if ?b then _ else _) _ => destruct b
         end; cbn; tauto.
Qed.

Lemma category_not_total (relId : string) : category relId <> "total"%string.
Proof.
  pose proof (category_known relId) as Hin. unfold categories in Hin. cbn [In] in Hin.
  intros E. rewrite E in Hin.
  repeat (destruct Hin as [Hin|Hin]; [discriminate|]). exact Hin.
Qed.

Lemma sum_one_more (f g : string -> Q) (c : string) :
  forall l : list string,
    List.NoDup l -> In c l -> g c == f c + 1 ->
    (forall k, In k l -> k <> c -> g k == f k) ->
    sumQ (map g l) == sumQ (map f l) + 1.
Proof.
  induction l as [|x rest IH]; intros Hnd Hin Hc Ho; [contradiction|].
  inversion Hnd as [|? ? Hx Hrest]; subst. cbn [map sumQ fold_right].
  fold (sumQ (map g rest)). fold (sumQ (map f rest)).
  destruct Hin as [->|Hin].
  - assert (E : sumQ (map g rest) == sumQ (map f rest)).
    { clear IH Hnd Hrest. induction rest as [|y r IHr]; [reflexivity|].
      cbn [map sumQ fold_right]. fold (sumQ (map g r)). fold (sumQ (map f r)).
      rewrite IHr.
      - rewrite (Ho y); [reflexivity|right; left; reflexivity|].
        intros ->. apply Hx. left. reflexivity.
      - intros Hc'. apply Hx. right. exact Hc'.
      - intros k [->|Hk] Hne; apply Ho; try assumption;
          [left; reflexivity|right; right; exact Hk]. }
    rewrite E, Hc. ring.
  - rewrite (IH Hrest Hin Hc).
    + rewrite (Ho x); [ring|left; reflexivity|].
      intros ->. contradiction.
    + intros k Hk Hne. apply Ho; [right; exact Hk|exact Hne].
Qed.

Lemma categories_NoDup : List.NoDup categories.
Proof.
  unfold categories. repeat constructor; cbn; intuition discriminate.
Qed.

(** One counted write. *)
Lemma counted (sr ur : bool) (nowMs : Z) (w : Log) (relId : string) (v : value) :
  sr || ur = true -> numeric w ->
  let w' := _reportOnWrite sr ur nowMs w relId v in
  numeric w'
  /\ counter w' "total" == counter w "total" + 1
  /\ counter w' (category relId) == counter w (category relId) + 1
  /\ (forall k, In k categories -> k <> category relId -> counter w' k = counter w k)
  /\ w' !! "last_write_id"%string = Some (VStr relId)
  /\ w' !! "last_write_val"%string = Some v
  /\ w' !! "last_write_ms"%string = Some (VNum (Fin (inject_Z nowMs))).
Proof.
  intros Hrun Hnum. cbv zeta. unfold _reportOnWrite.
  assert (E : negb sr && negb ur = false) by (destruct sr, ur; try discriminate; reflexivity).
  rewrite E.
  pose proof (category_known relId) as Hcat.
  pose proof (category_not_total relId) as Hnt.
  set (c := category relId) in *.
  assert (Hlast : c <> "last_write_id"%string /\ c <> "last_write_val"%string
                  /\ c <> "last_write_ms"%string).
  { unfold categories in Hcat. cbn [In] in Hcat.
    repeat (destruct Hcat as [<-|Hcat]; [repeat split; discriminate|]).
    contradiction. }
  destruct Hlast as (L1 & L2 & L3).
  set (w1 := bump "total" w).
  set (w4 := <["last_write_ms"%string := VNum (Fin (inject_Z nowMs))]>
               (<["last_write_val"%string := v]>
                  (<["last_write_id"%string := VStr relId]> w1))).
  assert (H4 : forall k, In k ("total"%string :: categories) -> w4 !! k = w1 !! k).
  { intros k Hk. unfold w4. unfold categories in Hk. cbn [In] in Hk.
    repeat (destruct Hk as [<-|Hk];
            [rewrite !lookup_insert_ne by discriminate; reflexivity|]).
    contradiction. }
  assert (H1 : forall k, k <> "total"%string -> w1 !! k = w !! k).
  { intros k Hk. unfold w1. apply bump_other. congruence. }
  destruct (bump_same "total" w (Hnum _ (or_introl eq_refl))) as [[q1 Hq1] Ht].
  fold w1 in Hq1, Ht.
  assert (Hc4 : w4 !! c = None \/ exists q, w4 !! c = Some (VNum (Fin q))).
  { rewrite (H4 c) by (right; exact Hcat). rewrite (H1 c Hnt).
    apply Hnum. right. exact Hcat. }
  destruct (bump_same c w4 Hc4) as [[q2 Hq2] Hcnt].
  split; [|split; [|split; [|split; [|split; [|split]]]]].
  - intros k Hk. destruct (string_dec k c) as [->|Hne].
    + right. exists q2. exact Hq2.
    + rewrite (bump_other c k w4) by congruence. rewrite (H4 k Hk).
      destruct (string_dec k "total") as [->|Hne'].
      * right. exists q1. exact Hq1.
      * rewrite (H1 k Hne'). apply Hnum. exact Hk.
  - unfold counter at 1. rewrite (bump_other c "total" w4) by exact Hnt.
    rewrite (H4 "total"%string) by (left; reflexivity).
    fold (counter w1 "total"). exact Ht.
  - rewrite Hcnt. unfold counter.
    rewrite (H4 c) by (right; exact Hcat). rewrite (H1 c Hnt). reflexivity.
  - intros k Hk Hne. unfold counter.
    rewrite (bump_other c k w4) by congruence.
    rewrite (H4 k) by (right; exact Hk).
    rewrite (H1 k); [reflexivity|].
    intros ->. unfold categories in Hk. cbn [In] in Hk.
    repeat (destruct Hk as [Hk|Hk]; [discriminate|]). exact Hk.
  - rewrite (bump_other c _ w4) by exact L1. unfold w4.
    rewrite !lookup_insert_ne by discriminate. apply lookup_insert_eq.
  - rewrite (bump_other c _ w4) by exact L2. unfold w4.
    rewrite lookup_insert_ne by discriminate. apply lookup_insert_eq.
  - rewrite (bump_other c _ w4) by exact L3. unfold w4. apply lookup_insert_eq.
Qed.

(** X29: while a scenario or the suite is running every write is counted
    exactly once: [total] and one category go up by one and no other
    counter changes.  So over the writes of a run, starting from the
    object of [_reportStart] or from the empty object in which the writes
    of a suite pause are counted, [total] is the number of writes and
    equals the sum of the categories.  With nothing running a write is
    not recorded.  Commands to the charge points 1 to 99 count as
    [evcs_limit], [evcs_enable] and [evcs_plug]; those to the charge points
    100 to 200, whose names have three digits, count as [other]. *)
Theorem writes_counted_once (sr ur : bool) :
  (forall (nowMs : Z) (w : Log) (relId : string) (v : value),
      sr = false -> ur = false -> _reportOnWrite sr ur nowMs w relId v = w)
  /\ (sr || ur = true ->
      forall (writes : list (Z * string * value)) (w : Log),
        numeric w -> balanced w ->
        let w' := record sr ur writes w in
        numeric w' /\ balanced w'
        /\ counter w' "total" == counter w "total" + inject_Z (Z.of_nat (length writes)))
  /\ (numeric started /\ balanced started /\ counter started "total" == 0)
  /\ (numeric ∅ /\ balanced ∅ /\ counter ∅ "total" == 0)
  /\ (forall i : Z, (1 <= i <= 99)%Z ->
        countedAs [ "evcs_limit"; "evcs_enable"; "evcs_plug" ]%string i = true)
  /\ (forall i : Z, (100 <= i <= 200)%Z ->
        countedAs [ "other"; "other"; "other" ]%string i = true).
Proof.
  split; [|split; [|split; [|split; [|split]]]].
  - intros nowMs w relId v -> ->. reflexivity.
  - intros Hrun writes. unfold record.
    induction writes as [|[[t relId] v] rest IH]; intros w Hnum Hbal; cbv zeta.
    + cbn [fold_left length]. repeat split; try assumption.
      change (inject_Z (Z.of_nat 0)) with 0. ring.
    + cbn [fold_left fst snd].
      destruct (counted sr ur t w relId v Hrun Hnum)
        as (Hnum' & Ht & Hc & Ho & _).
      cbv zeta in Hnum', Ht, Hc, Ho.
      set (w1 := _reportOnWrite sr ur t w relId v) in *.
      assert (Hbal' : balanced w1).
      { unfold balanced in *. rewrite Ht, <- Hbal.
        apply (sum_one_more (counter w) (counter w1) (category relId)).
        - exact categories_NoDup.
        - apply category_known.
        - exact Hc.
        - intros k Hk Hne. rewrite (Ho k Hk Hne). reflexivity. }
      destruct (IH w1 Hnum' Hbal') as (Hn2 & Hb2 & Ht2). cbv zeta in Hn2, Hb2, Ht2.
      split; [exact Hn2|]. split; [exact Hb2|].
      rewrite Ht2, Ht. cbn [length]. rewrite Nat2Z.inj_succ.
      unfold Z.succ. rewrite inject_Z_plus. change (inject_Z 1) with 1. ring.
  - split; [|split; [vm_compute; reflexivity|vm_compute; reflexivity]].
    intros k Hk. right. unfold categories in Hk. cbn [In] in Hk.
    repeat (destruct Hk as [<-|Hk]; [eexists; vm_compute; reflexivity|]).
    contradiction.
  - split; [|split; [vm_compute; reflexivity|vm_compute; reflexivity]].
    intros k _. left. apply lookup_empty.
  - intros i Hi.
    assert (Hall : forallb (countedAs [ "evcs_limit"; "evcs_enable"; "evcs_plug" ]%string)
                     (map (fun k => (1 + Z.of_nat k)%Z) (seq 0 99)) = true)
      by (vm_compute; reflexivity).
    rewrite forallb_forall in Hall. apply Hall.
    apply CommandEdge.range_nat. lia.
  - intros i Hi.
    assert (Hall : forallb (countedAs [ "other"; "other"; "other" ]%string)
                     (map (fun k => (100 + Z.of_nat k)%Z) (seq 0 101)) = true)
      by (vm_compute; reflexivity).
    rewrite forallb_forall in Hall. apply Hall.
    apply CommandEdge.range_nat. lia.
Qed.

Lemma writes_counted_once_witness :
  counter (record true false
             [ (1000%Z, "grid.limit_kw"%string, VNum (Fin 30000));
               (2000%Z, "evcs.c100.ctrl.enabled"%string, VBool true) ] started)
          "total"
  == counter started "total" + inject_Z (Z.of_nat 2).
Proof.
  destruct (writes_counted_once true false) as (_ & Hrec & (Hn & Hb & _) & _).
  exact (proj2 (proj2 (Hrec eq_refl _ started Hn Hb))).
Defined.

End WriteLogEdge.
(** ** The ids of a publish pass *)

Module PublishIds.
Import Publish PublishProps.

Lemma distinctb_NoDup (l : list string) : distinctb l = true -> List.NoDup l.
Proof.
  induction l as [|x rest IH]; intros E; [constructor|].
  cbn [distinctb] in E. apply andb_prop in E. destruct E as [E1 E2].
  constructor; [|apply IH; exact E2].
  intros Hin. apply negb_true_iff in E1.
  assert (Ht : existsb (String.eqb x) rest = true).
  { apply existsb_exists. exists x. split; [exact Hin|apply String.eqb_refl]. }
  congruence.
Qed.

Lemma splitDot_app (id tail : string) :
  noDot id = true ->
  splitDot (String.append id (String.append "." tail)) = Some (id, tail).
Proof.
  unfold noDot. induction id as [|c id IH]; intros Hn.
  - reflexivity.
  - cbn [list_ascii_of_string forallb] in Hn. apply andb_prop in Hn.
    destruct Hn as [Hc Hn]. apply negb_true_iff in Hc.
    change (String.append (String c id) (String.append "." tail))
      with (String c (String.append id (String.append "." tail))).
    cbn [splitDot]. rewrite Hc, (IH Hn). reflexivity.
Qed.

Lemma evcsParts_key (c : Charger.t) (k : string) :
  noDot (Charger.id c) = true -> In k (chargerKeys c) ->
  exists t, In t tails /\ evcsParts k = Some (Charger.id c, t).
Proof.
  intros Hn Hin. unfold chargerKeys in Hin. apply in_map_iff in Hin.
  destruct Hin as (t & <- & Ht). exists t. split; [exact Ht|].
  change (evcsParts _)
    with (splitDot (String.append (Charger.id c) (String.append "." t))).
  apply splitDot_app. exact Hn.
Qed.

Lemma chargerKeys_NoDup (c : Charger.t) :
  noDot (Charger.id c) = true -> List.NoDup (chargerKeys c).
Proof.
  intros Hn. unfold chargerKeys.
  apply NoDup_ListNoDup, NoDup_fmap_2_strong.
  - intros t1 t2 _ _ E.
    assert (E' : splitDot (String.append (Charger.id c) (String.append "." t1))
                 = splitDot (String.append (Charger.id c) (String.append "." t2))).
    { cbn [String.append] in E. inversion E as [E0].
      change (String.append (Charger.id c) (String.append "." t1)
              = String.append (Charger.id c) (String.append "." t2)) in E0.
      rewrite E0. reflexivity. }
    rewrite !splitDot_app in E' by exact Hn. congruence.
  - apply NoDup_ListNoDup. apply distinctb_NoDup. vm_compute. reflexivity.
Qed.

Lemma flat_keys (l : list Charger.t) :
  map fst (flat_map chargerCandidates l) = flat_map chargerKeys l.
Proof.
  induction l as [|c rest IH]; [reflexivity|].
  cbn [flat_map]. rewrite map_app, IH. reflexivity.
Qed.

Lemma flat_parts (l : list Charger.t) (k : string) :
  Forall (fun c => noDot (Charger.id c) = true) l ->
  In k (flat_map chargerKeys l) ->
  exists c t, In c l /\ In t tails /\ evcsParts k = Some (Charger.id c, t).
Proof.
  intros Hall Hin. apply in_flat_map in Hin. destruct Hin as (c & Hc & Hk).
  rewrite List.Forall_forall in Hall.
  destruct (evcsParts_key c k (Hall c Hc) Hk) as (t & Ht & E).
  exists c, t. repeat split; assumption.
Qed.

Lemma flat_NoDup (l : list Charger.t) :
  Forall (fun c => noDot (Charger.id c) = true) l ->
  List.NoDup (map Charger.id l) ->
  List.NoDup (flat_map chargerKeys l).
Proof.
  induction l as [|c rest IH]; intros Hall Hnd; [constructor|].
  inversion Hall as [|? ? Hc Hrest]; subst.
  cbn [map] in Hnd. inversion Hnd as [|? ? Hnin Hnd']; subst.
  cbn [flat_map]. apply NoDup_ListNoDup, NoDup_app.
  split; [apply NoDup_ListNoDup, chargerKeys_NoDup; exact Hc|].
  split; [|apply NoDup_ListNoDup, IH; assumption].
  intros k Hk Hk'. apply list_elem_of_In in Hk. apply list_elem_of_In in Hk'.
  destruct (evcsParts_key c k Hc Hk) as (t & _ & E).
  destruct (flat_parts rest k Hrest Hk') as (c' & t' & Hc' & _ & E').
  rewrite E in E'. inversion E' as [[Hid Ht]].
  apply Hnin. rewrite Hid. apply in_map. exact Hc'.
Qed.

Section WithJson.
Context `{JsonHost}.

Lemma plant_keys (m : Model.t) (tp te : Q) :
  map fst (plantCandidates m ++ aggregateCandidates m tp te)
  = (fixedKeys ++ flat_map chargerKeys (Model.evcs_chargers m)) ++ aggregateKeys.
Proof.
  unfold plantCandidates, aggregateCandidates, deviceCandidates.
  rewrite !map_app, flat_keys. reflexivity.
Qed.

(** X30: in a publish pass over the plant no id is offered twice, provided
    the charge points have pairwise different ids without a full stop (as
    the names [c01], [c02], ... are): the ids of [_publish] from
    [grid.available] on and of [_publishAggregates] are pairwise different.
    The ids of a charge point are [evcs.<id>.<field>] for thirteen fields,
    and read back as that charge point and field. *)
Theorem publish_ids_distinct (m : Model.t) (tp te : Q) :
  Forall (fun c => noDot (Charger.id c) = true) (Model.evcs_chargers m) ->
  List.NoDup (map Charger.id (Model.evcs_chargers m)) ->
  List.NoDup (map fst (plantCandidates m ++ aggregateCandidates m tp te))
  /\ length (plantCandidates m) = (29 + 13 * length (Model.evcs_chargers m))%nat
  /\ (forall (c : Charger.t) (k : string),
         In c (Model.evcs_chargers m) -> In k (map fst (chargerCandidates c)) ->
         In k (map fst (plantCandidates m))
         /\ exists t, In t tails /\ evcsParts k = Some (Charger.id c, t)).
Proof.
  intros Hall Hnd.
  assert (Hplain : List.NoDup (fixedKeys ++ aggregateKeys))
    by (apply distinctb_NoDup; vm_compute; reflexivity).
  assert (Hnone : forall k, In k (fixedKeys ++ aggregateKeys) -> evcsParts k = None).
  { assert (Hb : forallb noParts (fixedKeys ++ aggregateKeys) = true)
      by (vm_compute; reflexivity).
    rewrite forallb_forall in Hb. intros k Hk. specialize (Hb k Hk).
    unfold noParts in Hb. destruct (evcsParts k); [discriminate|reflexivity]. }
  apply NoDup_ListNoDup, NoDup_app in Hplain.
  destruct Hplain as (Hfix & Hdis & Hagg).
  split; [|split].
  - rewrite plant_keys. apply NoDup_ListNoDup, NoDup_app.
    split; [apply NoDup_app; split; [exact Hfix|split]|split; [|exact Hagg]].
    + intros k Hk Hk'. apply list_elem_of_In in Hk. apply list_elem_of_In in Hk'.
      destruct (flat_parts _ k Hall Hk') as (c & t & _ & _ & E).
      rewrite (Hnone k) in E; [discriminate|]. apply in_or_app. left. exact Hk.
    + apply NoDup_ListNoDup, flat_NoDup; assumption.
    + intros k Hk Hk'. apply elem_of_app in Hk. destruct Hk as [Hk|Hk].
      * exact (Hdis k Hk Hk').
      * apply list_elem_of_In in Hk. apply list_elem_of_In in Hk'.
        destruct (flat_parts _ k Hall Hk) as (c & t & _ & _ & E).
        rewrite (Hnone k) in E; [discriminate|]. apply in_or_app. right. exact Hk'.
  - unfold plantCandidates, deviceCandidates. rewrite !length_app.
    cbn [length]. clear.
    induction (Model.evcs_chargers m) as [|c rest IH]; [reflexivity|].
    cbn [flat_map]. rewrite length_app. cbn [chargerCandidates length] in *. lia.
  - intros c k Hc Hk. split.
    + unfold plantCandidates. rewrite !map_app. apply in_or_app. right.
      apply in_or_app. right. apply in_or_app. right. apply in_or_app. right.
      rewrite flat_keys. apply in_flat_map. exists c. split; [exact Hc|].
      exact Hk.
    + rewrite List.Forall_forall in Hall. apply (evcsParts_key c k (Hall c Hc)).
      exact Hk.
Qed.

End WithJson.

Lemma publish_ids_distinct_witness :
  List.NoDup (map fst (plantCandidates (H := ExampleJson.json) Sample.model
                       ++ aggregateCandidates Sample.model 0 0)).
Proof.
  apply (publish_ids_distinct (H := ExampleJson.json) Sample.model 0 0).
  - unfold Sample.model, Sample.chargers. cbn [Model.evcs_chargers].
    repeat constructor.
  - apply distinctb_NoDup. vm_compute. reflexivity.
Defined.

End PublishIds.

(** ** A new installation *)

Module InstallEdge.
Import Scenario Startup StartupProps InstallProps PublishProps AddressProps.
Import PlantProps HelperProps.
Local Open Scope Q_scope.

(** *** Defaults and the store *)

Lemma ensure_keep (l : list (string * value)) :
  forall (s : Store) (k : string) (v : value),
    persisted v = true -> s !! k = Some v -> ensureAll l s !! k = Some v.
Proof.
  induction l as [|[k' d] l IH]; intros s k v Hv Hs; [exact Hs|].
  cbn [ensureAll fold_left fst snd]. apply (IH _ k v Hv).
  unfold _ensureState.
  destruct d; try exact Hs;
    (destruct (String.eqb k' k) eqn:E;
     [apply String.eqb_eq in E; subst k'; rewrite Hs; destruct v; try discriminate Hv;
      exact Hs
     |apply String.eqb_neq in E;
      destruct (s !! k') as [[]|]; try exact Hs;
      rewrite lookup_insert_ne by exact E; exact Hs]).
Qed.

Lemma ensure_assoc (l : list (string * value)) :
  forall (s : Store) (k : string),
    List.Forall (fun p => persisted (snd p) = true) l ->
    s !! k = None -> ensureAll l s !! k = assoc k l.
Proof.
  induction l as [|[k' d] l IH]; intros s k Hp Hs; [exact Hs|].
  inversion Hp as [|? ? Hd Hl]; subst. cbn [snd] in Hd.
  cbn [ensureAll fold_left fst snd assoc].
  destruct (String.eqb k' k) eqn:E.
  - apply String.eqb_eq in E. subst k'.
    apply (ensure_keep l _ k d Hd).
    unfold _ensureState. rewrite Hs.
    destruct d; try discriminate Hd; apply lookup_insert_eq.
  - apply String.eqb_neq in E. apply (IH _ k Hl).
    unfold _ensureState.
    destruct d; try exact Hs;
      (destruct (s !! k') as [[]|]; try exact Hs;
       rewrite lookup_insert_ne by exact E; exact Hs).
Qed.

Lemma ensureAll_app (l1 l2 : list (string * value)) (s : Store) :
  ensureAll (l1 ++ l2) s = ensureAll l2 (ensureAll l1 s).
Proof. unfold ensureAll. apply fold_left_app. Qed.

Lemma assoc_app (k : string) (l1 l2 : list (string * value)) :
  assoc k (l1 ++ l2)
  = match assoc k l1 with Some d => Some d | None => assoc k l2 end.
Proof.
  induction l1 as [|[k' d] l1 IH]; [reflexivity|].
  cbn [app assoc]. destruct (String.eqb k' k); [reflexivity|exact IH].
Qed.

Lemma assoc_none (k : string) (l : list (string * value)) :
  (forall p, In p l -> fst p <> k) -> assoc k l = None.
Proof.
  induction l as [|[k' d] l IH]; intros Hn; [reflexivity|].
  cbn [assoc]. destruct (String.eqb k' k) eqn:E.
  - apply String.eqb_eq in E. exfalso. apply (Hn (k', d)); [left; reflexivity|exact E].
  - apply IH. intros p Hp. apply Hn. right. exact Hp.
Qed.

Lemma assoc_In (k : string) (d : value) (l : list (string * value)) :
  assoc k l = Some d -> In (k, d) l.
Proof.
  induction l as [|[k' d'] l IH]; intros E; [discriminate E|].
  cbn [assoc] in E. destruct (String.eqb k' k) eqn:Ek.
  - apply String.eqb_eq in Ek. subst k'. injection E as ->. left. reflexivity.
  - right. apply IH. exact E.
Qed.

Lemma persisted_plant (c : Config) :
  List.Forall (fun p => persisted (snd p) = true) (plantStates c).
Proof.
  unfold plantStates. rewrite !List.Forall_app. split; [|split].
  - repeat constructor.
  - rewrite List.Forall_map. apply List.Forall_forall. intros d _. reflexivity.
  - repeat constructor.
Qed.

Lemma block_fields (c : Config) (i : Z) (spec : Charger.Kind * Q) :
  chargerStates c i spec
  = map (fun p => (evcsPoint i (fst p), snd p)) (chargerFields c i spec).
Proof. reflexivity. Qed.

Lemma persisted_block (c : Config) (i : Z) (spec : Charger.Kind * Q) :
  List.Forall (fun p => persisted (snd p) = true) (chargerStates c i spec).
Proof. unfold chargerStates. repeat constructor. Qed.

Lemma persisted_blocks (c : Config) (specs : list (Charger.Kind * Q)) (n : nat) :
  forall i : Z,
    List.Forall (fun p => persisted (snd p) = true) (chargerBlocks c specs n i).
Proof.
  induction n as [|n IH]; intros i; [constructor|].
  cbn [chargerBlocks]. apply List.Forall_app. split; [|apply IH].
  destruct (nth_error specs (Z.to_nat (i - 1))); [apply persisted_block|constructor].
Qed.

Lemma createChargers_blocks (c : Config) (specs : list (Charger.Kind * Q)) (n : nat) :
  forall (i : Z) (s : Store),
    (1 <= i)%Z -> (Z.to_nat (i - 1) + n <= length specs)%nat ->
    createChargers c specs n i s = (ensureAll (chargerBlocks c specs n i) s, Returned).
Proof.
  induction n as [|n IH]; intros i s Hi Hlen; [reflexivity|].
  cbn [createChargers chargerBlocks].
  destruct (nth_error specs (Z.to_nat (i - 1))) as [spec|] eqn:Hs.
  2:{ apply nth_error_None in Hs. lia. }
  rewrite ensureAll_app. apply IH; lia.
Qed.

(** *** Ids *)

Lemma names_whole (i : Z) : (0 <= i <= 200)%Z -> nameOk i = true.
Proof.
  intros Hi.
  assert (Hall : forallb nameOk (map (fun k => (0 + Z.of_nat k)%Z) (seq 0 201)) = true)
    by (vm_compute; reflexivity).
  rewrite forallb_forall in Hall. apply Hall. apply CommandEdge.range_nat. lia.
Qed.

Lemma evcsPoint_parts (i : Z) (t : string) :
  (0 <= i <= 200)%Z -> evcsParts (evcsPoint i t) = Some (chargerName i, t).
Proof.
  intros Hi. unfold evcsPoint.
  change (evcsParts _)
    with (splitDot (String.append (chargerName i) (String.append "." t))).
  apply PublishIds.splitDot_app. apply (names_whole i Hi).
Qed.

Lemma evcsPoint_inj (i j : Z) (t u : string) :
  (0 <= i <= 200)%Z -> (0 <= j <= 200)%Z ->
  evcsPoint i t = evcsPoint j u -> i = j /\ t = u.
Proof.
  intros Hi Hj E.
  pose proof (evcsPoint_parts i t Hi) as Pi. rewrite E in Pi.
  rewrite (evcsPoint_parts j u Hj) in Pi.
  split; [apply StartupEdge.chargerName_inj; [assumption|assumption|congruence]
         |congruence].
Qed.

Lemma plant_noParts (c : Config) (k : string) :
  In k (map fst (plantStates c)) -> evcsParts k = None.
Proof.
  intros Hin.
  assert (Hall : forallb noParts (map fst (plantStates c)) = true) by reflexivity.
  rewrite forallb_forall in Hall. specialize (Hall k Hin). unfold noParts in Hall.
  destruct (evcsParts k); [discriminate Hall|reflexivity].
Qed.

Lemma plant_assoc_point (c : Config) (i : Z) (t : string) :
  (0 <= i <= 200)%Z -> assoc (evcsPoint i t) (plantStates c) = None.
Proof.
  intros Hi. apply assoc_none. intros p Hp E.
  assert (Hk : In (evcsPoint i t) (map fst (plantStates c)))
    by (rewrite <- E; apply in_map; exact Hp).
  apply plant_noParts in Hk. rewrite (evcsPoint_parts i t Hi) in Hk. discriminate Hk.
Qed.

Lemma eqb_append_l (p a b : string) :
  String.eqb (String.append p a) (String.append p b) = String.eqb a b.
Proof.
  induction p as [|ch p IH]; [reflexivity|].
  simpl. rewrite Ascii.eqb_refl. exact IH.
Qed.

Lemma eqb_evcsPoint (i : Z) (a b : string) :
  String.eqb (evcsPoint i a) (evcsPoint i b) = String.eqb a b.
Proof. unfold evcsPoint. rewrite !eqb_append_l. reflexivity. Qed.

Lemma block_self (i : Z) (t : string) (l : list (string * value)) :
  assoc (evcsPoint i t) (map (fun p => (evcsPoint i (fst p), snd p)) l) = assoc t l.
Proof.
  induction l as [|[t' d] l IH]; [reflexivity|].
  cbn [map assoc fst snd]. rewrite eqb_evcsPoint, IH. reflexivity.
Qed.

Lemma block_other (c : Config) (i j : Z) (t : string) (spec : Charger.Kind * Q) :
  (0 <= i <= 200)%Z -> (0 <= j <= 200)%Z -> i <> j ->
  assoc (evcsPoint i t) (chargerStates c j spec) = None.
Proof.
  intros Hi Hj Hne. apply assoc_none. intros p Hp E.
  rewrite block_fields in Hp. apply in_map_iff in Hp.
  destruct Hp as (q & <- & _). cbn [fst] in E.
  apply evcsPoint_inj in E; [|assumption|assumption]. destruct E as [E _].
  apply Hne. symmetry. exact E.
Qed.

Lemma blocks_assoc (c : Config) (specs : list (Charger.Kind * Q)) (t : string)
    (d : value) (n : nat) :
  forall (i0 i : Z) (spec : Charger.Kind * Q),
    (1 <= i0)%Z -> (i0 <= i < i0 + Z.of_nat n)%Z -> (i0 + Z.of_nat n <= 201)%Z ->
    nth_error specs (Z.to_nat (i - 1)) = Some spec ->
    assoc t (chargerFields c i spec) = Some d ->
    assoc (evcsPoint i t) (chargerBlocks c specs n i0) = Some d.
Proof.
  induction n as [|n IH]; intros i0 i spec H0 Hi Hn Hs Hd; [lia|].
  cbn [chargerBlocks]. rewrite assoc_app.
  destruct (Z.eq_dec i i0) as [->|Hne].
  - rewrite Hs, block_fields, block_self, Hd. reflexivity.
  - replace (assoc (evcsPoint i t)
               match nth_error specs (Z.to_nat (i0 - 1)) with
               | Some spec0 => chargerStates c i0 spec0
               | None => []
               end) with (@None value).
    + apply (IH (i0 + 1)%Z i spec); try assumption; lia.
    + symmetry. destruct (nth_error specs (Z.to_nat (i0 - 1))); [|reflexivity].
      apply block_other; lia.
Qed.

(** Whatever the blocks hold under an id of a limit is the default of a
    limit. *)
Lemma blocks_limit (c : Config) (specs : list (Charger.Kind * Q)) (i : Z) (d : value)
    (n : nat) :
  (0 <= i <= 200)%Z ->
  forall i0 : Z,
    (1 <= i0)%Z -> (i0 + Z.of_nat n <= 201)%Z ->
    In (limitId i, d) (chargerBlocks c specs n i0) ->
    exists spec : Charger.Kind * Q,
      In spec specs /\ d = numV (Publish.Math_round (snd spec * 1000)).
Proof.
  intros Hi. induction n as [|n IH]; intros i0 H0 Hn Hin; [destruct Hin|].
  cbn [chargerBlocks] in Hin. apply in_app_or in Hin. destruct Hin as [Hin|Hin].
  - destruct (nth_error specs (Z.to_nat (i0 - 1))) as [spec|] eqn:Hs; [|destruct Hin].
    exists spec. split; [eapply nth_error_In; exact Hs|].
    rewrite block_fields in Hin. apply in_map_iff in Hin.
    destruct Hin as ([t' d'] & E & Hf). cbn [fst snd] in E.
    pose proof (f_equal fst E) as Ek. pose proof (f_equal snd E) as Ed.
    cbn [fst snd] in Ek, Ed. clear E.
    unfold limitId in Ek. apply evcsPoint_inj in Ek; [|lia|assumption].
    destruct Ek as [_ Et]. subst t' d'.
    unfold chargerFields in Hf. cbn [In] in Hf.
    repeat (destruct Hf as [Hf|Hf]; [inversion Hf; reflexivity|]). destruct Hf.
  - apply (IH (i0 + 1)%Z); [lia|lia|exact Hin].
Qed.

Lemma floor_count (x : Q) : 0 <= x -> x <= 200 -> (loopCountFrom1 x <= 200)%nat.
Proof.
  intros H0 H1. unfold loopCountFrom1.
  assert (Hf : (Qfloor x <= 200)%Z).
  { change 200%Z with (Qfloor 200). apply Qfloor_resp_le. exact H1. }
  lia.
Qed.

Lemma get_some (s : Store) (k : string) (def d : value) :
  s !! k = Some d -> persisted d = true -> get s k def = d.
Proof.
  intros E Hp. unfold get. rewrite E. destruct d; try reflexivity; discriminate Hp.
Qed.

Lemma persisted_installed (c : Config) :
  List.Forall (fun p => persisted (snd p) = true) (installed c).
Proof.
  unfold installed. apply List.Forall_app. split;
    [apply persisted_plant|apply persisted_blocks].
Qed.

Lemma installed_lookup (c : Config) (k : string) :
  ensureAll (installed c) ∅ !! k = assoc k (installed c).
Proof. apply ensure_assoc; [apply persisted_installed|apply lookup_empty]. Qed.

Lemma installed_persisted (c : Config) (k : string) (d : value) :
  assoc k (installed c) = Some d -> persisted d = true.
Proof.
  intros E. apply assoc_In in E.
  pose proof (persisted_installed c) as Hall. rewrite List.Forall_forall in Hall.
  apply (Hall (k, d) E).
Qed.

Lemma created (c : Config) :
  0 <= chargersCount c ->
  _createObjects c ∅ = (ensureAll (installed c) ∅, Returned).
Proof.
  intros Hc. unfold _createObjects, installed.
  pose proof (StartupEdge.specs_shape (chargersCount c) Hc) as (Hlen & _).
  rewrite createChargers_blocks; [rewrite ensureAll_app; reflexivity | lia |].
  rewrite Hlen. cbn. lia.
Qed.

Lemma installed_point (c : Config) (i : Z) (t : string) (d : value)
    (spec : Charger.Kind * Q) :
  0 <= chargersCount c -> chargersCount c <= 200 ->
  (1 <= i <= Z.of_nat (loopCountFrom1 (chargersCount c)))%Z ->
  nth_error (_defaultChargerSpecs (chargersCount c)) (Z.to_nat (i - 1)) = Some spec ->
  assoc t (chargerFields c i spec) = Some d ->
  assoc (evcsPoint i t) (installed c) = Some d.
Proof.
  intros H0 H1 Hi Hs Hd. pose proof (floor_count _ H0 H1) as Hn.
  unfold installed. rewrite assoc_app, plant_assoc_point by lia.
  apply (blocks_assoc c _ t d _ 1%Z i spec); try assumption; lia.
Qed.

Section WithHost.
Context `{Host}.

Lemma migrateOne_installed (c : Config) (j : Z) :
  0 <= chargersCount c -> chargersCount c <= 200 -> (1 <= j <= 200)%Z ->
  migrateOne (ensureAll (installed c) ∅) j = ensureAll (installed c) ∅.
Proof.
  intros H0 H1 Hj. unfold migrateOne. fold (limitId j).
  rewrite installed_lookup.
  destruct (assoc (limitId j) (installed c)) as [d|] eqn:E; [|reflexivity].
  apply assoc_In in E. unfold installed in E. apply in_app_or in E.
  destruct E as [E|E].
  - exfalso. assert (Hk : In (limitId j) (map fst (plantStates c)))
      by (change (limitId j) with (fst (limitId j, d)); apply in_map; exact E).
    apply plant_noParts in Hk. unfold limitId in Hk.
    rewrite evcsPoint_parts in Hk by lia. discriminate Hk.
  - pose proof (floor_count _ H0 H1) as Hn.
    apply (blocks_limit c (_defaultChargerSpecs (chargersCount c)) j d
             (loopCountFrom1 (chargersCount c)) ltac:(lia) 1%Z ltac:(lia) ltac:(lia))
      in E.
    destruct E as (spec & Hspec & ->).
    pose proof (StartupEdge.specs_shape (chargersCount c) H0) as (_ & Hkinds).
    rewrite List.Forall_forall in Hkinds. specialize (Hkinds spec Hspec).
    unfold kinds in Hkinds. cbn [In] in Hkinds.
    destruct Hkinds as [<-|[<-|[<-|[<-|[<-|[<-|[]]]]]]]; reflexivity.
Qed.

Lemma migrateFrom_installed (c : Config) (n : nat) :
  0 <= chargersCount c -> chargersCount c <= 200 ->
  forall i : Z,
    (1 <= i)%Z -> (i + Z.of_nat n <= 201)%Z ->
    migrateFrom n i (ensureAll (installed c) ∅) = ensureAll (installed c) ∅.
Proof.
  intros H0 H1. induction n as [|n IH]; intros i Hi Hn; [reflexivity|].
  cbn [migrateFrom]. rewrite migrateOne_installed by (try assumption; lia).
  apply IH; lia.
Qed.

Lemma migrated (c : Config) :
  0 <= chargersCount c -> chargersCount c <= 200 ->
  _runMigrations c (ensureAll (installed c) ∅)
  = <["info.migration_done"%string := VBool true]> (ensureAll (installed c) ∅).
Proof.
  intros H0 H1. unfold _runMigrations, migrationDone.
  rewrite installed_lookup.
  replace (assoc "info.migration_done" (installed c)) with (Some (VBool false))
    by (unfold installed; rewrite assoc_app; reflexivity).
  cbn [Command.isPressed]. unfold _migrateLegacyEvcsLimitsToW.
  pose proof (StartupEdge.migrationCount_range c) as (M1 & M2).
  rewrite migrateFrom_installed; try assumption; [reflexivity|lia|].
  pose proof (floor_count (migrationCount c) ltac:(lra) M2). lia.
Qed.

(** X26: [onReady] on a new installation (the host holds no state yet).
    [_createObjects] first writes every default, so [_initModel] reads
    those and not its own fall-backs: start-up succeeds, the migration
    marker and [info.connection] are set and no limit is migrated; grid
    limit, base load, PV and storage settings are the configured ones, the
    tariff is in auto mode at 30 ct/kWh, the storage control is on, the
    flex devices are off.  Every
    charge point is unplugged (whatever [autoConnectEnabled] and
    [autoConnectCount] say), not enabled, in status "Available", limited
    to its [max_kw], with priority 5, vehicle "VEH-" followed by its
    number, SoC 20 %, capacity 60 kWh, and target SoC and departure time
    as configured.  The two numbers drawn per charge point are not used,
    and the scenario engine is left as the constructor set it. *)
Theorem fresh_install (raw : RawConfig) (now : Z) :
  let c := normalizeConfig raw in
  let n := loopCountFrom1 (chargersCount c) in
  exists (m : Model.t) (rng' : LcgRandom.t) (store : Store),
    onReady raw ∅ now
    = (mkAdapter (Some m) (Some (base c)) rng'
                 initialScenario initialSuite initialReport, store, true)
    /\ store !! "info.migration_done"%string = Some (VBool true)
    /\ store !! "info.connection"%string = Some (VBool true)
    /\ (forall i : Z,
           (1 <= i <= Z.of_nat n)%Z ->
           exists q : Q, store !! limitId i = Some (numV q) /\ 11000 <= q)
    /\ (Grid.available (Model.grid m) = true
        /\ Grid.limit_kw (Model.grid m) == gridLimitKw (base c)
        /\ Grid.base_load_kw (Model.grid m) == baseLoadKw (base c))
    /\ (Tariff.mode (Model.tariff m) = Tariff.auto
        /\ Tariff.price_ct_per_kwh (Model.tariff m) == 30)
    /\ (PV.installed_kwp (Model.pv m) == pvInstalledKwp (base c)
        /\ PV.weather_factor (Model.pv m) == pvWeatherFactor (base c)
        /\ PV.override_enabled (Model.pv m) = false)
    /\ (Storage.capacity_kwh (Model.storage m) == storageCapacityKwh (base c)
        /\ Storage.max_charge_kw (Model.storage m) == storageMaxChargeKw (base c)
        /\ Storage.max_discharge_kw (Model.storage m)
           == storageMaxDischargeKw (base c)
        /\ Storage.soc_pct (Model.storage m) == storageInitialSocPct (base c)
        /\ Storage.ctrl_enabled (Model.storage m) = true
        /\ Storage.ctrl_power_set_kw (Model.storage m) == 0)
    /\ (Device.ctrl_enabled (Model.heatpump m) = false
        /\ Device.ctrl_enabled (Model.chp m) = false
        /\ Device.ctrl_enabled (Model.generator m) = false)
    /\ length (Model.evcs_chargers m) = n
    /\ (forall (k : nat) (ch : Charger.t),
           nth_error (Model.evcs_chargers m) k = Some ch ->
           let i := (1 + Z.of_nat k)%Z in
           Charger.id ch = chargerName i
           /\ Charger.vehicle_id ch = String.append "VEH-" (pad2 i)
           /\ Charger.ctrl_plugged ch = false
           /\ Charger.ctrl_enabled ch = false
           /\ Charger.ctrl_limit_kw ch == Charger.max_kw ch
           /\ Charger.vehicle_max_charge_kw ch == Charger.max_kw ch
           /\ Charger.ctrl_priority ch == 5
           /\ Charger.vehicle_target_soc_pct ch == defaultTargetSocPct (base c)
           /\ Charger.vehicle_departure_time ch = defaultDepartureTime (base c)
           /\ Charger.meas_status ch = "Available"%string
           /\ Charger.meas_energy_kwh ch == 0
           /\ Charger.vehicle_soc_pct ch == 20
           /\ Charger.vehicle_capacity_kwh ch == 60)
    /\ LcgRandom._state rng' = Nat.iter n step2 (LcgRandom._state (startRng c)).
Proof.
  cbv zeta.
  destruct (StartupEdge.config_ranged raw) as (Hcfg & Hc1 & Hc2).
  set (c := normalizeConfig raw) in *.
  destruct Hcfg as (Cl & Cb & Ci & Cw & Cc & Cmc & Cmd & Cs & Ca & Ct & Cd & Cp).
  assert (H0 : 0 <= chargersCount c) by lra.
  pose proof (floor_count _ H0 Hc2) as Hn200.
  pose proof (StartupEdge.specs_shape (chargersCount c) H0) as (Hlen & Hkinds).
  unfold onReady. fold c. rewrite (created c H0), (migrated c H0 Hc2).
  set (s1 := ensureAll (installed c) ∅).
  set (s2 := <["info.migration_done"%string := VBool true]> s1).
  (* what the states hold *)
  assert (P : forall (k : string) (def d : value),
             assoc k (plantStates c) = Some d ->
             String.eqb k "info.migration_done" = false ->
             get s2 k def = d).
  { intros k def d E Hne. apply String.eqb_neq in Hne.
    assert (Ei : assoc k (installed c) = Some d)
      by (unfold installed; rewrite assoc_app, E; reflexivity).
    apply get_some; [|apply (installed_persisted c k d Ei)].
    unfold s2. rewrite lookup_insert_ne by (intros X; apply Hne; symmetry; exact X).
    unfold s1. rewrite installed_lookup. exact Ei. }
  assert (G : forall (i : Z) (spec : Charger.Kind * Q) (t : string) (def d : value),
             (1 <= i <= Z.of_nat (loopCountFrom1 (chargersCount c)))%Z ->
             nth_error (_defaultChargerSpecs (chargersCount c)) (Z.to_nat (i - 1))
             = Some spec ->
             assoc t (chargerFields c i spec) = Some d ->
             get s2 (evcsPoint i t) def = d).
  { intros i spec t def d Hi Hs E.
    pose proof (installed_point c i t d spec H0 Hc2 Hi Hs E) as Ei.
    apply get_some; [|apply (installed_persisted c _ d Ei)].
    unfold s2. rewrite lookup_insert_ne
      by (unfold evcsPoint; cbn [String.append]; discriminate).
    unfold s1. rewrite installed_lookup. exact Ei. }
  destruct (StartupEdge.initChargers_spec c s2 now _ Hkinds
              (loopCountFrom1 (chargersCount c)) 1 (startRng c) ltac:(lia)
              ltac:(rewrite Hlen; cbn; lia))
    as (l & rng' & Hinit & Hid & Hkd & _ & Hnth & Hst).
  unfold _initModel. rewrite Hinit.
  eexists _, _, _. split; [reflexivity|].
  split; [rewrite lookup_insert_ne by discriminate; apply lookup_insert_eq|].
  split; [apply lookup_insert_eq|].
  split.
  { intros i Hi.
    destruct (nth_error (_defaultChargerSpecs (chargersCount c)) (Z.to_nat (i - 1)))
      as [spec|] eqn:Hs; [|apply nth_error_None in Hs; lia].
    exists (Publish.Math_round (snd spec * 1000)). split.
    - unfold s2, limitId.
      rewrite !lookup_insert_ne
        by (unfold evcsPoint; cbn [String.append]; discriminate).
      unfold s1. rewrite installed_lookup.
      apply (installed_point c i "ctrl.limit_kw" _ spec H0 Hc2 Hi Hs). reflexivity.
    - rewrite List.Forall_forall in Hkinds.
      specialize (Hkinds spec (nth_error_In _ _ Hs)).
      unfold kinds in Hkinds. cbn [In] in Hkinds.
      destruct Hkinds as [<-|[<-|[<-|[<-|[<-|[<-|[]]]]]]]; vm_compute; discriminate. }
  cbn [Model.grid Model.tariff Model.pv Model.storage Model.heatpump Model.chp
       Model.generator Model.evcs_chargers
       Grid.available Grid.limit_kw Grid.base_load_kw
       Tariff.mode Tariff.price_ct_per_kwh
       PV.installed_kwp PV.weather_factor PV.override_enabled
       Storage.capacity_kwh Storage.max_charge_kw Storage.max_discharge_kw
       Storage.soc_pct Storage.ctrl_enabled Storage.ctrl_power_set_kw
       Device.ctrl_enabled].
  rewrite (P "grid.available"%string _ _ eq_refl eq_refl),
    (P "grid.limit_kw"%string _ _ eq_refl eq_refl),
    (P "grid.base_load_kw"%string _ _ eq_refl eq_refl),
    (P "tariff.mode"%string _ _ eq_refl eq_refl),
    (P "tariff.price_ct_per_kwh"%string _ _ eq_refl eq_refl),
    (P "pv.installed_kwp"%string _ _ eq_refl eq_refl),
    (P "pv.weather_factor"%string _ _ eq_refl eq_refl),
    (P "pv.override.enabled"%string _ _ eq_refl eq_refl),
    (P "storage.capacity_kwh"%string _ _ eq_refl eq_refl),
    (P "storage.max_charge_kw"%string _ _ eq_refl eq_refl),
    (P "storage.max_discharge_kw"%string _ _ eq_refl eq_refl),
    (P "storage.soc_pct"%string _ _ eq_refl eq_refl),
    (P "storage.ctrl.enabled"%string _ _ eq_refl eq_refl),
    (P "storage.ctrl.power_set_kw"%string _ _ eq_refl eq_refl).
  change (String.append "heatpump" ".ctrl.enabled") with "heatpump.ctrl.enabled"%string.
  change (String.append "chp" ".ctrl.enabled") with "chp.ctrl.enabled"%string.
  change (String.append "generator" ".ctrl.enabled")
    with "generator.ctrl.enabled"%string.
  rewrite (P "heatpump.ctrl.enabled"%string _ _ eq_refl eq_refl),
    (P "chp.ctrl.enabled"%string _ _ eq_refl eq_refl),
    (P "generator.ctrl.enabled"%string _ _ eq_refl eq_refl).
  rewrite !StartupEdge.clampV_num. cbn [truthy ToString].
  split; [repeat split; apply clamp_id; lra|].
  split; [split; [reflexivity|apply clamp_id; lra]|].
  split; [repeat split; apply clamp_id; lra|].
  split; [repeat split; try (apply clamp_id; lra); reflexivity|].
  split; [repeat split|].
  split.
  { rewrite <- (length_map (fun ch => (Charger.type ch, Charger.max_kw ch))), Hkd.
    change (Z.to_nat (1 - 1)) with 0%nat. rewrite skipn_O.
    rewrite length_firstn, Hlen. lia. }
  split; [|exact Hst].
  intros k ch Hk.
  destruct (Hnth k ch Hk) as (spec & r1 & r2 & Hspec & _ & _ & Ech).
  assert (Hkn : (k < loopCountFrom1 (chargersCount c))%nat).
  { assert (Hl : length l = loopCountFrom1 (chargersCount c)).
    { rewrite <- (length_map (fun ch => (Charger.type ch, Charger.max_kw ch))), Hkd.
      change (Z.to_nat (1 - 1)) with 0%nat. rewrite skipn_O.
      rewrite length_firstn, Hlen. lia. }
    rewrite <- Hl. apply nth_error_Some. rewrite Hk. discriminate. }
  assert (Hs : nth_error (_defaultChargerSpecs (chargersCount c))
                         (Z.to_nat (1 + Z.of_nat k - 1)) = Some spec).
  { replace (Z.to_nat (1 + Z.of_nat k - 1)) with k by lia.
    pose proof (map_nth_error (fun ch => (Charger.type ch, Charger.max_kw ch)) k l Hk)
      as Hm.
    rewrite Hkd in Hm.
    change (Z.to_nat (1 - 1)) with 0%nat in Hm. rewrite skipn_O in Hm.
    rewrite <- Hlen, firstn_all in Hm. rewrite Hm, Ech.
    unfold initCharger. cbn [Charger.type Charger.max_kw]. destruct spec; reflexivity. }
  assert (Hi : (1 <= 1 + Z.of_nat k <= Z.of_nat (loopCountFrom1 (chargersCount c)))%Z)
    by lia.
  subst ch. unfold initCharger.
  cbn [Charger.id Charger.vehicle_id Charger.ctrl_plugged Charger.ctrl_enabled
       Charger.ctrl_limit_kw Charger.max_kw Charger.vehicle_max_charge_kw
       Charger.ctrl_priority Charger.vehicle_target_soc_pct
       Charger.vehicle_departure_time Charger.meas_status
       Charger.meas_energy_kwh Charger.vehicle_soc_pct
       Charger.vehicle_capacity_kwh].
  rewrite (G _ spec "ctrl.plugged"%string _ _ Hi Hs eq_refl),
    (G _ spec "ctrl.enabled"%string _ _ Hi Hs eq_refl),
    (G _ spec "ctrl.limit_kw"%string _ _ Hi Hs eq_refl),
    (G _ spec "ctrl.priority"%string _ _ Hi Hs eq_refl),
    (G _ spec "vehicle.id"%string _ _ Hi Hs eq_refl),
    (G _ spec "vehicle.soc_pct"%string _ _ Hi Hs eq_refl),
    (G _ spec "vehicle.capacity_kwh"%string _ _ Hi Hs eq_refl),
    (G _ spec "vehicle.max_charge_kw"%string _ _ Hi Hs eq_refl),
    (G _ spec "vehicle.target_soc_pct"%string _ _ Hi Hs eq_refl),
    (G _ spec "vehicle.departure_time"%string _ _ Hi Hs eq_refl),
    (G _ spec "meas.energy_kwh"%string _ _ Hi Hs eq_refl),
    (G _ spec "meas.status"%string _ _ Hi Hs eq_refl).
  rewrite !StartupEdge.clampV_num. cbn [truthy ToString].
  assert (Hlim : clamp (Command._normalizePowerKw
                          (numV (Publish.Math_round (snd spec * 1000))))
                       0 10000 == snd spec
                 /\ clamp (snd spec) 0 2000 == snd spec).
  { unfold kinds in Hspec. cbn [In] in Hspec.
    destruct Hspec as [<-|[<-|[<-|[<-|[<-|[<-|[]]]]]]]; cbn [snd];
      split; vm_compute; reflexivity. }
  destruct Hlim as [Hlim Hmax].
  repeat match goal with |- _ /\ _ => split end;
    try reflexivity; try assumption; try (apply clamp_id; lra); try lra.
Qed.

End WithHost.

Lemma fresh_install_witness :
  exists (m : Model.t) (rng' : LcgRandom.t) (store : Store),
    onReady (H := ExampleHost.host) ExampleStartup.twoPoints ∅ 1000000
    = (mkAdapter (Some m)
                 (Some (base (normalizeConfig (H := ExampleHost.host)
                                ExampleStartup.twoPoints)))
                 rng' initialScenario initialSuite initialReport, store, true)
    /\ length (Model.evcs_chargers m) = 2%nat.
Proof.
  destruct (fresh_install (H := ExampleHost.host) ExampleStartup.twoPoints 1000000)
    as (m & rng' & store & Hr & _ & _ & _ & _ & _ & _ & _ & _ & Hlen & _).
  exists m, rng', store. split; [exact Hr|]. rewrite Hlen. vm_compute. reflexivity.
Defined.

End InstallEdge.
